(* ===== verification/_CoqProject ===== *)
-Q . S2P
Spec2Rocq.v
Utils.v
JsString.v
CacheBust.v
Glob.v
Gulp.v
Frame.v
StateMachine.v
World.v
Modules.v
Application.v
Links.v
Debug.v
Texture.v
States.v
App.v
