(* ===== verification/Spec2Rocq.v ===== *)
(** * A verification development for WebGL-FFT (philsawicki/WebGL-FFT)

    The program is a browser demo written in JavaScript (src/src/js).
    It fetches a SoundCloud track, decodes it with the Web Audio API and
    plays it. It samples three bins of the analyser spectrum on every
    audio-processing tick. A three.js "fur" scene follows those samples
    and the pointer.

    ** The program's parts and how they interact

    - [Application.js] is the container. It holds the current state
      [_state], the audio graph ([_sourceNode], [_audioAnalyserNode],
      the script processor whose [onaudioprocess] refreshes [_FFT]) and
      the track display.
      It provides [changeState], [setSourceNodeBuffer], [playAudio],
      [stopAudio], [getFFT] and [setTrackInfo].
    - The three states [LoadingState.js], [PlayState.js] and
      [LoadSceneState.js] each have [enter]/[execute]/[exit].
      Each receives the Application in [initialize] and calls back into
      it: a callback of one state calls [changeState] into the next.
    - [Utils.js] holds the leaf helpers: [ajaxGet], the CSS class
      helpers, [preventDefaultEvent] and the random helpers.
    - With [#debug] in the URL, [initialize] first loads stats.js and
      dat.GUI ([_initializeDebugMode]); their callbacks add the Stats
      panels with their own animation loop and a panel whose "Play
      Sound" button calls [playAudio] and whose sliders set
      [global.trimStart]/[trimEnd]; [onaudioprocess] then also draws
      the spectrum's bars between those bounds on a canvas.
    - Each file is a CommonJS module: a function run once that keeps
      its variables in a closure and returns the object of its public
      members. [main.js] requires [Application.js]; [initialize]
      requires [Utils.js] and the three states unless its [options]
      provide them, keeps the states in its object [States] (which
      [getStates] returns), and hands each state the Application
      object and [{ Utils: Utils }]. browserify ([javascript:app] of
      gulpfile.js) bundles the files [main.js] reaches.
    - [main.js] calls [Application.initialize()], which installs the
      Google Analytics listeners on the page's links
      ([_setupGoogleAnalyticsTracking]) and ends with
      [changeState(LoadingState)].
    - [src/gulpfile.js] builds [dist/] from the sources with gulp 3:
      five stream tasks (the libraries, the browserify bundle of
      [main.js], the markup with cache-busting versions, the styles,
      the images), [build] on the five, and [watch], whose watchers
      rerun tasks when a source changes ([default] starts it).

    ** Files of this development (in dependency order)

    - [Spec2Rocq.v] (this file) is the prelude:
      - the JavaScript effect monad [js S A := S -> res A * S]: explicit
        state passing, with the exceptions of [exn]. A [Throw] keeps the
        state reached so far, as a JS exception keeps the mutations made
        before it. The notation [x <- m ;; k] lives in [js_scope];
      - the monad's laws and two frame rules, each with its rules and
        tactic: [keeps f m] (a program leaves the field [f] alone, with
        the [keeps] hint database and [keeps_solve]) and
        [appends f P m] (a program only appends entries satisfying [P]
        to the list [f], with [appends_solve]);
      - the generic Q lemmas the frame arithmetic shares.
    - [Utils.v] (Module [Utils]) models every helper of Utils.js:
      [ajaxGet], whose request the page puts in flight through the type
      class [XhrHost] (World.v gives the instance) and whose
      [onreadystatechange] the event loop runs; [asyncLoadScript] and
      the handlers it sets; [addCSSClass]/[removeCSSClass] on an
      [Element] (whether [element.classList] exists, and its
      [className]), with both branches: the DOM's token-set semantics
      of [classList] (parse, change, serialize, and the exceptions on a
      bad token) and the fallback's string operations, its regular
      expression run as a character scan ([rx_replace]);
      [preventDefaultEvent] on both branches; [getRandomArbitrary]
      and [getRandomInteger] with [Math.random()] as a parameter.
    - [JsString.v] (Module [JsString]) is JavaScript's [String(n)] on
      integers and [join], with a reader of integers: what is printed
      reads back ([read_ints_join]). Texture.v and CacheBust.v share it.
    - [CacheBust.v] (Module [CacheBust]) has [getTimestamp] (with the
      getters of [new Date()] as a record [JsDate]) and the three
      replacements of [minify:html]: the RegExp literals read into
      atoms ([rx_of]), their backtracking matcher [match_at] and the
      global [replace] as a scan with a skip counter ([rx_replace]).
    - [Glob.v] (Module [Glob]) is the subset of minimatch the patterns
      of [PATHS] use ([**], [*], a brace group, no dot files) and the
      base of a pattern that [gulp.dest] keeps.
    - [Gulp.v] (Module [Gulp]) has the tasks of gulpfile.js as data
      ([gulpfile_tasks]: each stream's source and pipes, the watchers),
      orchestrator's dependency resolution [sequence], the run of a
      pipeline on a source tree into [dist/] (a [gmap] from paths to
      texts, the plugins a record of functions [Plugins]) with
      plumber's error handling, and the run of a list of tasks.
    - [Frame.v] (Module [Render]) models [LoadSceneState._render], the
      per-frame step, as [render], with its parts:
      - the clamp of [_delta] (wall-clock ms as Z, NaN as [None]);
      - the [smoothing] factor, the damped spring [_mouseObj] and the
        [_shaderTime] accumulator, all in exact rationals (Q);
      - the FFT-to-gravity map and the camera approach, in the reals;
      - the meshes' uniforms. The [_gravity] vector is shared by
        reference through a store ([gmap loc vec3]); [globalTime] is a
        number copied into each uniform.
      It also models [_meshLoaded]'s shells, the pointer handlers and
      the variables [initialize] resets.
    - [StateMachine.v] (Module [StateMachine]) models
      [Application.changeState] against two interfaces: the type class
      [AppState] (enter, execute, exit) and the class [StateSlot]
      (the [_state] variable and its assignment law).
      [changeState_spec] is the contract of spec section 4.1.
    - [World.v] (Module [World]) is the page: the record [World] of
      Application's and LoadSceneState's variables, the DOM parts the
      code touches, the pending browser callbacks, the console and the
      analytics events. It also has the effects [console_log],
      [schedule] and [ga_send].
    - [Modules.v] (Module [Modules]) has the modules as objects: a
      heap ([Rt]) of exports objects with their closures, Application's
      [States] object and options objects; [require] with
      [require.cache], resolved as browserify resolves
      ([Gulp.resolve]); the module functions, the [return { ... }]
      objects, [initialize] of the states and of Application (the
      [options.X || require(...)] defaults, [_initializeStates(this)]),
      [getStates], and [changeState] instantiated on the objects
      themselves (the slot holds a location, [!==] compares
      locations), whose [execute] on LoadSceneState makes the shells'
      [require('fs')]. World.v's states are [StateId]s, the names the
      objects of Modules.v have in Application's [States].
    - [Application.v] (Module [Application]) has the audio graph
      (Web Audio's [AudioBufferSourceNode] rules: start once, stop only
      after start, one buffer), [_initializeAudioContext],
      [setSourceNodeBuffer], [playAudio], [stopAudio], [onaudioprocess]
      with its debug drawing ([draw_spectrum], [spectrum_bars]),
      [getFFT], [setTrackInfo] and the [requestAnimationFrame]
      polyfill [_initializeGraphicContext].
    - [Links.v] (Module [Links]) has the click listeners of
      [_setupGoogleAnalyticsTracking]. A click is dispatched as the DOM
      does it: one event object ([Dispatch]) shared by every listener
      registered when the click starts, an exception of one listener
      reported without stopping the others, and the link followed
      unless a listener cancelled the default action.
    - [Debug.v] (Module [Debug]) has the debug mode:
      [_initializeDebugMode] (the two scripts, through the model of
      [asyncLoadScript]), [_drawStats] and its loop,
      [_initializeDebugControls], the panel's callbacks, and the
      handler run when the browser fires a script's event. Its state
      is the [DebugDom] of the page.
    - [Texture.v] (Module [Texture]) has [_generateTexture]: the
      20000 squares of the fur texture, with [Math.random()] as a
      parameter, and their [fillStyle] strings built as the code builds
      them (JavaScript's printing of integers, [join(',')]).
    - [States.v] (Module [States]) has the three states as [js World]
      programs, the instances of [AppState] and [StateSlot] for the
      page, the callbacks that change the state ([soundLoaded],
      [launchClick]) and [Application.initialize].
    - [App.v] (Module [App]) has the event loop. [handle now ev w] runs
      one browser callback: XHR completion, decode result, click,
      texture load, animation frame, audio tick, pointer move or
      resize, a click on one of the tracked links, or an event of the
      debug mode's objects (a script's load, the stats loop's frame,
      the panel's button and sliders). A completion needs its request
      to be pending. [boot] is
      main.js. [reachable] holds for the pages some run of events
      produces from a page without [#debug]; on those, [quiet] shows
      that the debug mode's events never happen.

    ** What the theorems show (PROJECT.json lists the claims)

    - App: a refinement of the spec's machine. Along every run from
      main.js, [_state] follows [spec_step]: Loading -> Play on a
      decoded buffer, Play -> LoadScene on a click, and never anything
      else. An invariant of every reachable page ([inv], on the
      discrete [Summary] of a page) is proved by induction on
      [reachable] and gives:
      - the two-of-two barrier: playback starts exactly when both
        resources are loaded;
      - exactly one pending animation frame after the barrier;
      - the failure paths: a decode error or a failed metadata request
        leaves the page in Loading forever.
      A second invariant, [gfx_inv], covers the renderer: without WebGL
      the page never draws, never registers the scene's listeners, and
      its animation still runs every frame headless. A third,
      [log_ok], covers the console. It is proved with the frame rule
      [appends]: the only uncaught exceptions are the startup TypeError
      (no Web Audio, a fatal fault after which nothing runs) and the
      metadata callback's SyntaxError or TypeError. Web Audio's
      InvalidStateError never escapes.
    - StateMachine and States: for any instance, [changeState] is a
      no-op on the current state, refines [changeState_spec] when enter
      does not reassign [_state], and sets [_state] when it returns. On
      the program's states the console shows exit, enter, execute in
      this order.
    - Frame:
      - the delta clamp on every branch, including the negative deltas
        the code lets through;
      - the bounds 4 <= smoothing <= 320;
      - [_shaderTime] rises with a monotone clock and falls when the
        clock goes back;
      - the camera contracts toward its orbit point by 319/320 per
        frame;
      - at a constant frame time of 2 to 1000 ms and with a still
        pointer, the [_mouseObj] spring loses energy by a factor of
        0.96 (x) and 0.94 (y) per frame. The energy is an exact
        quadratic form, positive definite there, so the velocity and
        the distance to the pointer decay geometrically. Frames of
        varying length are not covered, and on y the form stops being
        definite below about 1.6 ms;
      - [_shaderTime] is broadcast to every mesh, and every shell sees
        the one shared gravity object;
      - the spring's rest point, and the gravity value at FFT 128.
    - Application and Utils: the three FFT samples are clipped bytes
      of bins 4, 194 and 202; a second buffer always throws; the
      Abidjan title override; a missing [user] throws after the audio
      request left; the round trip of the class attribute through the
      DOM's serializer; the CSS class helpers as set operations, and
      their exceptions on an empty or spaced class name; the
      [className] fallback of [removeCSSClass] refines the [classList]
      branch on lowercase word classes; its [i] flag makes it blind
      to the case of the class name, so it also removes [HIDDEN], and
      its [\b] breaks [x-hidden] into [x-]; the fallback of
      [addCSSClass] duplicates a class; [asyncLoadScript] runs its
      callback at most once; the bounds of [getRandomInteger].
    - Debug: the bars drawn equal a loop-free reference (one per
      bucket in [[trimStart, trimEnd]]); the panel shows trimEnd 350
      while [global] still says 0, so one bar is drawn; a "Play Sound"
      before the scene's resources arrive makes their callback throw
      InvalidStateError before [_animate()], so the scene never
      animates (a debug session reaches this, [debug_early_page]).
    - Texture: each square's [fillStyle] reads back, through the CSS
      [rgba()] syntax, as exactly the four components the code
      computed, with their ranges; only the squares whose alpha is 1
      (about one in fourteen) show.
    - Build: the timestamp reads back as the date, so builds in
      different seconds write different versions; the global replace
      refines the ECMAScript scan ([replaced]); a reference with a
      numeric version gets the timestamp, but a version this task wrote
      is not numeric, so a second run keeps its tail; for any task
      names the resolution ends, without cycles, within its fuel; the
      watchers start every build task when a file it reads changes,
      except that a stylesheet change runs [minify:css] only and leaves
      the markup's [style.min.css?v=] version unchanged; plumber
      handles every plugin error, not those of [bundle()], which end
      gulp; the five tasks of [build] write disjoint paths, so the order
      in which they end does not change [dist/].
    - Modules: [main.js] runs without an exception and leaves one
      instance of each module, three distinct state objects with
      [_Application] the Application object and one shared Utils
      object; the callbacks'
      [_Application.changeState(_Application.getStates().X)] reaches
      [changeState] on X's object; and every [require] the code makes,
      whatever [options] a caller passes and on the [changeState]
      path with LoadSceneState's [require('fs')] once per shell, is a
      request browserify reads and either bundles or provides as a
      core module, so none ends in [Cannot find module] (an
      [appends] proof over the monad's log of requests).
    - Links: once the listeners are installed, a click on a tracked
      link sends its analytics label and only the GitHub link is
      followed, in both event models of [preventDefaultEvent]; every
      About click registers one more close listener, so a close click
      adds the class once per About click (the [className] fallback
      appends it that many times).

    ** Numbers, bounds and fuel

    JavaScript numbers are doubles. This development computes with
    their exact values: rationals for the arithmetic of the frame step
    and reals for sin/cos. Rounding is not modelled. [Date.now()] is an
    integer in JavaScript, so the raw [_delta] is an exact integer
    (or NaN on the first frame). The animation loop never terminates.
    It is modelled as one [handle] step per animation-frame callback,
    so the program's definitions need no fuel: they are structural and
    total. Two models of gulp's libraries use a bound: orchestrator's
    [sequence] gets one more unit of fuel than there are tasks, which
    [Gulp.sequence_terminates] shows is always enough (the chain of
    tasks being resolved holds distinct names of the table); the
    modules browserify reaches are collected in as many rounds as the
    module graph has modules. A timestamp's fields are read back for
    the ranges of [Date]'s getters; the two-digit fields are checked
    for all of [0, 99] by evaluation.

    ** Not modelled

    - [initialize]'s call of [_initializeGraphicContext]: Application.v
      models the polyfill on what [window] holds ([vendor_fix]), but
      the page of World.v assumes [requestAnimationFrame] exists. In
      gulpfile.js, what the plugins compute (uglify, htmlmin,
      autoprefixer given [AUTOPREFIXER_BROWSERS], minify-css, imagemin,
      browserify's output, source maps): they are parameters; and the
      timing of a failing stream (nothing is written once a stage
      fails). The THREE.Texture made of the fur
      canvas, and the CSS parser beyond the [rgba()] form the code
      writes.
    - The module loader itself (browserify's prelude, Node's
      [Module._load]) is the environment: [require] is modelled by its
      cache and browserify's resolution. Modules.v's run time holds the
      objects that hold modules, not the page: the page's variables are
      World.v's, and the two models share [StateMachine.changeState].
      LoadSceneState's [require('fs')] in [_meshLoaded] is modelled
      as a request; the [fs.readFileSync] calls after it, which read
      the shader files, are not: in a browser bundle they work only
      when a transform (brfs) inlines them, and the gulpfile's
      [browserify] call configures none, so the model takes the shader
      texts as given.
    - The libraries stats.js and dat.GUI: a Stats panel is a counter,
      the dat.GUI panel the two values its sliders show.
    - The App invariants ([inv], [gfx_inv], [log_ok]) and the
      refinement are stated for pages without [#debug]; with it, the
      panel's "Play Sound" breaks the barrier (see the Debug theorems).
    - [ga] itself (analytics.js): a call is recorded in [w_ga].
    - three.js and WebGL: the scene, geometry and shaders are not
      modelled; a mesh is its three uniforms, and a draw is a counter.
    - JSON parsing, the network and the analyser's FFT are library
      code. Their outcomes are inputs of the events: the parsed body,
      the decoded buffer, the analyser's values.
    - The initial DOM of index.html (the classes of #loader,
      #playButton and #trackInfo) is taken from the page the code
      expects ([World.page_loaded]); whether elements have [classList]
      is a parameter of the browser ([env_classList]).
    - Strings are sequences of code units 0-255; the class names the
      fallback's regular expression is built from are taken as literal
      text, as the call sites' names are.
*)

From stdpp Require Import base list decidable options.
From Stdlib Require Import ZArith QArith Qminmax Lqa Lia.

Declare Scope js_scope.
Delimit Scope js_scope with js.

(** ** JavaScript exceptions that the modelled code can raise *)

Inductive exn :=
| TypeError          (** property read on [undefined] *)
| SyntaxError        (** [JSON.parse] on a malformed body *)
| InvalidStateError  (** Web Audio: [start] twice, [stop] before [start] *)
| WebGLUnavailable   (** [new THREE.WebGLRenderer] throws *)
| DOMSyntaxError     (** DOMTokenList: an empty token *)
| InvalidCharacterError (** DOMTokenList: a token with whitespace *)
| ModuleNotFound.     (** [require]: [Cannot find module] *)

#[export] Instance exn_eq_dec : EqDecision exn.
Proof. solve_decision. Defined.

(** ** The effect monad: state passing with exceptions

    A JavaScript statement that throws leaves the mutations it already
    made in place, so a computation returns its final state in both
    cases. *)

Inductive res (A : Type) := Ok (a : A) | Throw (e : exn).
Arguments Ok {A} a.
Arguments Throw {A} e.

Definition js (S A : Type) : Type := S -> res A * S.

Section Monad.
Context {S : Type}.

Definition ret {A} (a : A) : js S A := fun s => (Ok a, s).

Definition bind {A B} (m : js S A) (k : A -> js S B) : js S B :=
  fun s => match m s with
           | (Ok a, s') => k a s'
           | (Throw e, s') => (Throw e, s')
           end.

Definition get : js S S := fun s => (Ok s, s).
Definition gets {A} (f : S -> A) : js S A := fun s => (Ok (f s), s).
Definition modify (f : S -> S) : js S unit := fun s => (Ok tt, f s).
Definition throw {A} (e : exn) : js S A := fun s => (Throw e, s).

(** [try { m } catch (ex) { h(ex) }] *)
Definition try_catch {A} (m : js S A) (h : exn -> js S A) : js S A :=
  fun s => match m s with
           | (Ok a, s') => (Ok a, s')
           | (Throw e, s') => h e s'
           end.

(** [if (b) { m }] *)
Definition when (b : bool) (m : js S unit) : js S unit :=
  if b then m else ret tt.

(** The final state and the outcome of a run. *)
Definition exec {A} (m : js S A) (s : S) : S := snd (m s).
Definition outcome {A} (m : js S A) (s : S) : res A := fst (m s).
End Monad.

(** A program on a part [T] of the state run in place: [getp] reads
    the part, [put] writes it back, whether the program throws or not
    (a method call on an object the state holds). *)
Definition zoom {S T A : Type} (getp : S -> T) (put : S -> T -> S) (m : js T A) : js S A :=
  fun s => let '(r, t) := m (getp s) in (r, put s t).

(** ** Projections a program leaves unchanged

    [keeps f m]: whatever [m] does, and whether it throws or not, the
    field [f] of the state is what it was. The rules below decide it
    from the structure of the program, the way a frame rule would. *)
Definition keeps {S B A : Type} (f : S -> B) (m : js S A) : Prop :=
  forall s, f (snd (m s)) = f s.

(** [appends f P m]: [m] only appends to the list [f] of the state, and
    every entry it appends satisfies [P] (a log that grows). *)
Definition appends {S L A : Type} (f : S -> list L) (P : L -> Prop) (m : js S A) : Prop :=
  forall s, exists l, f (snd (m s)) = f s ++ l /\ Forall P l.

Notation "x <- m ;; k" := (bind m (fun x => k))
  (at level 100, m at next level, right associativity) : js_scope.
Notation "m ;; k" := (bind m (fun _ : unit => k))
  (at level 100, right associativity) : js_scope.

Open Scope js_scope.

(** ** Tactics and hint databases of the development *)

Create HintDb jsrun discriminated.
Create HintDb keeps discriminated.
Create Rewrite HintDb jsrun_rw.

(** Unfold the monad's operations on a concrete run. *)
Ltac js_unfold :=
  unfold exec, outcome, when, try_catch, throw, modify, gets, get, bind, ret in *.

(** Case analysis on the [if]s and [match]es the code branches on. *)
Ltac js_case :=
  repeat match goal with
         | |- context [match ?x with _ => _ end] =>
             let E := fresh "E" in destruct x eqn:E
         end.

(** ** Monad laws *)

Section MonadLaws.
Context {S : Type}.

Lemma bind_ret_l {A B} (a : A) (k : A -> js S B) : bind (ret a) k = k a.
Proof. reflexivity. Qed.

Lemma bind_ret_r {A} (m : js S A) (s : S) : bind m ret s = m s.
Proof. unfold bind, ret. by destruct (m s) as [[] ?]. Qed.

Lemma bind_assoc {A B C} (m : js S A) (f : A -> js S B) (g : B -> js S C) (s : S) :
  bind (bind m f) g s = bind m (fun a => bind (f a) g) s.
Proof. unfold bind. by destruct (m s) as [[] ?]. Qed.

Lemma bind_throw {A B} (e : exn) (k : A -> js S B) (s : S) :
  bind (throw e) k s = (Throw e, s).
Proof. reflexivity. Qed.

Lemma bind_modify {B} (f : S -> S) (k : unit -> js S B) (s : S) :
  bind (modify f) k s = k tt (f s).
Proof. reflexivity. Qed.

Lemma bind_gets {A B} (f : S -> A) (k : A -> js S B) (s : S) :
  bind (gets f) k s = k (f s) s.
Proof. reflexivity. Qed.

(** A program that only reads and modifies runs as the composition
    of its modifications. *)
Lemma exec_bind_ok {A B} (m : js S A) (k : A -> js S B) (s : S) a s' :
  m s = (Ok a, s') -> exec (bind m k) s = exec (k a) s'.
Proof. unfold exec, bind. by intros ->. Qed.
End MonadLaws.

#[export] Hint Rewrite @bind_ret_l @bind_throw @bind_modify @bind_gets : jsrun_rw.
#[export] Hint Resolve exec_bind_ok : jsrun.

Section Keeps.
Context {S B : Type} (f : S -> B).

Lemma keeps_ret {A} (a : A) : keeps f (ret a).
Proof. intros s. reflexivity. Qed.

Lemma keeps_get : keeps f get.
Proof. intros s. reflexivity. Qed.

Lemma keeps_gets {A} (g : S -> A) : keeps f (gets g).
Proof. intros s. reflexivity. Qed.

Lemma keeps_throw {A} (e : exn) : keeps f (throw (A:=A) e).
Proof. intros s. reflexivity. Qed.

Lemma keeps_modify (g : S -> S) : (forall s, f (g s) = f s) -> keeps f (modify g).
Proof. intros Hg s. apply Hg. Qed.

Lemma keeps_bind {A C} (m : js S A) (k : A -> js S C) :
  keeps f m -> (forall a, keeps f (k a)) -> keeps f (bind m k).
Proof.
  intros Hm Hk s. unfold bind. specialize (Hm s).
  destruct (m s) as [[a|e] s']; simpl in *; [rewrite Hk|]; exact Hm.
Qed.

Lemma keeps_try_catch {A} (m : js S A) (h : exn -> js S A) :
  keeps f m -> (forall e, keeps f (h e)) -> keeps f (try_catch m h).
Proof.
  intros Hm Hh s. unfold try_catch. specialize (Hm s).
  destruct (m s) as [[a|e] s']; simpl in *; [|rewrite Hh]; exact Hm.
Qed.

Lemma keeps_when (b : bool) (m : js S unit) : keeps f m -> keeps f (when b m).
Proof. intros Hm. destruct b; [exact Hm|apply keeps_ret]. Qed.

Lemma keeps_zoom {T A} (getp : S -> T) (put : S -> T -> S) (m : js T A) :
  (forall s t, f (put s t) = f s) -> keeps f (zoom getp put m).
Proof. intros Hp s. unfold zoom. destruct (m (getp s)). apply Hp. Qed.
End Keeps.

#[export] Hint Resolve keeps_ret keeps_get keeps_gets keeps_throw : keeps.

Section Appends.
Context {S L : Type} (f : S -> list L) (P : L -> Prop).

Lemma appends_keeps {A} (m : js S A) : keeps f m -> appends f P m.
Proof. intros Hk s. exists []. rewrite app_nil_r. split; [apply Hk|constructor]. Qed.

Lemma appends_modify (g : S -> S) :
  (forall s, exists l, f (g s) = f s ++ l /\ Forall P l) -> appends f P (modify g).
Proof. intros Hg s. apply Hg. Qed.

Lemma appends_bind {A C} (m : js S A) (k : A -> js S C) :
  appends f P m -> (forall a, appends f P (k a)) -> appends f P (bind m k).
Proof.
  intros Hm Hk s. unfold bind. destruct (Hm s) as (l1 & E1 & F1).
  destruct (m s) as [[a|e] s']; simpl in *; [|eauto].
  destruct (Hk a s') as (l2 & E2 & F2). exists (l1 ++ l2).
  rewrite E2, E1, app_assoc. split; [reflexivity|apply Forall_app; auto].
Qed.

Lemma appends_try_catch {A} (m : js S A) (h : exn -> js S A) :
  appends f P m -> (forall e, appends f P (h e)) -> appends f P (try_catch m h).
Proof.
  intros Hm Hh s. unfold try_catch. destruct (Hm s) as (l1 & E1 & F1).
  destruct (m s) as [[a|e] s']; simpl in *; [eauto|].
  destruct (Hh e s') as (l2 & E2 & F2). exists (l1 ++ l2).
  rewrite E2, E1, app_assoc. split; [reflexivity|apply Forall_app; auto].
Qed.

Lemma appends_when (b : bool) (m : js S unit) : appends f P m -> appends f P (when b m).
Proof. intros Hm. destruct b; [exact Hm|apply appends_keeps, keeps_ret]. Qed.
End Appends.

(** Prove [appends f P m] on an unfolded program: the binds, the
    branches, and for each update either [f] untouched or the entries
    it appends. [appends_solve_with tac] tries [tac] first at every
    step, for the rules of a client's own operations. *)
Ltac appends_solve_with tac :=
  repeat first [ tac
               | apply appends_bind; intros
               | apply appends_try_catch; intros
               | apply appends_when
               | apply appends_modify; intros;
                 first [ exists []; rewrite app_nil_r; split; [reflexivity|constructor]
                       | eexists; split; [reflexivity|repeat constructor] ]
               | apply appends_keeps; solve [eauto with keeps]
               | apply appends_keeps, keeps_zoom; intros; reflexivity
               | progress cbv zeta
               | progress case_match ].

Ltac appends_solve := appends_solve_with fail.

(** Prove [keeps f m] once [m] is unfolded to the monad's operations:
    split the binds, decide the branches, and check each update.
    [keeps_solve_with tac] tries [tac] first at every step, for the
    rules of a client's own operations. *)
Ltac keeps_solve_with tac :=
  repeat first [ tac
               | apply keeps_bind; intros
               | apply keeps_try_catch; intros
               | apply keeps_when
               | apply keeps_modify; intros; reflexivity
               | apply keeps_zoom; intros; reflexivity
               | solve [eauto with keeps]
               | progress cbv zeta
               | progress case_match ].

Ltac keeps_solve := keeps_solve_with fail.

(** ** Shared lemmas on rationals

    The frame step divides by [smoothing] and multiplies by damping
    factors; these are the facts about [Qmax] and [Qdiv] it uses. *)

Lemma Qmax_lub_lt (a b c : Q) : a < c -> b < c -> Qmax a b < c.
Proof. intros Ha Hb. apply Q.max_lub_lt; assumption. Qed.

Lemma Qmax_ge_l (a b : Q) : a <= Qmax a b.
Proof. apply Q.le_max_l. Qed.

Lemma Qmax_cases (a b : Q) : Qmax a b = a \/ Qmax a b = b.
Proof.
  unfold Qmax, GenericMinMax.gmax.
  destruct (Qcompare a b); auto.
Qed.

(** Division by a positive rational preserves and reflects order. *)
Lemma Qdiv_pos_le (a b c : Q) : 0 < c -> a <= b -> a / c <= b / c.
Proof.
  intros Hc Hab. unfold Qdiv.
  apply Qmult_le_compat_r; [assumption|].
  apply Qlt_le_weak, Qinv_lt_0_compat, Hc.
Qed.

Lemma Qdiv_le_mono_r (a b c : Q) : 0 < a -> a <= b -> 0 <= c -> c / b <= c / a.
Proof.
  intros Ha Hab Hc.
  assert (Hd : c / a - c / b == c * (b - a) / (a * b)).
  { field. split; intros E; rewrite E in *; discriminate || lra. }
  assert (0 <= c * (b - a) / (a * b)); [|lra].
  apply Qle_shift_div_l; [nra|]. nra.
Qed.

#[export] Hint Resolve Qmax_ge_l Qdiv_pos_le : jsrun.
