(* ===== verification/Utils.v ===== *)
(** * Utils: the leaf helpers of [src/src/js/Utils.js]

    - [ajaxGet] (lines 28-39): the request is put in flight through the
      [XhrHost] interface the page implements; its
      [onreadystatechange] is [ajaxGet_onreadystatechange], which the
      page's event loop (App.v) runs.
    - [asyncLoadScript] (lines 49-74): the [<script>] element it builds
      and the handler it sets, [onreadystatechange] in old IE and
      [onload] elsewhere; [script_event] runs the handler an event
      reaches.
    - [removeCSSClass] / [addCSSClass] (lines 83-105) on an [Element]:
      whether [element.classList] exists, and [element.className].
      With [classList], the DOM's token-set semantics: the attribute is
      split at whitespace into an ordered set, changed, and written
      back joined by single spaces; an empty token or one with
      whitespace throws. Without it, the code's string operations:
      [className.replace] with its regular expression, run as a scan
      ([rx_replace]), and [className += ' ' + className].
    - [preventDefaultEvent] (lines 114-120), with both of its branches.
    - [getRandomArbitrary] / [getRandomInteger] (lines 130-145), with
      the value of [Math.random()] as the parameter [r] in [0, 1).

    The theorems: the serializer/tokenizer round trip; the helpers as
    set operations with [classList], and their errors; the fallback's
    removal refines the [classList] branch on lowercase word classes,
    but its [\b] also matches after a hyphen and its [i] flag ignores
    case; the fallback's [addCSSClass] duplicates a class;
    [asyncLoadScript]'s callback runs at most once. *)

From stdpp Require Import base list decidable sets strings.
From Stdlib Require Import Ascii ZArith QArith Qround Lqa Lia.
From S2P Require Import Spec2Rocq.

Module Utils.

(** ** [ajaxGet] (lines 28-39) *)

(** What [ajaxGet] needs of the page: [request.open('GET', url, true);
    request.send(null)] puts a request for [url] in flight; the page's
    event loop later runs its [onreadystatechange]. *)
Class XhrHost (S : Type) := xhr_send : string -> S -> S.

Definition ajaxGet {S : Type} `{XhrHost S} (url : string) : js S unit :=
  modify (xhr_send url).

(** [request.onreadystatechange]: the callback gets the response once
    the request is done ([readyState === 4]) with status 200 and when
    [typeof callback === 'function'] ([callback] is [None] otherwise).
    [responseText] is the body as the callback reads it. *)
Definition ajaxGet_onreadystatechange {S R : Type} (callback : option (R -> js S unit))
    (readyState status : Z) (responseText : R) : js S unit :=
  match callback with
  | Some cb => if (readyState =? 4)%Z && (status =? 200)%Z then cb responseText else ret tt
  | None => ret tt
  end.

(** ** [asyncLoadScript] (lines 49-74) *)

(** The handler set on the [<script>] element: old IE, where
    [script.readyState] is defined, gets [onreadystatechange]; other
    browsers get [onload]. *)
Inductive ScriptHandler := OnReadyStateChange | OnLoad.

Record Script := mk_script {
  sc_type : string;
  sc_async : bool;
  sc_src : string;
  sc_handler : option ScriptHandler;  (** [None] once IE's handler is reset to [null] *)
  sc_appended : bool;                 (** appended to [<head>] (or [<body>]) *)
  sc_callbacks : nat                  (** the number of runs of [callback] *)
}.

Definition asyncLoadScript (has_readyState : bool) (url : string) : Script := {|
  sc_type := "text/javascript";
  sc_async := true;
  sc_src := url;
  sc_handler := Some (if has_readyState then OnReadyStateChange else OnLoad);
  sc_appended := true;
  sc_callbacks := 0
|}.

(** The events the browser fires on the script: a change of IE's
    [readyState] to a new value, or [load]. *)
Inductive ScriptEvent := ReadyStateChange (readyState : string) | ScriptLoad.

Definition with_script_handler (s : Script) (h : option ScriptHandler) : Script :=
  mk_script (sc_type s) (sc_async s) (sc_src s) h (sc_appended s) (sc_callbacks s).

(** [if (callback && typeof callback === 'function') { callback(); }] *)
Definition run_script_callback (has_callback : bool) (s : Script) : Script :=
  mk_script (sc_type s) (sc_async s) (sc_src s) (sc_handler s) (sc_appended s)
    (if has_callback then S (sc_callbacks s) else sc_callbacks s).

(** The handler the event reaches, if it is set. *)
Definition script_event (has_callback : bool) (ev : ScriptEvent) (s : Script) : Script :=
  match ev, sc_handler s with
  | ReadyStateChange rs, Some OnReadyStateChange =>
      if String.eqb rs "loaded" || String.eqb rs "complete"
      then run_script_callback has_callback (with_script_handler s None)
      else s
  | ScriptLoad, Some OnLoad => run_script_callback has_callback s
  | _, _ => s
  end.

Definition script_events (has_callback : bool) (evs : list ScriptEvent) (s : Script) : Script :=
  fold_left (fun s ev => script_event has_callback ev s) evs s.

(** ** The [class] attribute and [element.classList]

    Characters are the code units 0-255 of the string (Latin-1). *)

(** ASCII whitespace of the DOM: TAB, LF, FF, CR and SPACE. *)
Definition is_space (a : ascii) : bool :=
  let n := nat_of_ascii a in (n =? 32) || (n =? 9) || (n =? 10) || (n =? 12) || (n =? 13).

Definition not_space (a : ascii) : bool := negb (is_space a).

Fixpoint all_chars (p : ascii -> bool) (s : string) : bool :=
  match s with EmptyString => true | String a s => p a && all_chars p s end.

(** The tokens of the attribute, split at whitespace, in order: the
    token being read, and the tokens after it. *)
Fixpoint tokens_aux (s : string) : string * list string :=
  match s with
  | EmptyString => (EmptyString, [])
  | String a s' =>
      let '(w, ws) := tokens_aux s' in
      if is_space a then (EmptyString, match w with EmptyString => ws | _ => w :: ws end)
      else (String a w, ws)
  end.

Definition class_tokens (s : string) : list string :=
  let '(w, ws) := tokens_aux s in match w with EmptyString => ws | _ => w :: ws end.

(** The DOM's ordered set parser: a token is appended unless the set
    already holds it. *)
Fixpoint ordered_set_go (acc ts : list string) : list string :=
  match ts with
  | [] => acc
  | t :: ts => ordered_set_go (if bool_decide (t ∈ acc) then acc else acc ++ [t]) ts
  end.

Definition ordered_set (ts : list string) : list string := ordered_set_go [] ts.

(** The ordered set serializer: the tokens joined by one space. *)
Fixpoint serialize (ts : list string) : string :=
  match ts with
  | [] => EmptyString
  | [t] => t
  | t :: ts => (t ++ String " " (serialize ts))%string
  end.

(** DOMTokenList's check of a token. *)
Definition validate_token {S : Type} (token : string) : js S unit :=
  match token with
  | EmptyString => throw DOMSyntaxError
  | _ => if all_chars not_space token then ret tt else throw InvalidCharacterError
  end.

(** [classList.remove(token)] on the attribute: check the token, remove
    it from the token set, write the serialized set back. *)
Definition classList_remove (token : string) : js string unit :=
  validate_token token ;;
  modify (fun cn => serialize (filter (fun t => t ≠ token) (ordered_set (class_tokens cn)))).

(** [classList.add(token)]: append it to the token set unless present,
    write the serialized set back. *)
Definition classList_add (token : string) : js string unit :=
  validate_token token ;;
  modify (fun cn => let ts := ordered_set (class_tokens cn) in
                    serialize (if bool_decide (token ∈ ts) then ts else ts ++ [token])).

(** ** The regular expression of [removeCSSClass]'s fallback

    [new RegExp('(^|\\b)' + className.split(' ').join('|') + '(\\b|$)', 'gi')]
    is the alternation of the pieces of [className] between spaces, the
    first with the [(^|\b)] prefix and the last with the [(\b|$)]
    suffix. The pieces are taken as literal text: class names without
    the regular expression's special characters. *)

(** [\w]: [A-Za-z0-9_]. *)
Definition is_word (a : ascii) : bool :=
  let n := nat_of_ascii a in
  ((48 <=? n) && (n <=? 57)) || ((65 <=? n) && (n <=? 90)) ||
  ((97 <=? n) && (n <=? 122)) || (n =? 95).

(** The [i] flag's canonical form, [toUpperCase] of one code unit:
    a-z and the Latin-1 letters 224-254 but 247 go up by 32; the others
    (ß, ÿ and µ included, whose upper case is no other code unit of
    this range) are their own class. *)
Definition fold_case (a : ascii) : ascii :=
  let n := nat_of_ascii a in
  if ((97 <=? n) && (n <=? 122)) || ((224 <=? n) && (n <=? 254) && negb (n =? 247))
  then ascii_of_nat (n - 32) else a.

Definition word_at (a : option ascii) : bool :=
  match a with Some a => is_word a | None => false end.

(** [(^|\b)] between [prev] and [next]: the start of the input, or a
    word boundary. *)
Definition start_ok (prev next : option ascii) : bool :=
  match prev with None => true | Some _ => negb (Bool.eqb (word_at prev) (word_at next)) end.

(** [(\b|$)]: a word boundary, or the end of the input. *)
Definition end_ok (prev next : option ascii) : bool :=
  match next with None => true | Some _ => negb (Bool.eqb (word_at prev) (word_at next)) end.

(** The piece [c] matches at the head of [s] up to case. *)
Fixpoint prefix_ci (c s : string) : bool :=
  match c, s with
  | EmptyString, _ => true
  | String a c', String b s' => Ascii.eqb (fold_case a) (fold_case b) && prefix_ci c' s'
  | String _ _, EmptyString => false
  end.

(** [className.split(' ')]: the pieces between the spaces, empty ones
    included. *)
Fixpoint split_space (s : string) : list string :=
  match s with
  | EmptyString => [EmptyString]
  | String a s' =>
      let rest := split_space s' in
      if Ascii.eqb a " " then EmptyString :: rest
      else match rest with
           | p :: ps => String a p :: ps
           | [] => [String a EmptyString]
           end
  end.

(** One alternative at the scan position: the character before it is
    [prev], the input from it is [s]. *)
Definition alt_matches (first last : bool) (c : string) (prev : option ascii) (s : string) : bool :=
  (negb first || start_ok prev (String.get 0 s)) && prefix_ci c s &&
  (negb last || end_ok (match c with EmptyString => prev | _ => String.get (String.length c - 1) s end)
                       (String.get (String.length c) s)).

(** The alternatives in order; the length of the first that matches. *)
Fixpoint match_alts (prev : option ascii) (s : string) (first : bool) (alts : list string) : option nat :=
  match alts with
  | [] => None
  | c :: alts' =>
      if alt_matches first (match alts' with [] => true | _ => false end) c prev s
      then Some (String.length c)
      else match_alts prev s false alts'
  end.

(** [s.replace(re, ' ')] with the [g] flag, scanning left to right: a
    match becomes one space and the search resumes after it, one
    character further after an empty match; [skip] characters of the
    current match are still to be dropped; [prev] is the character
    before the scan position, which [\b] reads. *)
Fixpoint rx_replace (alts : list string) (prev : option ascii) (skip : nat) (s : string) : string :=
  match s with
  | EmptyString =>
      match skip, match_alts prev EmptyString true alts with
      | O, Some _ => String " " EmptyString
      | _, _ => EmptyString
      end
  | String a s' =>
      match skip with
      | S k => rx_replace alts (Some a) k s'
      | O =>
          match match_alts prev s true alts with
          | Some O => String " " (String a (rx_replace alts (Some a) 0 s'))
          | Some (S n) => String " " (rx_replace alts (Some a) n s')
          | None => String a (rx_replace alts (Some a) 0 s')
          end
      end
  end.

(** ** [removeCSSClass] and [addCSSClass] (lines 83-105) *)

(** A DOM element as the helpers see it: whether [element.classList]
    is defined (it is not in IE 9 and older), and [element.className]. *)
Record Element := mk_element { el_has_classList : bool; el_className : string }.

Definition with_className (el : Element) (cn : string) : Element :=
  mk_element (el_has_classList el) cn.

Definition removeCSSClass (className : string) : js Element unit :=
  el <- get ;;
  if el_has_classList el
  then zoom el_className with_className (classList_remove className)
  else modify (fun el => with_className el
                 (rx_replace (split_space className) None 0 (el_className el))).

Definition addCSSClass (className : string) : js Element unit :=
  el <- get ;;
  if el_has_classList el
  then zoom el_className with_className (classList_add className)
  else modify (fun el => with_className el (el_className el ++ " " ++ className)%string).

Definition has_class (c : string) (el : Element) : bool :=
  bool_decide (c ∈ class_tokens (el_className el)).


(** ** [preventDefaultEvent] *)

Record DomEvent := mk_dom_event {
  ev_has_preventDefault : bool;   (** [event.preventDefault] exists *)
  ev_default_prevented : bool;    (** [event.defaultPrevented] *)
  ev_returnValue : bool           (** IE's [event.returnValue] *)
}.

Definition preventDefaultEvent (e : DomEvent) : DomEvent :=
  if ev_has_preventDefault e
  then mk_dom_event true true (ev_returnValue e)
  else mk_dom_event false (ev_default_prevented e) false.

(** The browser skips the default action of an event whose default was
    prevented, or, in old IE, whose [returnValue] is [false]. *)
Definition default_cancelled (e : DomEvent) : bool :=
  ev_default_prevented e || negb (ev_returnValue e).

(** ** Random helpers, with [Math.random()] returning [r] *)

(** [Math.random() * (max - min) + min] *)
Definition getRandomArbitrary (r min max : Q) : Q := r * (max - min) + min.

(** [Math.floor(Math.random() * (max - min + 1)) + min] *)
Definition getRandomInteger (r : Q) (min max : Z) : Z :=
  (Qfloor (r * inject_Z (max - min + 1)) + min)%Z.

(** Analysis definitions: the tokens DOMTokenList accepts, and class
    names of lowercase word characters. *)
Definition valid_token (t : string) : bool :=
  match t with EmptyString => false | _ => all_chars not_space t end.

Definition is_upper (a : ascii) : bool :=
  let n := nat_of_ascii a in (65 <=? n) && (n <=? 90).

Definition lower_word (a : ascii) : bool := is_word a && negb (is_upper a).

Definition class_char (a : ascii) : bool := is_space a || lower_word a.

(** [toUpperCase] on the ASCII letters, the case change a caller may
    make to a class name. *)
Definition ascii_upper (a : ascii) : ascii :=
  let n := nat_of_ascii a in if (97 <=? n) && (n <=? 122) then ascii_of_nat (n - 32) else a.

Fixpoint str_upper (s : string) : string :=
  match s with EmptyString => EmptyString | String a s' => String (ascii_upper a) (str_upper s') end.

Fixpoint last_char (p : option ascii) (u : string) : option ascii :=
  match u with EmptyString => p | String a u => last_char (Some a) u end.

(** The rest of the string after a word: empty or starting with a space. *)
Definition space_head (r : string) : Prop := forall b r', r = String b r' -> is_space b = true.

Definition is_done (ev : ScriptEvent) : bool :=
  match ev with
  | ReadyStateChange rs => String.eqb rs "loaded" || String.eqb rs "complete"
  | ScriptLoad => false
  end.

Fixpoint count_loads (evs : list ScriptEvent) : nat :=
  match evs with
  | [] => 0
  | ScriptLoad :: evs => S (count_loads evs)
  | _ :: evs => count_loads evs
  end.

(** ** Lemmas on characters *)

Lemma append_cons (a : ascii) (u r : string) : (String a u ++ r)%string = String a (u ++ r).
Proof. reflexivity. Qed.

Lemma space_char (a : ascii) : is_space a = true -> is_word a = false /\ fold_case a = a.
Proof. destruct a as [[] [] [] [] [] [] [] []]; vm_compute; intros H; try discriminate; auto. Qed.

Lemma word_fold (a : ascii) : is_word (fold_case a) = is_word a.
Proof. destruct a as [[] [] [] [] [] [] [] []]; reflexivity. Qed.

Lemma fold_upper (a : ascii) : fold_case (ascii_upper a) = fold_case a.
Proof. destruct a as [[] [] [] [] [] [] [] []]; reflexivity. Qed.

Lemma upper_space (a : ascii) : Ascii.eqb (ascii_upper a) " " = Ascii.eqb a " ".
Proof. destruct a as [[] [] [] [] [] [] [] []]; reflexivity. Qed.

(** The inverse of [fold_case] on lowercase word characters. *)
Lemma lower_fold_inj (a b : ascii) :
  lower_word a = true -> lower_word b = true -> fold_case a = fold_case b -> a = b.
Proof.
  set (unfold := fun x : ascii => if is_upper x then ascii_of_nat (nat_of_ascii x + 32) else x).
  assert (Hu : forall x, lower_word x = true -> unfold (fold_case x) = x)
    by (intros x; destruct x as [[] [] [] [] [] [] [] []]; vm_compute; congruence).
  intros Ha Hb E. rewrite <- (Hu a Ha), <- (Hu b Hb), E. reflexivity.
Qed.

Lemma lower_word_word (a : ascii) : lower_word a = true -> is_word a = true.
Proof. unfold lower_word. rewrite andb_true_iff. tauto. Qed.

Lemma lower_word_not_space (a : ascii) : lower_word a = true -> is_space a = false.
Proof.
  intros H. apply lower_word_word in H. destruct (is_space a) eqn:E; [|reflexivity].
  apply space_char in E as [E _]. congruence.
Qed.

(** ** Lemmas on strings *)

Lemma append_nil_r (u : string) : (u ++ EmptyString)%string = u.
Proof. induction u; rewrite ?append_cons; [reflexivity|congruence]. Qed.

Lemma append_assoc' (u v r : string) : ((u ++ v) ++ r)%string = (u ++ (v ++ r))%string.
Proof. induction u; rewrite ?append_cons; [reflexivity|congruence]. Qed.

Lemma length_append' (u r : string) :
  String.length (u ++ r) = (String.length u + String.length r)%nat.
Proof. induction u; rewrite ?append_cons; simpl; auto. Qed.

Lemma get_app_len (u r : string) : String.get (String.length u) (u ++ r) = String.get 0 r.
Proof. induction u; rewrite ?append_cons; simpl; auto. Qed.

Lemma get_app_last (a : ascii) (u r : string) :
  String.get (String.length u) (String a (u ++ r)) = last_char (Some a) u.
Proof. revert a. induction u as [|c u IH]; intros b; [reflexivity|]. rewrite append_cons. exact (IH c). Qed.

Lemma all_chars_app (f : ascii -> bool) (u r : string) :
  all_chars f (u ++ r) = true <-> all_chars f u = true /\ all_chars f r = true.
Proof. induction u; rewrite ?append_cons; simpl; rewrite ?andb_true_iff; tauto. Qed.

Lemma all_chars_impl (f g : ascii -> bool) (u : string) :
  (forall a, f a = true -> g a = true) -> all_chars f u = true -> all_chars g u = true.
Proof. intros H. induction u; simpl; rewrite ?andb_true_iff; intuition. Qed.

Lemma last_char_word (p : option ascii) (u : string) :
  word_at p = true -> all_chars lower_word u = true -> word_at (last_char p u) = true.
Proof.
  revert p. induction u as [|a u IH]; intros p Hp Hu; simpl in *; auto.
  apply andb_true_iff in Hu as [Ha Hu]. apply IH; auto. apply lower_word_word in Ha. exact Ha.
Qed.

Lemma prefix_ci_self (c r : string) : prefix_ci c (c ++ r) = true.
Proof. induction c; rewrite ?append_cons; simpl; rewrite ?Ascii.eqb_refl; auto. Qed.

(** ** The [i] flag: the fallback's pattern is blind to the case of
    the class name *)

Lemma str_upper_length (c : string) : String.length (str_upper c) = String.length c.
Proof. induction c; simpl; auto. Qed.

Lemma prefix_ci_upper (c s : string) : prefix_ci (str_upper c) s = prefix_ci c s.
Proof. revert s. induction c as [|a c IH]; intros [|b s]; simpl; rewrite ?fold_upper, ?IH; reflexivity. Qed.

Lemma split_space_upper (s : string) : split_space (str_upper s) = map str_upper (split_space s).
Proof.
  induction s as [|a s IH]; [reflexivity|]. cbn [str_upper split_space]. rewrite upper_space, IH.
  destruct (Ascii.eqb a " "); [reflexivity|]. destruct (split_space s); reflexivity.
Qed.

Lemma alt_matches_upper (first last : bool) (c : string) (prev : option ascii) (s : string) :
  alt_matches first last (str_upper c) prev s = alt_matches first last c prev s.
Proof. unfold alt_matches. rewrite prefix_ci_upper, str_upper_length. destruct c; reflexivity. Qed.

Lemma match_alts_upper (prev : option ascii) (s : string) (first : bool) (alts : list string) :
  match_alts prev s first (map str_upper alts) = match_alts prev s first alts.
Proof.
  revert first. induction alts as [|c alts IH]; intros first; [reflexivity|].
  cbn [map match_alts]. rewrite IH, str_upper_length.
  destruct alts; rewrite alt_matches_upper; reflexivity.
Qed.

Lemma rx_replace_upper (alts : list string) (prev : option ascii) (skip : nat) (s : string) :
  rx_replace (map str_upper alts) prev skip s = rx_replace alts prev skip s.
Proof.
  revert prev skip. induction s as [|a s IH]; intros prev skip; cbn [rx_replace];
    rewrite ?match_alts_upper; repeat case_match; rewrite ?IH; reflexivity.
Qed.

(** Between lowercase words, the case-insensitive prefix test is the
    plain one, and a prefix cannot run past a word into a non-word. *)
Lemma prefix_ci_lower (c w r : string) :
  all_chars lower_word c = true -> all_chars lower_word w = true ->
  word_at (String.get 0 r) = false -> prefix_ci c (w ++ r) = true ->
  exists w2, w = (c ++ w2)%string.
Proof.
  revert w. induction c as [|a c IH]; intros w Hc Hw Hr Hp; [by exists w|].
  simpl in Hc. apply andb_true_iff in Hc as [Ha Hc].
  destruct w as [|b w].
  - destruct r as [|b r]; [discriminate|]. simpl in Hp, Hr.
    apply andb_true_iff in Hp as [E _]. apply Ascii.eqb_eq in E.
    apply (f_equal is_word) in E. rewrite !word_fold, (lower_word_word a Ha), Hr in E. discriminate.
  - rewrite append_cons in Hp. simpl in Hp, Hw.
    apply andb_true_iff in Hp as [E Hp]. apply andb_true_iff in Hw as [Hb Hw].
    apply Ascii.eqb_eq, lower_fold_inj in E; [subst b|exact Ha|exact Hb].
    destruct (IH w Hc Hw Hr Hp) as [w2 ->]. exists w2. reflexivity.
Qed.

(** ** The scan on a one-word class name *)

Lemma rx_replace_skip (alts : list string) (p : option ascii) (u r : string) :
  rx_replace alts p (String.length u) (u ++ r) = rx_replace alts (last_char p u) 0 r.
Proof. revert p. induction u; intros p; rewrite ?append_cons; simpl; auto. Qed.

Lemma rx_replace_inside (c : string) (p : option ascii) (u r : string) :
  word_at p = true -> all_chars lower_word u = true ->
  rx_replace [c] p 0 (u ++ r) = (u ++ rx_replace [c] (last_char p u) 0 r)%string.
Proof.
  revert p. induction u as [|a u IH]; intros p Hp Hu; [reflexivity|].
  simpl in Hu. apply andb_true_iff in Hu as [Ha Hu]. apply lower_word_word in Ha.
  rewrite append_cons. destruct p as [b|]; [|discriminate]. simpl in Hp.
  cbn [rx_replace match_alts]. unfold alt_matches, start_ok. simpl String.get. simpl word_at.
  rewrite Hp, Ha. simpl. rewrite append_cons. f_equal. apply IH; auto.
Qed.


Section Scan.
Context (c : string) (Hc0 : c <> EmptyString) (Hc : all_chars lower_word c = true).

Lemma split_space_word : split_space c = [c].
Proof.
  clear Hc0. induction c as [|a c' IH]; [reflexivity|].
  simpl in Hc. apply andb_true_iff in Hc as [Ha Hc'].
  simpl. rewrite (IH Hc'). destruct (Ascii.eqb a " ") eqn:E; [|reflexivity].
  apply Ascii.eqb_eq in E. subst. discriminate.
Qed.

Lemma rx_replace_end (p : option ascii) : rx_replace [c] p 0 EmptyString = EmptyString.
Proof. destruct c; [congruence|]. cbn [rx_replace match_alts]. unfold alt_matches. cbn [prefix_ci]. by rewrite andb_false_r. Qed.

Lemma rx_replace_space (p : option ascii) (a : ascii) (r : string) :
  is_space a = true ->
  rx_replace [c] p 0 (String a r) = String a (rx_replace [c] (Some a) 0 r).
Proof.
  intros Ha. apply space_char in Ha as [Hw Hf].
  destruct c as [|b c']; [congruence|].
  simpl in Hc. apply andb_true_iff in Hc as [Hb _]. apply lower_word_word in Hb.
  assert (E : Ascii.eqb (fold_case b) (fold_case a) = false).
  { apply Ascii.eqb_neq. intros E. apply (f_equal is_word) in E.
    rewrite !word_fold, Hb, Hw in E. discriminate. }
  cbn [rx_replace match_alts]. unfold alt_matches. cbn [prefix_ci]. rewrite E.
  rewrite !andb_false_r. reflexivity.
Qed.

(** A word equal to the class is replaced by one space. *)
Lemma rx_replace_hit (p : option ascii) (r : string) :
  word_at p = false -> word_at (String.get 0 r) = false ->
  rx_replace [c] p 0 (c ++ r) = String " " (rx_replace [c] (last_char p c) 0 r).
Proof.
  intros Hp Hr. destruct c as [|a c']; [congruence|].
  pose proof Hc as Hc'. simpl in Hc'. apply andb_true_iff in Hc' as [Ha Hc'].
  apply lower_word_word in Ha.
  assert (Hm : alt_matches true true (String a c') p (String a (c' ++ r)) = true).
  { unfold alt_matches. rewrite <- append_cons, prefix_ci_self. simpl String.length.
    replace (S (String.length c') - 1)%nat with (String.length c') by lia.
    rewrite append_cons, get_app_last. simpl String.get. rewrite get_app_len.
    pose proof (last_char_word (Some a) c' Ha Hc') as Hl.
    assert (Hs : start_ok p (Some a) = true) by
      (destruct p; unfold start_ok; simpl in *; rewrite ?Hp, ?Ha; reflexivity).
    assert (He : end_ok (last_char (Some a) c') (String.get 0 r) = true) by
      (unfold end_ok; destruct (String.get 0 r); simpl in *; rewrite ?Hl, ?Hr; reflexivity).
    rewrite Hs, He. reflexivity. }
  rewrite append_cons. cbn [rx_replace match_alts]. rewrite Hm.
  rewrite <- (rx_replace_skip _ (Some a) c' r). reflexivity.
Qed.

(** A word other than the class is copied. *)
Lemma rx_replace_miss (w : string) (p : option ascii) (r : string) :
  w <> c -> w <> EmptyString -> all_chars lower_word w = true ->
  word_at (String.get 0 r) = false ->
  rx_replace [c] p 0 (w ++ r) = (w ++ rx_replace [c] (last_char p w) 0 r)%string.
Proof.
  intros Hwc Hw0 Hw Hr.
  assert (Hm : alt_matches true true c p (w ++ r) = false).
  { unfold alt_matches. destruct (prefix_ci c (w ++ r)) eqn:Hpre; [|by rewrite andb_false_r].
    destruct (prefix_ci_lower c w r Hc Hw Hr Hpre) as [[|b w2] ->].
    - rewrite append_nil_r in Hwc. congruence.
    - rewrite append_assoc'. destruct c as [|a c']; [congruence|].
      pose proof Hc as Hc'. simpl in Hc'. apply andb_true_iff in Hc' as [Ha Hc'].
      apply lower_word_word in Ha.
      simpl String.length. replace (S (String.length c') - 1)%nat with (String.length c') by lia.
      rewrite append_cons, get_app_last. simpl String.get. rewrite get_app_len.
      pose proof (last_char_word (Some a) c' Ha Hc') as Hl.
      apply all_chars_app in Hw as [_ Hw]. simpl in Hw. apply andb_true_iff in Hw as [Hb _].
      apply lower_word_word in Hb.
      unfold end_ok. simpl. rewrite Hl, Hb, !andb_false_r. reflexivity. }
  destruct w as [|a w']; [congruence|].
  pose proof Hw as Hw'. simpl in Hw'. apply andb_true_iff in Hw' as [Ha Hw'].
  apply lower_word_word in Ha.
  rewrite append_cons in Hm. rewrite !append_cons. cbn [rx_replace match_alts]. rewrite Hm. f_equal.
  exact (rx_replace_inside c (Some a) w' r Ha Hw').
Qed.
End Scan.


(** ** Tokens of the [class] attribute *)

Lemma valid_token_spec (t : string) :
  valid_token t = true <-> t <> EmptyString /\ all_chars not_space t = true.
Proof. destruct t; simpl; [split; [discriminate|intros [[] _]; reflexivity]|]. split; [|tauto]. split; [discriminate|assumption]. Qed.

Lemma tokens_aux_app (w r : string) : all_chars not_space w = true ->
  tokens_aux (w ++ r) = let '(x, ws) := tokens_aux r in ((w ++ x)%string, ws).
Proof.
  induction w as [|a w IH]; intros Hw.
  { change (tokens_aux r = let '(x, ws) := tokens_aux r in (x, ws)). by destruct (tokens_aux r). }
  simpl in Hw. apply andb_true_iff in Hw as [Ha Hw]. unfold not_space in Ha. apply negb_true_iff in Ha.
  rewrite append_cons. simpl. rewrite IH by exact Hw. destruct (tokens_aux r). rewrite Ha. reflexivity.
Qed.

Lemma class_tokens_space (a : ascii) (r : string) :
  is_space a = true -> class_tokens (String a r) = class_tokens r.
Proof.
  intros Ha. unfold class_tokens. simpl. destruct (tokens_aux r) as [[|b x] ws]; rewrite Ha; reflexivity.
Qed.

Lemma class_tokens_word (w r : string) :
  w <> EmptyString -> all_chars not_space w = true -> space_head r ->
  class_tokens (w ++ r) = w :: class_tokens r.
Proof.
  intros Hw0 Hw Hr. unfold class_tokens. rewrite tokens_aux_app by exact Hw.
  assert (Hx : fst (tokens_aux r) = EmptyString).
  { destruct r as [|b r]; [reflexivity|]. simpl. rewrite (Hr b r eq_refl).
    by destruct (tokens_aux r). }
  destruct (tokens_aux r) as [x ws]. simpl in Hx. subst x. rewrite append_nil_r.
  by destruct w.
Qed.

Lemma class_tokens_valid (s : string) : Forall (fun t => valid_token t = true) (class_tokens s).
Proof.
  assert (H : all_chars not_space (fst (tokens_aux s)) = true /\
              Forall (fun t => valid_token t = true) (snd (tokens_aux s))).
  { induction s as [|a s [IHw IHs]]; [split; [reflexivity|constructor]|]. simpl.
    destruct (tokens_aux s) as [w ws]. simpl in *.
    destruct (is_space a) eqn:Ha; simpl; [split; [reflexivity|]|].
    - destruct w; [exact IHs|]. constructor; [exact IHw|exact IHs].
    - unfold not_space. rewrite Ha. split; [exact IHw|exact IHs]. }
  unfold class_tokens. destruct (tokens_aux s) as [w ws]. simpl in H. destruct H as [Hw Hws].
  destruct w; [exact Hws|]. constructor; [exact Hw|exact Hws].
Qed.

Lemma space_head_word (r : string) : space_head r -> word_at (String.get 0 r) = false.
Proof. destruct r as [|b r]; intros Hr; [reflexivity|]. exact (proj1 (space_char b (Hr b r eq_refl))). Qed.

(** ** The ordered set *)

Section OrderedSet.
Context (P : string -> Prop) `{!forall x, Decision (P x)}.

Lemma ordered_set_go_elem (acc ts : list string) (x : string) :
  x ∈ ordered_set_go acc ts <-> x ∈ acc \/ x ∈ ts.
Proof.
  revert acc. induction ts as [|t ts IH]; intros acc; simpl; [set_solver|].
  rewrite IH. case_bool_decide; set_solver.
Qed.

Lemma ordered_set_go_NoDup (acc ts : list string) : NoDup acc -> NoDup (ordered_set_go acc ts).
Proof.
  revert acc. induction ts as [|t ts IH]; intros acc Hacc; simpl; [exact Hacc|].
  apply IH. case_bool_decide; [exact Hacc|]. apply NoDup_app. split; [exact Hacc|].
  split; [set_solver|apply NoDup_singleton].
Qed.

Lemma ordered_set_go_filter (acc ts : list string) :
  filter P (ordered_set_go acc ts) = ordered_set_go (filter P acc) (filter P ts).
Proof.
  revert acc. induction ts as [|t ts IH]; intros acc; [reflexivity|]. simpl. rewrite IH.
  destruct (decide (P t)) as [Ht|Ht].
  - rewrite filter_cons_True by exact Ht. simpl. f_equal.
    assert (E : t ∈ filter P acc <-> t ∈ acc) by (rewrite list_elem_of_filter; tauto).
    destruct (decide (t ∈ acc)) as [Hin|Hin].
    + rewrite !bool_decide_true by (rewrite ?E; exact Hin). reflexivity.
    + rewrite !bool_decide_false by (rewrite ?E; exact Hin).
      rewrite filter_app, filter_cons_True by exact Ht. reflexivity.
  - rewrite filter_cons_False by exact Ht. f_equal. case_bool_decide; [reflexivity|].
    rewrite filter_app, filter_cons_False, app_nil_r by exact Ht. reflexivity.
Qed.

Lemma ordered_set_go_nodup (acc ts : list string) : NoDup (acc ++ ts) -> ordered_set_go acc ts = acc ++ ts.
Proof.
  revert acc. induction ts as [|t ts IH]; intros acc Hnd; simpl; [by rewrite app_nil_r|].
  apply NoDup_app in Hnd as (Hacc & Hdis & Hts). apply NoDup_cons in Hts as [Ht Hts].
  rewrite bool_decide_false by (intros Hin; apply (Hdis t Hin); set_solver).
  rewrite IH, <- app_assoc; [reflexivity|]. rewrite <- app_assoc. apply NoDup_app.
  split; [exact Hacc|]. split; [set_solver|]. by apply NoDup_cons.
Qed.
End OrderedSet.

Lemma ordered_set_elem (ts : list string) (x : string) : x ∈ ordered_set ts <-> x ∈ ts.
Proof. unfold ordered_set. rewrite ordered_set_go_elem. set_solver. Qed.

Lemma ordered_set_NoDup (ts : list string) : NoDup (ordered_set ts).
Proof. apply ordered_set_go_NoDup, NoDup_nil_2. Qed.

Lemma ordered_set_id (ts : list string) : NoDup ts -> ordered_set ts = ts.
Proof. intros H. exact (ordered_set_go_nodup [] ts H). Qed.

Lemma Forall_filter' (Q : string -> Prop) `{!forall x, Decision (Q x)} (R : string -> Prop) (ts : list string) :
  Forall R ts -> Forall R (filter Q ts).
Proof. rewrite !Forall_forall. intros HR x Hx. apply list_elem_of_filter in Hx. apply HR. tauto. Qed.

Lemma ordered_set_valid (ts : list string) :
  Forall (fun t => valid_token t = true) ts -> Forall (fun t => valid_token t = true) (ordered_set ts).
Proof. rewrite !Forall_forall. intros H x Hx. apply H, ordered_set_elem, Hx. Qed.

(** ** Serializing and parsing the token set *)

Lemma serialize_class_tokens (ts : list string) :
  Forall (fun t => valid_token t = true) ts -> class_tokens (serialize ts) = ts.
Proof.
  induction ts as [|t ts IH]; intros Hts; [reflexivity|].
  apply Forall_cons in Hts as [Ht Hts]. apply valid_token_spec in Ht as [Ht0 Ht].
  destruct ts as [|t' ts'].
  - change (class_tokens t = [t]). rewrite <- (append_nil_r t) at 1.
    rewrite class_tokens_word; auto. intros ? ? [=].
  - change (class_tokens (t ++ String " " (serialize (t' :: ts'))) = t :: t' :: ts').
    rewrite class_tokens_word; auto; [|intros ? ? [= <- _]; reflexivity].
    rewrite class_tokens_space by reflexivity. f_equal. apply IH, Hts.
Qed.

Lemma validate_token_ok {S : Type} (t : string) (s : S) :
  valid_token t = true -> validate_token t s = (Ok tt, s).
Proof. destruct t as [|a t]; [discriminate|]. simpl. intros H. unfold validate_token. rewrite H. reflexivity. Qed.


(** ** The helpers on an element, branch by branch *)

Lemma removeCSSClass_classList (c : string) (el : Element) :
  el_has_classList el = true -> valid_token c = true ->
  removeCSSClass c el = (Ok tt, with_className el
    (serialize (filter (fun t => t ≠ c) (ordered_set (class_tokens (el_className el)))))).
Proof.
  intros Hl Hv. unfold removeCSSClass. cbn [bind get]. rewrite Hl.
  unfold zoom, classList_remove, bind. rewrite validate_token_ok by exact Hv. reflexivity.
Qed.

Lemma addCSSClass_classList (c : string) (el : Element) :
  el_has_classList el = true -> valid_token c = true ->
  addCSSClass c el = (Ok tt, with_className el
    (let ts := ordered_set (class_tokens (el_className el)) in
     serialize (if bool_decide (c ∈ ts) then ts else ts ++ [c]))).
Proof.
  intros Hl Hv. unfold addCSSClass. cbn [bind get]. rewrite Hl.
  unfold zoom, classList_add, bind. rewrite validate_token_ok by exact Hv. reflexivity.
Qed.

Lemma removeCSSClass_fallback (c : string) (el : Element) :
  el_has_classList el = false ->
  removeCSSClass c el = (Ok tt, with_className el (rx_replace (split_space c) None 0 (el_className el))).
Proof. intros Hl. unfold removeCSSClass. cbn [bind get]. rewrite Hl. reflexivity. Qed.

Lemma addCSSClass_fallback (c : string) (el : Element) :
  el_has_classList el = false ->
  addCSSClass c el = (Ok tt, with_className el (el_className el ++ " " ++ c)%string).
Proof. intros Hl. unfold addCSSClass. cbn [bind get]. rewrite Hl. reflexivity. Qed.

(** Split a computation on the elements in the context by whether
    they have [classList]; both branches then compute. *)
Ltac classList_cases :=
  repeat match goal with
         | e : Element |- _ => destruct e as [[] ?]
         end.

Lemma removeCSSClass_ok (c : string) (el : Element) :
  valid_token c = true -> outcome (removeCSSClass c) el = Ok tt.
Proof.
  intros Hv. unfold outcome. destruct (el_has_classList el) eqn:Hl;
    [rewrite removeCSSClass_classList|rewrite removeCSSClass_fallback]; auto.
Qed.

Lemma addCSSClass_ok (c : string) (el : Element) :
  valid_token c = true -> outcome (addCSSClass c) el = Ok tt.
Proof.
  intros Hv. unfold outcome. destruct (el_has_classList el) eqn:Hl;
    [rewrite addCSSClass_classList|rewrite addCSSClass_fallback]; auto.
Qed.

Lemma token_set_valid (s : string) :
  Forall (fun t => valid_token t = true) (ordered_set (class_tokens s)).
Proof. apply ordered_set_valid, class_tokens_valid. Qed.

(** Neither helper changes which branch an element takes. *)
Lemma removeCSSClass_keeps_classList (c : string) : keeps el_has_classList (removeCSSClass c).
Proof.
  unfold removeCSSClass. apply keeps_bind; [apply keeps_get|intros el].
  destruct (el_has_classList el); keeps_solve.
Qed.

Lemma addCSSClass_keeps_classList (c : string) : keeps el_has_classList (addCSSClass c).
Proof.
  unfold addCSSClass. apply keeps_bind; [apply keeps_get|intros el].
  destruct (el_has_classList el); keeps_solve.
Qed.

(** [classList.add] is idempotent: a second call finds the token. *)
Lemma addCSSClass_classList_idem (c : string) (el : Element) :
  el_has_classList el = true -> valid_token c = true ->
  exec (addCSSClass c) (exec (addCSSClass c) el) = exec (addCSSClass c) el.
Proof.
  intros Hl Hv. unfold exec. rewrite (addCSSClass_classList c el Hl Hv).
  rewrite addCSSClass_classList by assumption. cbn.
  set (ts := ordered_set (class_tokens (el_className el))).
  assert (Hts : Forall (fun t => valid_token t = true) ts) by apply token_set_valid.
  assert (Hnd : NoDup ts) by apply ordered_set_NoDup.
  destruct (bool_decide_reflect (c ∈ ts)) as [Hin|Hin].
  - rewrite serialize_class_tokens, ordered_set_id, bool_decide_true by assumption. reflexivity.
  - rewrite serialize_class_tokens by (apply Forall_app; auto).
    rewrite ordered_set_id by (apply NoDup_app; repeat split; [exact Hnd| |apply NoDup_singleton];
                              intros x Hx ->%list_elem_of_singleton; exact (Hin Hx)).
    rewrite bool_decide_true by (apply elem_of_app; right; apply list_elem_of_singleton; reflexivity).
    reflexivity.
Qed.

(** [addCSSClass] called [k] times: the fallback appends the class [k]
    times; [classList.add] acts once. *)
Lemma addCSSClass_fallback_iter (c : string) (k : nat) (el : Element) :
  el_has_classList el = false ->
  Nat.iter k (exec (addCSSClass c)) el =
    with_className el (Nat.iter k (fun cn => cn ++ " " ++ c)%string (el_className el)).
Proof.
  intros Hl. induction k as [|k IH]; [destruct el; reflexivity|].
  rewrite !Nat.iter_succ, IH. unfold exec. rewrite addCSSClass_fallback by exact Hl. reflexivity.
Qed.

Lemma addCSSClass_classList_iter (c : string) (k : nat) (el : Element) :
  el_has_classList el = true -> valid_token c = true ->
  Nat.iter (S k) (exec (addCSSClass c)) el = exec (addCSSClass c) el.
Proof.
  intros Hl Hv. induction k as [|k IH]; [reflexivity|].
  rewrite Nat.iter_succ, IH. apply addCSSClass_classList_idem; assumption.
Qed.


Lemma lower_valid (c : string) :
  c <> EmptyString -> all_chars lower_word c = true -> valid_token c = true.
Proof.
  intros Hc0 Hc. apply valid_token_spec. split; [exact Hc0|].
  revert Hc. apply all_chars_impl. intros a Ha. unfold not_space. by rewrite lower_word_not_space.
Qed.

Lemma class_string_split (a : ascii) (s : string) :
  all_chars class_char s = true -> lower_word a = true ->
  exists w r, String a s = (w ++ r)%string /\ w <> EmptyString /\
    all_chars lower_word w = true /\ all_chars class_char r = true /\ space_head r.
Proof.
  revert a. induction s as [|b s IH]; intros a Hs Ha.
  - exists (String a EmptyString), EmptyString. simpl. rewrite Ha.
    repeat split; [discriminate|]. intros ? ? [=].
  - simpl in Hs. apply andb_true_iff in Hs as [Hb Hs]. unfold class_char in Hb.
    destruct (lower_word b) eqn:Hlb.
    + destruct (IH b Hs Hlb) as (w & r & E & Hw0 & Hw & Hr & Hsp).
      exists (String a w), r. rewrite append_cons, <- E. simpl. rewrite Ha, Hw.
      repeat split; try discriminate; auto.
    + rewrite orb_false_r in Hb. exists (String a EmptyString), (String b s).
      simpl. unfold class_char. rewrite Ha, Hb. repeat split; [discriminate|fold class_char; exact Hs|]. intros ? ? [= <- <-]. exact Hb.
Qed.

Lemma rx_replace_space_head (c r : string) (p : option ascii) :
  c <> EmptyString -> all_chars lower_word c = true -> space_head r -> space_head (rx_replace [c] p 0 r).
Proof.
  intros Hc0 Hc Hr. destruct r as [|b r]; [rewrite rx_replace_end by assumption; intros ? ? [=]|].
  pose proof (Hr b r eq_refl) as Hb. rewrite rx_replace_space by auto. intros ? ? [= <- _]. exact Hb.
Qed.

(** The fallback scan on a [className] of lowercase word classes removes
    the tokens equal to the class. *)
Lemma rx_replace_class_tokens (c s : string) :
  c <> EmptyString -> all_chars lower_word c = true -> all_chars class_char s = true ->
  class_tokens (rx_replace [c] None 0 s) = filter (fun x => x ≠ c) (class_tokens s).
Proof.
  intros Hc0 Hc Hs.
  assert (Hp : word_at None = true -> word_at (String.get 0 s) = false) by discriminate.
  revert Hs Hp. generalize (@None ascii) as p.
  induction s as [s IH] using (well_founded_induction (Wf_nat.well_founded_ltof _ String.length)).
  unfold Wf_nat.ltof in IH. intros p Hs Hp. destruct s as [|a s'].
  { rewrite rx_replace_end by assumption. reflexivity. }
  pose proof Hs as Hs'. simpl in Hs'. apply andb_true_iff in Hs' as [Ha Hs'].
  unfold class_char in Ha. destruct (is_space a) eqn:Hsp.
  - rewrite rx_replace_space, !class_tokens_space by auto. apply IH; [simpl; lia|exact Hs'|].
    apply space_char in Hsp as [Hsp _]. simpl. rewrite Hsp. discriminate.
  - simpl in Ha. destruct (class_string_split a s' Hs' Ha) as (w & r & E & Hw0 & Hw & Hr & Hsh).
    assert (Hlen : (String.length r < String.length (String a s'))%nat) by
      (rewrite E, length_append'; destruct w; [congruence|simpl; lia]).
    assert (Hwn : all_chars not_space w = true).
    { revert Hw. apply all_chars_impl. intros b Hb. unfold not_space. by rewrite lower_word_not_space. }
    rewrite E, class_tokens_word by auto.
    assert (Hwp : word_at p = false).
    { apply lower_word_word in Ha. destruct (word_at p); [|reflexivity].
      simpl in Hp. rewrite Hp in Ha by reflexivity. discriminate. }
    destruct (decide (w = c)) as [->|Hne].
    + rewrite rx_replace_hit by auto using space_head_word.
      rewrite class_tokens_space by reflexivity. rewrite filter_cons_False by tauto.
      apply IH; auto using space_head_word.
    + rewrite rx_replace_miss by auto using space_head_word.
      rewrite class_tokens_word by auto using rx_replace_space_head.
      rewrite filter_cons_True by exact Hne. f_equal.
      apply IH; auto using space_head_word.
Qed.

Lemma tokens_aux_add (c s : string) : valid_token c = true ->
  tokens_aux (s ++ String " " c) = let '(w, ws) := tokens_aux s in (w, ws ++ [c]).
Proof.
  intros Hv. apply valid_token_spec in Hv as [Hc0 Hc]. induction s as [|a s IH].
  - simpl. pose proof (tokens_aux_app c EmptyString Hc) as E. rewrite append_nil_r in E.
    rewrite E. simpl. rewrite append_nil_r. by destruct c.
  - rewrite append_cons. simpl. rewrite IH. destruct (tokens_aux s) as [[|b w] ws]; by destruct (is_space a).
Qed.

(** [className + ' ' + c] has one more token. *)
Lemma class_tokens_append (c s : string) : valid_token c = true ->
  class_tokens (s ++ " " ++ c)%string = class_tokens s ++ [c].
Proof.
  intros Hv. unfold class_tokens. change (" " ++ c)%string with (String " "%char c).
  rewrite tokens_aux_add by exact Hv. by destruct (tokens_aux s) as [[|b w] ws].
Qed.

(** The script's callbacks, handler by handler. *)
Lemma script_events_cons (cb : bool) (ev : ScriptEvent) (evs : list ScriptEvent) (s : Script) :
  script_events cb (ev :: evs) s = script_events cb evs (script_event cb ev s).
Proof. reflexivity. Qed.

Lemma script_events_none (cb : bool) (evs : list ScriptEvent) (s : Script) :
  sc_handler s = None -> script_events cb evs s = s.
Proof.
  revert s. induction evs as [|ev evs IH]; intros s Hs; [reflexivity|].
  rewrite script_events_cons. replace (script_event cb ev s) with s by (unfold script_event; destruct ev; by rewrite Hs).
  exact (IH s Hs).
Qed.

Lemma script_events_readystate (cb : bool) (evs : list ScriptEvent) (s : Script) :
  sc_handler s = Some OnReadyStateChange ->
  sc_callbacks (script_events cb evs s) = (sc_callbacks s + if cb && existsb is_done evs then 1 else 0)%nat.
Proof.
  revert s. induction evs as [|ev evs IH]; intros s Hs.
  { simpl. rewrite andb_false_r. lia. }
  rewrite script_events_cons. destruct ev as [rs|]; cbn [existsb is_done]; unfold script_event; rewrite Hs.
  - destruct (String.eqb rs "loaded" || String.eqb rs "complete"); cbn [orb].
    + rewrite script_events_none by reflexivity. destruct cb; simpl; lia.
    + rewrite IH by exact Hs. reflexivity.
  - rewrite IH by exact Hs. reflexivity.
Qed.

Lemma script_events_onload (cb : bool) (evs : list ScriptEvent) (s : Script) :
  sc_handler s = Some OnLoad ->
  sc_callbacks (script_events cb evs s) = (sc_callbacks s + if cb then count_loads evs else 0)%nat.
Proof.
  revert s. induction evs as [|ev evs IH]; intros s Hs.
  { simpl. destruct cb; lia. }
  rewrite script_events_cons. destruct ev as [rs|]; cbn [count_loads]; unfold script_event; rewrite Hs.
  - rewrite IH by exact Hs. reflexivity.
  - rewrite IH by exact Hs. simpl. destruct cb; simpl; lia.
Qed.


(** ** Theorems *)

(** Round trip of the [class] attribute: the DOM's serializer
    (tokens joined by one space) read back by the tokenizer gives the
    same tokens, for tokens DOMTokenList accepts (non-empty, without
    whitespace). So the attribute [classList.add]/[remove] write back
    holds exactly the token set they computed. *)
Theorem serialize_roundtrip (ts : list string) :
  Forall (fun t => valid_token t = true) ts -> class_tokens (serialize ts) = ts.
Proof. exact (serialize_class_tokens ts). Qed.

Lemma serialize_roundtrip_witness :
  class_tokens (serialize ["loading"; "hidden"]%string) = ["loading"; "hidden"]%string.
Proof. apply serialize_roundtrip. repeat constructor. Defined.

(** (C25) With [element.classList], the helpers are set operations on
    the element's classes: they do not throw on a valid class name;
    after [addCSSClass] the class is present, after [removeCSSClass]
    it is absent; the other classes are untouched; adding a present
    class leaves the set of classes as it was. *)
Theorem css_class_ops (c d : string) (el : Element) :
  el_has_classList el = true -> valid_token c = true ->
  outcome (addCSSClass c) el = Ok tt /\ outcome (removeCSSClass c) el = Ok tt /\
  has_class c (exec (addCSSClass c) el) = true /\
  has_class c (exec (removeCSSClass c) el) = false /\
  (d ≠ c -> has_class d (exec (addCSSClass c) el) = has_class d el /\
            has_class d (exec (removeCSSClass c) el) = has_class d el) /\
  (has_class c el = true ->
   ordered_set (class_tokens (el_className (exec (addCSSClass c) el))) =
   ordered_set (class_tokens (el_className el))).
Proof.
  intros Hl Hv. unfold outcome, exec, has_class.
  rewrite addCSSClass_classList, removeCSSClass_classList by assumption. cbn [fst snd el_className with_className].
  set (ts := ordered_set (class_tokens (el_className el))).
  pose proof (token_set_valid (el_className el)) as Hts. fold ts in Hts.
  assert (Hel : forall x, x ∈ ts <-> x ∈ class_tokens (el_className el)) by (intros; apply ordered_set_elem).
  assert (Hadd : class_tokens (serialize (if bool_decide (c ∈ ts) then ts else ts ++ [c])) =
                 if bool_decide (c ∈ ts) then ts else ts ++ [c]).
  { apply serialize_class_tokens. case_bool_decide; [exact Hts|]. apply Forall_app. auto. }
  assert (Hrem : class_tokens (serialize (filter (fun t => t ≠ c) ts)) = filter (fun t => t ≠ c) ts).
  { apply serialize_class_tokens, Forall_filter', Hts. }
  rewrite Hadd, Hrem. split; [reflexivity|]. split; [reflexivity|].
  split; [apply bool_decide_eq_true; case_bool_decide; set_solver|].
  split; [apply bool_decide_eq_false; rewrite list_elem_of_filter; tauto|].
  split.
  - intros Hne. split; apply bool_decide_ext; [case_bool_decide|rewrite list_elem_of_filter]; set_solver.
  - intros Hc. apply bool_decide_eq_true in Hc. rewrite bool_decide_true by (apply Hel; exact Hc).
    apply ordered_set_id, ordered_set_NoDup.
Qed.

Lemma css_class_ops_witness :
  has_class "hidden" (exec (addCSSClass "hidden") (mk_element true "about")) = true.
Proof.
  exact (proj1 (proj2 (proj2 (css_class_ops "hidden" "about" (mk_element true "about") eq_refl eq_refl)))).
Defined.

(** Error behaviour of the class helpers: with [classList], an
    empty class name throws a DOM [SyntaxError] and one containing
    whitespace an [InvalidCharacterError], before the element changes;
    the [className] fallback never throws. *)
Theorem css_class_errors (c : string) (el : Element) :
  (el_has_classList el = true -> valid_token c = false ->
   let e := match c with EmptyString => DOMSyntaxError | _ => InvalidCharacterError end in
   removeCSSClass c el = (Throw e, el) /\ addCSSClass c el = (Throw e, el)) /\
  (el_has_classList el = false ->
   outcome (removeCSSClass c) el = Ok tt /\ outcome (addCSSClass c) el = Ok tt).
Proof.
  split.
  - intros Hl Hv e. unfold removeCSSClass, addCSSClass. cbn [bind get]. rewrite Hl.
    unfold zoom, classList_remove, classList_add, bind, validate_token, e.
    destruct c as [|a c']; [split; destruct el; reflexivity|].
    change (all_chars not_space (String a c') = false) in Hv. rewrite Hv. split; destruct el; reflexivity.
  - intros Hl. unfold outcome. rewrite removeCSSClass_fallback, addCSSClass_fallback by exact Hl.
    split; reflexivity.
Qed.

Lemma css_class_errors_witness :
  removeCSSClass "" (mk_element true "hidden") = (Throw DOMSyntaxError, mk_element true "hidden").
Proof. exact (proj1 (proj1 (css_class_errors "" (mk_element true "hidden")) eq_refl eq_refl)). Defined.

(** (C38) Refinement and equivalence of the [className] fallback of
    [removeCSSClass]: for a non-empty class name of lowercase word
    characters and a [className] whose classes are lowercase word
    characters, replacing [(^|\b)c(\b|$)] by a space removes exactly
    the tokens equal to [c]; read as the DOM's token set, the result is
    the one of the [classList] branch. *)
Theorem removeCSSClass_fallback_refines (c s : string) :
  c <> EmptyString -> all_chars lower_word c = true -> all_chars class_char s = true ->
  class_tokens (el_className (exec (removeCSSClass c) (mk_element false s))) =
    filter (fun x => x ≠ c) (class_tokens s) /\
  ordered_set (class_tokens (el_className (exec (removeCSSClass c) (mk_element false s)))) =
    class_tokens (el_className (exec (removeCSSClass c) (mk_element true s))).
Proof.
  intros Hc0 Hc Hs. unfold exec.
  rewrite removeCSSClass_fallback, removeCSSClass_classList by auto using lower_valid.
  cbn [snd el_className with_className]. rewrite split_space_word by assumption.
  rewrite rx_replace_class_tokens by assumption. split; [reflexivity|].
  rewrite serialize_class_tokens by apply Forall_filter', token_set_valid.
  unfold ordered_set. rewrite ordered_set_go_filter. reflexivity.
Qed.

Lemma removeCSSClass_fallback_refines_witness :
  class_tokens (el_className (exec (removeCSSClass "hidden") (mk_element false "modal hidden"))) =
  filter (fun x => x ≠ "hidden"%string) (class_tokens "modal hidden").
Proof. apply removeCSSClass_fallback_refines; [discriminate|reflexivity|reflexivity]. Defined.

(** (C39) The fallback's pattern has the [i] flag: on an element
    without [classList], removing a class name written in upper case
    removes the same tokens as removing it as written, whatever the
    element's [className]. *)
Theorem removeCSSClass_fallback_case (c : string) (el : Element) :
  el_has_classList el = false -> removeCSSClass (str_upper c) el = removeCSSClass c el.
Proof.
  intros Hl. rewrite !removeCSSClass_fallback by exact Hl.
  rewrite split_space_upper, rx_replace_upper. reflexivity.
Qed.

Lemma removeCSSClass_fallback_case_witness :
  el_has_classList (mk_element false "modal hidden") = false /\
  removeCSSClass (str_upper "hidden") (mk_element false "modal hidden") =
  removeCSSClass "hidden" (mk_element false "modal hidden").
Proof. split; [reflexivity|]. apply removeCSSClass_fallback_case. reflexivity. Defined.

(** The [\b] of the fallback also matches inside a class name
    after a non-word character, and the [i] flag ignores case: removing
    ["hidden"] from ["x-hidden"] leaves a class ["x-"], and removes
    ["HIDDEN"], while the [classList] branch leaves both. *)
Lemma removeCSSClass_fallback_hyphen :
  class_tokens (el_className (exec (removeCSSClass "hidden") (mk_element false "x-hidden"))) = ["x-"%string] /\
  class_tokens (el_className (exec (removeCSSClass "hidden") (mk_element true "x-hidden"))) = ["x-hidden"%string] /\
  class_tokens (el_className (exec (removeCSSClass "hidden") (mk_element false "HIDDEN"))) = [] /\
  class_tokens (el_className (exec (removeCSSClass "hidden") (mk_element true "HIDDEN"))) = ["HIDDEN"%string].
Proof. vm_compute. auto. Qed.

(** The [className] fallback of [addCSSClass] appends the class
    as a new token, present or not; the [classList] branch never adds
    a class twice. *)
Theorem addCSSClass_fallback_tokens (c : string) (el : Element) :
  el_has_classList el = false -> valid_token c = true ->
  class_tokens (el_className (exec (addCSSClass c) el)) = class_tokens (el_className el) ++ [c].
Proof.
  intros Hl Hv. unfold exec. rewrite addCSSClass_fallback by exact Hl. cbn [snd el_className with_className].
  apply class_tokens_append, Hv.
Qed.

Lemma addCSSClass_fallback_tokens_witness :
  class_tokens (el_className (exec (addCSSClass "hidden") (mk_element false "hidden"))) =
  ["hidden"; "hidden"]%string.
Proof. exact (addCSSClass_fallback_tokens "hidden" (mk_element false "hidden") eq_refl eq_refl). Defined.

(** (C40) [asyncLoadScript] runs its callback at most once: in old IE,
    whatever [readyState] changes the browser fires, the callback runs
    once if ['loaded'] or ['complete'] is reached (the handler is reset
    to [null] then) and never otherwise; elsewhere it runs once per
    [load] event. *)
Theorem asyncLoadScript_callback_once (cb : bool) (url : string) (evs : list ScriptEvent) :
  sc_callbacks (script_events cb evs (asyncLoadScript true url)) =
    (if cb && existsb is_done evs then 1 else 0)%nat /\
  sc_callbacks (script_events cb evs (asyncLoadScript false url)) =
    (if cb then count_loads evs else 0)%nat.
Proof.
  split; [rewrite script_events_readystate|rewrite script_events_onload]; reflexivity.
Qed.

(** Both branches of [preventDefaultEvent] cancel the default action. *)
Lemma preventDefault_cancels (e : DomEvent) :
  default_cancelled (preventDefaultEvent e) = true.
Proof. destruct e as [[] [] ?]; reflexivity. Qed.

(** For [0 <= Math.random() < 1] and [min <= max],
    [getRandomInteger] returns an integer of [[min, max]], both ends
    included, as its comment says. *)
Theorem getRandomInteger_bounds (r : Q) (min max : Z) :
  0 <= r < 1 -> (min <= max)%Z ->
  (min <= getRandomInteger r min max <= max)%Z.
Proof.
  intros [Hr0 Hr1] Hmm. unfold getRandomInteger.
  set (n := (max - min + 1)%Z).
  assert (Hn : 0 < inject_Z n) by (unfold Qlt; simpl; lia).
  assert (H0 : 0 <= r * inject_Z n) by (apply Qmult_le_0_compat; lra).
  assert (H1 : r * inject_Z n < inject_Z n) by nra.
  pose proof (Qfloor_le (r * inject_Z n)) as Hle.
  pose proof (Qlt_floor (r * inject_Z n)) as Hlt.
  rewrite inject_Z_plus in Hlt.
  change (inject_Z 1) with 1 in Hlt.
  assert (Hlo : (-1 < Qfloor (r * inject_Z n))%Z)
    by (rewrite Zlt_Qlt; change (inject_Z (-1)) with (-1); lra).
  assert (Hhi : (Qfloor (r * inject_Z n) < n)%Z) by (rewrite Zlt_Qlt; lra).
  lia.
Qed.

Lemma getRandomInteger_bounds_witness :
  (0 <= 1 # 2 < 1 /\ (1 <= 6)%Z) /\ (1 <= getRandomInteger (1 # 2) 1 6 <= 6)%Z.
Proof.
  assert (H : 0 <= 1 # 2 < 1) by (unfold Qle, Qlt; simpl; lia).
  split; [split; [exact H|lia]|]. apply getRandomInteger_bounds; [exact H|lia].
Defined.

(** [getRandomArbitrary] stays in [[min, max)]. *)
Lemma getRandomArbitrary_bounds (r min max : Q) :
  0 <= r < 1 -> min < max -> min <= getRandomArbitrary r min max < max.
Proof. intros [] ?. unfold getRandomArbitrary. split; nra. Qed.

End Utils.
