(* ===== verification/JsString.v ===== *)
(** * JsString: JavaScript's printing of integers, and reading them back

    Two parts of the code print integers into strings and hand them to
    a reader: [LoadSceneState._generateTexture] builds a CSS color
    ['rgba(' + [255, g, b, a].join(',') + ')'] that the browser parses
    (Texture.v), and [getTimestamp] of [gulpfile.js] builds the version
    [[year, month, ...].join('-')] of the cache-busting URLs (Build.v).

    - [js_int_string] is [String(n)] on an integer: its decimal digits,
      with a minus sign when it is negative, through [Z.to_int] of the
      Standard Library; [js_join] is [Array.prototype.join(sep)].
    - [read_int] reads an optional minus sign and the longest run of
      digits (a run may start with zeros, as ["07"] does);
      [read_ints sep n] reads [n] integers separated by [sep].

    The lemmas show that what is printed reads back: [read_int_string]
    for one integer, [read_ints_join] for a joined list whose fields
    each read back. *)

From stdpp Require Import base list decidable.
From Stdlib Require Import ZArith String Ascii Lia.
From Stdlib Require Import DecimalZ DecimalPos.
From S2P Require Import Spec2Rocq Utils.

Module JsString.
Import Utils.

Local Open Scope string_scope.

(** ** [String(n)] on an integer, and [join] *)

Fixpoint uint_string (u : Decimal.uint) : string :=
  match u with
  | Decimal.Nil => EmptyString
  | Decimal.D0 u => String "0" (uint_string u)
  | Decimal.D1 u => String "1" (uint_string u)
  | Decimal.D2 u => String "2" (uint_string u)
  | Decimal.D3 u => String "3" (uint_string u)
  | Decimal.D4 u => String "4" (uint_string u)
  | Decimal.D5 u => String "5" (uint_string u)
  | Decimal.D6 u => String "6" (uint_string u)
  | Decimal.D7 u => String "7" (uint_string u)
  | Decimal.D8 u => String "8" (uint_string u)
  | Decimal.D9 u => String "9" (uint_string u)
  end.

Definition js_int_string (z : Z) : string :=
  match Z.to_int z with
  | Decimal.Pos u => uint_string u
  | Decimal.Neg u => String "-" (uint_string u)
  end.

(** [Array.prototype.join(sep)] on strings. *)
Fixpoint js_join (sep : string) (l : list string) : string :=
  match l with
  | [] => EmptyString
  | [x] => x
  | x :: l' => x ++ sep ++ js_join sep l'
  end.

(** ** Reading integers *)

Definition digit_of (c : ascii) : option (Decimal.uint -> Decimal.uint) :=
  match c with
  | "0" => Some Decimal.D0 | "1" => Some Decimal.D1 | "2" => Some Decimal.D2
  | "3" => Some Decimal.D3 | "4" => Some Decimal.D4 | "5" => Some Decimal.D5
  | "6" => Some Decimal.D6 | "7" => Some Decimal.D7 | "8" => Some Decimal.D8
  | "9" => Some Decimal.D9 | _ => None
  end%char.

(** The longest prefix of decimal digits, and the rest. *)
Fixpoint read_uint (s : string) : Decimal.uint * string :=
  match s with
  | String c s' =>
      match digit_of c with
      | Some d => let '(u, r) := read_uint s' in (d u, r)
      | None => (Decimal.Nil, s)
      end
  | EmptyString => (Decimal.Nil, EmptyString)
  end.

(** An integer: an optional minus sign and at least one digit. *)
Definition read_int (s : string) : option (Z * string) :=
  let '(neg, s1) := match s with String "-"%char s' => (true, s') | _ => (false, s) end in
  match read_uint s1 with
  | (Decimal.Nil, _) => None
  | (u, r) => Some (Z.of_int (if neg then Decimal.Neg u else Decimal.Pos u), r)
  end.

Fixpoint strip_prefix (p s : string) : option string :=
  match p, s with
  | EmptyString, _ => Some s
  | String a p', String b s' => if Ascii.eqb a b then strip_prefix p' s' else None
  | _, _ => None
  end.

(** [n >= 1] integers separated by [sep]. *)
Fixpoint read_ints (sep : string) (n : nat) (s : string) : option (list Z * string) :=
  match n with
  | O => Some ([], s)
  | S n' =>
      match read_int s with
      | None => None
      | Some (z, r) =>
          match n' with
          | O => Some ([z], r)
          | S _ =>
              match strip_prefix sep r with
              | None => None
              | Some r' =>
                  match read_ints sep n' r' with
                  | None => None
                  | Some (zs, r'') => Some (z :: zs, r'')
                  end
              end
          end
      end
  end.

(** ** Reading back what is printed *)

(** A string that does not go on with a digit. *)
Definition no_digit_next (r : string) : Prop :=
  forall c r', r = String c r' -> digit_of c = None.

(** [s] reads back as [z] whatever follows it, if that is not a digit. *)
Definition reads_as (s : string) (z : Z) : Prop :=
  forall r, no_digit_next r -> read_int (s ++ r) = Some (z, r).

Lemma read_uint_app (u : Decimal.uint) (r : string) :
  no_digit_next r -> read_uint (uint_string u ++ r) = (u, r).
Proof.
  intros Hr. induction u; cbn [uint_string].
  1: { change (EmptyString ++ r) with r. destruct r as [|c r']; [reflexivity|].
       cbn [read_uint]. rewrite (Hr c r' eq_refl). reflexivity. }
  all: rewrite append_cons; cbn [read_uint digit_of]; rewrite IHu; reflexivity.
Qed.

Lemma read_int_pos (u : Decimal.uint) (r : string) :
  u <> Decimal.Nil -> no_digit_next r ->
  read_int (uint_string u ++ r) = Some (Z.of_int (Decimal.Pos u), r).
Proof.
  intros Hu Hr. destruct u; [contradiction| ..];
    unfold read_int; cbn [uint_string]; rewrite append_cons; cbn;
    rewrite read_uint_app by exact Hr; reflexivity.
Qed.

Lemma read_int_neg (u : Decimal.uint) (r : string) :
  u <> Decimal.Nil -> no_digit_next r ->
  read_int (String "-" (uint_string u ++ r)) = Some (Z.of_int (Decimal.Neg u), r).
Proof.
  intros Hu Hr. unfold read_int. cbn. rewrite read_uint_app by exact Hr.
  destruct u; [contradiction| ..]; reflexivity.
Qed.

(** [String(z)] reads back as [z]. *)
Lemma read_int_string (z : Z) : reads_as (js_int_string z) z.
Proof.
  intros r Hr. unfold js_int_string.
  destruct z as [|p|p]; cbn [Z.to_int].
  - rewrite read_int_pos by (discriminate || exact Hr). reflexivity.
  - rewrite read_int_pos by (apply DecimalPos.Unsigned.to_uint_nonnil || exact Hr).
    exact (f_equal (fun z => Some (z, r)) (DecimalZ.of_to (Zpos p))).
  - rewrite append_cons, read_int_neg by (apply DecimalPos.Unsigned.to_uint_nonnil || exact Hr).
    exact (f_equal (fun z => Some (z, r)) (DecimalZ.of_to (Zneg p))).
Qed.

Lemma strip_prefix_app (p r : string) : strip_prefix p (p ++ r) = Some r.
Proof. induction p as [|a p IH]; [reflexivity|]. rewrite append_cons. cbn. rewrite Ascii.eqb_refl. exact IH. Qed.

Lemma no_digit_sep (c : ascii) (sep r : string) :
  digit_of c = None -> no_digit_next (String c sep ++ r).
Proof. intros Hc c' r'. rewrite append_cons. intros [= <- _]. exact Hc. Qed.

Lemma js_join_cons2 (sep x y : string) (l : list string) :
  js_join sep (x :: y :: l) = x ++ sep ++ js_join sep (y :: l).
Proof. reflexivity. Qed.

Lemma read_ints_SS (sep : string) (n : nat) (s : string) :
  read_ints sep (S (S n)) s =
  match read_int s with
  | None => None
  | Some (z, r) =>
      match strip_prefix sep r with
      | None => None
      | Some r' => match read_ints sep (S n) r' with None => None | Some (zs, r'') => Some (z :: zs, r'') end
      end
  end.
Proof. reflexivity. Qed.

(** Fields that each read back, joined with a separator that does not
    start with a digit, read back field by field. *)
Lemma read_ints_join (c : ascii) (sep : string) (ss : list string) (zs : list Z) (r : string) :
  digit_of c = None -> Forall2 reads_as ss zs -> zs <> [] -> no_digit_next r ->
  read_ints (String c sep) (List.length zs) (js_join (String c sep) ss ++ r) = Some (zs, r).
Proof.
  intros Hc Hf. revert r. induction Hf as [|s z ss' zs' Hs Hf IH]; [contradiction|].
  intros r _ Hr. destruct Hf as [|s' z' ss'' zs'' Hs' Hf'].
  - cbn [List.length js_join read_ints]. rewrite Hs by exact Hr. reflexivity.
  - change (List.length (z :: z' :: zs'')) with (S (S (List.length zs''))).
    rewrite js_join_cons2, read_ints_SS, append_assoc', append_assoc', Hs by apply no_digit_sep, Hc.
    rewrite strip_prefix_app. cbn [List.length] in IH. rewrite IH by (discriminate || exact Hr). reflexivity.
Qed.

Lemma Forall2_reads_as_string (zs : list Z) : Forall2 reads_as (map js_int_string zs) zs.
Proof. induction zs; constructor; [apply read_int_string|assumption]. Qed.

End JsString.
