(* ===== verification/CacheBust.v ===== *)
(** * CacheBust: the versioned URLs of the [minify:html] task

    [src/gulpfile.js], lines 76-89 and 164-184. [getTimestamp] prints
    the date of the build as [year-MM-DD-hh-mm-ss]; [minify:html]
    rewrites the three asset references of the markup,
    [style.min.css?v=...], [libraries.min.js?v=...] and
    [main.min.js?v=...], with [String.prototype.replace] and the global
    regular expressions of lines 172-174, so that browsers fetch the
    new assets instead of their cached copies.

    - [JsDate] is the [new Date()] of line 77, through its six getters;
      [pad2] is [('0' + n).slice(-2)].
    - [rx_of] reads the source of a RegExp literal into atoms: a literal
      character, [.] (any character but a line terminator) and the group
      [[0-9]*] in parentheses; [match_at] is the backtracking matcher of those
      atoms, [rx_replace] the global replace, which scans left to right
      and skips what a match consumed (a skip counter, as
      [Utils.rx_replace] does).

    The theorems: the timestamp reads back as the date (so two builds in
    different seconds write different versions); the replacement is the
    leftmost, non-overlapping rewrite of a reference specification
    [replaced]; a reference with a numeric version is rewritten to the
    timestamp; a version written by this task is not a numeric version,
    so the task run on its own output keeps the old version's tail; the
    unescaped dots match any character. *)

From stdpp Require Import base list decidable.
From Stdlib Require Import ZArith String Ascii Lia.
From S2P Require Import Spec2Rocq Utils JsString.

Module CacheBust.
Import Utils JsString.

Local Open Scope string_scope.

(** ** [getTimestamp] (lines 76-89) *)

(** [new Date()] through the getters the code calls ([getMonth] counts
    from 0). *)
Record JsDate := mk_date {
  getFullYear : Z;
  getMonth : Z;
  getDate : Z;
  getHours : Z;
  getMinutes : Z;
  getSeconds : Z
}.

(** The ranges of the getters of a [Date] (a year is any integer). *)
Definition valid_date (d : JsDate) : bool :=
  (0 <=? getMonth d)%Z && (getMonth d <=? 11)%Z && (1 <=? getDate d)%Z && (getDate d <=? 31)%Z &&
  (0 <=? getHours d)%Z && (getHours d <=? 23)%Z && (0 <=? getMinutes d)%Z && (getMinutes d <=? 59)%Z &&
  (0 <=? getSeconds d)%Z && (getSeconds d <=? 59)%Z.

(** [String.prototype.slice(-2)]: from [max(length - 2, 0)] to the end. *)
Definition slice_neg2 (s : string) : string := substring (String.length s - 2) 2 s.

(** [('0' + n).slice(-2)] *)
Definition pad2 (n : Z) : string := slice_neg2 ("0" ++ js_int_string n).

Definition getTimestamp (now : JsDate) : string :=
  js_join "-"
    [js_int_string (getFullYear now); pad2 (getMonth now + 1); pad2 (getDate now);
     pad2 (getHours now); pad2 (getMinutes now); pad2 (getSeconds now)].

(** What follows the year in the timestamp. *)
Definition timestamp_tail (now : JsDate) : string :=
  String "-" (js_join "-"
    [pad2 (getMonth now + 1); pad2 (getDate now); pad2 (getHours now); pad2 (getMinutes now); pad2 (getSeconds now)]).

(** Reading a version back: six integers separated by dashes. *)
Definition parse_timestamp (s : string) : option (list Z) :=
  match read_ints "-" 6 s with
  | Some (l, EmptyString) => Some l
  | _ => None
  end.

(** ** The RegExp literals of lines 172-174 *)

(** The atoms the three literals use. *)
Inductive RxAtom :=
| RxChar (c : ascii)   (** a character, or an escaped one such as [\?] *)
| RxAny                (** [.] *)
| RxDigits.            (** the capturing group of [[0-9]*] *)

(** The source of a literal read into atoms. *)
Fixpoint rx_of (s : string) : list RxAtom :=
  match s with
  | EmptyString => []
  | String "\"%char (String c s') => RxChar c :: rx_of s'
  | String "."%char s' => RxAny :: rx_of s'
  | String "("%char (String "["%char (String "0"%char (String "-"%char (String "9"%char
      (String "]"%char (String "*"%char (String ")"%char s'))))))) => RxDigits :: rx_of s'
  | String c s' => RxChar c :: rx_of s'
  end.

(** [.] matches any character but a line terminator. *)
Definition is_line_terminator (c : ascii) : bool := Ascii.eqb c "010"%char || Ascii.eqb c "013"%char.

Definition is_digit (c : ascii) : bool := match digit_of c with Some _ => true | None => false end.

(** [[0-9]*] then [k]: greedy, it gives back digits when [k] fails. *)
Fixpoint digits_then (k : string -> option string) (s : string) : option string :=
  match s with
  | String c s' =>
      if is_digit c then
        match digits_then k s' with Some r => Some r | None => k s end
      else k s
  | EmptyString => k s
  end.

(** The match of [p] at the start of [s]: the rest of [s] after the
    match. *)
Fixpoint match_at (p : list RxAtom) (s : string) : option string :=
  match p with
  | [] => Some s
  | RxChar c :: p' =>
      match s with
      | String c' s' => if Ascii.eqb c c' then match_at p' s' else None
      | EmptyString => None
      end
  | RxAny :: p' =>
      match s with
      | String c' s' => if is_line_terminator c' then None else match_at p' s'
      | EmptyString => None
      end
  | RxDigits :: p' => digits_then (match_at p') s
  end.

(** [s.replace(/p/g, rep)] with a replacement without [$]: at each
    position the match, if any, is replaced, and the scan goes on after
    it ([skip] characters); after an empty match the character is
    copied. *)
Fixpoint rx_replace_go (p : list RxAtom) (rep : string) (skip : nat) (s : string) : string :=
  match s with
  | EmptyString =>
      match skip, match_at p EmptyString with
      | O, Some _ => rep
      | _, _ => EmptyString
      end
  | String a s' =>
      match skip with
      | S k => rx_replace_go p rep k s'
      | O =>
          match match_at p s with
          | Some r =>
              match String.length s - String.length r with
              | O => rep ++ String a (rx_replace_go p rep 0 s')
              | S n => rep ++ rx_replace_go p rep n s'
              end
          | None => String a (rx_replace_go p rep 0 s')
          end
      end
  end.

Definition rx_replace (p : list RxAtom) (rep : string) (s : string) : string := rx_replace_go p rep 0 s.

(** ** [minify:html] (lines 164-184) *)

(** The three versioned assets, in the order of the replacements. *)
Inductive Asset := StyleCss | LibrariesJs | MainJs.

#[export] Instance Asset_eq_dec : EqDecision Asset.
Proof. solve_decision. Defined.

Definition asset_url (a : Asset) : string :=
  match a with
  | StyleCss => "style.min.css?v="
  | LibrariesJs => "libraries.min.js?v="
  | MainJs => "main.min.js?v="
  end.

Definition asset_rx (a : Asset) : list RxAtom :=
  match a with
  | StyleCss => rx_of "style.min.css\?v=([0-9]*)"
  | LibrariesJs => rx_of "libraries.min.js\?v=([0-9]*)"
  | MainJs => rx_of "main.min.js\?v=([0-9]*)"
  end.

(** [.pipe(replace(/.../g, '...?v=' + timestamp))] *)
Definition version_asset (timestamp : string) (a : Asset) (html : string) : string :=
  rx_replace (asset_rx a) (asset_url a ++ timestamp) html.

(** The three replacements of lines 172-174, in order. *)
Definition cache_bust (timestamp html : string) : string :=
  version_asset timestamp MainJs (version_asset timestamp LibrariesJs (version_asset timestamp StyleCss html)).

(** The ECMAScript scan of a global replace, as a relation: at each
    position, a match is replaced and the scan goes on after it (after
    the next character when the match is empty); otherwise the
    character is kept. *)
Inductive replaced (p : list RxAtom) (rep : string) : string -> string -> Prop :=
| rp_end_none : match_at p EmptyString = None -> replaced p rep EmptyString EmptyString
| rp_end_match r : match_at p EmptyString = Some r -> replaced p rep EmptyString rep
| rp_skip a s t : match_at p (String a s) = None -> replaced p rep s t -> replaced p rep (String a s) (String a t)
| rp_empty a s t :
    match_at p (String a s) = Some (String a s) -> replaced p rep s t -> replaced p rep (String a s) (rep ++ String a t)
| rp_match u r t :
    u <> EmptyString -> match_at p (u ++ r) = Some r -> replaced p rep r t -> replaced p rep (u ++ r) (rep ++ t).

(** ** Reading the timestamp back *)

(** The two digits [pad2] prints for [0 <= n <= 99]. *)
Definition two_digits (n : Z) : Decimal.uint :=
  if (n <? 10)%Z then Decimal.D0 (N.to_uint (Z.to_N n)) else N.to_uint (Z.to_N n).

Definition pad2_ok (n : Z) : bool :=
  String.eqb (pad2 n) (uint_string (two_digits n)) &&
  (Z.of_int (Decimal.Pos (two_digits n)) =? n)%Z &&
  negb (match two_digits n with Decimal.Nil => true | _ => false end).

Lemma forallb_Z_range (f : Z -> bool) (lo : Z) (n : nat) :
  forallb f (map (fun k => lo + Z.of_nat k)%Z (seq 0 n)) = true ->
  forall z, (lo <= z < lo + Z.of_nat n)%Z -> f z = true.
Proof.
  intros Hf z Hz. rewrite forallb_forall in Hf. apply Hf, in_map_iff.
  exists (Z.to_nat (z - lo)). split; [lia|]. apply in_seq. lia.
Qed.

Lemma pad2_ok_range (n : Z) : (0 <= n <= 99)%Z -> pad2_ok n = true.
Proof. intros Hn. apply (forallb_Z_range pad2_ok 0 100); [vm_compute; reflexivity|lia]. Qed.

(** [pad2 n] reads back as [n] for [0 <= n <= 99]. *)
Lemma pad2_reads (n : Z) : (0 <= n <= 99)%Z -> reads_as (pad2 n) n.
Proof.
  intros Hn r Hr. pose proof (pad2_ok_range n Hn) as H. unfold pad2_ok in H.
  apply andb_true_iff in H as [H Hnil]. apply andb_true_iff in H as [Hs Hv].
  apply String.eqb_eq in Hs. apply Z.eqb_eq in Hv. rewrite Hs, read_int_pos; [congruence| |exact Hr].
  destruct (two_digits n); [discriminate|..]; discriminate.
Qed.

Lemma valid_date_ranges (d : JsDate) :
  valid_date d = true ->
  (0 <= getMonth d + 1 <= 99 /\ 0 <= getDate d <= 99 /\ 0 <= getHours d <= 99 /\
   0 <= getMinutes d <= 99 /\ 0 <= getSeconds d <= 99)%Z.
Proof. unfold valid_date. intros H. repeat rewrite andb_true_iff in H. rewrite !Z.leb_le in H. lia. Qed.

Lemma no_digit_empty : no_digit_next EmptyString.
Proof. intros c r' [=]. Qed.

Lemma timestamp_fields (d : JsDate) :
  valid_date d = true ->
  Forall2 reads_as
    [js_int_string (getFullYear d); pad2 (getMonth d + 1); pad2 (getDate d);
     pad2 (getHours d); pad2 (getMinutes d); pad2 (getSeconds d)]
    [getFullYear d; getMonth d + 1; getDate d; getHours d; getMinutes d; getSeconds d]%Z.
Proof.
  intros Hd. destruct (valid_date_ranges d Hd) as (H1 & H2 & H3 & H4 & H5).
  repeat constructor; (apply read_int_string || apply pad2_reads; assumption).
Qed.

(** The timestamp reads back as the six fields of the date. *)
Lemma parse_getTimestamp (d : JsDate) :
  valid_date d = true ->
  parse_timestamp (getTimestamp d) =
    Some [getFullYear d; getMonth d + 1; getDate d; getHours d; getMinutes d; getSeconds d]%Z.
Proof.
  intros Hd. unfold parse_timestamp, getTimestamp. rewrite <- (append_nil_r (js_join _ _)).
  pose proof (read_ints_join "-" "" _ _ EmptyString eq_refl (timestamp_fields d Hd)) as E.
  cbn [List.length] in E. rewrite E; [reflexivity|discriminate|exact no_digit_empty].
Qed.

(** ** The global replace *)

Lemma append_nil_l (s : string) : EmptyString ++ s = s.
Proof. reflexivity. Qed.

Lemma length_append_s (u r : string) : String.length (u ++ r) = String.length u + String.length r.
Proof. induction u as [|a u IH]; [reflexivity|]. rewrite append_cons. cbn. congruence. Qed.

Lemma digits_then_suffix (k : string -> option string) (s r : string) :
  (forall s r, k s = Some r -> exists u, s = u ++ r) ->
  digits_then k s = Some r -> exists u, s = u ++ r.
Proof.
  intros Hk. induction s as [|a s IH]; cbn; [apply Hk|].
  destruct (is_digit a); [|apply Hk]. destruct (digits_then k s); [|apply Hk].
  intros [= ->]. destruct IH as [u ->]; [reflexivity|]. exists (String a u). reflexivity.
Qed.

(** A match consumes a prefix. *)
Lemma match_at_suffix (p : list RxAtom) (s r : string) : match_at p s = Some r -> exists u, s = u ++ r.
Proof.
  revert s r. induction p as [|[c| |] p IH]; intros s r H; cbn in H.
  - injection H as ->. exists EmptyString. reflexivity.
  - destruct s as [|a s]; [discriminate|]. destruct (Ascii.eqb c a); [|discriminate].
    destruct (IH _ _ H) as [u ->]. exists (String a u). reflexivity.
  - destruct s as [|a s]; [discriminate|]. destruct (is_line_terminator a); [discriminate|].
    destruct (IH _ _ H) as [u ->]. exists (String a u). reflexivity.
  - exact (digits_then_suffix _ _ _ IH H).
Qed.

Lemma rx_replace_go_skip (p : list RxAtom) (rep u r : string) :
  rx_replace_go p rep (String.length u) (u ++ r) = rx_replace_go p rep 0 r.
Proof. induction u as [|a u IH]; [reflexivity|]. rewrite append_cons. exact IH. Qed.

Lemma length_sub_prefix (b : ascii) (u r : string) :
  String.length (String b u ++ r) - String.length r = S (String.length u).
Proof. rewrite length_append_s. cbn. lia. Qed.

(** The skip counter implements the scan: [rx_replace] is a
    [replaced] rewrite. *)
Lemma rx_replace_replaced (p : list RxAtom) (rep s : string) : replaced p rep s (rx_replace p rep s).
Proof.
  remember (String.length s) as n eqn:Hn. revert s Hn.
  induction n as [n IH] using lt_wf_ind. intros [|a s'] Hn; unfold rx_replace; cbn [rx_replace_go].
  - destruct (match_at p EmptyString) eqn:E; econstructor; eauto.
  - destruct (match_at p (String a s')) as [r|] eqn:E.
    + destruct (match_at_suffix _ _ _ E) as [[|b u] Hu].
      * rewrite append_nil_l in Hu. subst r. rewrite Nat.sub_diag.
        apply rp_empty; [exact E|]. apply (IH (String.length s')); [cbn in Hn; lia|reflexivity].
      * rewrite Hu, length_sub_prefix. rewrite append_cons in Hu. injection Hu as -> ->.
        rewrite rx_replace_go_skip. change (String b (u ++ r)) with (String b u ++ r) in E |- *.
        apply rp_match; [discriminate|exact E|].
        apply (IH (String.length r)); [|reflexivity]. subst n. cbn. rewrite length_append_s. lia.
    + apply rp_skip; [exact E|]. apply (IH (String.length s')); [cbn in Hn; lia|reflexivity].
Qed.

Lemma replaced_rx_replace (p : list RxAtom) (rep s t : string) : replaced p rep s t -> rx_replace p rep s = t.
Proof.
  unfold rx_replace. induction 1 as [H|r H|a s t H _ IH|a s t H _ IH|[|b u] r t Hu H _ IH];
    cbn [rx_replace_go]; try rewrite H.
  - reflexivity.
  - reflexivity.
  - rewrite IH. reflexivity.
  - rewrite Nat.sub_diag, IH. reflexivity.
  - contradiction.
  - rewrite append_cons in H |- *. cbn [rx_replace_go]. rewrite H.
    rewrite <- append_cons, length_sub_prefix, rx_replace_go_skip, IH. reflexivity.
Qed.

(** A match consumed at the start of the input. *)
Lemma rx_replace_prefix (p : list RxAtom) (rep u r : string) :
  u <> EmptyString -> match_at p (u ++ r) = Some r -> rx_replace p rep (u ++ r) = rep ++ rx_replace p rep r.
Proof. intros Hu H. apply replaced_rx_replace, rp_match; [exact Hu|exact H|apply rx_replace_replaced]. Qed.

(** ** What the replacements do to a reference *)

Lemma uint_string_digits (u : Decimal.uint) : all_chars is_digit (uint_string u) = true.
Proof. induction u; cbn; auto. Qed.

Lemma js_int_string_digits (y : Z) : (0 <= y)%Z -> all_chars is_digit (js_int_string y) = true.
Proof. intros Hy. unfold js_int_string. destruct y; [reflexivity|apply uint_string_digits|lia]. Qed.

Lemma pad2_digits (n : Z) : (0 <= n <= 99)%Z -> all_chars is_digit (pad2 n) = true.
Proof.
  intros Hn. pose proof (pad2_ok_range n Hn) as H. unfold pad2_ok in H.
  apply andb_true_iff in H as [H _]. apply andb_true_iff in H as [Hs _].
  apply String.eqb_eq in Hs. rewrite Hs. apply uint_string_digits.
Qed.

Lemma all_chars_js_join (f : ascii -> bool) (sep : string) (l : list string) :
  all_chars f sep = true -> Forall (fun x => all_chars f x = true) l -> all_chars f (js_join sep l) = true.
Proof.
  intros Hs Hl. induction Hl as [|x l Hx Hl IH]; [reflexivity|].
  destruct l as [|y l]; [exact Hx|]. rewrite js_join_cons2. apply all_chars_app. split; [exact Hx|].
  apply all_chars_app. split; [exact Hs|exact IH].
Qed.

Definition digit_or_dash (c : ascii) : bool := is_digit c || Ascii.eqb c "-"%char.

Lemma timestamp_tail_chars (d : JsDate) :
  valid_date d = true -> all_chars digit_or_dash (timestamp_tail d) = true.
Proof.
  intros Hd. destruct (valid_date_ranges d Hd) as (H1 & H2 & H3 & H4 & H5).
  cbn [timestamp_tail all_chars]. apply all_chars_js_join; [reflexivity|].
  repeat constructor; (eapply all_chars_impl; [|apply pad2_digits; eassumption]);
    intros c Hc; unfold digit_or_dash; rewrite Hc; reflexivity.
Qed.

Lemma getTimestamp_split (d : JsDate) : getTimestamp d = js_int_string (getFullYear d) ++ timestamp_tail d.
Proof. reflexivity. Qed.

Lemma digits_then_all (k : string -> option string) (ds b r : string) :
  all_chars is_digit ds = true -> no_digit_next b -> k b = Some r -> digits_then k (ds ++ b) = Some r.
Proof.
  intros Hds Hb Hk. induction ds as [|c ds IH].
  - rewrite append_nil_l. destruct b as [|c b']; [exact Hk|].
    cbn [digits_then]. unfold is_digit. rewrite (Hb c b' eq_refl). exact Hk.
  - cbn in Hds. apply andb_true_iff in Hds as [Hc Hds]. rewrite append_cons. cbn [digits_then].
    rewrite Hc, IH by exact Hds. reflexivity.
Qed.

(** Each pattern matches its URL and the digits of a version. *)
Lemma match_asset (a : Asset) (ds b : string) :
  all_chars is_digit ds = true -> no_digit_next b -> match_at (asset_rx a) (asset_url a ++ ds ++ b) = Some b.
Proof.
  intros Hds Hb. destruct a; unfold asset_url; rewrite ?append_cons, append_nil_l; cbn;
    apply digits_then_all; auto.
Qed.

Lemma asset_url_app_nonempty (a : Asset) (ds : string) : asset_url a ++ ds <> EmptyString.
Proof. destruct a; unfold asset_url; rewrite append_cons; discriminate. Qed.

(** The first character of each pattern is a letter. *)
Definition asset_head (a : Asset) : ascii :=
  match a with StyleCss => "s" | LibrariesJs => "l" | MainJs => "m" end%char.

Lemma asset_rx_head (a : Asset) : exists p', asset_rx a = RxChar (asset_head a) :: p'.
Proof. destruct a; eexists; reflexivity. Qed.

(** A pattern whose first character is absent from [s] leaves it as it is. *)
Lemma rx_replace_absent (c : ascii) (p' : list RxAtom) (rep s : string) :
  all_chars (fun x => negb (Ascii.eqb c x)) s = true -> rx_replace (RxChar c :: p') rep s = s.
Proof.
  unfold rx_replace. induction s as [|a s IH]; [reflexivity|]. cbn [all_chars].
  intros H. apply andb_true_iff in H as [Ha H]. apply negb_true_iff in Ha.
  cbn [rx_replace_go match_at]. rewrite Ha, IH by exact H. reflexivity.
Qed.

Lemma version_asset_tail (ts : string) (a : Asset) (d : JsDate) :
  valid_date d = true -> version_asset ts a (timestamp_tail d) = timestamp_tail d.
Proof.
  intros Hd. unfold version_asset. destruct (asset_rx_head a) as [p' ->].
  apply rx_replace_absent. eapply all_chars_impl; [|exact (timestamp_tail_chars d Hd)].
  intros c. unfold digit_or_dash. destruct a; cbn [asset_head]; destruct c as [[] [] [] [] [] [] [] []]; cbn; auto.
Qed.

(** The dots of the literals are not escaped: any character but a line
    terminator takes their place. *)
Lemma match_asset_any_dot (c1 c2 : ascii) (ds b : string) :
  is_line_terminator c1 = false -> is_line_terminator c2 = false ->
  all_chars is_digit ds = true -> no_digit_next b ->
  match_at (asset_rx MainJs) ("main" ++ String c1 ("min" ++ String c2 ("js?v=" ++ ds ++ b))) = Some b.
Proof.
  intros H1 H2 Hds Hb. rewrite ?append_cons, ?append_nil_l. cbn. rewrite H1, H2. apply digits_then_all; auto.
Qed.

Lemma getTimestamp_inj (d1 d2 : JsDate) :
  valid_date d1 = true -> valid_date d2 = true -> getTimestamp d1 = getTimestamp d2 -> d1 = d2.
Proof.
  intros H1 H2 E. pose proof (parse_getTimestamp d1 H1) as P1. rewrite E, parse_getTimestamp in P1 by exact H2.
  injection P1 as Y M D h m sec. destruct d1, d2; cbn in *. f_equal; lia.
Qed.

(** ** Properties *)

(** (C17) [getTimestamp] is a faithful version: for every date the
    [Date] getters can return, the string reads back, field by field,
    as the year, the month counted from 1, the day, the hours, the
    minutes and the seconds, so two builds made in different seconds
    write different versions. *)
Theorem getTimestamp_roundtrip (d : JsDate) :
  valid_date d = true ->
  parse_timestamp (getTimestamp d) =
    Some [getFullYear d; getMonth d + 1; getDate d; getHours d; getMinutes d; getSeconds d]%Z /\
  (forall d', valid_date d' = true -> getTimestamp d' = getTimestamp d -> d' = d).
Proof.
  intros Hd. split; [exact (parse_getTimestamp d Hd)|].
  intros d' Hd' E. exact (getTimestamp_inj d' d Hd' Hd E).
Qed.

Lemma getTimestamp_roundtrip_witness :
  valid_date (mk_date 2015 5 1 12 0 7) = true /\
  parse_timestamp (getTimestamp (mk_date 2015 5 1 12 0 7)) = Some [2015; 6; 1; 12; 0; 7]%Z.
Proof.
  split; [reflexivity|]. exact (proj1 (getTimestamp_roundtrip (mk_date 2015 5 1 12 0 7) eq_refl)).
Defined.

(** The global [replace] of the code is the ECMAScript scan: the
    string [rx_replace] computes is exactly the one obtained by
    replacing, from left to right, each leftmost match and going on
    after it (after the next character when the match is empty). *)
Lemma rx_replace_spec (p : list RxAtom) (rep s t : string) :
  replaced p rep s t <-> rx_replace p rep s = t.
Proof. split; [apply replaced_rx_replace|intros <-; apply rx_replace_replaced]. Qed.

(** (C18) [minify:html] versions a reference: in markup where an asset
    URL [style.min.css?v=], [libraries.min.js?v=] or [main.min.js?v=]
    carries a numeric version followed by something else than a digit,
    its replacement writes the URL with the build's timestamp instead,
    and goes on after the old version. *)
Theorem version_asset_numeric (ts : string) (a : Asset) (ds b : string) :
  all_chars is_digit ds = true -> no_digit_next b ->
  version_asset ts a (asset_url a ++ ds ++ b) = asset_url a ++ ts ++ version_asset ts a b.
Proof.
  intros Hds Hb. unfold version_asset. rewrite <- append_assoc', rx_replace_prefix, append_assoc'.
  - reflexivity.
  - apply asset_url_app_nonempty.
  - rewrite append_assoc'. apply match_asset; assumption.
Qed.

Lemma version_asset_numeric_witness :
  all_chars is_digit "1" = true /\ no_digit_next "></script>" /\
  version_asset "2015-06-01-12-00-07" MainJs "main.min.js?v=1></script>" =
    "main.min.js?v=2015-06-01-12-00-07></script>".
Proof.
  assert (Hb : no_digit_next "></script>") by (intros c r' [= <- _]; reflexivity).
  split; [reflexivity|split; [exact Hb|]].
  change "main.min.js?v=1></script>" with (asset_url MainJs ++ "1" ++ "></script>").
  rewrite (version_asset_numeric "2015-06-01-12-00-07" MainJs "1" "></script>" eq_refl Hb).
  vm_compute. reflexivity.
Defined.

(** (C24) The version the task writes is not a version its patterns
    read: run on markup that already carries a timestamp of a build
    (a year of four digits, then dashes), a pattern consumes the year
    only, so the new reference is followed by the old month, day,
    hours, minutes and seconds. *)
Theorem version_asset_rerun (ts : string) (a : Asset) (d : JsDate) :
  valid_date d = true -> (0 <= getFullYear d)%Z ->
  version_asset ts a (asset_url a ++ getTimestamp d) = asset_url a ++ ts ++ timestamp_tail d.
Proof.
  intros Hd Hy. rewrite getTimestamp_split. unfold version_asset at 1.
  rewrite <- append_assoc', rx_replace_prefix, append_assoc'.
  - f_equal. f_equal. apply version_asset_tail, Hd.
  - apply asset_url_app_nonempty.
  - rewrite append_assoc'. apply match_asset; [apply js_int_string_digits, Hy|]. intros c r' [= <- _]. reflexivity.
Qed.

Lemma version_asset_rerun_witness :
  valid_date (mk_date 2015 5 1 12 0 7) = true /\ (0 <= 2015)%Z /\
  version_asset "2016-01-02-03-04-05" StyleCss (asset_url StyleCss ++ getTimestamp (mk_date 2015 5 1 12 0 7)) =
    "style.min.css?v=2016-01-02-03-04-05-06-01-12-00-07".
Proof.
  split; [reflexivity|split; [lia|]].
  rewrite (version_asset_rerun "2016-01-02-03-04-05" StyleCss (mk_date 2015 5 1 12 0 7) eq_refl) by (cbn; lia).
  vm_compute. reflexivity.
Defined.

End CacheBust.
