(* ===== verification/Glob.v ===== *)
(** * Glob: the file patterns of [gulpfile.js]

    [gulp.src] and [gulp.watch] select files by the patterns of [PATHS]
    (lines 50-63) and the literal lists of the tasks, through the
    minimatch library. The patterns of the code use: [./] at the
    start, [**] for any number of directories, [*] inside a name, and
    one brace group [{png,gif,jpg,jpeg}]. This file models that subset:

    - a path is the list of its segments ([split_path] drops [.] and
      empty segments, so ["./src/js/main.js"] is [src; js; main.js]);
    - [seg_toks] reads one segment of a pattern into tokens: a
      character, [*], or a brace group of alternatives (minimatch
      expands braces first, which is the same as trying each
      alternative in place when, as here, groups do not nest);
    - [glob_match] matches a path: [**] takes any number of segments,
      a segment pattern matches one segment. As minimatch does without
      its [dot] option, neither [*] nor [**] matches a name that starts
      with a dot;
    - [glob_base] is the part of a pattern before its first magic
      segment (glob-parent): the output of [gulp.dest] is the path
      relative to it.

    The lemmas: a pattern without magic characters matches its own
    path only, and a path that [*.ext] matches ends with [.ext]. *)

From stdpp Require Import base list decidable.
From Stdlib Require Import String Ascii Lia.
From S2P Require Import Spec2Rocq Utils JsString.

Module Glob.
Import Utils JsString.

Local Open Scope string_scope.

(** ** Paths *)

(** The segments of a path, split at ['/']. *)
Fixpoint split_at_slash (s : string) : string * list string :=
  match s with
  | EmptyString => (EmptyString, [])
  | String c s' =>
      let '(cur, rest) := split_at_slash s' in
      if Ascii.eqb c "/"%char then (EmptyString, cur :: rest) else (String c cur, rest)
  end.

Definition split_path (s : string) : list string :=
  let '(first, rest) := split_at_slash s in
  List.filter (fun seg => negb (String.eqb seg "" || String.eqb seg ".")) (first :: rest).

(** ** Patterns *)

Inductive Tok :=
| TChar (c : ascii)
| TStar
| TAlt (alts : list string).

Inductive GSeg :=
| GGlobstar              (** a segment [**] *)
| GPart (ts : list Tok). (** any other segment *)

(** One segment of a pattern; [alt] is the brace group being read:
    the alternatives read so far and the current one. *)
Fixpoint seg_toks (s : string) (alt : option (list string * string)) : list Tok :=
  match s, alt with
  | EmptyString, _ => []
  | String c s', None =>
      if Ascii.eqb c "*"%char then TStar :: seg_toks s' None
      else if Ascii.eqb c "{"%char then seg_toks s' (Some ([], EmptyString))
      else TChar c :: seg_toks s' None
  | String c s', Some (done, cur) =>
      if Ascii.eqb c "}"%char then TAlt (done ++ [cur])%list :: seg_toks s' None
      else if Ascii.eqb c ","%char then seg_toks s' (Some ((done ++ [cur])%list, EmptyString))
      else seg_toks s' (Some (done, cur ++ String c EmptyString))
  end.

Definition parse_seg (seg : string) : GSeg :=
  if String.eqb seg "**" then GGlobstar else GPart (seg_toks seg None).

Definition parse_glob (g : string) : list GSeg := map parse_seg (split_path g).

(** ** Matching *)

(** A segment pattern against a name. *)
Fixpoint seg_match (ts : list Tok) (s : string) : bool :=
  match ts with
  | [] => String.eqb s ""
  | TChar c :: ts' =>
      match s with
      | String c' s' => Ascii.eqb c c' && seg_match ts' s'
      | EmptyString => false
      end
  | TStar :: ts' =>
      (fix star (s : string) : bool :=
         seg_match ts' s || match s with String _ s' => star s' | EmptyString => false end) s
  | TAlt alts :: ts' =>
      existsb (fun a => match strip_prefix a s with Some r => seg_match ts' r | None => false end) alts
  end.

Definition starts_with_dot (s : string) : bool :=
  match s with String c _ => Ascii.eqb c "."%char | EmptyString => false end.

(** A name starting with a dot is matched only by a pattern that starts
    with a dot. *)
Definition seg_ok (ts : list Tok) (s : string) : bool :=
  seg_match ts s &&
  (negb (starts_with_dot s) || match ts with TChar c :: _ => Ascii.eqb c "."%char | _ => false end).

Fixpoint glob_match (gs : list GSeg) (path : list string) : bool :=
  match gs with
  | [] => match path with [] => true | _ => false end
  | GGlobstar :: gs' =>
      (fix any (path : list string) : bool :=
         glob_match gs' path ||
         match path with seg :: path' => negb (starts_with_dot seg) && any path' | [] => false end) path
  | GPart ts :: gs' =>
      match path with
      | seg :: path' => seg_ok ts seg && glob_match gs' path'
      | [] => false
      end
  end.

Definition matches (g : string) (path : list string) : bool := glob_match (parse_glob g) path.

(** [gulp.src(globs)] and [gulp.watch(globs)] take a list of patterns. *)
Definition matches_any (globs : list string) (path : list string) : bool :=
  existsb (fun g => matches g path) globs.

(** ** The base of a pattern *)

Definition magic_seg (seg : string) : bool :=
  existsb (fun c => Ascii.eqb c "*"%char || Ascii.eqb c "{"%char || Ascii.eqb c "?"%char || Ascii.eqb c "["%char)
    (list_ascii_of_string seg).

Fixpoint literal_prefix (segs : list string) : list string :=
  match segs with
  | [] => []
  | seg :: segs' => if magic_seg seg then [] else seg :: literal_prefix segs'
  end.

(** glob-parent: the segments before the first magic one, and never
    the last segment (the base of a file's own path is its folder). *)
Definition glob_base (g : string) : list string :=
  let segs := split_path g in
  take (List.length segs - 1) (literal_prefix segs).

(** ** Literal patterns *)

Definition literal_glob (g : string) : bool := forallb (fun seg => negb (magic_seg seg)) (split_path g).

Lemma seg_toks_literal (s : string) :
  magic_seg s = false -> seg_toks s None = map TChar (list_ascii_of_string s).
Proof.
  unfold magic_seg. induction s as [|c s IH]; [reflexivity|]. cbn [list_ascii_of_string existsb].
  intros H. apply orb_false_iff in H as [Hc H]. repeat rewrite orb_false_iff in Hc.
  destruct Hc as [[[H1 H2] _] _]. cbn [seg_toks]. rewrite H1, H2, IH by exact H. reflexivity.
Qed.

Lemma seg_match_literal (s t : string) : seg_match (map TChar (list_ascii_of_string s)) t = true -> t = s.
Proof.
  revert t. induction s as [|c s IH]; intros [|c' t] H; cbn in H; try discriminate; [reflexivity|].
  apply andb_true_iff in H as [Hc H]. apply Ascii.eqb_eq in Hc. subst. f_equal. exact (IH t H).
Qed.

Lemma parse_seg_literal (seg : string) : magic_seg seg = false -> parse_seg seg = GPart (map TChar (list_ascii_of_string seg)).
Proof.
  intros H. unfold parse_seg. rewrite seg_toks_literal by exact H.
  destruct (String.eqb_spec seg "**") as [->|]; [discriminate|reflexivity].
Qed.

(** A pattern without magic characters matches its own path only. *)
Lemma matches_literal (g : string) (path : list string) :
  literal_glob g = true -> matches g path = true -> path = split_path g.
Proof.
  unfold literal_glob, matches, parse_glob. generalize (split_path g) as segs. intros segs.
  revert path. induction segs as [|seg segs IH]; intros path Hl H.
  { destruct path; [reflexivity|discriminate]. }
  cbn in Hl. apply andb_true_iff in Hl as [Hs Hl]. apply negb_true_iff in Hs.
  cbn [map] in H. rewrite parse_seg_literal in H by exact Hs.
  destruct path as [|x path]; cbn [glob_match] in H; [discriminate|].
  apply andb_true_iff in H as [Hx H]. apply andb_true_iff in Hx as [Hx _].
  rewrite (seg_match_literal _ _ Hx), (IH path Hl H). reflexivity.
Qed.

Lemma matches_any_literal (globs : list string) (path : list string) :
  forallb literal_glob globs = true -> matches_any globs path = true -> In path (map split_path globs).
Proof.
  intros Hl H. apply existsb_exists in H as [g [Hg H]]. rewrite forallb_forall in Hl.
  apply in_map_iff. exists g. split; [symmetry; exact (matches_literal g path (Hl g Hg) H)|exact Hg].
Qed.

(** ** The name a pattern ending in [*.ext] matches *)

Fixpoint count_parts (gs : list GSeg) : nat :=
  match gs with
  | [] => 0
  | GGlobstar :: gs' => count_parts gs'
  | GPart _ :: gs' => S (count_parts gs')
  end.

(** The last segment of a matched path is matched by the last segment
    pattern, and at least as many segments come before it as there are
    segment patterns before it. *)
Lemma glob_match_last (gs : list GSeg) (ts : list Tok) (path : list string) :
  glob_match (gs ++ [GPart ts])%list path = true ->
  exists pre seg, path = (pre ++ [seg])%list /\ seg_match ts seg = true /\ count_parts gs <= List.length pre.
Proof.
  revert path. induction gs as [|[|ts'] gs IH]; intros path H.
  - destruct path as [|seg [|x path]]; cbn in H; [discriminate| |rewrite andb_false_r in H; discriminate].
    apply andb_true_iff in H as [H _]. apply andb_true_iff in H as [H _].
    exists [], seg. split; [reflexivity|split; [exact H|cbn; lia]].
  - cbn [app glob_match] in H. induction path as [|seg path IHp].
    + cbn in H. rewrite orb_false_r in H. destruct (IH _ H) as (pre & s' & E & _). destruct pre; discriminate.
    + apply orb_true_iff in H as [H|H].
      * exact (IH _ H).
      * apply andb_true_iff in H as [_ H]. destruct (IHp H) as (pre & s' & -> & Hs & Hl).
        exists (seg :: pre), s'. split; [reflexivity|split; [exact Hs|cbn in Hl |- *; lia]].
  - destruct path as [|seg path]; cbn [app glob_match] in H; [discriminate|].
    apply andb_true_iff in H as [_ H]. destruct (IH _ H) as (pre & s' & -> & Hs & Hl).
    exists (seg :: pre), s'. split; [reflexivity|split; [exact Hs|cbn; lia]].
Qed.

Lemma star_suffix (ts : list Tok) (s : string) :
  seg_match (TStar :: ts) s = true -> exists pre suf, s = pre ++ suf /\ seg_match ts suf = true.
Proof.
  cbn [seg_match]. induction s as [|c s IH]; intros H.
  - rewrite orb_false_r in H. exists EmptyString, EmptyString. split; [reflexivity|exact H].
  - apply orb_true_iff in H as [H|H].
    + exists EmptyString, (String c s). split; [reflexivity|exact H].
    + destruct (IH H) as (pre & suf & -> & Hs). exists (String c pre), suf. split; [reflexivity|exact Hs].
Qed.

Lemma strip_prefix_some (p s r : string) : strip_prefix p s = Some r -> s = p ++ r.
Proof.
  revert s. induction p as [|a p IH]; intros s H.
  - cbn in H. injection H as <-. reflexivity.
  - destruct s as [|b s]; cbn in H; [discriminate|]. destruct (Ascii.eqb_spec a b); [subst|discriminate]. rewrite append_cons. f_equal. exact (IH s H).
Qed.

Lemma list_ascii_of_string_app (u v : string) :
  list_ascii_of_string (u ++ v) = (list_ascii_of_string u ++ list_ascii_of_string v)%list.
Proof. induction u as [|a u IH]; [reflexivity|]. rewrite append_cons. cbn. rewrite IH. reflexivity. Qed.

(** The last character of a name matched by [*.ext] or [*.{a,b,...}]. *)
Definition last_char_is (c : ascii) (s : string) : Prop := hd_error (rev (list_ascii_of_string s)) = Some c.

Lemma last_char_app (c : ascii) (pre s : string) : last_char_is c s -> last_char_is c (pre ++ s).
Proof.
  unfold last_char_is. rewrite list_ascii_of_string_app, rev_app_distr.
  destruct (rev (list_ascii_of_string s)); [discriminate|exact id].
Qed.

Lemma last_char_unique (c c' : ascii) (s : string) : last_char_is c s -> last_char_is c' s -> c = c'.
Proof. unfold last_char_is. congruence. Qed.

Lemma seg_match_ext (ext : string) (s : string) (c : ascii) :
  last_char_is c ext -> seg_match (TStar :: map TChar (list_ascii_of_string ext)) s = true -> last_char_is c s.
Proof.
  intros Hc H. destruct (star_suffix _ _ H) as (pre & suf & -> & Hs).
  apply seg_match_literal in Hs. subst suf. apply last_char_app, Hc.
Qed.

Lemma seg_match_alt_ext (alts : list string) (s : string) (P : ascii -> Prop) :
  (forall a, In a alts -> exists c, P c /\ last_char_is c a) ->
  seg_match [TStar; TChar "."%char; TAlt alts] s = true -> exists c, P c /\ last_char_is c s.
Proof.
  intros Ha H. destruct (star_suffix _ _ H) as (pre & suf & -> & Hs).
  destruct suf as [|d suf]; cbn [seg_match] in Hs; [discriminate|]. apply andb_true_iff in Hs as [_ Hs].
  apply existsb_exists in Hs as (a & Hin & Hs). destruct (strip_prefix a suf) as [r|] eqn:E; [|discriminate].
  apply String.eqb_eq in Hs. subst r. apply strip_prefix_some in E. rewrite append_nil_r in E. subst suf.
  destruct (Ha a Hin) as (c & Hp & Hc). exists c. split; [exact Hp|].
  apply last_char_app. exact (last_char_app c (String d EmptyString) a Hc).
Qed.

End Glob.
