(* ===== verification/Gulp.v ===== *)
(** * Gulp: the tasks of [gulpfile.js]

    [src/gulpfile.js] registers seven tasks with [gulp.task] (gulp 3):
    five that build [dist/] with a stream pipeline ([javascript:libraries],
    [javascript:app], [minify:html], [minify:css], [copy:images]),
    [watch], which starts four [gulp.watch] watchers, [build], which
    only depends on the five, and [default], which depends on [watch].

    - [Pipeline] is a task's stream: its source ([gulp.src(globs)] or
      browserify's [bundle()]) and the [.pipe(...)] stages in order;
      [gulpfile_tasks] is the table of the seven registrations
      (lines 113-259) with [PATHS] (lines 50-63), whose destinations
      are [path.join(__dirname, ...)] ([path_join], Node's join and
      normalization), and [AUTOPREFIXER_BROWSERS] (lines 37-43).
    - [sequence] is the dependency resolution of orchestrator, the task
      runner of gulp 3: it lists the tasks to run, dependencies first,
      each once, and stops with an error on a missing task or a cycle.
      It is written with fuel; [sequence_terminates] shows that
      [1 + number of tasks] is always enough.
    - [watch_starts] lists the task lists that the watchers start when
      a file changes; [js_requires] is the module graph browserify
      follows from [main.js] (the [require] calls of src/src/js).
    - [run_pipeline] runs a stream on the project's files ([SrcTree])
      into [dist/] ([Dist], a [gmap] from paths to texts): [gulp.src]
      selects files by their patterns, each pipe maps the files, and
      [gulp.dest] writes them below its folder at their path relative
      to the pattern's base. The plugins are the parameter [Plugins].
      A failing stage ([fail]) ends the task through [errorHandler]
      when [plumber] is piped before it, and ends gulp otherwise.
      [run_order] runs the tasks of an order as they end.

    The theorems: for any task names the resolution over this file
    ends without a cycle; the watchers cover every file a build task
    reads, but a stylesheet change leaves the markup's version as it
    was; plumber covers the plugins, not [bundle()]; and the five tasks
    of [build], which write disjoint paths, may end in any order. *)

From stdpp Require Import base list decidable gmap strings.
From Stdlib Require Import String Ascii Lia.
From S2P Require Import Spec2Rocq Utils JsString CacheBust Glob.

Module Gulp.
Import Utils CacheBust Glob.

Local Open Scope string_scope.

(** ** The tasks (lines 113-259) *)

Inductive Source :=
| GulpSrc (globs : list string)             (** [gulp.src(globs)] *)
| BrowserifyBundle (entries : list string). (** [browserify({entries: ..., debug: true}).bundle()] *)

Inductive Stage :=
| Plumber                     (** [plumber({ errorHandler: errorHandler })] *)
| ConcatTo (name : string)    (** [concat(name)] *)
| Uglify (logs_errors : bool) (** [uglify()], with [.on('error', gutil.log)] when [logs_errors] *)
| VinylSource (name : string) (** [source(name)] *)
| VinylBuffer                 (** [buffer()] *)
| SourceMapsInit              (** [sourceMaps.init({ loadMaps: true })] *)
| SourceMapsWrite             (** [sourceMaps.write('./')] *)
| ReplaceAsset (a : Asset)    (** [replace(regex, '...?v=' + timestamp)], lines 172-174 *)
| HtmlMin                     (** [htmlmin({...})] *)
| Autoprefixer (browsers : list string) (** [autoprefixer(browsers)] *)
| MinifyCss                   (** [minifyCSS({ compatibility: 'ie8' })] *)
| ImageMin                    (** [imagemin({...})] *)
| Dest (dir : list string).   (** [gulp.dest(dir)] *)

#[export] Instance Stage_eq_dec : EqDecision Stage.
Proof. solve_decision. Defined.

Record Pipeline := mk_pipeline { pl_source : Source; pl_stages : list Stage }.

Inductive Body :=
| NoBody
| StreamBody (p : Pipeline)
| WatchBody (watchers : list (list string * list string)). (** [gulp.watch(globs, tasks)] *)

Record GulpTask := mk_task { task_deps : list string; task_body : Body }.

(** [AUTOPREFIXER_BROWSERS] (lines 37-43). *)
Definition AUTOPREFIXER_BROWSERS : list string :=
  ["last 3 versions"; "ie >= 8"; "ios >= 7"; "android >= 4.4"; "bb >= 10"].

(** Node's [path.join(dir, p)]: the segments of [p] after those of
    [dir], normalized: [.] and empty segments dropped, [..] removes
    the segment before it (none above the root). *)
Fixpoint normalize_segs (acc : list string) (segs : list string) : list string :=
  match segs with
  | [] => rev acc
  | seg :: segs' =>
      if String.eqb seg ".." then normalize_segs (tail acc) segs'
      else if String.eqb seg "." || String.eqb seg "" then normalize_segs acc segs'
      else normalize_segs (seg :: acc) segs'
  end.

Definition path_join (dir : list string) (p : string) : list string :=
  let '(first, rest) := split_at_slash p in normalize_segs (rev dir) (first :: rest).

(** [__dirname], the folder of gulpfile.js: the project's root, from
    which every path of the model is written. *)
Definition dirname : list string := [].

(** [PATHS] (lines 50-63); a destination is a path under the project. *)
Definition paths_src_scripts : list string := ["./src/js/**/*.js"].
Definition paths_src_styles : list string := ["./src/css/**/*.css"].
Definition paths_src_markup : list string := ["./src/**/*.html"].
Definition paths_src_images : list string := ["./src/img/**/*.{png,gif,jpg,jpeg}"].
Definition paths_dest_scripts : list string := path_join dirname "./dist/js".
Definition paths_dest_styles : list string := path_join dirname "./dist/css".
Definition paths_dest_markup : list string := path_join dirname "./dist".
Definition paths_dest_images : list string := path_join dirname "./dist/img".

Definition libraries_task : GulpTask :=
  mk_task [] (StreamBody (mk_pipeline (GulpSrc ["./src/js/libs/OrbitControls.js"])
    [Plumber; ConcatTo "libraries.min.js"; Uglify false; Dest paths_dest_scripts])).

Definition app_task : GulpTask :=
  mk_task [] (StreamBody (mk_pipeline (BrowserifyBundle ["./src/js/main.js"])
    [Plumber; VinylSource "main.min.js"; VinylBuffer; SourceMapsInit; Uglify true; SourceMapsWrite;
     Dest paths_dest_scripts])).

Definition html_task : GulpTask :=
  mk_task [] (StreamBody (mk_pipeline (GulpSrc paths_src_markup)
    [Plumber; ReplaceAsset StyleCss; ReplaceAsset LibrariesJs; ReplaceAsset MainJs; HtmlMin;
     Dest paths_dest_markup])).

Definition css_task : GulpTask :=
  mk_task [] (StreamBody (mk_pipeline
    (GulpSrc ["./src/css/style_no_stats.css"; "./src/css/preloader.css"; "./src/css/style.css"])
    [Plumber; ConcatTo "style.min.css"; Autoprefixer AUTOPREFIXER_BROWSERS; MinifyCss; Dest paths_dest_styles])).

Definition images_task : GulpTask :=
  mk_task [] (StreamBody (mk_pipeline (GulpSrc paths_src_images) [Plumber; ImageMin; Dest paths_dest_images])).

Definition watch_task : GulpTask :=
  mk_task [] (WatchBody
    [(paths_src_scripts, ["javascript:libraries"; "javascript:app"; "minify:html"]);
     (paths_src_styles, ["minify:css"]);
     (paths_src_markup, ["minify:html"]);
     (paths_src_images, ["copy:images"])]).

Definition build_task : GulpTask :=
  mk_task ["javascript:libraries"; "javascript:app"; "minify:html"; "minify:css"; "copy:images"] NoBody.

Definition default_task : GulpTask := mk_task ["watch"] NoBody.

(** The registrations, in the order of the file. *)
Definition gulpfile_tasks : list (string * GulpTask) :=
  [("javascript:libraries", libraries_task); ("javascript:app", app_task);
   ("minify:html", html_task); ("minify:css", css_task); ("copy:images", images_task);
   ("watch", watch_task); ("build", build_task); ("default", default_task)].

(** ** orchestrator's dependency resolution *)

Fixpoint assoc {A : Type} (k : string) (l : list (string * A)) : option A :=
  match l with
  | [] => None
  | (k', v) :: l' => if String.eqb k k' then Some v else assoc k l'
  end.

Definition in_names (n : string) (l : list string) : bool := existsb (String.eqb n) l.

Inductive SeqResult :=
| SeqOk (order : list string)      (** the tasks to run, dependencies first *)
| SeqMissing (name : string)       (** [task "name" is not defined] *)
| SeqRecursive (chain : list string) (** [Recursive dependencies detected: a -> b -> a] *)
| SeqFuel.

(** [sequence(tasks, names, results, nest)]: each name not yet in
    [results] is looked up, refused when it is on the chain [nest] of
    the tasks being resolved, its dependencies resolved with it pushed
    on [nest], and it is appended to [results]. *)
Fixpoint sequence (fuel : nat) (tasks : list (string * GulpTask)) (nest names results : list string) : SeqResult :=
  match fuel with
  | O => SeqFuel
  | S fuel' =>
      (fix go (names results : list string) : SeqResult :=
         match names with
         | [] => SeqOk results
         | n :: names' =>
             if in_names n results then go names' results else
             match assoc n tasks with
             | None => SeqMissing n
             | Some t =>
                 if in_names n nest then SeqRecursive (nest ++ [n])%list else
                 match task_deps t with
                 | [] => go names' (results ++ [n])%list
                 | deps =>
                     match sequence fuel' tasks (nest ++ [n])%list deps results with
                     | SeqOk results' => go names' (results' ++ [n])%list
                     | e => e
                     end
                 end
             end
         end) names results
  end.

(** [gulp.start(names)]: one more than the number of tasks is enough
    fuel ([sequence_terminates]). *)
Definition gulp_sequence (tasks : list (string * GulpTask)) (names : list string) : SeqResult :=
  sequence (S (List.length tasks)) tasks [] names [].

(** ** The watchers (lines 244-249) *)

Definition watchers (t : GulpTask) : list (list string * list string) :=
  match task_body t with WatchBody ws => ws | _ => [] end.

(** The task lists the watchers start when the file [path] changes:
    each watcher whose patterns match calls [gulp.start(tasks)]. *)
Definition watch_starts (ws : list (list string * list string)) (path : list string) : list (list string) :=
  map snd (List.filter (fun w => matches_any (fst w) path) ws).

(** ** What browserify bundles *)

(** The [require] calls of the modules of src/src/js, as written. *)
Definition js_requires : list (list string * list string) :=
  [(["src"; "js"; "main.js"], ["./Application.js"]);
   (["src"; "js"; "Application.js"], ["./Utils.js"; "./LoadingState.js"; "./PlayState.js"; "./LoadSceneState.js"]);
   (["src"; "js"; "LoadingState.js"], ["./Utils.js"]);
   (["src"; "js"; "PlayState.js"], ["./Utils.js"]);
   (["src"; "js"; "LoadSceneState.js"], ["./Utils.js"; "fs"]);
   (["src"; "js"; "Utils.js"], [])].

(** A relative request is resolved from the folder of the module; a bare
    name such as ['fs'] is one of browserify's built-in shims, not a
    file of the project. *)
Definition resolve (m : list string) (req : string) : option (list string) :=
  match req with
  | String "."%char _ => Some (removelast m ++ split_path req)%list
  | _ => None
  end.

Fixpoint assoc_path {A : Type} (k : list string) (l : list (list string * A)) : option A :=
  match l with
  | [] => None
  | (k', v) :: l' => if decide (k = k') then Some v else assoc_path k l'
  end.

Definition module_deps (m : list string) : list (list string) :=
  match assoc_path m js_requires with
  | Some reqs => omap (resolve m) reqs
  | None => []
  end.

Definition add_new (seen : list (list string)) (ms : list (list string)) : list (list string) :=
  foldl (fun acc m => if decide (m ∈ acc) then acc else (acc ++ [m])%list) seen ms.

(** The modules reached from the entries: as many rounds as there are
    modules in the graph are enough to reach all of them. *)
Definition bundle_modules (entries : list string) : list (list string) :=
  Nat.iter (List.length js_requires) (fun seen => add_new seen (List.concat (map module_deps seen)))
    (add_new [] (map split_path entries)).

(** ** The files a task reads *)

(** The project's files: each path with its text. *)
Definition SrcTree := list (list string * string).

Definition source_reads (src : Source) (tree : SrcTree) (path : list string) : bool :=
  bool_decide (path ∈ map fst tree) &&
  match src with
  | GulpSrc globs => matches_any globs path
  | BrowserifyBundle entries => bool_decide (path ∈ bundle_modules entries)
  end.

Definition task_reads (tasks : list (string * GulpTask)) (tree : SrcTree) (name : string)
    (path : list string) : bool :=
  match assoc name tasks with
  | Some (mk_task _ (StreamBody p)) => source_reads (pl_source p) tree path
  | _ => false
  end.

(** ** Running a pipeline *)

(** The plugins, as functions on the text of a file: what they compute
    is not modelled, every theorem holds for all of them. *)
Record Plugins := mk_plugins {
  pg_uglify : string -> string;
  pg_htmlmin : string -> string;
  pg_autoprefix : list string -> string -> string; (** with the browsers it targets *)
  pg_cssmin : string -> string;
  pg_imagemin : string -> string;
  pg_bundle : list string -> string;  (** browserify's output from the modules' texts *)
  pg_sourcemap : string -> string     (** the map sourcemaps writes for a file *)
}.

(** A vinyl file: its path, its path relative to its glob's base, its text. *)
Record VFile := mk_vfile { vf_path : list string; vf_rel : list string; vf_text : string }.

(** [dist/]: the text written at each path. *)
Definition Dist := gmap (list string) string.

(** [gulp.src(globs)]: the files each pattern selects, pattern by
    pattern, each file once. *)
Definition src_files (globs : list string) (tree : SrcTree) : list VFile :=
  foldl (fun acc g =>
    (acc ++ omap (fun '(path, text) =>
       if matches g path && negb (bool_decide (path ∈ map vf_path acc))
       then Some (mk_vfile path (drop (List.length (glob_base g)) path) text) else None) tree)%list)
    [] globs.

(** [b.bundle()]: one stream of text, or the error of a module that is
    not there ([Cannot find module]). *)
Definition bundle_source (pg : Plugins) (entries : list string) (tree : SrcTree) : option (list VFile) :=
  match mapM (fun m => assoc_path m tree) (bundle_modules entries) with
  | Some texts => Some [mk_vfile [] [] (pg_bundle pg texts)]
  | None => None
  end.

Definition run_source (pg : Plugins) (src : Source) (tree : SrcTree) : option (list VFile) :=
  match src with
  | GulpSrc globs => Some (src_files globs tree)
  | BrowserifyBundle entries => bundle_source pg entries tree
  end.

Definition map_text (f : string -> string) (fs : list VFile) : list VFile :=
  map (fun v => mk_vfile (vf_path v) (vf_rel v) (f (vf_text v))) fs.

Definition map_suffix (rel : list string) : list string :=
  match rel with
  | [] => []
  | _ => (removelast rel ++ [(List.last rel "" ++ ".map")%string])%list
  end.

(** One stage on the files that reach it, and what [gulp.dest] writes. *)
Definition run_stage (pg : Plugins) (ts : string) (st : Stage) (fs : list VFile) (d : Dist) : list VFile * Dist :=
  match st with
  | Plumber | VinylBuffer | SourceMapsInit => (fs, d)
  | ConcatTo name =>
      match fs with
      | [] => ([], d)
      | _ => ([mk_vfile [name] [name] (String.concat (String "010"%char EmptyString) (map vf_text fs))], d)
      end
  | Uglify _ => (map_text (pg_uglify pg) fs, d)
  | VinylSource name => (map (fun v => mk_vfile [name] [name] (vf_text v)) fs, d)
  | SourceMapsWrite =>
      (List.concat (map (fun v => [v; mk_vfile (map_suffix (vf_path v)) (map_suffix (vf_rel v))
                                          (pg_sourcemap pg (vf_text v))]) fs), d)
  | ReplaceAsset a => (map_text (version_asset ts a) fs, d)
  | HtmlMin => (map_text (pg_htmlmin pg) fs, d)
  | Autoprefixer bs => (map_text (pg_autoprefix pg bs) fs, d)
  | MinifyCss => (map_text (pg_cssmin pg) fs, d)
  | ImageMin => (map_text (pg_imagemin pg) fs, d)
  | Dest dir => (fs, foldl (fun d v => <[(dir ++ vf_rel v)%list := vf_text v]> d) d fs)
  end.

Fixpoint run_stages (pg : Plugins) (ts : string) (sts : list Stage) (fs : list VFile) (d : Dist) : Dist :=
  match sts with
  | [] => d
  | st :: sts' => let '(fs', d') := run_stage pg ts st fs d in run_stages pg ts sts' fs' d'
  end.

(** How a task's stream ends. [Handled]: plumber's [errorHandler]
    logged the error and emitted ['end']; [Crash]: an ['error'] event
    without a listener, which ends the gulp process. *)
Inductive StreamOutcome :=
| StreamDone (d : Dist)
| Handled (d : Dist)
| Crash.

(** A stage [i] (counted from 1; 0 is the source) fails when [fail] is
    [Some i]: plumber handles the errors of the streams piped after it,
    not those of the stream piped into it. *)
Definition run_pipeline (pg : Plugins) (ts : string) (tree : SrcTree) (p : Pipeline) (fail : option nat)
    (d : Dist) : StreamOutcome :=
  match run_source pg (pl_source p) tree, fail with
  | None, _ | _, Some O => Crash
  | Some fs, Some (S k) => if decide (Plumber ∈ take k (pl_stages p)) then Handled d else Crash
  | Some fs, None => StreamDone (run_stages pg ts (pl_stages p) fs d)
  end.

(** ** Running tasks *)

Inductive RunOutcome :=
| RunDone (d : Dist)
| RunCrash
| RunSeqError (r : SeqResult).

(** The tasks of an order, as each ends; [minify:html] takes the
    timestamp of [now] when it starts. *)
Fixpoint run_order (pg : Plugins) (now : JsDate) (tree : SrcTree) (fail : string -> option nat)
    (order : list string) (d : Dist) : RunOutcome :=
  match order with
  | [] => RunDone d
  | n :: order' =>
      match assoc n gulpfile_tasks with
      | Some (mk_task _ (StreamBody p)) =>
          match run_pipeline pg (getTimestamp now) tree p (fail n) d with
          | StreamDone d' | Handled d' => run_order pg now tree fail order' d'
          | Crash => RunCrash
          end
      | _ => run_order pg now tree fail order' d
      end
  end.

(** [gulp names] or [gulp.start(names)]. *)
Definition run_names (pg : Plugins) (now : JsDate) (tree : SrcTree) (fail : string -> option nat)
    (names : list string) (d : Dist) : RunOutcome :=
  match gulp_sequence gulpfile_tasks names with
  | SeqOk order => run_order pg now tree fail order d
  | r => RunSeqError r
  end.

(** ** The resolution terminates *)


(** [path.join] normalizes as Glob.v splits: on a path without a [..]
    segment, joining it to the root gives its segments without the
    [.] and empty ones. *)
Lemma normalize_segs_plain (acc segs : list string) :
  Forall (fun seg => seg <> "..") segs ->
  normalize_segs acc segs =
    (rev acc ++ List.filter (fun seg => negb (String.eqb seg "" || String.eqb seg ".")) segs)%list.
Proof.
  revert acc. induction segs as [|seg segs IH]; intros acc Hf; cbn [normalize_segs List.filter].
  - rewrite app_nil_r. reflexivity.
  - inversion Hf as [|? ? Hseg Hf']; subst.
    rewrite (proj2 (String.eqb_neq seg "..") Hseg).
    destruct (String.eqb seg ".") eqn:Hd, (String.eqb seg "") eqn:He; cbn; rewrite IH by exact Hf'; try reflexivity.
    cbn. rewrite <- app_assoc. reflexivity.
Qed.

Lemma path_join_root (p : string) :
  Forall (fun seg => seg <> "..") (fst (split_at_slash p) :: snd (split_at_slash p)) ->
  path_join dirname p = split_path p.
Proof.
  unfold path_join, split_path, dirname. destruct (split_at_slash p) as [first rest]. cbn [fst snd rev].
  intros Hf. rewrite normalize_segs_plain by exact Hf. reflexivity.
Qed.

Lemma in_names_In (n : string) (l : list string) : in_names n l = true <-> In n l.
Proof.
  unfold in_names. rewrite existsb_exists. split.
  - intros [x [Hx E]]. apply String.eqb_eq in E. subst. exact Hx.
  - intros H. exists n. split; [exact H|apply String.eqb_refl].
Qed.

Lemma assoc_In {A : Type} (k : string) (l : list (string * A)) (v : A) : assoc k l = Some v -> In k (map fst l).
Proof.
  induction l as [|[k' v'] l IH]; cbn; [discriminate|].
  destruct (String.eqb_spec k k'); [intros _; left; congruence|intros H; right; exact (IH H)].
Qed.

Lemma NoDup_snoc_new (n : string) (nest : list string) :
  List.NoDup nest -> in_names n nest = false -> List.NoDup (nest ++ [n]).
Proof.
  intros Hnd Hn. apply (Permutation_NoDup (Permutation_cons_append nest n)). constructor; [|exact Hnd].
  intros Hin. apply in_names_In in Hin. congruence.
Qed.

(** The chain [nest] only holds distinct task names; so it is never
    longer than the table, and fuel that exceeds what the table leaves
    above the chain is never exhausted. *)
Lemma sequence_fuel_ok (fuel : nat) (tasks : list (string * GulpTask)) (nest : list string) :
  List.NoDup nest -> (forall x, In x nest -> In x (map fst tasks)) ->
  List.length tasks < fuel + List.length nest ->
  forall names results, sequence fuel tasks nest names results <> SeqFuel.
Proof.
  revert nest. induction fuel as [|fuel IH]; intros nest Hnd Hin Hlen names results.
  - exfalso. pose proof (NoDup_incl_length Hnd Hin) as H. rewrite length_map in H. lia.
  - cbn [sequence]. revert results. induction names as [|n names IHn]; intros results; [discriminate|].
    cbn. destruct (in_names n results); [apply IHn|].
    destruct (assoc n tasks) as [t|] eqn:Ht; [|discriminate].
    destruct (in_names n nest) eqn:Hn; [discriminate|].
    destruct (task_deps t) as [|d ds]; [apply IHn|].
    pose proof (IH (nest ++ [n])%list (NoDup_snoc_new n nest Hnd Hn)) as Hs.
    destruct (sequence fuel tasks (nest ++ [n])%list (d :: ds) results) eqn:E; try discriminate; [apply IHn|].
    exfalso. refine (Hs _ _ (d :: ds) results E).
    + intros x Hx. apply in_app_or in Hx as [Hx|[<-|[]]]; [exact (Hin x Hx)|exact (assoc_In _ _ _ Ht)].
    + rewrite length_app. cbn. lia.
Qed.

(** ** What the watchers cover *)

Lemma watch_starts_In (ws : list (list string * list string)) (globs ts : list string) (path : list string) :
  In (globs, ts) ws -> matches_any globs path = true -> In ts (watch_starts ws path).
Proof. intros Hw Hm. unfold watch_starts. apply in_map_iff. exists (globs, ts). split; [reflexivity|]. apply filter_In. auto. Qed.

Lemma bundle_modules_main :
  bundle_modules ["./src/js/main.js"] =
    [["src"; "js"; "main.js"]; ["src"; "js"; "Application.js"]; ["src"; "js"; "Utils.js"];
     ["src"; "js"; "LoadingState.js"]; ["src"; "js"; "PlayState.js"]; ["src"; "js"; "LoadSceneState.js"]].
Proof. vm_compute. reflexivity. Qed.

(** A file of the scripts' folder starts the first watcher. *)
Lemma scripts_watcher (path : list string) :
  matches_any paths_src_scripts path = true ->
  In ["javascript:libraries"; "javascript:app"; "minify:html"] (watch_starts (watchers watch_task) path).
Proof. apply watch_starts_In. left. reflexivity. Qed.

(** ** What one change under [gulp watch] runs *)

Definition style_min_css : list string := ["dist"; "css"; "style.min.css"].

Definition css_globs : list string := ["./src/css/style_no_stats.css"; "./src/css/preloader.css"; "./src/css/style.css"].

Lemma sequence_cons (fuel : nat) (tasks : list (string * GulpTask)) (nest : list string) (n : string)
    (names results : list string) :
  sequence (S fuel) tasks nest (n :: names) results =
    if in_names n results then sequence (S fuel) tasks nest names results else
    match assoc n tasks with
    | None => SeqMissing n
    | Some t =>
        if in_names n nest then SeqRecursive (nest ++ [n])%list else
        match task_deps t with
        | [] => sequence (S fuel) tasks nest names (results ++ [n])%list
        | deps =>
            match sequence fuel tasks (nest ++ [n])%list deps results with
            | SeqOk results' => sequence (S fuel) tasks nest names (results' ++ [n])%list
            | e => e
            end
        end
    end.
Proof. reflexivity. Qed.

Lemma sequence_nil (fuel : nat) (tasks : list (string * GulpTask)) (nest results : list string) :
  sequence (S fuel) tasks nest [] results = SeqOk results.
Proof. reflexivity. Qed.

Lemma sequence_single (n : string) (t : GulpTask) :
  assoc n gulpfile_tasks = Some t -> task_deps t = [] -> gulp_sequence gulpfile_tasks [n] = SeqOk [n].
Proof.
  intros Ht Hd. unfold gulp_sequence. rewrite sequence_cons. cbn [in_names existsb].
  rewrite Ht, Hd. reflexivity.
Qed.

Lemma run_css (pg : Plugins) (ts : string) (tree : SrcTree) (d : Dist) :
  exists d', run_stages pg ts (match task_body css_task with StreamBody p => pl_stages p | _ => [] end)
    (src_files css_globs tree) d = d' /\
    (forall k, k <> style_min_css -> d' !! k = d !! k) /\
    (src_files css_globs tree <> [] ->
     d' !! style_min_css =
       Some (pg_cssmin pg (pg_autoprefix pg AUTOPREFIXER_BROWSERS (String.concat (String "010"%char EmptyString)
         (map vf_text (src_files css_globs tree)))))).
Proof.
  eexists. split; [reflexivity|]. cbn [css_task task_body pl_stages run_stages run_stage].
  destruct (src_files css_globs tree) as [|f fs]; cbn [map_text map foldl vf_rel vf_text]; split.
  - reflexivity.
  - contradiction.
  - intros k Hk. apply lookup_insert_ne. unfold style_min_css in Hk. cbn. congruence.
  - intros _. unfold style_min_css. cbn. apply lookup_insert_eq.
Qed.

(** ** What a task writes *)

(** The files [gulp.dest(dir)] writes, in order. *)
Definition insert_all (ws : list (list string * string)) (d : Dist) : Dist :=
  foldl (fun d '(k, v) => <[k := v]> d) d ws.

Definition dest_writes (st : Stage) (fs : list VFile) : list (list string * string) :=
  match st with
  | Dest dir => map (fun v => ((dir ++ vf_rel v)%list, vf_text v)) fs
  | _ => []
  end.

Fixpoint writes (pg : Plugins) (ts : string) (sts : list Stage) (fs : list VFile) : list (list string * string) :=
  match sts with
  | [] => []
  | st :: sts' => (dest_writes st fs ++ writes pg ts sts' (fst (run_stage pg ts st fs ∅)))%list
  end.

(** A task's writes, [None] when it crashes; they do not depend on [dist/]. *)
Definition task_eff (pg : Plugins) (now : JsDate) (tree : SrcTree) (fail : string -> option nat) (n : string) :
    option (list (list string * string)) :=
  match assoc n gulpfile_tasks with
  | Some (mk_task _ (StreamBody p)) =>
      match run_source pg (pl_source p) tree, fail n with
      | None, _ | _, Some O => None
      | Some fs, Some (S k) => if decide (Plumber ∈ take k (pl_stages p)) then Some [] else None
      | Some fs, None => Some (writes pg (getTimestamp now) (pl_stages p) fs)
      end
  | _ => Some []
  end.

Lemma insert_all_app (ws ws' : list (list string * string)) (d : Dist) :
  insert_all (ws ++ ws') d = insert_all ws' (insert_all ws d).
Proof. unfold insert_all. apply foldl_app. Qed.

Lemma run_stage_split (pg : Plugins) (ts : string) (st : Stage) (fs : list VFile) (d : Dist) :
  run_stage pg ts st fs d = (fst (run_stage pg ts st fs ∅), insert_all (dest_writes st fs) d).
Proof.
  destruct st; try reflexivity.
  - destruct fs; reflexivity.
  - cbn. f_equal. unfold insert_all. generalize d. induction fs as [|v fs IH]; intros d'; [reflexivity|]. apply IH.
Qed.

Lemma run_stages_writes (pg : Plugins) (ts : string) (sts : list Stage) (fs : list VFile) (d : Dist) :
  run_stages pg ts sts fs d = insert_all (writes pg ts sts fs) d.
Proof.
  revert fs d. induction sts as [|st sts IH]; intros fs d; [reflexivity|].
  cbn [run_stages writes]. rewrite run_stage_split, insert_all_app. apply IH.
Qed.

Lemma run_order_cons (pg : Plugins) (now : JsDate) (tree : SrcTree) (fail : string -> option nat)
    (n : string) (order : list string) (d : Dist) :
  run_order pg now tree fail (n :: order) d =
    match task_eff pg now tree fail n with
    | Some ws => run_order pg now tree fail order (insert_all ws d)
    | None => RunCrash
    end.
Proof.
  cbn [run_order]. unfold task_eff, run_pipeline.
  destruct (assoc n gulpfile_tasks) as [[deps [|p|ws]]|]; try reflexivity.
  destruct (run_source pg (pl_source p) tree) as [fs|]; [|reflexivity].
  destruct (fail n) as [[|k]|]; [reflexivity| |rewrite run_stages_writes; reflexivity].
  destruct (decide _); reflexivity.
Qed.

Lemma insert_all_cons (k : list string) (v : string) (ws : list (list string * string)) (d : Dist) :
  insert_all ((k, v) :: ws) d = insert_all ws (<[k := v]> d).
Proof. reflexivity. Qed.

Lemma insert_insert_all (k : list string) (v : string) (ws : list (list string * string)) (d : Dist) :
  ~ In k (map fst ws) -> <[k := v]> (insert_all ws d) = insert_all ws (<[k := v]> d).
Proof.
  revert d. induction ws as [|[k' v'] ws IH]; intros d Hk; [reflexivity|].
  rewrite !insert_all_cons, IH by (intros H; apply Hk; right; exact H).
  f_equal. apply insert_insert_ne. intros ->. apply Hk. left. reflexivity.
Qed.

(** Writes to distinct paths commute. *)
Lemma insert_all_commute (ws ws' : list (list string * string)) (d : Dist) :
  (forall k, In k (map fst ws) -> In k (map fst ws') -> False) ->
  insert_all ws (insert_all ws' d) = insert_all ws' (insert_all ws d).
Proof.
  revert d. induction ws as [|[k v] ws IH]; intros d Hdis; [reflexivity|].
  rewrite !insert_all_cons, <- IH by (intros k' H1 H2; exact (Hdis k' (or_intror H1) H2)).
  f_equal. apply insert_insert_all. intros H. exact (Hdis k (or_introl eq_refl) H).
Qed.

(** ** The paths each task of [build] writes *)

Definition key_last_char (k : list string) (c : ascii) : Prop :=
  exists pre seg, k = (pre ++ [seg])%list /\ last_char_is c seg.

(** The outputs of each task: a name of its own, or a name with an
    extension no other task writes. *)
Definition key_class (n : string) (k : list string) : Prop :=
  if String.eqb n "javascript:libraries" then k = ["dist"; "js"; "libraries.min.js"]
  else if String.eqb n "javascript:app" then k = ["dist"; "js"; "main.min.js"] \/ k = ["dist"; "js"; "main.min.js.map"]
  else if String.eqb n "minify:css" then k = style_min_css
  else if String.eqb n "minify:html" then key_last_char k "l"%char
  else if String.eqb n "copy:images" then key_last_char k "g"%char \/ key_last_char k "f"%char
  else False.

Lemma key_last_char_neq (k : list string) (c c' : ascii) :
  key_last_char k c -> key_last_char k c' -> c <> c' -> False.
Proof.
  intros (pre & seg & -> & Hc) (pre' & seg' & E & Hc') Hne. apply app_inj_tail in E as [_ <-].
  exact (Hne (last_char_unique _ _ _ Hc Hc')).
Qed.

Lemma key_last_char_lit (pre : list string) (seg : string) (c : ascii) :
  last_char_is c seg -> key_last_char (pre ++ [seg])%list c.
Proof. intros E. exists pre, seg. split; [reflexivity|exact E]. Qed.

Ltac fixed_key_last :=
  match goal with
  | |- key_last_char [?a; ?b; ?c] _ => apply (key_last_char_lit [a; b] c); reflexivity
  end.

Lemma key_class_disjoint (n n' : string) (k : list string) :
  In n (task_deps build_task) -> In n' (task_deps build_task) -> n <> n' ->
  key_class n k -> key_class n' k -> False.
Proof.
  intros Hn Hn' Hne. cbn in Hn, Hn'.
  destruct Hn as [<-|[<-|[<-|[<-|[<-|[]]]]]]; destruct Hn' as [<-|[<-|[<-|[<-|[<-|[]]]]]];
    try (exfalso; apply Hne; reflexivity); cbn; unfold style_min_css;
    intros H1 H2; repeat match goal with H : _ \/ _ |- _ => destruct H end; subst; try discriminate;
    match goal with
    | H : key_last_char ?k _, H' : key_last_char ?k _ |- _ => exact (key_last_char_neq k _ _ H H' ltac:(discriminate))
    | H : key_last_char ?k _ |- _ => eapply (key_last_char_neq k); [fixed_key_last|exact H|discriminate]
    end.
Qed.

Lemma src_files_spec (globs : list string) (tree : SrcTree) (v : VFile) :
  In v (src_files globs tree) ->
  exists g, In g globs /\ matches g (vf_path v) = true /\ vf_rel v = drop (List.length (glob_base g)) (vf_path v).
Proof.
  unfold src_files. assert (Hacc : forall v, In v ([] : list VFile) ->
    exists g, In g globs /\ matches g (vf_path v) = true /\ vf_rel v = drop (List.length (glob_base g)) (vf_path v))
    by (intros ? []).
  revert Hacc. generalize ([] : list VFile) as acc. intros acc Hacc.
  assert (Hg : forall g, In g globs -> In g globs) by auto. revert Hg. generalize globs at 1 3 as gs.
  intros gs Hg. revert acc Hacc. induction gs as [|g gs IH]; intros acc Hacc; [exact (Hacc v)|].
  cbn [foldl]. apply IH; [intros g' H; apply Hg; right; exact H|]. intros w Hw. apply in_app_or in Hw as [Hw|Hw]; [exact (Hacc w Hw)|].
  apply list_elem_of_In, list_elem_of_omap in Hw as ([path text] & _ & Hw). destruct (matches g path && _) eqn:E; [|discriminate].
  injection Hw as <-. apply andb_true_iff in E as [E _]. exists g. split; [apply Hg; left; reflexivity|]. auto.
Qed.

Lemma keys_dest_map_text (fs' fs : list VFile) (dir : list string) (k : list string) :
  map vf_rel fs' = map vf_rel fs ->
  In k (map fst (map (fun v => ((dir ++ vf_rel v)%list, vf_text v)) fs')) ->
  exists v, In v fs /\ k = (dir ++ vf_rel v)%list.
Proof.
  intros E Hk. rewrite map_map in Hk. cbn in Hk. apply in_map_iff in Hk as (v & <- & Hv).
  assert (Hr : In (vf_rel v) (map vf_rel fs)) by (rewrite <- E; apply in_map, Hv).
  apply in_map_iff in Hr as (w & Hw & Hin). exists w. split; [exact Hin|congruence].
Qed.

Lemma map_text_rel (f : string -> string) (fs : list VFile) : map vf_rel (map_text f fs) = map vf_rel fs.
Proof. unfold map_text. rewrite map_map. reflexivity. Qed.

(** A file the pattern [base/**/*.ext] selects keeps its last name below [dist/]. *)
Lemma dest_key_last (dir : list string) (g : string) (gs : list GSeg) (ts : list Tok) (path : list string)
    (P : ascii -> Prop) :
  parse_glob g = (gs ++ [GPart ts])%list -> List.length (glob_base g) <= count_parts gs ->
  (forall seg, seg_match ts seg = true -> exists c, P c /\ last_char_is c seg) ->
  matches g path = true -> exists c, P c /\ key_last_char (dir ++ drop (List.length (glob_base g)) path)%list c.
Proof.
  intros Hp Hb Hts Hm. unfold matches in Hm. rewrite Hp in Hm.
  destruct (glob_match_last _ _ _ Hm) as (pre & seg & -> & Hs & Hl).
  destruct (Hts seg Hs) as (c & Hc & Hlast). exists c. split; [exact Hc|].
  rewrite drop_app_le by lia. exists (dir ++ drop (List.length (glob_base g)) pre)%list, seg.
  split; [rewrite app_assoc; reflexivity|exact Hlast].
Qed.

(** The files of one pattern, through stages that keep their names, to [gulp.dest]. *)
Lemma dest_keys_glob (g : string) (tree : SrcTree) (fs' : list VFile) (dir k : list string) (P : ascii -> Prop)
    (gs : list GSeg) (ts : list Tok) :
  In k (map fst (map (fun v => ((dir ++ vf_rel v)%list, vf_text v)) fs')) ->
  parse_glob g = (gs ++ [GPart ts])%list -> List.length (glob_base g) <= count_parts gs ->
  (forall seg, seg_match ts seg = true -> exists c, P c /\ last_char_is c seg) ->
  map vf_rel fs' = map vf_rel (src_files [g] tree) ->
  exists c, P c /\ key_last_char k c.
Proof.
  intros Hk Hp Hb Hts E. destruct (keys_dest_map_text _ _ _ _ E Hk) as (v & Hv & ->).
  destruct (src_files_spec _ _ _ Hv) as (g' & [<-|[]] & Hm & ->). exact (dest_key_last dir g gs ts _ P Hp Hb Hts Hm).
Qed.

Ltac eff_cases Hw Hk :=
  match type of Hw with
  | context [run_source ?a ?b ?c] => destruct (run_source a b c) as [fs|] eqn:Es; [|discriminate]
  end;
  match type of Hw with
  | context [?f ?n] => match type of f with string -> option nat => destruct (f n) as [[|j]|] end
  end; [discriminate| |injection Hw as <-];
  [destruct (decide _); [injection Hw as <-; destruct Hk|discriminate]|].

(** Each task of [build] writes paths of its own class. *)
Lemma task_eff_keys (pg : Plugins) (now : JsDate) (tree : SrcTree) (fail : string -> option nat) (n : string)
    (ws : list (list string * string)) (k : list string) :
  In n (task_deps build_task) -> task_eff pg now tree fail n = Some ws -> In k (map fst ws) -> key_class n k.
Proof.
  intros Hn Hw Hk. cbn in Hn. destruct Hn as [<-|[<-|[<-|[<-|[<-|[]]]]]]; unfold task_eff in Hw;
    cbn [assoc gulpfile_tasks String.eqb Ascii.eqb Bool.eqb libraries_task app_task html_task css_task images_task
      task_body pl_source pl_stages] in Hw;
    eff_cases Hw Hk; cbn [pl_stages writes dest_writes run_stage fst] in Hk; cbn [key_class String.eqb Ascii.eqb Bool.eqb].
  - destruct fs; cbn in Hk; [destruct Hk|]. destruct Hk as [<-|[]]. reflexivity.
  - unfold run_source, bundle_source in Es. destruct (mapM _ _); [|discriminate]. injection Es as <-.
    cbn in Hk. destruct Hk as [<-|[<-|[]]]; [left|right]; reflexivity.
  - injection Es as <-. rewrite app_nil_r in Hk.
    destruct (dest_keys_glob "./src/**/*.html" tree _ ["dist"] k (fun c => c = "l"%char)
      [GPart (seg_toks "src" None); GGlobstar] (seg_toks "*.html" None) Hk eq_refl ltac:(cbn; lia)
      ltac:(intros seg Hs; exists "l"%char; split; [reflexivity|exact (seg_match_ext ".html" seg "l" eq_refl Hs)])
      ltac:(rewrite !map_text_rel; reflexivity)) as (c & -> & H). exact H.
  - injection Es as <-. destruct (src_files _ tree); cbn in Hk; [destruct Hk|]. destruct Hk as [<-|[]]. reflexivity.
  - injection Es as <-. rewrite app_nil_r in Hk.
    destruct (dest_keys_glob "./src/img/**/*.{png,gif,jpg,jpeg}" tree _ ["dist"; "img"] k (fun c => c = "g"%char \/ c = "f"%char)
      [GPart (seg_toks "src" None); GPart (seg_toks "img" None); GGlobstar] (seg_toks "*.{png,gif,jpg,jpeg}" None)
      Hk eq_refl ltac:(cbn; lia)
      ltac:(intros seg Hs; apply (seg_match_alt_ext ["png"; "gif"; "jpg"; "jpeg"]); [|exact Hs];
            intros a Ha; repeat destruct Ha as [<-|Ha]; try destruct Ha;
            eexists; (split; [|reflexivity]); auto)
      ltac:(rewrite !map_text_rel; reflexivity)) as (c & [-> | ->] & H); [left|right]; exact H.
Qed.

(** Two tasks of [build] end in either order with the same [dist/]. *)
Lemma run_order_swap (pg : Plugins) (now : JsDate) (tree : SrcTree) (fail : string -> option nat)
    (x y : string) (l : list string) (d : Dist) :
  In x (task_deps build_task) -> In y (task_deps build_task) ->
  run_order pg now tree fail (x :: y :: l) d = run_order pg now tree fail (y :: x :: l) d.
Proof.
  intros Hx Hy. rewrite !run_order_cons.
  destruct (task_eff pg now tree fail x) as [wx|] eqn:Ex, (task_eff pg now tree fail y) as [wy|] eqn:Ey;
    rewrite ?run_order_cons, ?Ex, ?Ey; try reflexivity.
  destruct (decide (x = y)) as [->|Hne]; [rewrite Ex in Ey; injection Ey as ->; reflexivity|].
  rewrite (insert_all_commute wy wx); [reflexivity|]. intros k Hky Hkx.
  exact (key_class_disjoint x y k Hx Hy Hne (task_eff_keys _ _ _ _ _ _ _ Hx Ex Hkx) (task_eff_keys _ _ _ _ _ _ _ Hy Ey Hky)).
Qed.

Lemma run_order_perm (pg : Plugins) (now : JsDate) (tree : SrcTree) (fail : string -> option nat)
    (l l' : list string) :
  Permutation l l' -> (forall x, In x l -> In x (task_deps build_task)) ->
  forall d, run_order pg now tree fail l d = run_order pg now tree fail l' d.
Proof.
  induction 1 as [|x l l' _ IH|x y l|l l' l'' H1 IH1 _ IH2]; intros Hin d.
  - reflexivity.
  - rewrite !run_order_cons. destruct (task_eff pg now tree fail x); [|reflexivity].
    apply IH. intros z Hz. apply Hin. right. exact Hz.
  - apply run_order_swap; apply Hin; [left|right; left]; reflexivity.
  - rewrite IH1 by exact Hin. apply IH2. intros z Hz. apply Hin. exact (Permutation_in _ (Permutation_sym H1) Hz).
Qed.

(** ** Properties *)

(** orchestrator's resolution always terminates: for every table of
    tasks, even one with a missing dependency or a cycle, and every list
    of names, [sequence] with one more unit of fuel than there are
    tasks ends with the order of the tasks or with one of its two
    errors, never for lack of fuel. *)
Lemma sequence_terminates (tasks : list (string * GulpTask)) (names : list string) :
  gulp_sequence tasks names <> SeqFuel.
Proof. apply sequence_fuel_ok; [constructor|intros ? []|cbn; lia]. Qed.

Lemma assoc_some {A : Type} (k : string) (l : list (string * A)) (v : A) : assoc k l = Some v -> In (k, v) l.
Proof.
  induction l as [|[k' v'] l IH]; cbn; [discriminate|].
  destruct (String.eqb_spec k k'); [intros [= <-]; left; congruence|intros H; right; exact (IH H)].
Qed.

(** Tasks without dependencies, none on the chain, resolve. *)
Lemma sequence_leaves (fuel : nat) (tasks : list (string * GulpTask)) (nest names results : list string) :
  Forall (fun n => in_names n nest = false /\ exists t, assoc n tasks = Some t /\ task_deps t = []) names ->
  exists r, sequence (S fuel) tasks nest names results = SeqOk r.
Proof.
  intros Hf. cbn [sequence]. revert results. induction Hf as [|n names [Hn (t & Ht & Hd)] _ IH]; intros results.
  - eexists. reflexivity.
  - cbn -[in_names assoc sequence]. destruct (in_names n results); [apply IH|]. rewrite Ht, Hn, Hd. apply IH.
Qed.

(** (C23) [gulp names] always resolves: whatever task names are given
    on the command line (or to [gulp.start]), orchestrator's resolution
    over the tasks of [gulpfile.js] ends, within its fuel, with the
    order of the tasks to run or with a name that is not a task; the
    file has no dependency cycle. *)
Theorem gulpfile_sequence_total (names : list string) :
  (exists order, gulp_sequence gulpfile_tasks names = SeqOk order) \/
  (exists n, gulp_sequence gulpfile_tasks names = SeqMissing n /\ assoc n gulpfile_tasks = None).
Proof.
  unfold gulp_sequence. change (List.length gulpfile_tasks) with 8.
  enough (H : forall results,
    (exists order, sequence 9 gulpfile_tasks [] names results = SeqOk order) \/
    (exists n, sequence 9 gulpfile_tasks [] names results = SeqMissing n /\ assoc n gulpfile_tasks = None))
    by apply H.
  induction names as [|n names IH]; intros results; [left; eexists; apply sequence_nil|].
  rewrite sequence_cons. destruct (in_names n results); [apply IH|].
  destruct (assoc n gulpfile_tasks) as [t|] eqn:Ht; [|right; exists n; split; [reflexivity|exact Ht]].
  apply assoc_some in Ht. change (in_names n []) with false. cbv iota.
  cbn [In gulpfile_tasks] in Ht.
  repeat match goal with H : _ \/ _ |- _ => destruct H as [H|H] end; try contradiction; injection Ht as <- <-;
    cbn [task_deps libraries_task app_task html_task css_task images_task watch_task build_task default_task];
    try apply IH;
    match goal with
    | |- context [sequence 8 ?ts ?nest ?deps results] =>
        destruct (sequence_leaves 7 ts nest deps results) as [r ->]; [|apply IH]
    end;
    repeat constructor; eexists; split; reflexivity.
Qed.

(** (C22) The watchers cover the build: every file that one of the five
    tasks of [build] reads (a file its [gulp.src] patterns select, or a
    module browserify bundles from [main.js]) starts that task when it
    changes under [gulp watch]. *)
Theorem watch_covers_build (tree : SrcTree) (t : string) (path : list string) :
  In t (task_deps build_task) -> task_reads gulpfile_tasks tree t path = true ->
  exists ts, In ts (watch_starts (watchers watch_task) path) /\ In t ts.
Proof.
  intros Ht Hr. unfold task_reads in Hr. cbn in Ht.
  destruct Ht as [<-|[<-|[<-|[<-|[<-|[]]]]]]; cbn -[matches_any bundle_modules] in Hr;
    apply andb_true_iff in Hr as [_ Hr].
  - apply matches_any_literal in Hr; [|reflexivity]. destruct Hr as [<-|[]].
    eexists. split; [apply scripts_watcher; reflexivity|left; reflexivity].
  - rewrite bundle_modules_main in Hr. apply bool_decide_eq_true, list_elem_of_In in Hr.
    eexists. split; [apply scripts_watcher|right; left; reflexivity].
    repeat destruct Hr as [<-|Hr]; try reflexivity. destruct Hr.
  - eexists. split; [apply watch_starts_In with (globs := paths_src_markup); [right; right; left; reflexivity|exact Hr]|left; reflexivity].
  - apply matches_any_literal in Hr; [|reflexivity].
    eexists. split; [apply watch_starts_In with (globs := paths_src_styles); [right; left; reflexivity|]|left; reflexivity].
    repeat destruct Hr as [<-|Hr]; try reflexivity. destruct Hr.
  - eexists. split; [apply watch_starts_In with (globs := paths_src_images); [right; right; right; left; reflexivity|exact Hr]|left; reflexivity].
Qed.

Lemma watch_covers_build_witness :
  In "javascript:app" (task_deps build_task) /\
  task_reads gulpfile_tasks [(["src"; "js"; "Utils.js"], "")] "javascript:app" ["src"; "js"; "Utils.js"] = true /\
  exists ts, In ts (watch_starts (watchers watch_task) ["src"; "js"; "Utils.js"]) /\ In "javascript:app" ts.
Proof.
  assert (Ht : In "javascript:app" (task_deps build_task)) by (right; left; reflexivity).
  assert (Hr : task_reads gulpfile_tasks [(["src"; "js"; "Utils.js"], "")] "javascript:app" ["src"; "js"; "Utils.js"] = true)
    by (vm_compute; reflexivity).
  split; [exact Ht|split; [exact Hr|exact (watch_covers_build _ _ _ Ht Hr)]].
Defined.

(** (C19) The cache-busting misses style changes under [gulp watch]: a
    change of a stylesheet (a file of [./src/css/**/*.css] that no
    other watcher selects) starts [minify:css] only. It rewrites
    [dist/css/style.min.css] with the new styles, and leaves every
    other file of [dist/], the markup with its [style.min.css?v=...]
    version included, as it was: browsers that cached the stylesheet
    under that version keep the old one. *)
Theorem watch_css_keeps_version (pg : Plugins) (now : JsDate) (tree : SrcTree) (fail : string -> option nat)
    (d : Dist) (path : list string) :
  matches_any paths_src_styles path = true -> matches_any paths_src_scripts path = false ->
  matches_any paths_src_markup path = false -> matches_any paths_src_images path = false ->
  fail "minify:css" = None ->
  watch_starts (watchers watch_task) path = [["minify:css"]] /\
  exists d', run_names pg now tree fail ["minify:css"] d = RunDone d' /\
    (forall k, k <> style_min_css -> d' !! k = d !! k) /\
    (src_files css_globs tree <> [] ->
     d' !! style_min_css =
       Some (pg_cssmin pg (pg_autoprefix pg AUTOPREFIXER_BROWSERS (String.concat (String "010"%char EmptyString)
         (map vf_text (src_files css_globs tree)))))).
Proof.
  intros H1 H2 H3 H4 Hf. split.
  - unfold watch_starts. cbn [watchers watch_task task_body List.filter fst]. rewrite H1, H2, H3, H4. reflexivity.
  - unfold run_names. rewrite (sequence_single "minify:css" css_task eq_refl eq_refl). cbn [run_order assoc gulpfile_tasks].
    cbn [String.eqb Ascii.eqb Bool.eqb]. unfold run_pipeline. rewrite Hf.
    cbn [css_task task_body pl_source run_source]. destruct (run_css pg (getTimestamp now) tree d) as (d' & E & Hk).
    exists d'. split; [rewrite <- E; reflexivity|exact Hk].
Qed.

Lemma watch_css_keeps_version_witness :
  let tree : SrcTree := [(["src"; "css"; "style.css"], "a"); (["src"; "index.html"], "v=1")] in
  let pg := mk_plugins id id (fun _ => id) id id (String.concat "") id in
  matches_any paths_src_styles ["src"; "css"; "style.css"] = true /\
  matches_any paths_src_scripts ["src"; "css"; "style.css"] = false /\
  matches_any paths_src_markup ["src"; "css"; "style.css"] = false /\
  matches_any paths_src_images ["src"; "css"; "style.css"] = false /\
  watch_starts (watchers watch_task) ["src"; "css"; "style.css"] = [["minify:css"]] /\
  run_names pg (mk_date 2015 5 1 12 0 7) tree (fun _ => None) ["minify:css"] {[ ["dist"; "index.html"] := "v=1" ]} =
    RunDone (<[style_min_css := "a"]> {[ ["dist"; "index.html"] := "v=1" ]}).
Proof.
  intros tree pg.
  destruct (watch_css_keeps_version pg (mk_date 2015 5 1 12 0 7) tree (fun _ => None)
    {[ ["dist"; "index.html"] := "v=1" ]} ["src"; "css"; "style.css"] eq_refl eq_refl eq_refl eq_refl eq_refl)
    as [W _].
  split; [reflexivity|split; [reflexivity|split; [reflexivity|split; [reflexivity|split; [exact W|]]]]].
  vm_compute. reflexivity.
Defined.

(** (C20) plumber guards the plugins but not the sources: in each of the
    five tasks of [build], an error of any stage piped after
    [plumber] (a plugin, [gulp.dest]) is handled, the task ends and
    [dist/] is left as it was; an error of the source itself, which
    for [javascript:app] is browserify's [bundle()] (a syntax error or
    a missing module in src/js), has no listener and ends gulp, the
    watchers of [gulp watch] with it. *)
Theorem plumber_scope (pg : Plugins) (ts : string) (tree : SrcTree) (d : Dist) (t : string) (p : Pipeline) (i : nat) :
  In t (task_deps build_task) -> assoc t gulpfile_tasks = Some (mk_task [] (StreamBody p)) ->
  run_source pg (pl_source p) tree <> None ->
  (2 <= i <= List.length (pl_stages p) -> run_pipeline pg ts tree p (Some i) d = Handled d) /\
  run_pipeline pg ts tree p (Some 0) d = Crash.
Proof.
  intros Ht Hp Hs. unfold run_pipeline. destruct (run_source pg (pl_source p) tree) as [fs|]; [|contradiction].
  split; [|reflexivity]. intros Hi. destruct i as [|k]; [lia|].
  rewrite decide_True; [reflexivity|].
  cbn in Ht. destruct Ht as [<-|[<-|[<-|[<-|[<-|[]]]]]]; cbn in Hp; injection Hp as <-;
    cbn in Hi |- *; (destruct k as [|k]; [lia|]); cbn; left.
Qed.

Lemma plumber_scope_witness :
  let tree : SrcTree := [(["src"; "js"; "main.js"], "M"); (["src"; "js"; "Application.js"], "A");
    (["src"; "js"; "Utils.js"], "U"); (["src"; "js"; "LoadingState.js"], "L");
    (["src"; "js"; "PlayState.js"], "P"); (["src"; "js"; "LoadSceneState.js"], "S")] in
  let pg := mk_plugins id id (fun _ => id) id id (String.concat "") id in
  let p := mk_pipeline (BrowserifyBundle ["./src/js/main.js"])
    [Plumber; VinylSource "main.min.js"; VinylBuffer; SourceMapsInit; Uglify true; SourceMapsWrite;
     Dest paths_dest_scripts] in
  In "javascript:app" (task_deps build_task) /\
  assoc "javascript:app" gulpfile_tasks = Some (mk_task [] (StreamBody p)) /\
  run_source pg (pl_source p) tree <> None /\ (2 <= 5 <= List.length (pl_stages p))%nat /\
  run_pipeline pg "" tree p (Some 5) ∅ = Handled ∅ /\ run_pipeline pg "" tree p (Some 0) ∅ = Crash.
Proof.
  intros tree pg p.
  assert (Ht : In "javascript:app" (task_deps build_task)) by (right; left; reflexivity).
  assert (Hp : assoc "javascript:app" gulpfile_tasks = Some (mk_task [] (StreamBody p))) by reflexivity.
  assert (Hs : run_source pg (pl_source p) tree <> None) by (vm_compute; discriminate).
  assert (Hi : (2 <= 5 <= List.length (pl_stages p))%nat) by (cbn; lia).
  destruct (plumber_scope pg "" tree ∅ _ p 5 Ht Hp Hs) as [H5 H0].
  split; [exact Ht|split; [exact Hp|split; [exact Hs|split; [exact Hi|split; [exact (H5 Hi)|exact H0]]]]].
Defined.

(** (C21) The five tasks of [build] run at once (orchestrator starts
    every task whose dependencies are done, and none of the five has
    any), so they may end in any order: whatever the plugins compute,
    whatever stage fails, every order in which they end leaves the same
    [dist/] (or the same crash), because no two of them write the same
    path. *)
Theorem build_order_irrelevant (pg : Plugins) (now : JsDate) (tree : SrcTree) (fail : string -> option nat)
    (order : list string) (d : Dist) :
  Permutation order (task_deps build_task) ->
  run_order pg now tree fail order d = run_order pg now tree fail (task_deps build_task) d.
Proof.
  intros Hp. apply run_order_perm; [exact Hp|]. intros x Hx. exact (Permutation_in _ Hp Hx).
Qed.

Lemma build_order_irrelevant_witness :
  let pg := mk_plugins id id (fun _ => id) id id (String.concat "") id in
  let tree : SrcTree := [(["src"; "index.html"], "v=1"); (["src"; "css"; "style.css"], "a");
    (["src"; "img"; "fur.png"], "p")] in
  Permutation ["copy:images"; "minify:css"; "minify:html"; "javascript:app"; "javascript:libraries"]
    (task_deps build_task) /\
  run_order pg (mk_date 2015 5 1 12 0 7) tree (fun _ => None)
    ["copy:images"; "minify:css"; "minify:html"; "javascript:app"; "javascript:libraries"] ∅ =
  run_order pg (mk_date 2015 5 1 12 0 7) tree (fun _ => None) (task_deps build_task) ∅.
Proof.
  intros pg tree.
  assert (Hp : Permutation ["copy:images"; "minify:css"; "minify:html"; "javascript:app"; "javascript:libraries"]
    (task_deps build_task)) by (apply Permutation_sym, (Permutation_rev (task_deps build_task))).
  split; [exact Hp|exact (build_order_irrelevant pg _ tree _ _ ∅ Hp)].
Defined.

End Gulp.
