(* ===== verification/Frame.v ===== *)
(** * Frame: the per-frame step of [LoadSceneState._render]

    This file models [src/src/js/LoadSceneState.js], lines 405-463
    ([_render]), the mesh construction of [_meshLoaded] (lines 300-351)
    and the pointer handlers (lines 270-291).

    - Wall-clock times ([Date.now()]) are integers (Z). The first
      frame's [_oldTime] is [undefined], so its delta is NaN ([None]).
    - The frame's arithmetic (delta, smoothing, the spring [_mouseObj],
      [_shaderTime], the pointer) is exact rational arithmetic (Q).
    - The gravity vector and the camera position go through
      [Math.sin]/[Math.cos] and live in the reals (R).
    - The [_gravity] Vector3 is one object shared by every mesh's
      [gravity] uniform. It lives in a store ([gmap loc vec3]), and the
      meshes hold its location. [globalTime] is a number copied into
      each uniform, which is why [_render] loops over [_meshes].
    - [spring_energy] is a quadratic form of the spring's state that
      each frame scales by the damping factor. It is an analysis
      definition, not code, and gives the spring's decay. *)

From stdpp Require Import base list gmap.
From Stdlib Require Import ZArith QArith Qminmax Reals Qreals Factorial Lia Psatz.
From S2P Require Import Spec2Rocq.

Module Render.

Local Open Scope Q_scope.

(** ** Data *)

(** [THREE.Vector2] for [_mouse]. *)
Record vec2 := mk_vec2 { v2x : Q; v2y : Q }.

(** [_mouseObj = { x: 0, y: 0, vx: 0, vy: 0 }] (lines 73-79). *)
Record MouseObj := mk_mouse_obj { mo_x : Q; mo_y : Q; mo_vx : Q; mo_vy : Q }.

(** [THREE.Vector3] for [_gravity] and [_camera.position]: its
    coordinates pass through [Math.sin], so they are reals. *)
Record vec3 := mk_vec3 { r3x : R; r3y : R; r3z : R }.

(** Locations of the store of shared objects. *)
Definition loc := nat.

(** [_gravity] is the only shared Vector3 the meshes point to. *)
Definition gravity_loc : loc := 0%nat.

(** A shell mesh's uniforms (lines 319-326): [offset] and [globalTime]
    are numbers copied at construction, [gravity] is a reference. *)
Record Mesh := mk_mesh { m_offset : Q; m_globalTime : Q; m_gravity : loc }.

(** The closure variables of [LoadSceneState] that [_render] reads or
    writes. [fs_draws] counts the calls to [_renderer.render]. *)
Record FrameState := mk_frame {
  fs_oldTime : option Z;       (** [_oldTime]; [undefined] initially *)
  fs_mouse : vec2;             (** [_mouse] *)
  fs_mouseObj : MouseObj;      (** [_mouseObj] *)
  fs_camera : vec3;            (** [_camera.position] *)
  fs_shaderTime : Q;           (** [_shaderTime] *)
  fs_meshes : list Mesh;       (** [_meshes] *)
  fs_store : gmap loc vec3;    (** the Vector3 objects, [_gravity] at [gravity_loc] *)
  fs_draws : nat               (** calls of [_renderer.render] *)
}.

(** The state [initialize] (lines 71-79) and the declarations (lines
    40-48) leave behind, before [_initScene] sets the camera's [z] to
    150 (line 138). *)
Definition init_frame : FrameState := {|
  fs_oldTime := None;
  fs_mouse := mk_vec2 0 0;
  fs_mouseObj := mk_mouse_obj 0 0 0 0;
  fs_camera := mk_vec3 0 0 0;
  fs_shaderTime := 0;
  fs_meshes := [];
  fs_store := {[ gravity_loc := mk_vec3 0 0 0 ]};
  fs_draws := 0
|}.

(** ** Step 1: the frame delta (lines 406-412) *)

(** [1000/60], the default frame duration. *)
Definition default_delta : Q := 1000 # 60.

(** [_delta = _time - _oldTime]: NaN while [_oldTime] is [undefined]. *)
Definition raw_delta (time : Z) (oldTime : option Z) : option Z :=
  match oldTime with
  | Some old => Some (time - old)%Z
  | None => None
  end.

(** [if (isNaN(_delta) || _delta > 1000 || _delta == 0) _delta = 1000/60]. *)
Definition clamp_delta (d : option Z) : Q :=
  match d with
  | None => default_delta
  | Some d => if (1000 <? d)%Z || (d =? 0)%Z then default_delta else inject_Z d
  end.

(** ** Step 2: the smoothing factor (lines 414-415) *)

(** [optimalDivider = _delta/16; smoothing = Math.max(4, 20/optimalDivider)]. *)
Definition smoothing_of (delta : Q) : Q := Qmax 4 (20 / (delta / 16)).

(** ** Step 3: the damped spring of [_mouseObj] (lines 419-426) *)

Definition spring_step (smoothing : Q) (mouse : vec2) (mo : MouseObj) : MouseObj :=
  let xf := (v2x mouse - mo_x mo) / (smoothing * 5) in
  let yf := (v2y mouse - mo_y mo) / (smoothing * 5) in
  let vx := (mo_vx mo + xf) * (96 # 100) in
  let vy := (mo_vy mo + yf) * (94 # 100) in
  mk_mouse_obj (mo_x mo + vx) (mo_y mo + vy) vx vy.

(** ** Step 4: the FFT-to-gravity map (lines 438-443) *)

(** [x = Math.PI * (FFT[1] - 255*2/3)/(255*2/3) - Math.PI / 2 + Math.PI / 4]. *)
Definition gravity_angle_x (fft1 : Z) : R :=
  (PI * (IZR fft1 - 255 * 2 / 3) / (255 * 2 / 3) - PI / 2 + PI / 4)%R.

(** [y = Math.PI * FFT[0]/255 - Math.PI / 2 - Math.PI / 4]. *)
Definition gravity_angle_y (fft0 : Z) : R :=
  (PI * IZR fft0 / 255 - PI / 2 - PI / 4)%R.

(** [_gravity.x = Math.sin(x) + Math.PI / 4]. *)
Definition gravity_x (fft1 : Z) : R := (sin (gravity_angle_x fft1) + PI / 4)%R.

(** [_gravity.y = Math.sin(y)]. *)
Definition gravity_y (fft0 : Z) : R := sin (gravity_angle_y fft0).

(** ** Step 5: the camera's approach to its orbit point (lines 448-450) *)

Definition approach (target cur : R) (smoothing : Q) : R :=
  (cur + (target - cur) / Q2R smoothing)%R.

Definition camera_step (smoothing : Q) (mouse : vec2) (c : vec3) : vec3 :=
  let mx := Q2R (v2x mouse) in
  let my := Q2R (v2y mouse) in
  mk_vec3 (approach (sin mx * 150) (r3x c) smoothing)
          (approach (sin my * 150) (r3y c) smoothing)
          (approach (cos mx * 150) (r3z c) smoothing).

(** ** Step 6: the shader clock and its broadcast (lines 454-458) *)

Definition set_globalTime (t : Q) (m : Mesh) : Mesh :=
  mk_mesh (m_offset m) t (m_gravity m).

(** [for (i = 0; i < _meshes.length; i++) _meshes[i]...globalTime.value = _shaderTime]. *)
Fixpoint broadcast_time (t : Q) (ms : list Mesh) : list Mesh :=
  match ms with
  | [] => []
  | m :: ms' => set_globalTime t m :: broadcast_time t ms'
  end.

(** ** Writes to the shared [_gravity] object *)

Definition set_x (x : R) (v : vec3) : vec3 := mk_vec3 x (r3y v) (r3z v).
Definition set_y (y : R) (v : vec3) : vec3 := mk_vec3 (r3x v) y (r3z v).

(** What a mesh's [gravity] uniform shows: the object it points to. *)
Definition mesh_gravity (st : gmap loc vec3) (m : Mesh) : option vec3 :=
  st !! m_gravity m.

(** ** The whole frame: [_render()] with [Date.now() = now]

    [fft] is [_Application.getFFT()]; [has_gl] is [_has_gl]. The first
    write of [_gravity.x] (line 428) and of [_gravity.y] (line 434) are
    overwritten on lines 442-443 before anything reads them; they are
    kept so that the store sees the writes in the code's order. *)
Definition render (has_gl : bool) (now : Z) (fft : list Z) (fs : FrameState) : FrameState :=
  let delta := clamp_delta (raw_delta now (fs_oldTime fs)) in
  let smoothing := smoothing_of delta in
  let mo := spring_step smoothing (fs_mouse fs) (fs_mouseObj fs) in
  let g0 := (- Q2R (v2x (fs_mouse fs) - mo_x mo) * 2)%R in
  let st1 := alter (set_x g0) gravity_loc (fs_store fs) in
  let st2 := alter (set_y 0) gravity_loc st1 in
  let st3 := alter (set_x (gravity_x (nth 1 fft 0%Z))) gravity_loc st2 in
  let st4 := alter (set_y (gravity_y (nth 0 fft 0%Z))) gravity_loc st3 in
  let t := fs_shaderTime fs + delta * (5 # 1000) in
  {| fs_oldTime := Some now;
     fs_mouse := fs_mouse fs;
     fs_mouseObj := mo;
     fs_camera := camera_step smoothing (fs_mouse fs) (fs_camera fs);
     fs_shaderTime := t;
     fs_meshes := broadcast_time t (fs_meshes fs);
     fs_store := st4;
     fs_draws := if has_gl then S (fs_draws fs) else fs_draws fs |}.

(** ** [_meshLoaded] (lines 300-351): the shells *)

(** [nbShells = 60*2.5], or 45 on a touch device. *)
Definition nbShells (touch : bool) : nat := if touch then 45%nat else 150%nat.

(** Shell [i] of [n]: [offset = i/nbShells], [globalTime = _shaderTime],
    [gravity = _gravity] (the shared object). *)
Definition shell (n : nat) (t : Q) (i : nat) : Mesh :=
  mk_mesh (inject_Z (Z.of_nat i) / inject_Z (Z.of_nat n)) t gravity_loc.

(** The loop [for (i = 0; i < nbShells; i++) { ...; _meshes.push(mesh) }]. *)
Definition meshLoaded (touch : bool) (fs : FrameState) : FrameState :=
  let n := nbShells touch in
  {| fs_oldTime := fs_oldTime fs;
     fs_mouse := fs_mouse fs;
     fs_mouseObj := fs_mouseObj fs;
     fs_camera := fs_camera fs;
     fs_shaderTime := fs_shaderTime fs;
     fs_meshes := fs_meshes fs ++ map (shell n (fs_shaderTime fs)) (seq 0 n);
     fs_store := fs_store fs;
     fs_draws := fs_draws fs |}.

(** ** Pointer handlers (lines 270-291)

    [_mouse.x = (clientX / innerWidth) * 2 - 1] and
    [_mouse.y = - (clientY / innerHeight) * 2 + 1]. The touch handler
    computes the same from [event.touches[0]]. *)
Definition pointer_to_mouse (cx cy w h : Z) : vec2 :=
  mk_vec2 (inject_Z cx / inject_Z w * 2 - 1) (- (inject_Z cy / inject_Z h) * 2 + 1).

Definition set_mouse (m : vec2) (fs : FrameState) : FrameState :=
  {| fs_oldTime := fs_oldTime fs;
     fs_mouse := m;
     fs_mouseObj := fs_mouseObj fs;
     fs_camera := fs_camera fs;
     fs_shaderTime := fs_shaderTime fs;
     fs_meshes := fs_meshes fs;
     fs_store := fs_store fs;
     fs_draws := fs_draws fs |}.

(** [_camera = new THREE.PerspectiveCamera(...); _camera.position.z = 150]
    (lines 137-138) in [_initScene]. *)
Definition set_camera (c : vec3) (fs : FrameState) : FrameState :=
  {| fs_oldTime := fs_oldTime fs;
     fs_mouse := fs_mouse fs;
     fs_mouseObj := fs_mouseObj fs;
     fs_camera := c;
     fs_shaderTime := fs_shaderTime fs;
     fs_meshes := fs_meshes fs;
     fs_store := fs_store fs;
     fs_draws := fs_draws fs |}.

(** [LoadSceneState.initialize] (lines 71-79): a fresh [_mouse], a fresh
    [_gravity] object and a fresh [_mouseObj]. *)
Definition initialize_frame (fs : FrameState) : FrameState :=
  {| fs_oldTime := fs_oldTime fs;
     fs_mouse := mk_vec2 0 0;
     fs_mouseObj := mk_mouse_obj 0 0 0 0;
     fs_camera := fs_camera fs;
     fs_shaderTime := fs_shaderTime fs;
     fs_meshes := fs_meshes fs;
     fs_store := <[gravity_loc := mk_vec3 0 0 0]> (fs_store fs);
     fs_draws := fs_draws fs |}.

(** ** Runs of consecutive frames

    [_animate] re-requests itself on every animation frame; with no
    pointer event in between, a run of frames is a fold of [render]. *)
Fixpoint run_frames (has_gl : bool) (fft : list Z) (times : list Z) (fs : FrameState) : FrameState :=
  match times with
  | [] => fs
  | t :: ts => run_frames has_gl fft ts (render has_gl t fft fs)
  end.

(** ** Equivalence of spring states

    Rationals are compared with [==]: two [MouseObj]s are equivalent
    when their four fields are. *)
Definition mo_equiv (a b : MouseObj) : Prop :=
  mo_x a == mo_x b /\ mo_y a == mo_y b /\ mo_vx a == mo_vx b /\ mo_vy a == mo_vy b.

Definition vec2_equiv (a b : vec2) : Prop := v2x a == v2x b /\ v2y a == v2y b.

#[export] Instance mo_equiv_Equivalence : Equivalence mo_equiv.
Proof.
  split.
  - intros a; repeat split; reflexivity.
  - intros a b (? & ? & ? & ?); repeat split; symmetry; assumption.
  - intros a b c (? & ? & ? & ?) (? & ? & ? & ?); repeat split; eapply Qeq_trans; eauto.
Qed.

#[export] Instance vec2_equiv_Equivalence : Equivalence vec2_equiv.
Proof.
  split.
  - intros a; repeat split; reflexivity.
  - intros a b [? ?]; split; symmetry; assumption.
  - intros a b c [? ?] [? ?]; split; eapply Qeq_trans; eauto.
Qed.

#[export] Instance mk_mouse_obj_Proper :
  Proper (Qeq ==> Qeq ==> Qeq ==> Qeq ==> mo_equiv) mk_mouse_obj.
Proof. intros ?? H1 ?? H2 ?? H3 ?? H4. repeat split; assumption. Qed.

(** The spring step respects the equivalence in all its arguments. *)
#[export] Instance spring_step_Proper :
  Proper (Qeq ==> vec2_equiv ==> mo_equiv ==> mo_equiv) spring_step.
Proof.
  intros s1 s2 Hs [mx1 my1] [mx2 my2] [Hx Hy] [x1 y1 vx1 vy1] [x2 y2 vx2 vy2]
    (Ex & Ey & Evx & Evy); simpl in *.
  unfold spring_step, mo_equiv; simpl.
  rewrite Hs, Hx, Hy, Ex, Ey, Evx, Evy. repeat split; reflexivity.
Qed.

(** The point the camera orbits toward: [sin(mouse.x)*150],
    [sin(mouse.y)*150], [cos(mouse.x)*150]. *)
Definition camera_target (m : vec2) : vec3 :=
  mk_vec3 (sin (Q2R (v2x m)) * 150) (sin (Q2R (v2y m)) * 150) (cos (Q2R (v2x m)) * 150).

(** The value [_render] leaves in the [_gravity] object. *)
Definition frame_gravity (fft : list Z) (v : vec3) : vec3 :=
  mk_vec3 (gravity_x (nth 1 fft 0%Z)) (gravity_y (nth 0 fft 0%Z)) (r3z v).

(** ** The spring's energy

    Per axis, with [e] the distance from [_mouseObj] to a still pointer
    and [v] the velocity, one step of [spring_step] is the linear map
    [(e, v) -> ((1-k) e - d v, k e + d v)], with [k = d/(smoothing*5)]
    and the damping [d] (0.96 on x, 0.94 on y). Its determinant is [d].
    [spring_energy] is the quadratic form [z' J (M - tr M/2) z] of that
    map, which each step multiplies by exactly [d]. It is positive
    definite when [spring_gap] is positive. *)
Definition spring_k (d s : Q) : Q := d / (s * 5).
Definition spring_n (d s : Q) : Q := (1 - d - spring_k d s) / 2.
Definition spring_energy (d s e v : Q) : Q :=
  spring_k d s * e * e - 2 * spring_n d s * e * v + d * v * v.
Definition spring_gap (d s : Q) : Q := spring_k d s * d - spring_n d s * spring_n d s.

Fixpoint qpow (q : Q) (n : nat) : Q := match n with O => 1 | S n => q * qpow q n end.

Definition energy_x (s : Q) (m : vec2) (mo : MouseObj) : Q :=
  spring_energy (96 # 100) s (v2x m - mo_x mo) (mo_vx mo).
Definition energy_y (s : Q) (m : vec2) (mo : MouseObj) : Q :=
  spring_energy (94 # 100) s (v2y m - mo_y mo) (mo_vy mo).

(** Frame times at a constant rate: [t0 + dt], [t0 + 2 dt], ... *)
Fixpoint ticks (t0 dt : Z) (n : nat) : list Z :=
  match n with O => [] | S n => (t0 + dt)%Z :: ticks (t0 + dt) dt n end.

(** ** The delta clamp *)

Lemma clamp_delta_none : clamp_delta None = default_delta.
Proof. reflexivity. Qed.

Lemma clamp_delta_some (z : Z) :
  clamp_delta (Some z) = if (1000 <? z)%Z || (z =? 0)%Z then default_delta else inject_Z z.
Proof. reflexivity. Qed.

(** The two outcomes of the guard on a number. *)
Lemma clamp_delta_some_cases (z : Z) :
  ((1000 < z)%Z \/ z = 0%Z) /\ clamp_delta (Some z) = default_delta \/
  (z <> 0%Z /\ (z <= 1000)%Z /\ clamp_delta (Some z) = inject_Z z).
Proof.
  rewrite clamp_delta_some.
  destruct (Z.ltb_spec 1000 z), (Z.eqb_spec z 0); simpl; [left; auto ..|right; auto].
Qed.

(** (C13) The guard of lines 410-412 on every branch: the default
    [1000/60] replaces NaN, a delta above 1000 and a zero delta; every
    other delta, negative ones included, is used as it is. *)
Theorem clamp_delta_spec (d : option Z) :
  (clamp_delta d = default_delta /\
     (d = None \/ exists z, d = Some z /\ ((1000 < z)%Z \/ z = 0%Z)))
  \/ (exists z, d = Some z /\ z <> 0%Z /\ (z <= 1000)%Z /\ clamp_delta d = inject_Z z).
Proof.
  destruct d as [z|]; [|left; auto].
  destruct (clamp_delta_some_cases z) as [[Hz ->]|(Hz0 & Hz & ->)]; [left; eauto|right; eauto].
Qed.

(** A negative delta, when [Date.now()] goes back between two
    frames, passes the guard unchanged: the effective delta is
    negative and not [1000/60]. *)
Theorem clamp_delta_negative (z : Z) :
  (z < 0)%Z -> clamp_delta (Some z) = inject_Z z /\ clamp_delta (Some z) < 0.
Proof.
  intros Hz. rewrite clamp_delta_some.
  destruct (Z.ltb_spec 1000 z); [lia|].
  destruct (Z.eqb_spec z 0); [lia|]. simpl.
  split; [reflexivity|]. unfold Qlt; simpl. lia.
Qed.

Lemma clamp_delta_negative_witness :
  (-5 < 0)%Z /\ clamp_delta (Some (-5)%Z) = inject_Z (-5) /\ clamp_delta (Some (-5)%Z) < 0.
Proof. split; [lia|]. apply (clamp_delta_negative (-5)%Z). lia. Defined.

(** ** Bounds of the smoothing factor *)

(** [20 / (d/16)] is at most 320 for a delta of at least one ms. *)
Lemma smoothing_term_le (d : Q) : 1 <= d -> 20 / (d / 16) <= 320.
Proof.
  intros Hd. apply Qle_shift_div_r.
  - apply Qlt_shift_div_l; [reflexivity|lra].
  - assert (320 * (d / 16) == 20 * d) as -> by field. lra.
Qed.

(** ... and negative for a negative delta. *)
Lemma smoothing_term_neg (d : Q) : d < 0 -> 20 / (d / 16) < 0.
Proof.
  intros Hd.
  assert (E : 20 / (d / 16) == - (20 / (- d / 16))) by (field; intros E; rewrite E in Hd; lra).
  rewrite E.
  assert (0 < 20 / (- d / 16)); [|lra].
  apply Qlt_shift_div_l; [apply Qlt_shift_div_l; [reflexivity|lra]|lra].
Qed.

Lemma smoothing_of_bounds (d : Q) :
  (d < 0 \/ 1 <= d) -> 4 <= smoothing_of d <= 320.
Proof.
  intros Hd. unfold smoothing_of. split; [apply Qmax_ge_l|].
  apply Q.max_lub; [lra|].
  destruct Hd as [Hd|Hd];
    [apply Qlt_le_weak, Qlt_le_trans with 0; [apply smoothing_term_neg|]; lra
    |apply smoothing_term_le; assumption].
Qed.

(** Every delta the guard lets through is negative or at least 1. *)
Lemma clamp_delta_range (d : option Z) : clamp_delta d < 0 \/ 1 <= clamp_delta d.
Proof.
  destruct d as [z|]; [|right; unfold Qle; simpl; lia].
  destruct (clamp_delta_some_cases z) as [[_ ->]|(Hz0 & _ & ->)].
  - right. unfold default_delta, Qle; simpl. lia.
  - unfold Qlt, Qle; simpl. lia.
Qed.


(** ** The shader clock *)

Lemma render_shaderTime (b : bool) (now : Z) (fft : list Z) (fs : FrameState) :
  fs_shaderTime (render b now fft fs)
  = fs_shaderTime fs + clamp_delta (raw_delta now (fs_oldTime fs)) * (5 # 1000).
Proof. reflexivity. Qed.

(** For a clock that does not go back, the guard's output is positive. *)
Lemma clamp_delta_pos (now : Z) (old : option Z) :
  (forall o, old = Some o -> (o <= now)%Z) -> 0 < clamp_delta (raw_delta now old).
Proof.
  intros Hmono. destruct old as [o|]; cbn [raw_delta]; [|reflexivity].
  specialize (Hmono o eq_refl).
  destruct (clamp_delta_some_cases (now - o)%Z) as [[_ ->]|(Hz0 & _ & ->)]; [reflexivity|].
  unfold Qlt; simpl. lia.
Qed.

(** With a clock that never goes back, every frame advances
    [_shaderTime] strictly: the fur animation never stalls or reverses. *)
Theorem shaderTime_increases (b : bool) (now : Z) (fft : list Z) (fs : FrameState) :
  (forall o, fs_oldTime fs = Some o -> (o <= now)%Z) ->
  fs_shaderTime fs < fs_shaderTime (render b now fft fs).
Proof.
  intros Hmono. rewrite render_shaderTime.
  pose proof (clamp_delta_pos now (fs_oldTime fs) Hmono). lra.
Qed.

Lemma shaderTime_increases_witness :
  (forall o, fs_oldTime init_frame = Some o -> (o <= 1000)%Z) /\
  fs_shaderTime init_frame < fs_shaderTime (render true 1000 [0; 0; 0]%Z init_frame).
Proof.
  assert (H : forall o, fs_oldTime init_frame = Some o -> (o <= 1000)%Z)
    by (simpl; discriminate).
  split; [exact H|]. apply (shaderTime_increases true 1000 [0; 0; 0]%Z init_frame H).
Defined.

(** When the wall clock goes back between two frames, the frame
    moves [_shaderTime] backwards: the spec's claim that the
    accumulator only increases does not hold for the code. *)
Theorem shaderTime_decreases (b : bool) (now old : Z) (fft : list Z) (fs : FrameState) :
  fs_oldTime fs = Some old -> (now < old)%Z ->
  fs_shaderTime (render b now fft fs) < fs_shaderTime fs.
Proof.
  intros Hold Hlt. rewrite render_shaderTime, Hold. cbn [raw_delta].
  destruct (clamp_delta_some_cases (now - old)%Z) as [[[]] |(_ & _ & ->)]; [lia ..|].
  assert (inject_Z (now - old) < 0) by (unfold Qlt; simpl; lia). lra.
Qed.

Lemma shaderTime_decreases_witness :
  fs_oldTime (render true 2000 [0; 0; 0]%Z init_frame) = Some 2000%Z /\ (1000 < 2000)%Z /\
  fs_shaderTime (render true 1000 [0; 0; 0]%Z (render true 2000 [0; 0; 0]%Z init_frame))
  < fs_shaderTime (render true 2000 [0; 0; 0]%Z init_frame).
Proof.
  assert (H : fs_oldTime (render true 2000 [0; 0; 0]%Z init_frame) = Some 2000%Z) by reflexivity.
  split; [exact H|split; [lia|]]. exact (shaderTime_decreases true 1000 2000 _ _ H ltac:(lia)).
Defined.

(** ** The camera's approach to its orbit point *)

Lemma Q2R_smoothing_bounds (s : Q) : 4 <= s <= 320 -> (4 <= Q2R s <= 320)%R.
Proof.
  intros [H1 H2]. apply Qle_Rle in H1, H2. lra.
Qed.

(** One step of [position += (target - position) / smoothing]
    multiplies the distance to the target by [1 - 1/smoothing]. *)
Lemma approach_contracts (T c : R) (s : Q) :
  4 <= s <= 320 -> (Rabs (T - approach T c s) <= 319 / 320 * Rabs (T - c))%R.
Proof.
  intros Hs. apply Q2R_smoothing_bounds in Hs. unfold approach.
  set (q := Q2R s) in *.
  replace (T - (c + (T - c) / q))%R with ((1 - / q) * (T - c))%R by (field; lra).
  rewrite Rabs_mult, (Rabs_right (1 - / q)).
  - apply Rmult_le_compat_r; [apply Rabs_pos|].
    assert (/ 320 <= / q)%R by (apply Rinv_le_contravar; lra). lra.
  - assert (/ q <= / 4)%R by (apply Rinv_le_contravar; lra). lra.
Qed.

Lemma render_mouse (b : bool) (now : Z) (fft : list Z) (fs : FrameState) :
  fs_mouse (render b now fft fs) = fs_mouse fs.
Proof. reflexivity. Qed.

(** The per-axis convergence, for any axis the camera step moves
    toward a fixed target. *)
Lemma camera_axis_contracts (sel : vec3 -> R) (T : R) (m : vec2) (b : bool) (fft : list Z) :
  (forall s c, sel (camera_step s m c) = approach T (sel c) s) ->
  forall times fs, fs_mouse fs = m ->
  (Rabs (T - sel (fs_camera (run_frames b fft times fs)))
     <= (319 / 320) ^ length times * Rabs (T - sel (fs_camera fs)))%R.
Proof.
  intros Hsel times. induction times as [|t ts IH]; intros fs Hm; simpl.
  - lra.
  - eapply Rle_trans; [apply IH; rewrite render_mouse; exact Hm|].
    rewrite (Rmult_comm (319 / 320)), Rmult_assoc.
    apply Rmult_le_compat_l; [apply pow_le; lra|].
    cbn [fs_camera render]. rewrite Hm, Hsel.
    apply approach_contracts, smoothing_of_bounds, clamp_delta_range.
Qed.

(** (C14) While the pointer stays still, every frame brings each
    coordinate of the camera at least 1/320 of the way to the orbit
    target: after [n] frames the distance is at most [(319/320)^n]
    times the initial one, whatever the frame times. *)
Theorem camera_converges (b : bool) (fft times : list Z) (fs : FrameState) :
  let T := camera_target (fs_mouse fs) in
  let fs' := run_frames b fft times fs in
  (Rabs (r3x T - r3x (fs_camera fs')) <= (319 / 320) ^ length times * Rabs (r3x T - r3x (fs_camera fs)) /\
   Rabs (r3y T - r3y (fs_camera fs')) <= (319 / 320) ^ length times * Rabs (r3y T - r3y (fs_camera fs)) /\
   Rabs (r3z T - r3z (fs_camera fs')) <= (319 / 320) ^ length times * Rabs (r3z T - r3z (fs_camera fs)))%R.
Proof.
  simpl. repeat split; apply camera_axis_contracts with (m := fs_mouse fs); reflexivity.
Qed.


(** ** The spring's decay at a constant frame rate *)

Lemma spring_step_energy (s : Q) (m : vec2) (mo : MouseObj) :
  ~ s == 0 ->
  energy_x s m (spring_step s m mo) == (96 # 100) * energy_x s m mo /\
  energy_y s m (spring_step s m mo) == (94 # 100) * energy_y s m mo.
Proof.
  intros Hs. destruct m as [mx my], mo as [x y vx vy].
  unfold energy_x, energy_y, spring_energy, spring_n, spring_k, spring_step; simpl.
  split; field; exact Hs.
Qed.

Lemma spring_iter_energy (s : Q) (m : vec2) (n : nat) (mo : MouseObj) :
  ~ s == 0 ->
  energy_x s m (Nat.iter n (spring_step s m) mo) == qpow (96 # 100) n * energy_x s m mo /\
  energy_y s m (Nat.iter n (spring_step s m) mo) == qpow (94 # 100) n * energy_y s m mo.
Proof.
  intros Hs. induction n as [|n [IHx IHy]]; simpl; [split; ring|].
  destruct (spring_step_energy s m (Nat.iter n (spring_step s m) mo) Hs) as [Ex Ey].
  rewrite Ex, Ey, IHx, IHy. split; ring.
Qed.

(** The energy bounds the velocity and the distance to the pointer. *)
Lemma spring_energy_bounds (d s e v : Q) :
  spring_gap d s * (v * v) <= spring_k d s * spring_energy d s e v /\
  spring_gap d s * (e * e) <= d * spring_energy d s e v.
Proof.
  assert (Hsq : forall a : Q, 0 <= a * a) by (intros a; nra).
  split.
  - setoid_replace (spring_k d s * spring_energy d s e v) with
      (spring_gap d s * (v * v) + (spring_k d s * e - spring_n d s * v) * (spring_k d s * e - spring_n d s * v))
      using relation Qeq by (unfold spring_gap, spring_energy; ring).
    specialize (Hsq (spring_k d s * e - spring_n d s * v)). lra.
  - setoid_replace (d * spring_energy d s e v) with
      (spring_gap d s * (e * e) + (d * v - spring_n d s * e) * (d * v - spring_n d s * e))
      using relation Qeq by (unfold spring_gap, spring_energy; ring).
    specialize (Hsq (d * v - spring_n d s * e)). lra.
Qed.

Lemma spring_gap_x (s : Q) : 4 <= s <= 320 -> 0 < spring_gap (96 # 100) s.
Proof.
  intros [H1 H2]. unfold spring_gap, spring_n, spring_k.
  set (k := (96 # 100) / (s * 5)).
  assert (Hk : 6 # 10000 <= k <= 48 # 1000).
  { unfold k. split.
    - apply Qle_shift_div_l; [lra|]. lra.
    - apply Qle_shift_div_r; [lra|]. lra. }
  assert (0 <= (k - (6 # 10000)) * ((48 # 1000) - k)) by (apply Qmult_le_0_compat; lra).
  clearbody k. match goal with |- 0 < ?g => setoid_replace g with
    ((98 # 100) * k - (4 # 10000) - (1 # 4) * (k * k)) using relation Qeq by field end.
  lra.
Qed.

(** On y the form is definite only up to a smoothing of about 202
    (frames shorter than 1.6 ms); 200 is enough for whole ms frames. *)
Lemma spring_gap_y (s : Q) : 4 <= s <= 200 -> 0 < spring_gap (94 # 100) s.
Proof.
  intros [H1 H2]. unfold spring_gap, spring_n, spring_k.
  set (k := (94 # 100) / (s * 5)).
  assert (Hk : 94 # 100000 <= k <= 47 # 1000).
  { unfold k. split.
    - apply Qle_shift_div_l; [lra|]. lra.
    - apply Qle_shift_div_r; [lra|]. lra. }
  assert (0 <= (k - (94 # 100000)) * ((47 # 1000) - k)) by (apply Qmult_le_0_compat; lra).
  clearbody k. match goal with |- 0 < ?g => setoid_replace g with
    ((97 # 100) * k - (9 # 10000) - (1 # 4) * (k * k)) using relation Qeq by field end.
  lra.
Qed.

(** A frame time of at least 2 ms gives a smoothing of at most 160. *)
Lemma smoothing_of_tick (dt : Z) : (2 <= dt <= 1000)%Z -> 4 <= smoothing_of (inject_Z dt) <= 160.
Proof.
  intros Hdt. unfold smoothing_of. split; [apply Qmax_ge_l|].
  assert (Hd : 2 <= inject_Z dt) by (change (inject_Z 2 <= inject_Z dt); rewrite <- Zle_Qle; lia).
  apply Q.max_lub; [lra|]. apply Qle_shift_div_r.
  - apply Qlt_shift_div_l; [reflexivity|lra].
  - assert (160 * (inject_Z dt / 16) == 10 * inject_Z dt) as -> by field. lra.
Qed.

(** The frames at a constant rate apply the same spring step. *)
Lemma run_frames_ticks (b : bool) (fft : list Z) (t0 dt : Z) (n : nat) (fs : FrameState) :
  (0 < dt <= 1000)%Z -> fs_oldTime fs = Some t0 ->
  fs_mouseObj (run_frames b fft (ticks t0 dt n) fs)
  = Nat.iter n (spring_step (smoothing_of (inject_Z dt)) (fs_mouse fs)) (fs_mouseObj fs).
Proof.
  intros Hdt. revert t0 fs. induction n as [|n IH]; intros t0 fs Ht; [reflexivity|].
  cbn [ticks run_frames]. rewrite IH by reflexivity. rewrite Nat.iter_succ_r.
  cbn [fs_mouse fs_mouseObj render]. rewrite Ht. cbn [raw_delta].
  replace (t0 + dt - t0)%Z with dt by lia.
  destruct (clamp_delta_some_cases dt) as [[[]] |(_ & _ & ->)]; [lia ..|reflexivity].
Qed.


(** (C15) Spec section 8, "CameraMotionState velocity decays toward
    zero", at a constant frame rate: frames [dt] ms apart
    ([2 <= dt <= 1000]) with a still pointer multiply each axis'
    spring energy by 0.96 (x) or 0.94 (y). The energy is positive
    definite, so after [n] frames the velocity and the distance of
    [_mouseObj] to the pointer are bounded by [0.96^n] (x) and
    [0.94^n] (y) times the initial energy. *)
Theorem spring_decays (b : bool) (fft : list Z) (t0 dt : Z) (n : nat) (fs : FrameState) :
  (2 <= dt <= 1000)%Z -> fs_oldTime fs = Some t0 ->
  let s := smoothing_of (inject_Z dt) in
  let m := fs_mouse fs in
  let mo := fs_mouseObj (run_frames b fft (ticks t0 dt n) fs) in
  0 < spring_gap (96 # 100) s /\ 0 < spring_gap (94 # 100) s /\
  spring_gap (96 # 100) s * (mo_vx mo * mo_vx mo)
    <= spring_k (96 # 100) s * (qpow (96 # 100) n * energy_x s m (fs_mouseObj fs)) /\
  spring_gap (96 # 100) s * ((v2x m - mo_x mo) * (v2x m - mo_x mo))
    <= (96 # 100) * (qpow (96 # 100) n * energy_x s m (fs_mouseObj fs)) /\
  spring_gap (94 # 100) s * (mo_vy mo * mo_vy mo)
    <= spring_k (94 # 100) s * (qpow (94 # 100) n * energy_y s m (fs_mouseObj fs)) /\
  spring_gap (94 # 100) s * ((v2y m - mo_y mo) * (v2y m - mo_y mo))
    <= (94 # 100) * (qpow (94 # 100) n * energy_y s m (fs_mouseObj fs)).
Proof.
  intros Hdt Ht s m mo.
  pose proof (smoothing_of_tick dt Hdt) as Hs. fold s in Hs.
  assert (Hs0 : ~ s == 0) by (intros E; rewrite E in Hs; lra).
  unfold mo. rewrite (run_frames_ticks b fft t0 dt n fs) by (assumption || lia). fold s m.
  destruct (spring_iter_energy s m n (fs_mouseObj fs) Hs0) as [Ex Ey].
  unfold energy_x, energy_y in Ex, Ey |- *.
  rewrite <- Ex, <- Ey.
  split; [apply spring_gap_x; lra|split; [apply spring_gap_y; lra|]].
  repeat split; apply spring_energy_bounds.
Qed.

Lemma spring_decays_witness :
  (2 <= 16 <= 1000)%Z /\ fs_oldTime (render true 0 [0; 0; 0]%Z init_frame) = Some 0%Z /\
  0 < spring_gap (94 # 100) (smoothing_of (inject_Z 16)).
Proof.
  assert (Hdt : (2 <= 16 <= 1000)%Z) by lia.
  assert (Ht : fs_oldTime (render true 0 [0; 0; 0]%Z init_frame) = Some 0%Z) by reflexivity.
  split; [exact Hdt|split; [exact Ht|]].
  exact (proj1 (proj2 (spring_decays true [0; 0; 0]%Z 0 16 3 _ Hdt Ht))).
Defined.

(** ** The shader clock reaches every mesh *)

(** The index loop of lines 456-458 is a [map]. *)
Lemma broadcast_time_map (t : Q) (ms : list Mesh) :
  broadcast_time t ms = map (set_globalTime t) ms.
Proof. induction ms as [|m ms IH]; simpl; congruence. Qed.

Lemma render_meshes_length (b : bool) (now : Z) (fft : list Z) (fs : FrameState) :
  length (fs_meshes (render b now fft fs)) = length (fs_meshes fs).
Proof. cbn [fs_meshes render]. rewrite broadcast_time_map. apply length_map. Qed.

(** After a frame, every mesh's [globalTime] uniform holds the new
    [_shaderTime]; the meshes keep their number, order, offsets and
    gravity references. *)
Theorem render_broadcast (b : bool) (now : Z) (fft : list Z) (fs : FrameState) :
  let fs' := render b now fft fs in
  map (fun m => (m_offset m, m_gravity m)) (fs_meshes fs')
    = map (fun m => (m_offset m, m_gravity m)) (fs_meshes fs) /\
  Forall (fun m => m_globalTime m = fs_shaderTime fs') (fs_meshes fs').
Proof.
  simpl. rewrite broadcast_time_map, map_map. split; [reflexivity|].
  apply List.Forall_forall. intros m Hm. apply in_map_iff in Hm as (m0 & <- & _). reflexivity.
Qed.

(** ** The shared [_gravity] object *)

Lemma render_store_gravity (b : bool) (now : Z) (fft : list Z) (fs : FrameState) (v : vec3) :
  fs_store fs !! gravity_loc = Some v ->
  fs_store (render b now fft fs) !! gravity_loc = Some (frame_gravity fft v).
Proof. intros Hv. cbn [fs_store render]. rewrite !lookup_alter, Hv. reflexivity. Qed.

Lemma render_meshes_gravity (b : bool) (now : Z) (fft : list Z) (fs : FrameState) :
  map m_gravity (fs_meshes (render b now fft fs)) = map m_gravity (fs_meshes fs).
Proof. cbn [fs_meshes render]. rewrite broadcast_time_map, map_map. reflexivity. Qed.

(** Every mesh built by [_meshLoaded] sees, through its [gravity]
    uniform, the gravity the frame computed from the FFT. The uniforms
    share the one [_gravity] object, so no per-mesh copy is needed
    (unlike [globalTime], which is copied into each uniform). *)
Theorem render_gravity_shared (b : bool) (now : Z) (fft : list Z) (fs : FrameState) :
  is_Some (fs_store fs !! gravity_loc) ->
  Forall (fun m => m_gravity m = gravity_loc) (fs_meshes fs) ->
  Forall (fun m => exists g, mesh_gravity (fs_store (render b now fft fs)) m = Some g /\
                        r3x g = gravity_x (nth 1 fft 0%Z) /\ r3y g = gravity_y (nth 0 fft 0%Z))
         (fs_meshes (render b now fft fs)).
Proof.
  intros [v Hv] Hall.
  assert (Hg : Forall (fun m => m_gravity m = gravity_loc) (fs_meshes (render b now fft fs))).
  { assert (H : Forall (fun g => g = gravity_loc) (map m_gravity (fs_meshes (render b now fft fs))))
      by (rewrite render_meshes_gravity; apply Forall_map, Hall).
    apply Forall_map in H. exact H. }
  eapply Forall_impl; [exact Hg|]. intros m Hm.
  exists (frame_gravity fft v). unfold mesh_gravity. rewrite Hm.
  split; [apply render_store_gravity, Hv|split; reflexivity].
Qed.

Lemma render_gravity_shared_witness :
  is_Some (fs_store (meshLoaded false (initialize_frame init_frame)) !! gravity_loc) /\
  Forall (fun m => m_gravity m = gravity_loc) (fs_meshes (meshLoaded false (initialize_frame init_frame))) /\
  Forall (fun m => exists g, mesh_gravity (fs_store (render true 1000 [10; 128; 5]%Z
                                   (meshLoaded false (initialize_frame init_frame)))) m = Some g /\
                        r3x g = gravity_x 128 /\ r3y g = gravity_y 10)
         (fs_meshes (render true 1000 [10; 128; 5]%Z (meshLoaded false (initialize_frame init_frame)))).
Proof.
  assert (H1 : is_Some (fs_store (meshLoaded false (initialize_frame init_frame)) !! gravity_loc))
    by (eexists; reflexivity).
  assert (H2 : Forall (fun m => m_gravity m = gravity_loc)
                 (fs_meshes (meshLoaded false (initialize_frame init_frame)))).
  { apply List.Forall_forall. intros m Hm. cbn [meshLoaded fs_meshes initialize_frame init_frame] in Hm.
    apply in_map_iff in Hm as (i & <- & _). reflexivity. }
  split; [exact H1|split; [exact H2|]].
  exact (render_gravity_shared true 1000 [10; 128; 5]%Z _ H1 H2).
Defined.

(** ** The shells of [_meshLoaded] *)

Lemma shell_offset_range (n i : nat) : (i < n)%nat -> 0 <= m_offset (shell n 0 i) < 1.
Proof.
  intros Hi. simpl. assert (0 < inject_Z (Z.of_nat n)) by (unfold Qlt; simpl; lia).
  split.
  - apply Qle_shift_div_l; [assumption|]. unfold Qle; simpl; lia.
  - apply Qlt_shift_div_r; [assumption|]. unfold Qlt; simpl; lia.
Qed.

Lemma shells_props (n : nat) (t : Q) :
  Forall (fun m => 0 <= m_offset m < 1 /\ m_globalTime m = t /\ m_gravity m = gravity_loc)
         (map (shell n t) (seq 0 n)).
Proof.
  apply List.Forall_forall. intros m Hm.
  apply in_map_iff in Hm as (i & <- & Hi). apply in_seq in Hi.
  split; [apply (shell_offset_range n i); lia|auto].
Qed.

Lemma meshLoaded_meshes (touch : bool) (fs : FrameState) :
  fs_meshes (meshLoaded touch fs)
  = fs_meshes fs ++ map (shell (nbShells touch) (fs_shaderTime fs)) (seq 0 (nbShells touch)).
Proof. reflexivity. Qed.

(** [_meshLoaded] appends [nbShells] meshes (150, or 45 on a touch
    device). Their offsets [i/nbShells] lie in [0, 1), their
    [globalTime] is the current [_shaderTime], and they all point to
    the shared [_gravity] object. *)
Theorem meshLoaded_shells (touch : bool) (fs : FrameState) :
  let fs' := meshLoaded touch fs in
  length (fs_meshes fs') = (length (fs_meshes fs) + nbShells touch)%nat /\
  Forall (fun m => 0 <= m_offset m < 1 /\ m_globalTime m = fs_shaderTime fs /\ m_gravity m = gravity_loc)
         (drop (length (fs_meshes fs)) (fs_meshes fs')).
Proof.
  cbv zeta. rewrite meshLoaded_meshes, length_app, length_map, length_seq.
  split; [reflexivity|]. rewrite drop_app_length. apply shells_props.
Qed.

(** ** The spring at rest *)

(** A spring at rest on the pointer stays at rest: a still
    pointer whose coordinates equal [_mouseObj]'s position (as
    rationals), with zero velocity, is a fixed point of the spring,
    for every smoothing factor. *)
Theorem spring_rest (s : Q) (m : vec2) (mo : MouseObj) :
  vec2_equiv m (mk_vec2 (mo_x mo) (mo_y mo)) -> mo_vx mo == 0 -> mo_vy mo == 0 ->
  mo_equiv (spring_step s m mo) mo.
Proof.
  intros Hm Hvx Hvy. rewrite Hm.
  destruct mo as [x y vx vy]; simpl in *. rewrite Hvx, Hvy.
  unfold spring_step, mo_equiv; simpl.
  assert (E : forall a, (a - a) / (s * 5) == 0) by (intros a; unfold Qdiv; ring).
  rewrite !E. repeat split; ring.
Qed.

Lemma spring_rest_witness :
  vec2_equiv (mk_vec2 (1 # 2) (1 # 3)) (mk_vec2 (mo_x (mk_mouse_obj (2 # 4) (1 # 3) 0 0))
                                                (mo_y (mk_mouse_obj (2 # 4) (1 # 3) 0 0))) /\
  mo_equiv (spring_step 20 (mk_vec2 (1 # 2) (1 # 3)) (mk_mouse_obj (2 # 4) (1 # 3) 0 0))
           (mk_mouse_obj (2 # 4) (1 # 3) 0 0).
Proof.
  assert (H : vec2_equiv (mk_vec2 (1 # 2) (1 # 3)) (mk_vec2 (2 # 4) (1 # 3)))
    by (split; reflexivity).
  split; [exact H|]. apply spring_rest; [exact H|reflexivity|reflexivity].
Defined.

(** ** The gravity map at a concrete spectrum *)

(** Expand Stdlib's [cos_approx] polynomial at a literal order. *)
Ltac eval_cos_approx H :=
  unfold cos_approx, cos_term in H; cbn [sum_f_R0 Nat.mul Nat.add] in H;
  rewrite ?INR_IZR_INZ in H;
  repeat match type of H with
         | context [Z.of_nat (fact ?k)] =>
             let v := eval vm_compute in (Z.of_nat (fact k)) in
             change (Z.of_nat (fact k)) with v in H
         end.

(** [PI < 3.142]: the cosine's Taylor bound is negative at 1.571, so
    1.571 lies beyond [PI/2]. *)
Lemma PI_lt_3142 : (PI < 3142 / 1000)%R.
Proof.
  destruct (Rlt_or_le PI (3142 / 1000)) as [H|H]; [exact H|exfalso].
  assert (Hc : (0 <= cos (1571 / 1000))%R) by (apply cos_ge_0; lra).
  destruct (cos_bound (1571 / 1000) 1) as [_ Hub]; [pose proof PI_RGT_0; lra|lra|].
  eval_cos_approx Hub. lra.
Qed.

Lemma cos_small_lb (t : R) : (0 <= t <= PI / 2 -> 1 - t * t / 2 <= cos t)%R.
Proof.
  intros Ht. destruct (cos_bound t 0) as [Hlb _]; [pose proof PI_RGT_0; lra|lra|].
  eval_cos_approx Hlb. nra.
Qed.

Lemma sin_minus_PI2 (t : R) : sin (- (PI / 2) + t) = (- cos t)%R.
Proof. rewrite sin_plus, sin_neg, cos_neg, sin_PI2, cos_PI2. ring. Qed.

(** (C37) At [FFT[1] = 128] the code's angle is exactly [-PI/2 + PI/340],
    so [gravity.x = PI/4 - cos(PI/340)], which is below -0.2144. The
    spec's worked example (angle -1.5319, gravity.x about -0.2077)
    does not match the formula of the code (nor the spec's own
    formula). *)
Theorem gravity_x_128 :
  gravity_angle_x 128 = (- (PI / 2) + PI / 340)%R /\
  gravity_x 128 = (PI / 4 - cos (PI / 340))%R /\
  (gravity_x 128 < - 2144 / 10000)%R.
Proof.
  assert (Ha : gravity_angle_x 128 = (- (PI / 2) + PI / 340)%R)
    by (unfold gravity_angle_x; field).
  assert (Hg : gravity_x 128 = (PI / 4 - cos (PI / 340))%R)
    by (unfold gravity_x; rewrite Ha, sin_minus_PI2; ring).
  split; [exact Ha|split; [exact Hg|]].
  rewrite Hg. pose proof PI_lt_3142. pose proof PI_RGT_0.
  pose proof (cos_small_lb (PI / 340)) as Hc. nra.
Qed.

End Render.
