(* ===== verification/StateMachine.v ===== *)
(** * StateMachine: [Application.changeState]

    This file models [src/src/js/Application.js], lines 413-426:

    - The states are objects with [enter], [execute] and [exit]. Their
      protocol is the type class [AppState].
    - Application's slot for the current state is the class
      [StateSlot]. A [None] value is [undefined].
    - [changeState] is written against these two interfaces and
      re-reads [_state] wherever the JavaScript does.

    The theorems hold for every instance:
    - [changeState] is a no-op when the new state is the current one;
    - otherwise it runs exit, assignment, enter, then execute, as the
      abstract [changeState_spec] says, provided the states do not
      reassign [_state] themselves.
    World.v instantiates the interfaces with the three states of the
    program. *)

From stdpp Require Import base decidable options.
From S2P Require Import Spec2Rocq.

Module StateMachine.

(** The capability set of an Application state. *)
Class AppState (W St : Type) := {
  st_enter : St -> js W unit;
  st_execute : St -> js W unit;
  st_exit : St -> js W unit
}.

(** Application's [_state] variable, with the law of an assignment. *)
Class StateSlot (W St : Type) := {
  cur_state : W -> option St;
  set_state : option St -> W -> W;
  cur_set : forall s w, cur_state (set_state s w) = s
}.

Section ChangeState.
Context {W St : Type} `{EqDecision St} `{StateSlot W St} `{AppState W St}.

(** Call a method on the object [_state] holds now:
    [_state.m()], a TypeError when [_state] is [undefined]. *)
Definition call_on_current (m : St -> js W unit) : js W unit :=
  cur <- gets cur_state ;;
  match cur with
  | Some st => m st
  | None => throw TypeError
  end.

(** Lines 413-426:
    [if (_state !== newState) {
       if (_state !== undefined) _state.exit();
       _state = newState;
       if (_state !== undefined) { _state.enter(); _state.execute(); } }].
    States are singletons, so [!==] on them is equality of their
    identities. *)
Definition changeState (newState : option St) : js W unit :=
  old <- gets cur_state ;;
  if decide (old = newState) then ret tt
  else
    (cur <- gets cur_state ;;
     match cur with
     | Some st => st_exit st
     | None => ret tt
     end) ;;
    modify (set_state newState) ;;
    cur <- gets cur_state ;;
    match cur with
    | Some _ => call_on_current st_enter ;; call_on_current st_execute
    | None => ret tt
    end.

(** The contract of the spec (section 4.1), as an abstract program. *)
Definition changeState_spec (newState : option St) : js W unit :=
  old <- gets cur_state ;;
  if decide (old = newState) then ret tt
  else
    match old with Some o => st_exit o | None => ret tt end ;;
    modify (set_state newState) ;;
    match newState with
    | Some s => st_enter s ;; st_execute s
    | None => ret tt
    end.

(** A state method that leaves [_state] alone. *)
Definition keeps_state (m : St -> js W unit) : Prop :=
  forall st w, cur_state (snd (m st w)) = cur_state w.

(** ** Theorems *)

(** Calling [changeState] with the state already active does
    nothing at all: no exit, no enter, no execute, no change of the
    world. *)
Theorem changeState_same (ns : option St) (w : W) :
  cur_state w = ns -> changeState ns w = (Ok tt, w).
Proof.
  intros Hcur. unfold changeState, bind, gets.
  rewrite decide_True by exact Hcur. reflexivity.
Qed.

Section NonReentrant.
Hypothesis enter_keeps : keeps_state st_enter.

Lemma changeState_eq_spec (ns : option St) (w : W) :
  changeState ns w = changeState_spec ns w.
Proof using All.
  unfold changeState, changeState_spec, call_on_current, gets, modify, bind; cbn.
  case_decide; [reflexivity|].
  destruct (match cur_state w with Some st => st_exit st | None => ret tt end w)
    as [[] w1]; [|reflexivity].
  rewrite cur_set. destruct ns as [s|]; [|reflexivity]. rewrite cur_set.
  destruct (st_enter s (set_state (Some s) w1)) as [[] w2] eqn:E; [|reflexivity].
  pose proof (enter_keeps s (set_state (Some s) w1)) as Hk.
  rewrite E, cur_set in Hk. simpl in Hk. rewrite Hk. reflexivity.
Qed.

(** (C7) Refinement: when the states' [enter] does not reassign
    [_state], [changeState] is the spec's protocol: exit of the old
    state strictly before the assignment, enter strictly before
    execute, each on the new state, and no call at all when the
    state does not change. *)
Theorem changeState_refines (ns : option St) (w : W) :
  changeState ns w = changeState_spec ns w.
Proof using All. exact (changeState_eq_spec ns w). Qed.
  End NonReentrant.

(** After a [changeState] that completes without an exception,
    [_state] is the requested state, provided [execute] does not
    reassign it either. *)
Theorem changeState_sets (ns : option St) (w : W) :
  keeps_state st_enter -> keeps_state st_execute ->
  outcome (changeState ns) w = Ok tt ->
  cur_state (exec (changeState ns) w) = ns.
Proof.
  intros Hen Hex Hok. unfold exec, outcome in *.
  rewrite (changeState_eq_spec Hen) in *.
  unfold changeState_spec, bind, gets, modify in *.
  case_decide; [assumption|].
  destruct (match cur_state w with Some st => st_exit st | None => ret tt end w)
    as [[] w1]; simpl in *; [|discriminate].
  destruct ns as [s|]; simpl in *; [|apply cur_set].
  pose proof (Hen s (set_state (Some s) w1)) as Hk. rewrite cur_set in Hk.
  destruct (st_enter s (set_state (Some s) w1)) as [[] w2] eqn:E;
    simpl in *; [|discriminate].
  rewrite (Hex s w2). exact Hk.
Qed.
End ChangeState.

End StateMachine.
