(* ===== verification/World.v ===== *)
(** * World: the state of the page

    One record holds every variable the modelled code reads or writes:
    - Application.js's private variables ([_state], [_sourceNode],
      [_FFT]);
    - the closure of LoadSceneState.js ([_nbLoadedResources],
      [_has_gl], the [Frame.Render.FrameState] of [_render]);
    - the DOM elements the code touches, as their class lists and
      attributes;
    - the browser's pending callbacks (XHRs, the decode, the texture
      load, the animation frame);
    - the links [_setupGoogleAnalyticsTracking] listens to and the
      About modal ([LinksDom]);
    - the debug mode's objects ([DebugDom]): [global], the canvas, the
      scripts, the Stats panels and the dat.GUI panel;
    - the console log and the Google Analytics events;
    - the environment: touch device, WebGL support, Web Audio support,
      [classList] support, the debug mode ([DebugEnv]) and the
      viewport.

    The JSON of the SoundCloud metadata is the record [TrackInfo]. A
    field that is absent is [None], read as [undefined] by the code.

    The states are identified by [StateId]. They are singletons in the
    JavaScript, so the identity comparison of [changeState] is equality
    of [StateId]s. *)

From stdpp Require Import base list decidable strings.
From Stdlib Require Import ZArith QArith String.
From S2P Require Import Spec2Rocq Utils Frame.

Module World.
Import Utils Render.

(** ** The three application states ([Application.States]) *)

Inductive StateId := LoadingState | PlayState | LoadSceneState.

#[export] Instance StateId_eq_dec : EqDecision StateId.
Proof. solve_decision. Defined.

(** ** Console output *)

Inductive LogLine :=
| LogInitialize (s : StateId)   (** ['X::initialize'] *)
| LogEnter (s : StateId)        (** ['X::enter'] *)
| LogExecute (s : StateId)      (** ['X::execute'] *)
| LogExit (s : StateId)         (** ['X::exit'] *)
| LogLoadAudio                  (** ['LoadingState::_loadAudio'] *)
| LogPlaySound                  (** ['LoadingState::_playSound'] *)
| LogStates                     (** [console.log(_Application, getStates(), ...)] *)
| LogDecodeError                (** [console.log(error)] in [_soundLoadError] *)
| LogTrim (start : bool) (value : Z)
                                (** ['Trim Start', value] or ['Trim End', value] *)
| LogUncaught (e : exn).        (** the browser reports an uncaught exception *)

#[export] Instance LogLine_eq_dec : EqDecision LogLine.
Proof. solve_decision. Defined.

(** ** The metadata JSON (SoundCloud [resolve.json]) *)

Record User := mk_user { user_permalink_url : option string }.

Record TrackInfo := mk_track_info {
  ti_title : option string;
  ti_artwork_url : option string;
  ti_permalink_url : option string;
  ti_stream_url : option string;
  ti_user : option User
}.

(** What [setTrackInfo] writes to the page. *)
Record TrackDisplay := mk_display {
  td_artist : option string;        (** #trackArtist textContent *)
  td_title : option string;         (** #trackTitle textContent *)
  td_album : option string;         (** #trackAlbum textContent *)
  td_artist_href : option string;   (** #trackArtistLink href *)
  td_artist_title : option string;  (** #trackArtistLink title *)
  td_cover_href : option string;    (** #trackCoverLink href *)
  td_cover_title : option string;   (** #trackCoverLink title *)
  td_artwork_src : option string    (** #trackArtwork src *)
}.

Definition empty_display : TrackDisplay :=
  mk_display None None None None None None None None.

(** ** Web Audio's [AudioBufferSourceNode]

    A decoded buffer is known by its identity. [sn_started] is the
    node's [[source started]] slot: Web Audio throws InvalidStateError
    on a second [start] and on a [stop] before [start]. *)
Definition AudioBuffer := nat.

Record SourceNode := mk_source {
  sn_buffer : option AudioBuffer;
  sn_started : bool;
  sn_stopped : bool
}.

(** ** The links of [_setupGoogleAnalyticsTracking] *)

(** The elements whose clicks the page listens to: #trackCoverLink,
    #trackArtistLink, #githubLink, #aboutLink and #aboutModalClose. *)
Inductive Link := TrackCoverLink | TrackArtistLink | GithubLink | AboutLink | AboutModalClose.

#[export] Instance Link_eq_dec : EqDecision Link.
Proof. solve_decision. Defined.

Record LinksDom := mk_links {
  ln_listening : bool;        (** the four listeners of [_setupGoogleAnalyticsTracking] *)
  ln_aboutModal : Element;    (** #aboutModal *)
  ln_close_listeners : nat;   (** click listeners on #aboutModalClose *)
  ln_followed : list Link     (** clicks whose default action (following the link) ran *)
}.

(** ** The debug mode ([#debug] in the URL)

    The debug page state: the object [global] of Application.js
    (lines 8-11), the 2D context of #FFTContainer that
    [_initializeAudioContext] takes (lines 180-190) and the bars the
    debug branch of [onaudioprocess] draws on it, the two scripts
    [_initializeDebugMode] loads with [Utils.asyncLoadScript], the
    stats.js panels and their [requestAnimationFrame] loop
    ([_drawStats]), and the dat.GUI panel of
    [_initializeDebugControls] with its controllers' values. *)

Inductive DebugScript := StatsScript | GuiScript.

#[export] Instance DebugScript_eq_dec : EqDecision DebugScript.
Proof. solve_decision. Defined.

(** [ctx.fillRect(x, y, width, height)] *)
Record Rect := mk_rect { rect_x : Z; rect_y : Z; rect_w : Z; rect_h : Z }.

Record DebugDom := mk_debug {
  dbg_trim : Z * Z;                 (** [global.trimStart], [global.trimEnd] *)
  dbg_ctx : option (Z * Z);         (** [ctx] is set, with [canvasWidth] and [canvasHeight] *)
  dbg_bars : list Rect;             (** the bars on #FFTContainer since the last [clearRect] *)
  dbg_scripts : list (DebugScript * Script * bool);
                                    (** the appended scripts; whether [load] fired *)
  dbg_stats_panels : nat;           (** Stats panels appended to the body *)
  dbg_stats_frames : nat;           (** pending [requestAnimationFrame(loop)] *)
  dbg_stats_updates : nat;          (** runs of [loop] *)
  dbg_gui : option (Z * Z)          (** the dat.GUI panel in #GUIContainer, with the values its
                                        trimStart and trimEnd controllers show *)
}.

(** Before [initialize]: [global = {trimStart: 0, trimEnd: 0}]. *)
Definition debug_init : DebugDom := mk_debug (0, 0)%Z None [] [] 0 0 0 None.

(** What the debug mode finds in the browser. *)
Record DebugEnv := mk_debug_env {
  de_on : bool;                     (** [window.location.hash.indexOf('#debug') !== -1] *)
  de_readyState : bool;             (** script elements have [readyState] (old IE) *)
  de_fftCanvas : option (Z * Z);    (** #FFTContainer's [width] and [height], if it exists *)
  de_guiContainer : bool            (** #GUIContainer exists *)
}.

Definition no_debug : DebugEnv := mk_debug_env false false None false.

(** ** Pending browser callbacks *)

Inductive Task :=
| TMetaXhr (url : string)     (** [Utils.ajaxGet(soundcloudURL, ...)] in flight *)
| TAudioXhr (url : string)    (** the XHR of [_loadAudio] in flight *)
| TDecode                     (** [decodeAudioData(..., _soundLoaded, _soundLoadError)] *)
| TColorTexture               (** [loadTexture(..., _resourceLoadedCallback)] *)
| TAnimationFrame.            (** [requestAnimationFrame(_animate)] *)

#[export] Instance Task_eq_dec : EqDecision Task.
Proof. solve_decision. Defined.

(** ** The environment of the page *)

Record Env := mk_env {
  env_touch : bool;         (** [_isTouchDevice] *)
  env_webgl : bool;         (** [new THREE.WebGLRenderer] succeeds *)
  env_webaudio : bool;      (** [window.AudioContext] (or a prefixed one) exists *)
  env_classList : bool;     (** [element.classList] exists (not in IE 9 and older) *)
  env_debug : DebugEnv;     (** the debug mode *)
  env_width : Z;            (** [window.innerWidth] *)
  env_height : Z;           (** [window.innerHeight] *)
  env_now : Z               (** [Date.now()] in the running callback *)
}.

(** ** The page *)

Record World := mk_world {
  (* Application.js *)
  w_state : option StateId;          (** [_state] *)
  w_source : SourceNode;             (** [_sourceNode] *)
  w_fft : list Z;                    (** [_FFT] *)
  w_audio_graph : bool;              (** the graph of [_initializeAudioContext] exists *)
  (* LoadSceneState.js *)
  w_frame : FrameState;              (** the variables [_render] uses *)
  w_nbLoaded : nat;                  (** [_nbLoadedResources] *)
  w_has_gl : bool;                   (** [_has_gl] *)
  w_scene_listeners : bool;          (** resize, mousemove, touchmove registered *)
  w_canvas_size : option (Q * Q);    (** last [_renderer.setSize] *)
  (* DOM *)
  w_loader : Element;                (** #loader *)
  w_playButton : Element;            (** #playButton *)
  w_trackInfo : Element;             (** #trackInfo *)
  w_launch_disabled : bool;          (** #launchExperience[disabled] *)
  w_launch_listeners : nat;          (** click listeners on #launchExperience *)
  w_display : TrackDisplay;          (** the track's text and links *)
  w_info_notice : bool;              (** #info shows the WebGL notice *)
  (* browser *)
  w_tasks : list Task;               (** pending callbacks *)
  w_log : list LogLine;              (** console output *)
  w_ga : list string;                (** labels of [ga('send', 'event', ...)] *)
  w_env : Env;
  w_links : LinksDom;                (** the links and the About modal *)
  w_debug : DebugDom                 (** the debug mode's objects *)
}.

(** The page as index.html loads it, before [main.js] runs: the loader
    spins, the launch button, the track panel are hidden. *)
Definition page_loaded (env : Env) : World := {|
  w_state := None;
  w_source := mk_source None false false;
  w_fft := [0; 0; 0]%Z;
  w_audio_graph := false;
  w_frame := init_frame;
  w_nbLoaded := 0;
  w_has_gl := false;
  w_scene_listeners := false;
  w_canvas_size := None;
  w_loader := mk_element (env_classList env) "loading"%string;
  w_playButton := mk_element (env_classList env) "hidden"%string;
  w_trackInfo := mk_element (env_classList env) "hidden"%string;
  w_launch_disabled := false;
  w_launch_listeners := 0;
  w_display := empty_display;
  w_info_notice := false;
  w_tasks := [];
  w_log := [];
  w_ga := [];
  w_env := env;
  w_links := mk_links false (mk_element (env_classList env) "hidden"%string) 0 [];
  w_debug := debug_init
|}.

(** ** Field updates *)

Section Setters.
Variable w : World.

Definition with_state (s : option StateId) : World :=
  mk_world s (w_source w) (w_fft w) (w_audio_graph w) (w_frame w) (w_nbLoaded w)
    (w_has_gl w) (w_scene_listeners w) (w_canvas_size w) (w_loader w) (w_playButton w)
    (w_trackInfo w) (w_launch_disabled w) (w_launch_listeners w) (w_display w)
    (w_info_notice w) (w_tasks w) (w_log w) (w_ga w) (w_env w) (w_links w) (w_debug w).

Definition with_source (n : SourceNode) : World :=
  mk_world (w_state w) n (w_fft w) (w_audio_graph w) (w_frame w) (w_nbLoaded w)
    (w_has_gl w) (w_scene_listeners w) (w_canvas_size w) (w_loader w) (w_playButton w)
    (w_trackInfo w) (w_launch_disabled w) (w_launch_listeners w) (w_display w)
    (w_info_notice w) (w_tasks w) (w_log w) (w_ga w) (w_env w) (w_links w) (w_debug w).

Definition with_fft (f : list Z) : World :=
  mk_world (w_state w) (w_source w) f (w_audio_graph w) (w_frame w) (w_nbLoaded w)
    (w_has_gl w) (w_scene_listeners w) (w_canvas_size w) (w_loader w) (w_playButton w)
    (w_trackInfo w) (w_launch_disabled w) (w_launch_listeners w) (w_display w)
    (w_info_notice w) (w_tasks w) (w_log w) (w_ga w) (w_env w) (w_links w) (w_debug w).

Definition with_audio_graph (b : bool) : World :=
  mk_world (w_state w) (w_source w) (w_fft w) b (w_frame w) (w_nbLoaded w)
    (w_has_gl w) (w_scene_listeners w) (w_canvas_size w) (w_loader w) (w_playButton w)
    (w_trackInfo w) (w_launch_disabled w) (w_launch_listeners w) (w_display w)
    (w_info_notice w) (w_tasks w) (w_log w) (w_ga w) (w_env w) (w_links w) (w_debug w).

Definition with_frame (f : FrameState) : World :=
  mk_world (w_state w) (w_source w) (w_fft w) (w_audio_graph w) f (w_nbLoaded w)
    (w_has_gl w) (w_scene_listeners w) (w_canvas_size w) (w_loader w) (w_playButton w)
    (w_trackInfo w) (w_launch_disabled w) (w_launch_listeners w) (w_display w)
    (w_info_notice w) (w_tasks w) (w_log w) (w_ga w) (w_env w) (w_links w) (w_debug w).

Definition with_nbLoaded (n : nat) : World :=
  mk_world (w_state w) (w_source w) (w_fft w) (w_audio_graph w) (w_frame w) n
    (w_has_gl w) (w_scene_listeners w) (w_canvas_size w) (w_loader w) (w_playButton w)
    (w_trackInfo w) (w_launch_disabled w) (w_launch_listeners w) (w_display w)
    (w_info_notice w) (w_tasks w) (w_log w) (w_ga w) (w_env w) (w_links w) (w_debug w).

(** The renderer block of [_initScene] that succeeded: [_has_gl],
    the listeners and the canvas size. *)
Definition with_gl (size : Q * Q) : World :=
  mk_world (w_state w) (w_source w) (w_fft w) (w_audio_graph w) (w_frame w) (w_nbLoaded w)
    true true (Some size) (w_loader w) (w_playButton w)
    (w_trackInfo w) (w_launch_disabled w) (w_launch_listeners w) (w_display w)
    (w_info_notice w) (w_tasks w) (w_log w) (w_ga w) (w_env w) (w_links w) (w_debug w).

Definition with_canvas_size (size : Q * Q) : World :=
  mk_world (w_state w) (w_source w) (w_fft w) (w_audio_graph w) (w_frame w) (w_nbLoaded w)
    (w_has_gl w) (w_scene_listeners w) (Some size) (w_loader w) (w_playButton w)
    (w_trackInfo w) (w_launch_disabled w) (w_launch_listeners w) (w_display w)
    (w_info_notice w) (w_tasks w) (w_log w) (w_ga w) (w_env w) (w_links w) (w_debug w).

Definition with_loader (cl : Element) : World :=
  mk_world (w_state w) (w_source w) (w_fft w) (w_audio_graph w) (w_frame w) (w_nbLoaded w)
    (w_has_gl w) (w_scene_listeners w) (w_canvas_size w) cl (w_playButton w)
    (w_trackInfo w) (w_launch_disabled w) (w_launch_listeners w) (w_display w)
    (w_info_notice w) (w_tasks w) (w_log w) (w_ga w) (w_env w) (w_links w) (w_debug w).

Definition with_playButton (cl : Element) : World :=
  mk_world (w_state w) (w_source w) (w_fft w) (w_audio_graph w) (w_frame w) (w_nbLoaded w)
    (w_has_gl w) (w_scene_listeners w) (w_canvas_size w) (w_loader w) cl
    (w_trackInfo w) (w_launch_disabled w) (w_launch_listeners w) (w_display w)
    (w_info_notice w) (w_tasks w) (w_log w) (w_ga w) (w_env w) (w_links w) (w_debug w).

Definition with_trackInfo (cl : Element) : World :=
  mk_world (w_state w) (w_source w) (w_fft w) (w_audio_graph w) (w_frame w) (w_nbLoaded w)
    (w_has_gl w) (w_scene_listeners w) (w_canvas_size w) (w_loader w) (w_playButton w)
    cl (w_launch_disabled w) (w_launch_listeners w) (w_display w)
    (w_info_notice w) (w_tasks w) (w_log w) (w_ga w) (w_env w) (w_links w) (w_debug w).

Definition with_launch (disabled : bool) (listeners : nat) : World :=
  mk_world (w_state w) (w_source w) (w_fft w) (w_audio_graph w) (w_frame w) (w_nbLoaded w)
    (w_has_gl w) (w_scene_listeners w) (w_canvas_size w) (w_loader w) (w_playButton w)
    (w_trackInfo w) disabled listeners (w_display w)
    (w_info_notice w) (w_tasks w) (w_log w) (w_ga w) (w_env w) (w_links w) (w_debug w).

Definition with_display (d : TrackDisplay) : World :=
  mk_world (w_state w) (w_source w) (w_fft w) (w_audio_graph w) (w_frame w) (w_nbLoaded w)
    (w_has_gl w) (w_scene_listeners w) (w_canvas_size w) (w_loader w) (w_playButton w)
    (w_trackInfo w) (w_launch_disabled w) (w_launch_listeners w) d
    (w_info_notice w) (w_tasks w) (w_log w) (w_ga w) (w_env w) (w_links w) (w_debug w).

Definition with_info_notice : World :=
  mk_world (w_state w) (w_source w) (w_fft w) (w_audio_graph w) (w_frame w) (w_nbLoaded w)
    (w_has_gl w) (w_scene_listeners w) (w_canvas_size w) (w_loader w) (w_playButton w)
    (w_trackInfo w) (w_launch_disabled w) (w_launch_listeners w) (w_display w)
    true (w_tasks w) (w_log w) (w_ga w) (w_env w) (w_links w) (w_debug w).

Definition with_tasks (ts : list Task) : World :=
  mk_world (w_state w) (w_source w) (w_fft w) (w_audio_graph w) (w_frame w) (w_nbLoaded w)
    (w_has_gl w) (w_scene_listeners w) (w_canvas_size w) (w_loader w) (w_playButton w)
    (w_trackInfo w) (w_launch_disabled w) (w_launch_listeners w) (w_display w)
    (w_info_notice w) ts (w_log w) (w_ga w) (w_env w) (w_links w) (w_debug w).

Definition with_log (l : list LogLine) : World :=
  mk_world (w_state w) (w_source w) (w_fft w) (w_audio_graph w) (w_frame w) (w_nbLoaded w)
    (w_has_gl w) (w_scene_listeners w) (w_canvas_size w) (w_loader w) (w_playButton w)
    (w_trackInfo w) (w_launch_disabled w) (w_launch_listeners w) (w_display w)
    (w_info_notice w) (w_tasks w) l (w_ga w) (w_env w) (w_links w) (w_debug w).

Definition with_ga (g : list string) : World :=
  mk_world (w_state w) (w_source w) (w_fft w) (w_audio_graph w) (w_frame w) (w_nbLoaded w)
    (w_has_gl w) (w_scene_listeners w) (w_canvas_size w) (w_loader w) (w_playButton w)
    (w_trackInfo w) (w_launch_disabled w) (w_launch_listeners w) (w_display w)
    (w_info_notice w) (w_tasks w) (w_log w) g (w_env w) (w_links w) (w_debug w).
Definition with_env (e : Env) : World :=
  mk_world (w_state w) (w_source w) (w_fft w) (w_audio_graph w) (w_frame w) (w_nbLoaded w)
    (w_has_gl w) (w_scene_listeners w) (w_canvas_size w) (w_loader w) (w_playButton w)
    (w_trackInfo w) (w_launch_disabled w) (w_launch_listeners w) (w_display w)
    (w_info_notice w) (w_tasks w) (w_log w) (w_ga w) e (w_links w) (w_debug w).
Definition with_links (l : LinksDom) : World :=
  mk_world (w_state w) (w_source w) (w_fft w) (w_audio_graph w) (w_frame w) (w_nbLoaded w)
    (w_has_gl w) (w_scene_listeners w) (w_canvas_size w) (w_loader w) (w_playButton w)
    (w_trackInfo w) (w_launch_disabled w) (w_launch_listeners w) (w_display w)
    (w_info_notice w) (w_tasks w) (w_log w) (w_ga w) (w_env w) l (w_debug w).
Definition with_debug (d : DebugDom) : World :=
  mk_world (w_state w) (w_source w) (w_fft w) (w_audio_graph w) (w_frame w) (w_nbLoaded w)
    (w_has_gl w) (w_scene_listeners w) (w_canvas_size w) (w_loader w) (w_playButton w)
    (w_trackInfo w) (w_launch_disabled w) (w_launch_listeners w) (w_display w)
    (w_info_notice w) (w_tasks w) (w_log w) (w_ga w) (w_env w) (w_links w) d.
End Setters.

(** ** Effects on the page, as [js World] programs *)

Definition console_log (l : LogLine) : js World unit :=
  modify (fun w => with_log w (w_log w ++ [l])).

(** Schedule a browser callback. *)
Definition schedule (t : Task) : js World unit :=
  modify (fun w => with_tasks w (w_tasks w ++ [t])).

(** [ajaxGet]'s request in flight is a pending metadata request. *)
#[export] Instance World_XhrHost : XhrHost World :=
  fun url w => with_tasks w (w_tasks w ++ [TMetaXhr url]).

Definition update_debug (f : DebugDom -> DebugDom) : js World unit :=
  modify (fun w => with_debug w (f (w_debug w))).

Definition ga_send (label : string) : js World unit :=
  modify (fun w => with_ga w (w_ga w ++ [label])).

(** [Date.now()] in the current callback is passed as [now]. *)
Definition update_frame (f : FrameState -> FrameState) : js World unit :=
  modify (fun w => with_frame w (f (w_frame w))).

End World.
