(* ===== verification/Modules.v ===== *)
(** * Modules: the CommonJS modules of src/src/js and the objects they share

    Each file of [src/src/js] is a CommonJS module: an immediately
    invoked function ([var X = (function () { ... })();]) whose closure
    holds the module's variables and which returns the object of its
    public members, assigned to [module.exports]. [main.js] requires
    [Application.js] and calls [Application.initialize()], which
    requires [Utils.js] and the three state modules unless the
    [options] object provides them, stores the states in its object
    [States], hands each state the Application object ([this]) and an
    options object [{ Utils: Utils }], and enters LoadingState.

    - [Rt] is the run time: a heap of objects ([rt_heap], a [gmap]
      from locations), [require.cache] ([rt_cache], from the resolved
      file to its exports object), Application's [_state], the logs
      of the member calls made between modules and of the [require]
      calls, and whether the device is a touch device.
    - [module_body] is a module's function: it allocates the closure's
      objects and the exports object [OModule m cl], whose closure
      variables ([_Application], [Utils], [States]) live in [cl].
    - [require] resolves a request with [Gulp.resolve], as browserify
      does, returns the cached exports object when the file ran before
      and runs the module's function otherwise.
    - [call v name]: a member call [v.name(...)], a TypeError when [v]
      is [undefined] or its object exports no such member.
    - [app_initialize], [initializeStates], [state_initialize] and
      [main] are lines 116-123, 138, 144 and 247-251 of Application.js,
      the [initialize] of each state and [main.js]; the other parts of
      [initialize] (audio, graphics, debug mode, links) act on the
      page, not on the modules, and are modelled in States.v.
    - [changeState] is [StateMachine.changeState] on the objects
      themselves: the slot holds a location and the identity test is
      the equality of locations. [change_via_states] is the way the
      callbacks reach it: [_Application.changeState(_Application.getStates().X)].
    - [require] also serves browserify's core modules
      ([browserify_builtins], [fs]); LoadSceneState's [execute] runs
      [_meshLoaded], which requires [fs] once per shell
      ([shell_requires], [execute_requires]), so [state_method] makes
      these requests when [changeState] calls [execute]. The
      [fs.readFileSync] calls that follow are not modelled: the
      bundle needs a transform to inline them (see Spec2Rocq.v).

    The theorems: [main.js] runs without a TypeError and leaves one
    instance of each module, shared by all ([main_singletons]); the
    callbacks' [_Application.changeState(_Application.getStates().X)]
    is [changeState] on the object [initialize] stored for [X]
    ([callbacks_change_state]); and every request made at run time,
    by [main.js], by [initialize] and on the [changeState] path with
    the shells' [require('fs')], is one browserify reads in the file
    and either resolves to a module of the bundle [javascript:app]
    builds or names a core module it provides
    ([runtime_requires_bundled]). *)

From stdpp Require Import base list decidable gmap strings.
From Stdlib Require Import String NArith Lia.
From S2P Require Import Spec2Rocq Glob Gulp Frame StateMachine World.

Module Modules.
Import Glob Gulp Frame StateMachine World.

Local Open Scope string_scope.

(** ** Modules and values *)

(** A location of the heap. *)
Notation loc := N (only parsing).

Inductive ModName := MUtils | MApplication | MLoadingState | MPlayState | MLoadSceneState.

#[export] Instance ModName_eq_dec : EqDecision ModName.
Proof. solve_decision. Defined.

Definition all_modules : list ModName := [MApplication; MUtils; MLoadingState; MPlayState; MLoadSceneState].

(** The file of each module, as [resolve] writes it. *)
Definition module_path (m : ModName) : list string :=
  match m with
  | MUtils => ["src"; "js"; "Utils.js"]
  | MApplication => ["src"; "js"; "Application.js"]
  | MLoadingState => ["src"; "js"; "LoadingState.js"]
  | MPlayState => ["src"; "js"; "PlayState.js"]
  | MLoadSceneState => ["src"; "js"; "LoadSceneState.js"]
  end.

Definition main_path : list string := ["src"; "js"; "main.js"].

Definition module_of_path (p : list string) : option ModName :=
  List.find (fun m => bool_decide (module_path m = p)) all_modules.

(** A variable: [undefined] or a reference to an object. *)
Inductive Value := VUndef | VRef (l : loc).

#[export] Instance Value_eq_dec : EqDecision Value.
Proof. solve_decision. Defined.

Definition to_opt (v : Value) : option loc := match v with VRef l => Some l | VUndef => None end.

(** The variables of a module's closure that hold other modules:
    [_Application] and [Utils] of a state, [Utils] and [States] of
    Application. All are [undefined] when the module's function has
    run (LoadingState.js lines 25-33, Application.js 101). *)
Record Closure := mk_closure {
  cl_Application : Value;
  cl_Utils : Value;
  cl_States : Value
}.

Definition closure0 : Closure := mk_closure VUndef VUndef VUndef.

(** The objects of the heap. *)
Inductive Obj :=
| OModule (m : ModName) (cl : Closure)   (** the exports object of [m], with its closure *)
| OBuiltin (name : string)                (** a module browserify provides itself, such as [fs] *)
| OStates (loading play scene : Value)   (** Application's [States] (lines 102-106) *)
| OOptions (utils loading play scene : Value). (** an options object: [{}], [{ Utils: Utils }] *)

(** ** The exports objects ([return { ... }]) *)

(** Utils.js lines 148-159. *)
Definition utils_exports : list string :=
  ["ajaxGet"; "asyncLoadScript"; "removeCSSClass"; "addCSSClass"; "getRandomArbitrary";
   "getRandomInteger"; "preventDefaultEvent"].

(** Application.js lines 555-570. *)
Definition application_exports : list string :=
  ["initialize"; "changeState"; "getAudioContext"; "setSourceNodeBuffer"; "playAudio"; "stopAudio";
   "getFFT"; "setTrackInfo"; "getStates"].

(** LoadingState.js lines 163-168. *)
Definition loading_exports : list string := ["initialize"; "enter"; "execute"; "exit"].
(** PlayState.js lines 121-126. *)
Definition play_exports : list string := ["initialize"; "enter"; "execute"; "exit"].
(** LoadSceneState.js lines 466-471. *)
Definition scene_exports : list string := ["initialize"; "enter"; "execute"; "exit"].

Definition exports (m : ModName) : list string :=
  match m with
  | MUtils => utils_exports
  | MApplication => application_exports
  | MLoadingState => loading_exports
  | MPlayState => play_exports
  | MLoadSceneState => scene_exports
  end.

(** ** The run time *)

Record Rt := mk_rt {
  rt_heap : gmap loc Obj;
  rt_next : loc;                          (** the next location to allocate *)
  rt_cache : gmap (list string) loc;      (** [require.cache] *)
  rt_state : option loc;                  (** Application's [_state] *)
  rt_calls : list (ModName * string);     (** the member calls, oldest first *)
  rt_requests : list (list string * string); (** the [require] calls: the requiring file and the request *)
  rt_touch : bool  (** the device: ['ontouchstart' in document] or a mobile user agent
                       (LoadSceneState.js:81), which [initialize] keeps in [_isTouchDevice] *)
}.

Definition rt0 : Rt := mk_rt ∅ 0%N ∅ None [] [] false.

Definition set_heap (h : gmap loc Obj) (n : loc) (rt : Rt) : Rt :=
  mk_rt h n (rt_cache rt) (rt_state rt) (rt_calls rt) (rt_requests rt) (rt_touch rt).
Definition set_cache (c : gmap (list string) loc) (rt : Rt) : Rt :=
  mk_rt (rt_heap rt) (rt_next rt) c (rt_state rt) (rt_calls rt) (rt_requests rt) (rt_touch rt).
Definition set_rt_state (s : option loc) (rt : Rt) : Rt :=
  mk_rt (rt_heap rt) (rt_next rt) (rt_cache rt) s (rt_calls rt) (rt_requests rt) (rt_touch rt).
Definition log_call (c : ModName * string) (rt : Rt) : Rt :=
  mk_rt (rt_heap rt) (rt_next rt) (rt_cache rt) (rt_state rt) (rt_calls rt ++ [c]) (rt_requests rt) (rt_touch rt).
Definition log_request (r : list string * string) (rt : Rt) : Rt :=
  mk_rt (rt_heap rt) (rt_next rt) (rt_cache rt) (rt_state rt) (rt_calls rt) (rt_requests rt ++ [r]) (rt_touch rt).

(** [new]: a fresh location. *)
Definition alloc (o : Obj) : js Rt loc :=
  fun rt => (Ok (rt_next rt), set_heap (<[rt_next rt := o]> (rt_heap rt)) (N.succ (rt_next rt)) rt).

Definition load (l : loc) : js Rt Obj :=
  fun rt => match rt_heap rt !! l with Some o => (Ok o, rt) | None => (Throw TypeError, rt) end.

Definition store (l : loc) (o : Obj) : js Rt unit :=
  modify (fun rt => set_heap (<[l := o]> (rt_heap rt)) (rt_next rt) rt).

(** ** A module's function and [require] *)

(** The function of each module, run once: [var X = (function () {
    'use strict'; var _Application = undefined; var Utils = undefined;
    ... })();]. Application's allocates its object [States] (lines
    101-106) before it returns its exports object. *)
Definition utils_module : js Rt loc := alloc (OModule MUtils closure0).
Definition application_module : js Rt loc :=
  st <- alloc (OStates VUndef VUndef VUndef) ;;
  alloc (OModule MApplication (mk_closure VUndef VUndef (VRef st))).
Definition loading_module : js Rt loc := alloc (OModule MLoadingState closure0).
Definition play_module : js Rt loc := alloc (OModule MPlayState closure0).
Definition scene_module : js Rt loc := alloc (OModule MLoadSceneState closure0).

Definition module_body (m : ModName) : js Rt loc :=
  match m with
  | MUtils => utils_module
  | MApplication => application_module
  | MLoadingState => loading_module
  | MPlayState => play_module
  | MLoadSceneState => scene_module
  end.

(** Loading a resolved file: its cached exports object, or its
    module's function run and its exports object cached. *)
Definition require_resolved (p : list string) : js Rt loc :=
  rt <- get ;;
  match rt_cache rt !! p with
  | Some l => ret l
  | None =>
      match module_of_path p with
      | None => throw ModuleNotFound
      | Some m =>
          l <- module_body m ;;
          modify (fun rt => set_cache (<[p := l]> (rt_cache rt)) rt) ;;
          ret l
      end
  end.

(** The core modules browserify replaces by its own: [fs], whose
    [readFileSync] the bundle's transform inlines. *)
Definition browserify_builtins : list string := ["fs"].

(** A core module, cached under its name. *)
Definition require_builtin (name : string) : js Rt loc :=
  rt <- get ;;
  match rt_cache rt !! [name] with
  | Some l => ret l
  | None =>
      l <- alloc (OBuiltin name) ;;
      modify (fun rt => set_cache (<[[name] := l]> (rt_cache rt)) rt) ;;
      ret l
  end.

(** [require(req)] from the file [from]. *)
Definition require (from : list string) (req : string) : js Rt loc :=
  modify (log_request (from, req)) ;;
  match resolve from req with
  | Some p => require_resolved p
  | None => if bool_decide (req ∈ browserify_builtins) then require_builtin req else throw ModuleNotFound
  end.

(** ** Member calls and the closures *)

(** [v.name]: the object and its module when [name] is one of its
    members; a TypeError on [undefined], and when the call [v.name(...)]
    finds no function there. *)
Definition member (v : Value) (name : string) : js Rt (loc * ModName) :=
  match v with
  | VUndef => throw TypeError
  | VRef l =>
      o <- load l ;;
      match o with
      | OModule m _ => if bool_decide (name ∈ exports m) then ret (l, m) else throw TypeError
      | _ => throw TypeError
      end
  end.

(** [v.name(...)], logged when the call is made. *)
Definition call (v : Value) (name : string) : js Rt (loc * ModName) :=
  lm <- member v name ;;
  modify (log_call (snd lm, name)) ;;
  ret lm.

Definition closure_of (l : loc) : js Rt Closure :=
  o <- load l ;;
  match o with OModule _ cl => ret cl | _ => throw TypeError end.

Definition update_closure (l : loc) (f : Closure -> Closure) : js Rt unit :=
  o <- load l ;;
  match o with OModule m cl => store l (OModule m (f cl)) | _ => throw TypeError end.

Definition set_Application (v : Value) (cl : Closure) : Closure := mk_closure v (cl_Utils cl) (cl_States cl).
Definition set_Utils (v : Value) (cl : Closure) : Closure := mk_closure (cl_Application cl) v (cl_States cl).

(** [a || b] on objects: [b] runs only when [a] is [undefined]. *)
Definition js_or (a : Value) (b : js Rt Value) : js Rt Value :=
  match a with VRef _ => ret a | VUndef => b end.

Definition require_value (from : list string) (req : string) : js Rt Value :=
  l <- require from req ;; ret (VRef l).

Inductive OptKey := KUtils | KState (s : StateId).

(** [options.Utils], [options.LoadingState], ...: a TypeError on
    [undefined], [undefined] when the object has no such property. *)
Definition read_option (v : Value) (k : OptKey) : js Rt Value :=
  match v with
  | VUndef => throw TypeError
  | VRef l =>
      o <- load l ;;
      ret (match o, k with
           | OOptions u _ _ _, KUtils => u
           | OOptions _ lo _ _, KState LoadingState => lo
           | OOptions _ _ pl _, KState PlayState => pl
           | OOptions _ _ _ sc, KState LoadSceneState => sc
           | _, _ => VUndef
           end)
  end.

(** [States.X] and [States.X = v]. *)
Definition read_States (v : Value) (s : StateId) : js Rt Value :=
  match v with
  | VUndef => throw TypeError
  | VRef l =>
      o <- load l ;;
      match o, s with
      | OStates lo _ _, LoadingState => ret lo
      | OStates _ pl _, PlayState => ret pl
      | OStates _ _ sc, LoadSceneState => ret sc
      | _, _ => ret VUndef
      end
  end.

Definition write_States (v : Value) (s : StateId) (x : Value) : js Rt unit :=
  match v with
  | VUndef => throw TypeError
  | VRef l =>
      o <- load l ;;
      match o, s with
      | OStates lo pl sc, LoadingState => store l (OStates x pl sc)
      | OStates lo pl sc, PlayState => store l (OStates lo x sc)
      | OStates lo pl sc, LoadSceneState => store l (OStates lo pl x)
      | _, _ => throw TypeError
      end
  end.

Definition state_file (s : StateId) : string :=
  match s with
  | LoadingState => "./LoadingState.js"
  | PlayState => "./PlayState.js"
  | LoadSceneState => "./LoadSceneState.js"
  end.

Definition state_module (s : StateId) : ModName :=
  match s with
  | LoadingState => MLoadingState
  | PlayState => MPlayState
  | LoadSceneState => MLoadSceneState
  end.

(** ** [initialize] of the states

    [_Application = Application; Utils = options.Utils || require('./Utils.js');]
    (LoadingState.js lines 62-67, the same in PlayState.js 44-49 and
    at the start of LoadSceneState.js 64-68, whose other variables
    are Frame.v's [initialize_frame]). *)
Definition state_initialize (self : loc) (m : ModName) (Application options : Value) : js Rt unit :=
  update_closure self (set_Application Application) ;;
  u0 <- read_option options KUtils ;;
  u <- js_or u0 (require_value (module_path m) "./Utils.js") ;;
  update_closure self (set_Utils u).

Definition loading_initialize (self : loc) : Value -> Value -> js Rt unit := state_initialize self MLoadingState.
Definition play_initialize (self : loc) : Value -> Value -> js Rt unit := state_initialize self MPlayState.
Definition scene_initialize_modules (self : loc) : Value -> Value -> js Rt unit :=
  state_initialize self MLoadSceneState.

(** ** [Application.changeState] on the objects (lines 413-426)

    The slot holds the state object itself, and the identity test
    [_state !== newState] is the equality of locations. The methods
    [enter], [execute] and [exit] are member calls on the object. *)
#[export] Instance Rt_StateSlot : StateSlot Rt loc := {|
  cur_state := rt_state;
  set_state := set_rt_state;
  cur_set := fun s rt => eq_refl
|}.

(** [_meshLoaded] (LoadSceneState.js:300-355), run by [execute]
    through [_initScene] (lines 103-108, 128-160): [var fs =
    require('fs')] in each of the [nbShells] turns of its loop. *)
Fixpoint shell_requires (n : nat) : js Rt unit :=
  match n with
  | O => ret tt
  | S n => _ <- require (module_path MLoadSceneState) "fs" ;; shell_requires n
  end.

(** The [require]s a state's [execute] makes: LoadSceneState's builds
    the scene, with [nbShells] shells ([Frame.Render.nbShells]); the
    other states require nothing there. *)
Definition execute_requires (m : ModName) : js Rt unit :=
  match m with
  | MLoadSceneState => rt <- get ;; shell_requires (Render.nbShells (rt_touch rt))
  | _ => ret tt
  end.

(** [enter], [execute] or [exit] called on a state object, with the
    [require]s the method makes. *)
Definition state_method (name : string) (l : loc) : js Rt unit :=
  lm <- call (VRef l) name ;;
  if String.eqb name "execute" then execute_requires (snd lm) else ret tt.

#[export] Instance Rt_AppState : AppState Rt loc := {|
  st_enter := state_method "enter";
  st_execute := state_method "execute";
  st_exit := state_method "exit"
|}.

Definition app_changeState_obj (ns : option loc) : js Rt unit := changeState ns.

(** [getStates] (lines 550-552): Application's [States] object itself. *)
Definition app_getStates (self : loc) : js Rt Value :=
  cl <- closure_of self ;; ret (cl_States cl).

(** ** [Application.initialize] (lines 116-145) *)

(** [States.X = options.X || require('./X.js')] (lines 121-123). *)
Definition load_state (self : loc) (opts : Value) (s : StateId) : js Rt unit :=
  cl <- closure_of self ;;
  x0 <- read_option opts (KState s) ;;
  x <- js_or x0 (require_value (module_path MApplication) (state_file s)) ;;
  write_States (cl_States cl) s x.

(** [States.X.initialize(Application, { Utils: Utils })] (lines
    248-250). Only a state object runs a state's [initialize]; the
    other modules are not found in [States] on any run of [main]. *)
Definition init_state (self : loc) (Application : Value) (s : StateId) : js Rt unit :=
  cl <- closure_of self ;;
  st <- read_States (cl_States cl) s ;;
  lm <- call st "initialize" ;;
  o <- alloc (OOptions (cl_Utils cl) VUndef VUndef VUndef) ;;
  match snd lm with
  | MLoadingState => loading_initialize (fst lm) Application (VRef o)
  | MPlayState => play_initialize (fst lm) Application (VRef o)
  | MLoadSceneState => scene_initialize_modules (fst lm) Application (VRef o)
  | MApplication | MUtils => throw TypeError
  end.

(** [_initializeStates(Application)] (lines 247-251). *)
Definition initializeStates (self : loc) (Application : Value) : js Rt unit :=
  init_state self Application LoadingState ;;
  init_state self Application PlayState ;;
  init_state self Application LoadSceneState.

(** [initialize(options)] with [this] the receiver of the call: the
    modules (lines 117-123), [_initializeStates(this)] (line 138) and
    [changeState(States.LoadingState)] (line 144). *)
Definition app_initialize (self : loc) (this options : Value) : js Rt unit :=
  opts <- js_or options (l <- alloc (OOptions VUndef VUndef VUndef VUndef) ;; ret (VRef l)) ;;
  u0 <- read_option opts KUtils ;;
  u <- js_or u0 (require_value (module_path MApplication) "./Utils.js") ;;
  update_closure self (set_Utils u) ;;
  load_state self opts LoadingState ;;
  load_state self opts PlayState ;;
  load_state self opts LoadSceneState ;;
  initializeStates self this ;;
  cl <- closure_of self ;;
  ls <- read_States (cl_States cl) LoadingState ;;
  app_changeState_obj (to_opt ls).

(** [main.js]: [require('./Application.js').initialize()]. *)
Definition main : js Rt unit :=
  a <- require main_path "./Application.js" ;;
  lm <- call (VRef a) "initialize" ;;
  app_initialize (fst lm) (VRef a) VUndef.

(** The callbacks' [_Application.changeState(_Application.getStates().X)]
    (LoadingState.js line 148, PlayState.js line 116), run by the state
    object [self]: the callee is looked up, then the argument is
    evaluated, then [changeState] is called. *)
Definition change_via_states (self : loc) (target : StateId) : js Rt unit :=
  cl <- closure_of self ;;
  f <- member (cl_Application cl) "changeState" ;;
  g <- call (cl_Application cl) "getStates" ;;
  states <- app_getStates (fst g) ;;
  x <- read_States states target ;;
  modify (log_call (snd f, "changeState")) ;;
  app_changeState_obj (to_opt x).

(** ** Observations of a run time *)

(** The instance of module [m], if its file has run. *)
Definition instance (rt : Rt) (m : ModName) : option loc := rt_cache rt !! module_path m.

Definition closure_at (rt : Rt) (l : loc) : option Closure :=
  match rt_heap rt !! l with Some (OModule _ cl) => Some cl | _ => None end.

(** [Application.getStates().X]: the object the Application instance's
    [States] holds for [s]. *)
Definition state_obj (rt : Rt) (s : StateId) : option loc :=
  a ← instance rt MApplication ;
  cl ← closure_at rt a ;
  st ← to_opt (cl_States cl) ;
  match rt_heap rt !! st, s with
  | Some (OStates lo _ _), LoadingState => to_opt lo
  | Some (OStates _ pl _), PlayState => to_opt pl
  | Some (OStates _ _ sc), LoadSceneState => to_opt sc
  | _, _ => None
  end.

(** The page once [main.js] has run, and its three state objects. *)
Definition boot : Rt := exec main rt0.
Definition boot_table (s : StateId) : loc := default 0%N (state_obj boot s).

(** ** The requests and the bundle

    The requests a file makes, as [javascript:app]'s browserify reads
    them ([Gulp.js_requires]); a run-time request is bundled when the
    file lists it and it resolves to a module of the bundle. *)
Definition module_requests (from : list string) : list string := default [] (assoc_path from js_requires).

Definition request_bundled (r : list string * string) : Prop :=
  r.2 ∈ module_requests r.1 /\
  ((exists p, resolve r.1 r.2 = Some p /\ p ∈ bundle_modules ["./src/js/main.js"]) \/
   (resolve r.1 r.2 = None /\ r.2 ∈ browserify_builtins)).

(** ** Theorems *)

(** (C9) Functional: [main.js] runs without an exception and leaves
    one instance of each module: the Application object, one Utils
    object, and three distinct state objects, which Application's
    [States] holds, each with [_Application] the Application object
    and [Utils] the same Utils object as Application's; [_state] is
    LoadingState's object, after the calls [initialize] (Application,
    then each state), [enter] and [execute] on LoadingState. *)
Theorem main_singletons :
  outcome main rt0 = Ok tt /\
  exists app utils,
    instance boot MApplication = Some app /\ instance boot MUtils = Some utils /\
    cl_Utils <$> closure_at boot app = Some (VRef utils) /\
    (forall s, exists l, instance boot (state_module s) = Some l /\ state_obj boot s = Some l /\
                    closure_at boot l = Some (mk_closure (VRef app) (VRef utils) VUndef)) /\
    (forall s s', state_obj boot s = state_obj boot s' -> s = s') /\
    rt_state boot = state_obj boot LoadingState /\
    rt_calls boot = [(MApplication, "initialize"); (MLoadingState, "initialize"); (MPlayState, "initialize");
                     (MLoadSceneState, "initialize"); (MLoadingState, "enter"); (MLoadingState, "execute")].
Proof.
  split; [vm_compute; reflexivity|]. exists 1%N, 3%N.
  split; [vm_compute; reflexivity|]. split; [vm_compute; reflexivity|]. split; [vm_compute; reflexivity|].
  split; [intros []; eexists; vm_compute; repeat split|].
  split; [intros [] []; vm_compute; congruence|].
  split; vm_compute; reflexivity.
Qed.

(** (C11) Functional: the callbacks reach [changeState] through
    [getStates]: run by any state object on a page with the objects
    [main.js] left, [_Application.changeState(_Application.getStates().X)]
    looks up [changeState], calls [getStates], which returns
    Application's own [States] object, and calls [changeState] on the
    object of [X], the one [initialize] stored there. *)
Theorem callbacks_change_state (s t : StateId) (rt : Rt) :
  rt_heap rt = rt_heap boot ->
  change_via_states (boot_table s) t rt =
  app_changeState_obj (Some (boot_table t))
    (log_call (MApplication, "changeState") (log_call (MApplication, "getStates") rt)).
Proof.
  intros Hh. destruct rt as [h n c st calls reqs touch]. cbn in Hh. subst h.
  unfold change_via_states. generalize app_changeState_obj as K. intros K.
  destruct s, t; vm_compute; reflexivity.
Qed.

Lemma callbacks_change_state_witness :
  rt_heap boot = rt_heap boot /\
  change_via_states (boot_table LoadingState) PlayState boot =
  app_changeState_obj (Some (boot_table PlayState))
    (log_call (MApplication, "changeState") (log_call (MApplication, "getStates") boot)).
Proof. split; [reflexivity|exact (callbacks_change_state LoadingState PlayState boot eq_refl)]. Defined.

(** ** The requests of a run *)

Lemma alloc_requests (o : Obj) : keeps rt_requests (alloc o).
Proof. intros rt. reflexivity. Qed.

Lemma load_requests (l : loc) : keeps rt_requests (load l).
Proof. intros rt. unfold load. destruct (rt_heap rt !! l); reflexivity. Qed.

#[export] Hint Resolve alloc_requests load_requests : keeps.

Lemma module_body_requests (m : ModName) : keeps rt_requests (module_body m).
Proof.
  destruct m; cbn [module_body];
    unfold utils_module, application_module, loading_module, play_module, scene_module; keeps_solve_with fail.
Qed.
#[export] Hint Resolve module_body_requests : keeps.

Lemma member_requests (v : Value) (name : string) : keeps rt_requests (member v name).
Proof. unfold member. keeps_solve_with fail. Qed.
#[export] Hint Resolve member_requests : keeps.

Lemma call_requests (v : Value) (name : string) : keeps rt_requests (call v name).
Proof. unfold call. keeps_solve_with fail. Qed.
#[export] Hint Resolve call_requests : keeps.

Lemma closure_of_requests (l : loc) : keeps rt_requests (closure_of l).
Proof. unfold closure_of. keeps_solve_with fail. Qed.

Lemma update_closure_requests (l : loc) (f : Closure -> Closure) : keeps rt_requests (update_closure l f).
Proof. unfold update_closure, store. keeps_solve_with fail. Qed.

Lemma read_option_requests (v : Value) (k : OptKey) : keeps rt_requests (read_option v k).
Proof. unfold read_option. keeps_solve_with fail. Qed.

Lemma read_States_requests (v : Value) (st : StateId) : keeps rt_requests (read_States v st).
Proof. unfold read_States. keeps_solve_with fail. Qed.

Lemma write_States_requests (v : Value) (st : StateId) (x : Value) : keeps rt_requests (write_States v st x).
Proof. unfold write_States, store. keeps_solve_with fail. Qed.

#[export] Hint Resolve closure_of_requests update_closure_requests read_option_requests read_States_requests
  write_States_requests : keeps.

Lemma app_getStates_requests (self : loc) : keeps rt_requests (app_getStates self).
Proof. unfold app_getStates. keeps_solve_with fail. Qed.

Lemma require_resolved_requests (p : list string) : keeps rt_requests (require_resolved p).
Proof. unfold require_resolved. keeps_solve_with fail. Qed.

Lemma require_builtin_requests (name : string) : keeps rt_requests (require_builtin name).
Proof. unfold require_builtin. keeps_solve_with fail. Qed.

#[export] Hint Resolve app_getStates_requests require_resolved_requests require_builtin_requests : keeps.

(** A request is checked on the bundle's graph by evaluation. *)
Lemma request_bundled_check (from : list string) (req : string) :
  bool_decide (req ∈ module_requests from) &&
  match resolve from req with
  | Some p => bool_decide (p ∈ bundle_modules ["./src/js/main.js"])
  | None => bool_decide (req ∈ browserify_builtins)
  end = true -> request_bundled (from, req).
Proof.
  intros H. apply andb_true_iff in H as [H1 H2]. split; [exact (bool_decide_eq_true_1 _ H1)|]. cbn.
  destruct (resolve from req) eqn:E; apply bool_decide_eq_true_1 in H2; [left; eauto|right; auto].
Qed.

(** [require] logs its request, and loading adds none. *)
Lemma require_requests (from : list string) (req : string) :
  request_bundled (from, req) -> appends rt_requests request_bundled (require from req).
Proof.
  intros H. unfold require. apply appends_bind; [|intros _; apply appends_keeps; repeat case_match; eauto with keeps].
  apply appends_modify. intros s. exists [(from, req)]. split; [reflexivity|constructor; [exact H|constructor]].
Qed.

Lemma shell_requires_requests (n : nat) : appends rt_requests request_bundled (shell_requires n).
Proof.
  induction n as [|n IH]; cbn [shell_requires]; [apply appends_keeps; eauto with keeps|].
  apply appends_bind; [|intros; exact IH].
  apply require_requests, request_bundled_check. vm_compute. reflexivity.
Qed.

(** Push [appends] through a program down to its [require]s, each
    checked on the bundle's graph, and the shells' loop. *)
Ltac requests_step :=
  idtac; lazymatch goal with
  | |- appends _ _ (require _ _) => apply require_requests, request_bundled_check; vm_compute; reflexivity
  | |- appends _ _ (shell_requires _) => apply shell_requires_requests
  end.
Ltac requests_solve := appends_solve_with ltac:(idtac; requests_step).

Lemma changeState_obj_requests (ns : option loc) : appends rt_requests request_bundled (app_changeState_obj ns).
Proof.
  unfold app_changeState_obj, changeState, call_on_current.
  cbn [st_exit st_enter st_execute Rt_AppState cur_state set_state Rt_StateSlot].
  unfold state_method, execute_requires. requests_solve.
Qed.

(** (C10) Safety: every file the code requires at run time is bundled.
    Each [require] that [main.js], [Application.initialize] (on any
    receiver and options, so also when a caller injects no module) and
    the callbacks' [changeState] path make is a request that
    browserify reads in the requiring file ([Gulp.js_requires]) and
    resolves to a module of the bundle [javascript:app] builds from
    [./src/js/main.js]: no run ends in [Cannot find module]. *)
Theorem runtime_requires_bundled :
  appends rt_requests request_bundled main /\
  (forall self this options, appends rt_requests request_bundled (app_initialize self this options)) /\
  (forall self t, appends rt_requests request_bundled (change_via_states self t)).
Proof.
  unfold main, app_initialize, change_via_states, initializeStates, init_state, loading_initialize,
    play_initialize, scene_initialize_modules, load_state, state_initialize, require_value, js_or.
  split; [|split]; intros;
    appends_solve_with ltac:(idtac; first [ requests_step
                                   | lazymatch goal with
                                     | |- appends _ _ (app_changeState_obj _) => apply changeState_obj_requests
                                     end ]).
Qed.

End Modules.
