(* ===== verification/Application.v ===== *)
(** * Application: the audio graph and the track display of Application.js

    Operations of [src/src/js/Application.js] that do not go through the
    states:
    - [_initializeAudioContext] (lines 153-226);
    - [setSourceNodeBuffer] (446-455), [playAudio] (463-470),
      [stopAudio] (478-482);
    - the [onaudioprocess] handler (193-225) that refreshes [_FFT],
      and in debug mode first draws the spectrum's bars (198-213);
    - [getFFT] (490-492) and [setTrackInfo] (501-542);
    - the polyfill [_initializeGraphicContext] (234-238).

    The Web Audio API is the environment. Its rules used here are those
    of the W3C specification:
    - [AudioBufferSourceNode.start] throws InvalidStateError the
      second time;
    - [stop] throws InvalidStateError before [start];
    - the [buffer] setter throws InvalidStateError once a non-null
      buffer was set;
    - [getByteFrequencyData] clips every value to [0, 255] and writes
      [min(array.length, frequencyBinCount)] cells.

    The theorems: [_FFT] holds the clipped bytes of bins 4, 194 and 202;
    the bars drawn equal a loop-free reference;
    a second buffer always throws; the title override of the Abidjan
    permalink. *)

From stdpp Require Import base list decidable strings.
From Stdlib Require Import ZArith String Lia.
From S2P Require Import Spec2Rocq Utils World.

Module Application.
Import Utils World.

Local Open Scope string_scope.

(** ** Web Audio's source node *)

(** [_sourceNode.start(0)] *)
Definition node_start : js World unit :=
  w <- get ;;
  let n := w_source w in
  if sn_started n then throw InvalidStateError
  else modify (fun w => with_source w (mk_source (sn_buffer n) true (sn_stopped n))).

(** [_sourceNode.stop(0)] *)
Definition node_stop : js World unit :=
  w <- get ;;
  let n := w_source w in
  if sn_started n then modify (fun w => with_source w (mk_source (sn_buffer n) true true))
  else throw InvalidStateError.

(** [_sourceNode.buffer = buffer] *)
Definition node_set_buffer (b : AudioBuffer) : js World unit :=
  w <- get ;;
  let n := w_source w in
  match sn_buffer n with
  | Some _ => throw InvalidStateError
  | None => modify (fun w => with_source w (mk_source (Some b) (sn_started n) (sn_stopped n)))
  end.

(** ** [_initializeAudioContext] (lines 153-226)

    [new AudioContext()] with no constructor available is a TypeError;
    otherwise the graph source -> analyser -> script processor ->
    destination is built around a fresh [_sourceNode]. In debug mode
    the canvas #FFTContainer is read next (lines 180-190): a missing
    element makes [canvas.width] a TypeError, before the
    [onaudioprocess] handler is installed (line 193). *)

(** [var canvas = document.getElementById('FFTContainer'); ...;
    var ctx = canvas.getContext('2d')] *)
Definition debug_canvas : js World unit :=
  w <- get ;;
  match de_fftCanvas (env_debug (w_env w)) with
  | Some size => update_debug (fun d => mk_debug (dbg_trim d) (Some size) (dbg_bars d)
                   (dbg_scripts d) (dbg_stats_panels d) (dbg_stats_frames d)
                   (dbg_stats_updates d) (dbg_gui d))
  | None => throw TypeError
  end.

Definition initializeAudioContext : js World unit :=
  w <- get ;;
  if env_webaudio (w_env w)
  then modify (fun w => with_audio_graph (with_source w (mk_source None false false)) true) ;;
       when (de_on (env_debug (w_env w))) debug_canvas
  else throw TypeError.

(** The debug block has its context, or the page is not in debug mode. *)
Definition debug_ready (w : World) : bool :=
  negb (de_on (env_debug (w_env w))) || bool_decide (is_Some (dbg_ctx (w_debug w))).

(** The [onaudioprocess] handler is set (line 193): the graph exists and
    the debug block before it did not throw. *)
Definition processor_installed (w : World) : bool := w_audio_graph w && debug_ready w.

(** ** [setSourceNodeBuffer] (lines 446-455)

    [if (_sourceNode) { if (_sourceNode.buffer) { _sourceNode.stop(0); }
     _sourceNode.buffer = buffer; }] *)
Definition setSourceNodeBuffer (b : AudioBuffer) : js World unit :=
  w <- get ;;
  if w_audio_graph w then
    (when (bool_decide (is_Some (sn_buffer (w_source w)))) node_stop) ;;
    node_set_buffer b
  else ret tt.

(** ** [playAudio] (lines 463-470) *)
Definition playAudio : js World unit :=
  w <- get ;;
  if w_audio_graph w then
    zoom w_trackInfo with_trackInfo (removeCSSClass "hidden") ;;
    node_start
  else ret tt.

(** ** [stopAudio] (lines 478-482) *)
Definition stopAudio : js World unit :=
  w <- get ;;
  if w_audio_graph w then node_stop else ret tt.

(** ** The spectrum sample *)

(** [_audioAnalyserNode.fftSize = 1024], so [frequencyBinCount] is 512. *)
Definition frequencyBinCount : nat := 512.

(** Web Audio clips a byte frequency value to [0, 255]. *)
Definition byte_clip (z : Z) : Z := Z.max 0 (Z.min 255 z).

(** [var array = new Uint8Array(frequencyBinCount)] (all zeros) filled
    by [getByteFrequencyData(array)] from the analyser's values. *)
Definition byte_frequency_data (n : nat) (values : list Z) : list Z :=
  map byte_clip (take n values) ++ replicate (n - List.length values) 0%Z.

(** [_FFT = [array[4], array[194], array[202]]] *)
Definition fft_sample (arr : list Z) : list Z :=
  [nth 4 arr 0%Z; nth 194 arr 0%Z; nth 202 arr 0%Z].

(** ** The debug spectrum (lines 198-213) *)

(** [Math.round(a / b)] for [b > 0]: [floor(a / b + 1/2)]. *)
Definition math_round_div (a b : Z) : Z := ((2 * a + b) / (2 * b))%Z.

(** The loop of lines 208-212 from bucket [i] on: a bar
    [fillRect(i*barWidth, canvasHeight-array[i], barWidth, canvasHeight)]
    for each [i] with [trimStart <= i <= trimEnd]. *)
Fixpoint bars_from (trim : Z * Z) (barWidth canvasHeight i : Z) (arr : list Z) : list Rect :=
  match arr with
  | [] => []
  | a :: arr' =>
      ((if (fst trim <=? i)%Z && (i <=? snd trim)%Z
        then [mk_rect (i * barWidth) (canvasHeight - a) barWidth canvasHeight]
        else []) ++ bars_from trim barWidth canvasHeight (i + 1) arr')%list
  end%Z.

(** [nbBuckets = array.length], [barWidth = Math.round(canvasWidth / nbBuckets)]. *)
Definition spectrum_bars (trim : Z * Z) (canvasWidth canvasHeight : Z) (arr : list Z) : list Rect :=
  bars_from trim (math_round_div canvasWidth (Z.of_nat (List.length arr))) canvasHeight 0 arr.

(** [ctx.clearRect(0, 0, canvasWidth, canvasHeight)], then the bars;
    [ctx] is undefined when the debug block of
    [_initializeAudioContext] did not run. *)
Definition draw_spectrum (arr : list Z) : js World unit :=
  w <- get ;;
  match dbg_ctx (w_debug w) with
  | Some (cw, ch) =>
      update_debug (fun d => mk_debug (dbg_trim d) (dbg_ctx d) (spectrum_bars (dbg_trim d) cw ch arr)
                      (dbg_scripts d) (dbg_stats_panels d) (dbg_stats_frames d)
                      (dbg_stats_updates d) (dbg_gui d))
  | None => throw TypeError
  end.

(** What lines 205-212 draw, stated without the loop: one bar per
    bucket index in [[trimStart, trimEnd]], in increasing order. *)
Definition in_trim (trim : Z * Z) (i : nat) : bool :=
  (fst trim <=? Z.of_nat i)%Z && (Z.of_nat i <=? snd trim)%Z.

Definition spectrum_ref (trim : Z * Z) (canvasWidth canvasHeight : Z) (arr : list Z) : list Rect :=
  let bw := math_round_div canvasWidth (Z.of_nat (List.length arr)) in
  List.map (fun i => mk_rect (Z.of_nat i * bw) (canvasHeight - nth i arr 0) bw canvasHeight)%Z
    (List.filter (in_trim trim) (List.seq 0 (List.length arr))).

(** The [onaudioprocess] handler: the bytes, the debug drawing, [_FFT]. *)
Definition onaudioprocess (values : list Z) : js World unit :=
  let arr := byte_frequency_data frequencyBinCount values in
  w <- get ;;
  when (de_on (env_debug (w_env w))) (draw_spectrum arr) ;;
  modify (fun w => with_fft w (fft_sample arr)).

(** [getFFT] (lines 490-492) *)
Definition getFFT : js World (list Z) := gets w_fft.

(** ** [setTrackInfo] (lines 501-542) *)

(** [s.replace(pat, rep)] with a string pattern: the first occurrence. *)
Fixpoint js_replace (pat rep s : string) : string :=
  if String.prefix pat s
  then rep ++ substring (String.length pat) (String.length s - String.length pat) s
  else match s with
       | EmptyString => EmptyString
       | String c s' => String c (js_replace pat rep s')
       end.

Definition abidjan_permalink : string :=
  "https://soundcloud.com/boundarysound/boundary-abidjan".
Definition double_edged_permalink : string :=
  "https://soundcloud.com/boundarysound/boundary-double-edged-sword".

(** The title override of lines 514-518, on the permalink after
    [replace('http://', 'https://')]. *)
Definition override_title (httpsPermalink : string) (title : option string) : option string :=
  if String.eqb httpsPermalink abidjan_permalink then Some "Abidjan"
  else if String.eqb httpsPermalink double_edged_permalink then Some "Double-Edged Sword"
  else title.

Definition setTrackInfo (ti : TrackInfo) : js World unit :=
  match ti_user ti with
  | None => throw TypeError                     (* trackInfo.user.permalink_url *)
  | Some user =>
      let artistPermalink := user_permalink_url user in
      let album := "Self-titled (2013)" in
      let artistName := "Boundary" in
      match ti_permalink_url ti with
      | None => throw TypeError                 (* undefined.replace(...) *)
      | Some p =>
          let title := override_title (js_replace "http://" "https://" p) (ti_title ti) in
          let follow := "Follow " ++ artistName ++ " on Soundcloud" in
          modify (fun w => with_display w
            (mk_display (Some artistName) title (Some album) artistPermalink (Some follow)
                        artistPermalink (Some follow) (ti_artwork_url ti)))
      end
  end.

(** ** [_initializeGraphicContext] (lines 234-238) *)

(** [a || b || c || d] on values that are a function or [undefined]:
    the first function, or [undefined] when there is none. *)
Definition js_or {A : Type} (xs : list (option A)) : option A :=
  fold_right (fun x acc => match x with Some _ => x | None => acc end) None xs.

(** What [window] holds under the standard name and the three vendor
    prefixes ([webkit], [moz], [ms]). *)
Record VendorNames (A : Type) := mk_vendor_names {
  vn_standard : option A;
  vn_webkit : option A;
  vn_moz : option A;
  vn_ms : option A
}.
Arguments vn_standard {A}. Arguments vn_webkit {A}. Arguments vn_moz {A}. Arguments vn_ms {A}.

Definition vendor_fix {A : Type} (v : VendorNames A) : VendorNames A :=
  mk_vendor_names A (js_or [vn_standard v; vn_webkit v; vn_moz v; vn_ms v]) (vn_webkit v) (vn_moz v) (vn_ms v).

(** The two assignments, [requestAnimationFrame] and [cancelAnimationFrame]. *)
Definition initializeGraphicContext {A B : Type} (raf : VendorNames A) (caf : VendorNames B) :
    VendorNames A * VendorNames B :=
  (vendor_fix raf, vendor_fix caf).

(** ** Concrete inputs for the examples below *)

(** A page whose graph is built and whose node already holds buffer 3. *)
Definition demo_audio_page : World :=
  with_source (with_audio_graph (page_loaded (mk_env false true true true no_debug 1280 800 0)) true)
              (mk_source (Some 3%nat) false false).

(** SoundCloud's answer for Abidjan with an [http] permalink and no title. *)
Definition demo_abidjan_info : TrackInfo :=
  mk_track_info None None (Some "http://soundcloud.com/boundarysound/boundary-abidjan")
                None (Some (mk_user None)).

(** ** Theorems *)

Lemma byte_clip_range (z : Z) : (0 <= byte_clip z <= 255)%Z.
Proof. unfold byte_clip. lia. Qed.

(** A cell of the array [getByteFrequencyData] fills. *)
Lemma nth_byte_frequency_data (i n : nat) (values : list Z) :
  (i < n)%nat -> nth i (byte_frequency_data n values) 0%Z = byte_clip (nth i values 0%Z).
Proof.
  intros Hi. unfold byte_frequency_data. rewrite !nth_lookup.
  destruct (decide (i < List.length values)%nat) as [Hl|Hl].
  - rewrite lookup_app_l by (rewrite length_map, length_take; lia).
    rewrite list_lookup_fmap, lookup_take by lia.
    destruct (lookup_lt_is_Some_2 values i Hl) as [x ->]. rewrite decide_True by lia. reflexivity.
  - rewrite lookup_app_r by (rewrite length_map, length_take; lia).
    rewrite lookup_replicate_2 by (rewrite length_map, length_take; lia).
    rewrite (proj2 (lookup_ge_None values i)) by lia. reflexivity.
Qed.

(** [playAudio] on a node that already started: the track panel is
    shown, then [start(0)] throws InvalidStateError. *)
Lemma playAudio_started (w : World) :
  w_audio_graph w = true -> sn_started (w_source w) = true ->
  playAudio w = (Throw InvalidStateError, with_trackInfo w (exec (removeCSSClass "hidden") (w_trackInfo w))).
Proof.
  intros Hg Hs. unfold playAudio, bind, get. rewrite Hg. unfold zoom, exec.
  pose proof (removeCSSClass_ok "hidden" (w_trackInfo w) eq_refl) as E. unfold outcome in E.
  destruct (removeCSSClass "hidden" (w_trackInfo w)) as [r el]. cbn in E. subst r.
  unfold node_start, bind, get. cbn. rewrite Hs. reflexivity.
Qed.

(** The loop from bucket [k] on, against the reference. *)
Lemma bars_from_ref (trim : Z * Z) (bw ch : Z) (arr : list Z) (k : nat) :
  bars_from trim bw ch (Z.of_nat k) arr =
  List.map (fun i => mk_rect (Z.of_nat i * bw) (ch - nth (i - k) arr 0) bw ch)%Z
    (List.filter (in_trim trim) (List.seq k (List.length arr))).
Proof.
  revert k. induction arr as [|a arr IH]; intros k; [reflexivity|].
  cbn [bars_from List.length List.seq List.filter].
  replace (Z.of_nat k + 1)%Z with (Z.of_nat (S k)) by lia. rewrite IH.
  assert (E : List.map (fun i => mk_rect (Z.of_nat i * bw) (ch - nth (i - S k) arr 0) bw ch)%Z
                (List.filter (in_trim trim) (List.seq (S k) (List.length arr))) =
              List.map (fun i => mk_rect (Z.of_nat i * bw) (ch - nth (i - k) (a :: arr) 0) bw ch)%Z
                (List.filter (in_trim trim) (List.seq (S k) (List.length arr)))).
  { apply map_ext_in. intros i Hi. apply filter_In in Hi as [Hi _]. apply in_seq in Hi.
    replace (i - k)%nat with (S (i - S k)) by lia. reflexivity. }
  rewrite E. change ((fst trim <=? Z.of_nat k)%Z && (Z.of_nat k <=? snd trim)%Z) with (in_trim trim k).
  destruct (in_trim trim k); cbn; rewrite ?Nat.sub_diag; reflexivity.
Qed.

(** The debug drawing of a page whose context is set. *)
Lemma draw_spectrum_ok (arr : list Z) (w : World) (cw ch : Z) :
  dbg_ctx (w_debug w) = Some (cw, ch) ->
  draw_spectrum arr w = (Ok tt, with_debug w (mk_debug (dbg_trim (w_debug w)) (Some (cw, ch))
    (spectrum_bars (dbg_trim (w_debug w)) cw ch arr) (dbg_scripts (w_debug w))
    (dbg_stats_panels (w_debug w)) (dbg_stats_frames (w_debug w)) (dbg_stats_updates (w_debug w))
    (dbg_gui (w_debug w)))).
Proof. intros E. unfold draw_spectrum, update_debug, bind, get, modify. rewrite E. cbv beta. rewrite E. reflexivity. Qed.

(** [onaudioprocess] writes only the debug canvas and [_FFT]. *)
Lemma keeps_onaudioprocess {B : Type} (f : World -> B) (values : list Z) :
  (forall w d, f (with_debug w d) = f w) -> (forall w l, f (with_fft w l) = f w) ->
  keeps f (onaudioprocess values).
Proof.
  intros Hd Hf. unfold onaudioprocess, draw_spectrum, update_debug.
  apply keeps_bind; [apply keeps_get|intros w].
  apply keeps_bind; [apply keeps_when|intros _; apply keeps_modify; intros; apply Hf].
  apply keeps_bind; [apply keeps_get|intros w'].
  destruct (dbg_ctx (w_debug w')) as [[cw ch]|]; [apply keeps_modify; intros; apply Hd|apply keeps_throw].
Qed.

(** It returns normally or throws the TypeError of a missing [ctx]. *)
Lemma onaudioprocess_outcome (values : list Z) (w : World) :
  outcome (onaudioprocess values) w = Ok tt \/ outcome (onaudioprocess values) w = Throw TypeError.
Proof.
  unfold outcome, onaudioprocess, draw_spectrum. cbn [bind get].
  destruct (de_on _); [|left; reflexivity]. cbn [when]. unfold bind, get.
  destruct (dbg_ctx _) as [[cw ch]|]; [left|right]; reflexivity.
Qed.

(** [onaudioprocess] as the debug drawing, then one update of [_FFT]. *)
Lemma onaudioprocess_fft_eq (values : list Z) (w : World) :
  debug_ready w = true ->
  onaudioprocess values w =
  (Ok tt, with_fft (exec (when (de_on (env_debug (w_env w)))
                               (draw_spectrum (byte_frequency_data frequencyBinCount values))) w)
             (map (fun i => byte_clip (nth i values 0%Z)) [4; 194; 202]%nat)).
Proof.
  unfold debug_ready, onaudioprocess, exec. intros Hr. cbn [bind get].
  destruct (de_on _); cbn [negb orb when] in *; unfold bind.
  - destruct (dbg_ctx (w_debug w)) as [[cw ch]|] eqn:E; [|discriminate].
    rewrite (draw_spectrum_ok _ _ cw ch E). unfold modify, fft_sample. cbn [fst snd].
    rewrite !nth_byte_frequency_data by (unfold frequencyBinCount; lia). reflexivity.
  - unfold ret, modify, fft_sample. cbn [fst snd].
    rewrite !nth_byte_frequency_data by (unfold frequencyBinCount; lia). reflexivity.
Qed.

(** (C8) The [onaudioprocess] handler: [_FFT] becomes the three byte
    values of the bins 4, 194 and 202 of the 512 the analyser
    reports, each clipped to [0, 255] by [getByteFrequencyData] (a bin
    the analyser did not produce reads 0), so [getFFT] always returns
    three bytes. *)
Theorem onaudioprocess_fft (values : list Z) (w : World) :
  debug_ready w = true ->
  fst (onaudioprocess values w) = Ok tt /\
  w_fft (snd (onaudioprocess values w)) = map (fun i => byte_clip (nth i values 0%Z)) [4; 194; 202]%nat /\
  Forall (fun z => 0 <= z <= 255)%Z (w_fft (snd (onaudioprocess values w))).
Proof.
  intros Hr. rewrite onaudioprocess_fft_eq by exact Hr. cbn [fst snd w_fft with_fft].
  split; [reflexivity|split; [reflexivity|]].
  repeat constructor; apply byte_clip_range.
Qed.

Lemma onaudioprocess_fft_witness :
  w_fft (snd (onaudioprocess [1; 2; 3; 4; 300]%Z demo_audio_page)) = [255; 0; 0]%Z.
Proof.
  destruct (onaudioprocess_fft [1; 2; 3; 4; 300]%Z demo_audio_page eq_refl) as (_ & E & _).
  rewrite E. reflexivity.
Defined.

(** (C33) The debug spectrum: the loop of [onaudioprocess]'s debug
    branch draws exactly one bar per bucket index in
    [[trimStart, trimEnd]] (and in the array), in increasing order,
    the bar of bucket [i] at [x = i * barWidth] and [array[i]] pixels
    high. *)
Theorem spectrum_bars_ref (trim : Z * Z) (canvasWidth canvasHeight : Z) (arr : list Z) :
  spectrum_bars trim canvasWidth canvasHeight arr = spectrum_ref trim canvasWidth canvasHeight arr.
Proof.
  unfold spectrum_bars, spectrum_ref. rewrite (bars_from_ref _ _ _ _ 0).
  apply map_ext. intros i. rewrite Nat.sub_0_r. reflexivity.
Qed.

(** (C32) [setSourceNodeBuffer] on a node that already holds a buffer
    always throws InvalidStateError and keeps the old buffer: before
    [start], [stop(0)] throws; after it, [stop(0)] works but Web Audio
    refuses a second [buffer] assignment. The "replace the playing
    sound" branch of the code can never succeed. *)
Theorem setSourceNodeBuffer_twice (b b0 : AudioBuffer) (w : World) :
  w_audio_graph w = true -> sn_buffer (w_source w) = Some b0 ->
  fst (setSourceNodeBuffer b w) = Throw InvalidStateError /\
  sn_buffer (w_source (snd (setSourceNodeBuffer b w))) = Some b0.
Proof.
  intros Hg Hb. unfold setSourceNodeBuffer, node_stop, node_set_buffer, when, bind, get, modify, throw, ret.
  cbn. rewrite Hg, Hb. cbn. destruct (sn_started (w_source w)); cbn; rewrite ?Hb; auto.
Qed.

Lemma setSourceNodeBuffer_twice_witness :
  w_audio_graph demo_audio_page = true /\ sn_buffer (w_source demo_audio_page) = Some 3%nat /\
  fst (setSourceNodeBuffer 4 demo_audio_page) = Throw InvalidStateError.
Proof.
  assert (Hg : w_audio_graph demo_audio_page = true) by reflexivity.
  assert (Hb : sn_buffer (w_source demo_audio_page) = Some 3%nat) by reflexivity.
  split; [exact Hg|split; [exact Hb|]]. exact (proj1 (setSourceNodeBuffer_twice 4 3 _ Hg Hb)).
Defined.

(** (C35) The title override of [setTrackInfo]: the Abidjan permalink,
    given in [http] or [https], shows the title "Abidjan" whatever the
    title SoundCloud sent, with the fixed artist and album. *)
Theorem setTrackInfo_abidjan (ti : TrackInfo) (u : User) (w : World) :
  ti_user ti = Some u ->
  ti_permalink_url ti = Some "http://soundcloud.com/boundarysound/boundary-abidjan" \/
  ti_permalink_url ti = Some abidjan_permalink ->
  fst (setTrackInfo ti w) = Ok tt /\
  td_title (w_display (snd (setTrackInfo ti w))) = Some "Abidjan" /\
  td_artist (w_display (snd (setTrackInfo ti w))) = Some "Boundary" /\
  td_album (w_display (snd (setTrackInfo ti w))) = Some "Self-titled (2013)".
Proof.
  intros Hu Hp. unfold setTrackInfo. rewrite Hu.
  destruct Hp as [-> | ->]; vm_compute; auto.
Qed.

Lemma setTrackInfo_abidjan_witness :
  ti_user demo_abidjan_info = Some (mk_user None) /\
  td_title (w_display (snd (setTrackInfo demo_abidjan_info demo_audio_page))) = Some "Abidjan".
Proof.
  assert (Hu : ti_user demo_abidjan_info = Some (mk_user None)) by reflexivity.
  split; [exact Hu|].
  apply (setTrackInfo_abidjan demo_abidjan_info (mk_user None) demo_audio_page Hu). left; reflexivity.
Defined.

(** The polyfill keeps a standard [requestAnimationFrame], takes the
    first prefixed one otherwise (webkit, then moz, then ms), leaves
    [undefined] only when the browser has none, and a second run
    changes nothing. *)
Lemma vendor_fix_spec {A : Type} (v : VendorNames A) :
  (vn_standard v <> None -> vn_standard (vendor_fix v) = vn_standard v) /\
  (vn_standard v = None -> vn_standard (vendor_fix v) = js_or [vn_webkit v; vn_moz v; vn_ms v]) /\
  (vn_standard (vendor_fix v) = None <->
     vn_standard v = None /\ vn_webkit v = None /\ vn_moz v = None /\ vn_ms v = None) /\
  vendor_fix (vendor_fix v) = vendor_fix v.
Proof.
  destruct v as [[a|] [b|] [c|] [d|]]; cbn; repeat split; try congruence;
    intros; repeat match goal with H : _ /\ _ |- _ => destruct H end; congruence.
Qed.

End Application.
