(* ===== verification/Links.v ===== *)
(** * Links: the listeners of [Application._setupGoogleAnalyticsTracking]

    [src/src/js/Application.js], lines 259-312: clicks on the album
    art, the artist, the GitHub and the About links send a Google
    Analytics event; the album art, artist and About listeners prevent
    the link's default action; the About listener shows #aboutModal and
    adds a click listener to #aboutModalClose, which hides it again.

    A click is dispatched as the DOM does it: one event object passed
    to every listener registered on the element when the click starts,
    each listener's exception reported without stopping the others;
    then the link is followed unless a listener cancelled the event.
    A listener runs on the page and that shared event object
    ([Dispatch]). *)

From stdpp Require Import base list decidable strings.
From Stdlib Require Import ZArith String Lia.
From S2P Require Import Spec2Rocq Utils World.

Module Links.
Import Utils World.

(** ** A click's dispatch *)

Definition Dispatch : Type := World * DomEvent.

(** A change of the event object, such as [Utils.preventDefaultEvent(event)]. *)
Definition on_event (f : DomEvent -> DomEvent) : js Dispatch unit :=
  modify (fun d => (fst d, f (snd d))).

(** A program on the page, run by a listener. *)
Definition on_page {A : Type} (m : js World A) : js Dispatch A :=
  zoom fst (fun d w => (w, snd d)) m.

Definition set_aboutModal (l : LinksDom) (el : Element) : LinksDom :=
  mk_links (ln_listening l) el (ln_close_listeners l) (ln_followed l).

(** [Utils.removeCSSClass(aboutModal, ...)] and [addCSSClass]. *)
Definition on_aboutModal (m : js Element unit) : js World unit :=
  zoom (fun w => ln_aboutModal (w_links w)) (fun w el => with_links w (set_aboutModal (w_links w) el)) m.

(** [aboutModalClose.addEventListener('click', function (event) {...})]:
    a new function object each time, so one more listener. *)
Definition add_close_listener (l : LinksDom) : LinksDom :=
  mk_links (ln_listening l) (ln_aboutModal l) (S (ln_close_listeners l)) (ln_followed l).

Definition update_links (f : LinksDom -> LinksDom) : js World unit :=
  modify (fun w => with_links w (f (w_links w))).

(** The listener on each element (lines 262-310). *)
Definition link_listener (l : Link) : js Dispatch unit :=
  match l with
  | TrackCoverLink =>
      on_event preventDefaultEvent ;;
      on_page (ga_send "Album Art")
  | TrackArtistLink =>
      on_event preventDefaultEvent ;;
      on_page (ga_send "Artist")
  | GithubLink =>
      on_page (ga_send "GitHub")
  | AboutLink =>
      on_event preventDefaultEvent ;;
      on_page (on_aboutModal (removeCSSClass "hidden")) ;;
      on_page (ga_send "About Modal") ;;
      on_page (update_links add_close_listener)
  | AboutModalClose =>
      on_event preventDefaultEvent ;;
      on_page (on_aboutModal (addCSSClass "hidden"))
  end.

(** [_setupGoogleAnalyticsTracking] registers the listeners of the four
    links. *)
Definition setupGoogleAnalyticsTracking : js World unit :=
  update_links (fun l => mk_links true (ln_aboutModal l) (ln_close_listeners l) (ln_followed l)).

(** The number of listeners a click on [l] reaches. *)
Definition link_listeners (l : Link) (w : World) : nat :=
  match l with
  | AboutModalClose => ln_close_listeners (w_links w)
  | _ => if ln_listening (w_links w) then 1 else 0
  end.

(** One listener; an exception it throws is reported. *)
Definition run_listener (m : js Dispatch unit) (d : Dispatch) : Dispatch :=
  match m d with
  | (Ok _, d') => d'
  | (Throw e, (w', ev')) => (with_log w' (w_log w' ++ [LogUncaught e]), ev')
  end.

Definition follow (l : Link) (ls : LinksDom) : LinksDom :=
  mk_links (ln_listening ls) (ln_aboutModal ls) (ln_close_listeners ls) (ln_followed ls ++ [l]).

(** A click on [l]; [has_preventDefault] says whether the browser's event
    object has [preventDefault] (old IE's has only [returnValue]). *)
Definition click (l : Link) (has_preventDefault : bool) (w : World) : World :=
  let '(w', ev) := Nat.iter (link_listeners l w) (run_listener (link_listener l))
                     (w, mk_dom_event has_preventDefault false true) in
  if default_cancelled ev then w' else with_links w' (follow l (w_links w')).

(** ** The listeners never throw *)

Lemma on_aboutModal_ok (m : js Element unit) (w : World) :
  outcome m (ln_aboutModal (w_links w)) = Ok tt ->
  on_aboutModal m w =
    (Ok tt, with_links w (set_aboutModal (w_links w) (snd (m (ln_aboutModal (w_links w)))))).
Proof. unfold outcome, on_aboutModal, zoom. destruct (m _) as [r el]. cbn. intros ->. reflexivity. Qed.

(** [on_aboutModal m] changes #aboutModal and nothing else. *)
Lemma on_aboutModal_exec (m : js Element unit) (w : World) :
  exec (on_aboutModal m) w = with_links w (set_aboutModal (w_links w) (exec m (ln_aboutModal (w_links w)))).
Proof. unfold exec, on_aboutModal, zoom. destruct (m _). reflexivity. Qed.

(** The only call that can throw is the [classList] call, and
    ["hidden"] is a valid token. *)
Lemma link_listener_ok (l : Link) (d : Dispatch) : outcome (link_listener l) d = Ok tt.
Proof.
  destruct d as [w ev].
  destruct l; unfold outcome, link_listener, on_event, on_page, zoom, bind, modify, get, ga_send;
    cbn; try reflexivity;
    rewrite on_aboutModal_ok by (first [apply removeCSSClass_ok | apply addCSSClass_ok]; reflexivity);
    reflexivity.
Qed.

(** A listener that returns normally reports nothing. *)
Lemma run_listener_ok (m : js Dispatch unit) (d : Dispatch) :
  outcome m d = Ok tt -> run_listener m d = snd (m d).
Proof. unfold outcome, run_listener. destruct (m d) as [[] [w' ev']]; cbn; congruence. Qed.

Lemma run_link_listener (l : Link) (d : Dispatch) :
  run_listener (link_listener l) d = snd (link_listener l d).
Proof. apply run_listener_ok, link_listener_ok. Qed.


(** ** One listener, run *)

(** The About listener shows the modal, sends its event and adds a
    close listener, in this order, and prevents the default action. *)
Lemma about_listener_effect (w : World) (ev : DomEvent) :
  link_listener AboutLink (w, ev) =
    (Ok tt, (exec (update_links add_close_listener)
               (exec (ga_send "About Modal") (exec (on_aboutModal (removeCSSClass "hidden")) w)),
             preventDefaultEvent ev)).
Proof.
  unfold link_listener, on_event, on_page, zoom, bind, modify, get, exec. cbn.
  rewrite on_aboutModal_ok by (apply removeCSSClass_ok; reflexivity). reflexivity.
Qed.

(** The close listener hides the modal and prevents the default action. *)
Lemma close_listener_effect (w : World) (ev : DomEvent) :
  link_listener AboutModalClose (w, ev) =
    (Ok tt, (exec (on_aboutModal (addCSSClass "hidden")) w, preventDefaultEvent ev)).
Proof.
  unfold link_listener, on_event, on_page, zoom, bind, modify, get, exec. cbn.
  rewrite on_aboutModal_ok by (apply addCSSClass_ok; reflexivity). reflexivity.
Qed.


(** ** What a click leaves unchanged *)

Section ClickFrame.
Context {B : Type} (f : World -> B).
Hypothesis Hga : forall w g, f (with_ga w g) = f w.
Hypothesis Hlinks : forall w l, f (with_links w l) = f w.

Lemma keeps_on_page {A} (m : js World A) : keeps f m -> keeps (fun d : Dispatch => f (fst d)) (on_page m).
Proof. intros Hm [w ev]. unfold on_page, zoom. cbn. specialize (Hm w). destruct (m w). exact Hm. Qed.

Lemma keeps_on_event (g : DomEvent -> DomEvent) : keeps (fun d : Dispatch => f (fst d)) (on_event g).
Proof. apply keeps_modify. reflexivity. Qed.

Lemma keeps_on_aboutModal (m : js Element unit) : keeps f (on_aboutModal m).
Proof. apply keeps_zoom. intros. apply Hlinks. Qed.

Lemma link_listener_keeps (l : Link) : keeps (fun d : Dispatch => f (fst d)) (link_listener l).
Proof.
  destruct l; cbn; keeps_solve_with ltac:(first
    [ apply keeps_on_event
    | apply keeps_on_page; first
        [ apply keeps_on_aboutModal
        | apply keeps_modify; intros; first [apply Hga | apply Hlinks] ] ]).
Qed.

Lemma click_keeps (l : Link) (pd : bool) (w : World) : f (click l pd w) = f w.
Proof.
  unfold click.
  assert (Hit : forall n d, f (fst (Nat.iter n (run_listener (link_listener l)) d)) = f (fst d)).
  { induction n as [|n IH]; intros d; [reflexivity|].
    rewrite Nat.iter_succ, run_link_listener, (link_listener_keeps l). apply IH. }
  specialize (Hit (link_listeners l w) (w, mk_dom_event pd false true)).
  destruct (Nat.iter _ _ _) as [w' ev]. cbn in Hit.
  destruct (default_cancelled ev); [exact Hit|]. rewrite Hlinks. exact Hit.
Qed.
End ClickFrame.


(** ** The About modal across clicks *)

Lemma about_click_links (pd : bool) (w : World) :
  ln_listening (w_links w) = true ->
  w_links (click AboutLink pd w) =
    add_close_listener (set_aboutModal (w_links w) (exec (removeCSSClass "hidden") (ln_aboutModal (w_links w)))).
Proof.
  intros E. unfold click, link_listeners. rewrite E. unfold Nat.iter; cbn [nat_rect].
  rewrite run_link_listener, about_listener_effect. cbn. rewrite preventDefault_cancels.
  rewrite on_aboutModal_exec. reflexivity.
Qed.

(** [n] About clicks leave the listeners in place, keep the modal's
    branch, and register [n] more close listeners. *)
Lemma about_clicks_iter (n : nat) (pd : bool) (w : World) :
  ln_listening (w_links w) = true ->
  let w1 := Nat.iter n (click AboutLink pd) w in
  ln_listening (w_links w1) = true /\
  ln_close_listeners (w_links w1) = (ln_close_listeners (w_links w) + n)%nat /\
  el_has_classList (ln_aboutModal (w_links w1)) = el_has_classList (ln_aboutModal (w_links w)).
Proof.
  intros E. induction n as [|n (IHl & IHc & IHh)]; cbn zeta in *; [rewrite Nat.add_0_r; auto|].
  rewrite Nat.iter_succ, about_click_links by exact IHl.
  cbn [ln_listening ln_close_listeners ln_aboutModal add_close_listener set_aboutModal]. unfold exec.
  rewrite IHc, (removeCSSClass_keeps_classList "hidden"). repeat split; [exact IHl|lia|exact IHh].
Qed.

(** A click on #aboutModalClose runs [addCSSClass(aboutModal, 'hidden')]
    once per registered listener. *)
Lemma close_click_modal (pd : bool) (w : World) :
  ln_aboutModal (w_links (click AboutModalClose pd w)) =
    Nat.iter (ln_close_listeners (w_links w)) (exec (addCSSClass "hidden")) (ln_aboutModal (w_links w)).
Proof.
  unfold click, link_listeners.
  assert (Hit : forall k d, ln_aboutModal (w_links (fst (Nat.iter k (run_listener (link_listener AboutModalClose)) d))) =
                            Nat.iter k (exec (addCSSClass "hidden")) (ln_aboutModal (w_links (fst d)))).
  { induction k as [|k IH]; intros d; [reflexivity|].
    rewrite !Nat.iter_succ, <- IH. destruct (Nat.iter k _ d) as [w' ev'].
    rewrite run_link_listener, close_listener_effect, on_aboutModal_exec. reflexivity. }
  specialize (Hit (ln_close_listeners (w_links w)) (w, mk_dom_event pd false true)).
  destruct (Nat.iter _ _ _) as [w' ev]. cbn in Hit |- *.
  destruct (default_cancelled ev); exact Hit.
Qed.

(** ** Properties *)

(** A page after [initialize] has run: the listeners are registered. *)
Definition tracked_page (classList : bool) : World :=
  exec setupGoogleAnalyticsTracking (page_loaded (mk_env false true true classList no_debug 1280 800 0)).

(** (C30) A click on the album art, the artist, the GitHub or the About
    link: once [_setupGoogleAnalyticsTracking] has run, it sends the
    link's Google Analytics event, and only the GitHub link is followed
    (the others prevent the default action, in both event models);
    before, no event is sent and the link is followed. *)
Theorem link_clicks (l : Link) (pd : bool) (w : World) :
  l <> AboutModalClose ->
  (w_ga (click l pd w) =
     w_ga w ++ (if ln_listening (w_links w)
                then [match l with
                      | TrackCoverLink => "Album Art"%string | TrackArtistLink => "Artist"%string
                      | GithubLink => "GitHub"%string | _ => "About Modal"%string end]
                else [])) /\
  (ln_followed (w_links (click l pd w)) =
     ln_followed (w_links w) ++ (if ln_listening (w_links w) && bool_decide (l <> GithubLink)
                                 then [] else [l])).
Proof.
  intros Hl. unfold click, link_listeners.
  destruct l; [| | | |congruence]; destruct (ln_listening (w_links w)) eqn:E;
    unfold Nat.iter; cbn [nat_rect]; rewrite ?run_link_listener, ?about_listener_effect;
    cbn; rewrite ?preventDefault_cancels, ?E; rewrite ?on_aboutModal_exec; cbn; rewrite ?app_nil_r; auto.
Qed.

Lemma link_clicks_witness :
  w_ga (click GithubLink false (tracked_page true)) = ["GitHub"%string] /\
  ln_followed (w_links (click GithubLink false (tracked_page true))) = [GithubLink] /\
  ln_followed (w_links (click AboutLink false (tracked_page true))) = [].
Proof.
  destruct (link_clicks GithubLink false (tracked_page true) ltac:(discriminate)) as [Hg Hf].
  destruct (link_clicks AboutLink false (tracked_page true) ltac:(discriminate)) as [_ Ha].
  rewrite Hg, Hf, Ha. vm_compute. repeat split.
Defined.

(** (C31) Each click on the About link adds one more click listener to
    #aboutModalClose, and a click on it then runs
    [addCSSClass(aboutModal, 'hidden')] once per listener: after [n]
    About clicks there are [c + n] of them, and without [classList]
    the fallback appends " hidden" to the modal's class name [c + n]
    times; with [classList] the repeated calls act as one. *)
Theorem about_close_leak (n : nat) (pd pd' : bool) (w : World) :
  ln_listening (w_links w) = true ->
  let w1 := Nat.iter n (click AboutLink pd) w in
  ln_close_listeners (w_links w1) = (ln_close_listeners (w_links w) + n)%nat /\
  (el_has_classList (ln_aboutModal (w_links w)) = false ->
   el_className (ln_aboutModal (w_links (click AboutModalClose pd' w1))) =
     Nat.iter (ln_close_listeners (w_links w) + n) (fun cn => cn ++ " " ++ "hidden")%string
       (el_className (ln_aboutModal (w_links w1)))) /\
  (el_has_classList (ln_aboutModal (w_links w)) = true -> (0 < ln_close_listeners (w_links w) + n)%nat ->
   ln_aboutModal (w_links (click AboutModalClose pd' w1)) =
     exec (addCSSClass "hidden") (ln_aboutModal (w_links w1))).
Proof.
  intros E. cbn zeta. destruct (about_clicks_iter n pd w E) as (_ & Hc & Hh). cbn zeta in Hc, Hh.
  rewrite close_click_modal, Hc. split; [reflexivity|split].
  - intros Hf. rewrite addCSSClass_fallback_iter by congruence. reflexivity.
  - intros Ht Hk. destruct (ln_close_listeners (w_links w) + n)%nat as [|k]; [lia|].
    apply addCSSClass_classList_iter; [congruence|reflexivity].
Qed.

Lemma about_close_leak_witness :
  el_className (ln_aboutModal (w_links (click AboutModalClose true
    (Nat.iter 2 (click AboutLink true) (tracked_page false))))) = "  hidden hidden"%string.
Proof.
  destruct (about_close_leak 2 true true (tracked_page false) eq_refl) as (_ & Hf & _).
  rewrite (Hf eq_refl). vm_compute. reflexivity.
Defined.

End Links.
