(* ===== verification/Debug.v ===== *)
(** * Debug: the debug mode of Application.js

    With [#debug] in the URL, [initialize] first runs
    [_initializeDebugMode] (src/src/js/Application.js, lines 320-330).
    It loads two scripts with [Utils.asyncLoadScript]:
    - stats.js, whose callback [_drawStats] (lines 378-404) appends
      three Stats panels to the body and starts a
      [requestAnimationFrame] loop that updates them;
    - dat.GUI, whose callback [_initializeDebugControls] (lines
      338-365) builds a panel with a "Play Sound" button (it calls
      [Application.playAudio()]) and two sliders, trimStart and trimEnd
      in [0, 512] by steps of 1. Moving a slider logs the value and
      writes it to [global] (lines 8-11), which the debug branch of
      [onaudioprocess] reads to choose the bars it draws.

    The scripts, the panels, the loop and the panel live in the
    [DebugDom] of the page ([World.w_debug]); the browser's events on
    them are events of App.v. *)

From stdpp Require Import base list decidable strings.
From Stdlib Require Import ZArith String List Lia.
From S2P Require Import Spec2Rocq Utils World Application.

Module Debug.
Import Utils World Application.

Local Open Scope string_scope.

(** ** [_initializeDebugMode] (lines 320-330) *)

Definition stats_url : string := "https://rawgit.com/mrdoob/stats.js/master/build/stats.min.js".
Definition datgui_url : string := "https://cdnjs.cloudflare.com/ajax/libs/dat-gui/0.5/dat.gui.min.js".

(** [Utils.asyncLoadScript(url, callback)]: the script element is
    appended; its [load] has not fired yet. *)
Definition load_script (tag : DebugScript) (url : string) : js World unit :=
  w <- get ;;
  update_debug (fun d => mk_debug (dbg_trim d) (dbg_ctx d) (dbg_bars d)
    (dbg_scripts d ++ [(tag, asyncLoadScript (de_readyState (env_debug (w_env w))) url, false)])
    (dbg_stats_panels d) (dbg_stats_frames d) (dbg_stats_updates d) (dbg_gui d)).

Definition initializeDebugMode : js World unit :=
  load_script StatsScript stats_url ;;
  load_script GuiScript datgui_url.

(** ** [_drawStats] (lines 378-404) *)

(** Three [new Stats()] panels appended to [document.body], then
    [requestAnimationFrame(function loop () {...})]. *)
Definition drawStats : js World unit :=
  update_debug (fun d => mk_debug (dbg_trim d) (dbg_ctx d) (dbg_bars d) (dbg_scripts d)
    (dbg_stats_panels d + 3) (dbg_stats_frames d + 1) (dbg_stats_updates d) (dbg_gui d)).

(** [loop]: [update()] on the three panels, then
    [requestAnimationFrame(loop)] again. *)
Definition stats_loop : js World unit :=
  update_debug (fun d => mk_debug (dbg_trim d) (dbg_ctx d) (dbg_bars d) (dbg_scripts d)
    (dbg_stats_panels d) (dbg_stats_frames d + 1) (S (dbg_stats_updates d)) (dbg_gui d)).

(** The browser takes one pending frame of the loop before running it. *)
Definition take_stats_frame (d : DebugDom) : DebugDom :=
  mk_debug (dbg_trim d) (dbg_ctx d) (dbg_bars d) (dbg_scripts d)
    (dbg_stats_panels d) (pred (dbg_stats_frames d)) (dbg_stats_updates d) (dbg_gui d).

(** ** [_initializeDebugControls] (lines 338-365) *)

(** The ViewModel [applicationControls] starts at [trimStart: 0,
    trimEnd: 350]; the panel is appended to #GUIContainer, and
    [customContainer.appendChild] is a TypeError when that element is
    missing. *)
Definition initializeDebugControls : js World unit :=
  w <- get ;;
  if de_guiContainer (env_debug (w_env w))
  then update_debug (fun d => mk_debug (dbg_trim d) (dbg_ctx d) (dbg_bars d) (dbg_scripts d)
         (dbg_stats_panels d) (dbg_stats_frames d) (dbg_stats_updates d) (Some (0, 350)%Z))
  else throw TypeError.

(** [playSound: function () { Application.playAudio(); }] *)
Definition gui_playSound : js World unit := playAudio.

(** A slider moved to [value]: dat.GUI writes the ViewModel, then the
    [onChange] callback logs ['Trim Start', value] (or ['Trim End'])
    and writes [global.trimStart] (or [global.trimEnd]). *)
Definition gui_trim (start : bool) (value : Z) : js World unit :=
  update_debug (fun d => mk_debug (dbg_trim d) (dbg_ctx d) (dbg_bars d) (dbg_scripts d)
    (dbg_stats_panels d) (dbg_stats_frames d) (dbg_stats_updates d)
    (option_map (fun g => if start then (value, snd g) else (fst g, value)) (dbg_gui d))) ;;
  console_log (LogTrim start value) ;;
  update_debug (fun d => mk_debug
    (if start then (value, snd (dbg_trim d)) else (fst (dbg_trim d), value))
    (dbg_ctx d) (dbg_bars d) (dbg_scripts d)
    (dbg_stats_panels d) (dbg_stats_frames d) (dbg_stats_updates d) (dbg_gui d)).

(** ** The scripts' handlers *)

(** The callback passed to [asyncLoadScript] for each script. *)
Definition script_callback (tag : DebugScript) : js World unit :=
  match tag with
  | StatsScript => drawStats
  | GuiScript => initializeDebugControls
  end.

Definition is_load (ev : ScriptEvent) : bool :=
  match ev with ScriptLoad => true | ReadyStateChange _ => false end.

(** The browser fires [ev] on the [i]-th appended script: the handler
    [asyncLoadScript] set runs ([Utils.script_event]), and calls the
    callback when it decides to. *)
Definition fire_script (i : nat) (ev : ScriptEvent) : js World unit :=
  w <- get ;;
  match dbg_scripts (w_debug w) !! i with
  | Some (tag, s, loaded) =>
      let s' := script_event true ev s in
      update_debug (fun d => mk_debug (dbg_trim d) (dbg_ctx d) (dbg_bars d)
        (<[i := (tag, s', loaded || is_load ev)]> (dbg_scripts d))
        (dbg_stats_panels d) (dbg_stats_frames d) (dbg_stats_updates d) (dbg_gui d)) ;;
      when (sc_callbacks s <? sc_callbacks s')%nat (script_callback tag)
  | None => ret tt
  end.

(** The browser fires [load] once per script. *)
Definition script_event_possible (i : nat) (ev : ScriptEvent) (d : DebugDom) : bool :=
  match dbg_scripts d !! i with
  | Some (_, _, loaded) => negb (is_load ev && loaded)
  | None => false
  end.

(** ** A debug page

    A browser with #debug in the URL, #FFTContainer (1024 x 256) and
    #GUIContainer on the page, and script elements without
    [readyState]. *)
Definition debug_env : Env :=
  mk_env false true true true (mk_debug_env true false (Some (1024, 256)%Z) true) 1280 800 0.

(** The page once [_initializeAudioContext] ran. *)
Definition debug_audio_page : World := exec initializeAudioContext (page_loaded debug_env).

(** ** Properties *)

Lemma length_byte_frequency_data (n : nat) (values : list Z) :
  List.length (byte_frequency_data n values) = n.
Proof.
  unfold byte_frequency_data. rewrite length_app, length_map, length_take, length_replicate. lia.
Qed.

(** [_initializeDebugControls] with #GUIContainer present: the panel
    shows trimStart 0 and trimEnd 350 and [global] is unchanged. *)
Lemma initializeDebugControls_effect (w : World) :
  de_guiContainer (env_debug (w_env w)) = true ->
  initializeDebugControls w =
    (Ok tt, with_debug w (mk_debug (dbg_trim (w_debug w)) (dbg_ctx (w_debug w)) (dbg_bars (w_debug w))
      (dbg_scripts (w_debug w)) (dbg_stats_panels (w_debug w)) (dbg_stats_frames (w_debug w))
      (dbg_stats_updates (w_debug w)) (Some (0, 350)%Z))).
Proof. intros Hg. unfold initializeDebugControls, update_debug, bind, get, modify. rewrite Hg. reflexivity. Qed.

(** (C34) The trim sliders and [global] disagree: once
    [_initializeDebugControls] has run, the panel shows trimStart 0 and
    trimEnd 350, but [global] keeps [{trimStart: 0, trimEnd: 0}] until
    a slider moves, so every audio tick draws a single bar, bucket 0,
    instead of the 351 the panel announces. *)
Theorem debug_trim_mismatch (values : list Z) (w : World) (cw ch : Z) :
  de_on (env_debug (w_env w)) = true -> de_guiContainer (env_debug (w_env w)) = true ->
  dbg_ctx (w_debug w) = Some (cw, ch) -> dbg_trim (w_debug w) = (0, 0)%Z ->
  dbg_gui (w_debug (exec initializeDebugControls w)) = Some (0, 350)%Z /\
  dbg_bars (w_debug (exec (onaudioprocess values) (exec initializeDebugControls w))) =
    [mk_rect 0 (ch - byte_clip (nth 0 values 0%Z)) (math_round_div cw 512) ch].
Proof.
  intros Hon Hg Hc Ht. change (exec initializeDebugControls w) with (snd (initializeDebugControls w)).
  rewrite (initializeDebugControls_effect w Hg).
  cbn [snd w_debug with_debug dbg_gui]. split; [reflexivity|].
  set (w1 := with_debug w _).
  assert (Hr : debug_ready w1 = true) by (unfold debug_ready; cbn; rewrite Hc; apply orb_true_r).
  unfold exec. rewrite (onaudioprocess_fft_eq _ _ Hr). cbn [snd w_debug with_fft].
  change (w_env w1) with (w_env w). rewrite Hon. cbn [when]. unfold exec.
  rewrite (draw_spectrum_ok _ _ cw ch) by exact Hc. cbn [snd w_debug with_debug dbg_bars dbg_trim].
  unfold w1. cbn [w_debug with_debug dbg_trim]. rewrite Ht. unfold spectrum_bars. rewrite (bars_from_ref _ _ _ _ 0), length_byte_frequency_data.
  replace (List.filter (in_trim (0, 0)%Z) (List.seq 0 frequencyBinCount)) with [0%nat] by reflexivity.
  cbn [List.map]. rewrite nth_byte_frequency_data by (unfold frequencyBinCount; lia). reflexivity.
Qed.

Lemma debug_trim_mismatch_witness :
  dbg_gui (w_debug (exec initializeDebugControls debug_audio_page)) = Some (0, 350)%Z /\
  dbg_bars (w_debug (exec (onaudioprocess [7; 9]%Z) (exec initializeDebugControls debug_audio_page))) =
    [mk_rect 0 249 2 256].
Proof.
  destruct (debug_trim_mismatch [7; 9]%Z debug_audio_page 1024 256 eq_refl eq_refl eq_refl eq_refl) as [G B].
  split; [exact G|]. rewrite B. reflexivity.
Defined.

End Debug.
