(* ===== verification/Texture.v ===== *)
(** * Texture: [LoadSceneState._generateTexture]

    [src/src/js/LoadSceneState.js], lines 359-384: a 256 x 256 canvas
    on which 20000 two-pixel squares are drawn. Each square's
    [fillStyle] is the string ['rgba(' + [255, g, b, a].join(',') + ')']
    with [g] and [b] the floors of [Utils.getRandomArbitrary(0, 255)]
    and [a] the floor of [getRandomArbitrary(-12.0, 2.0)]; the square
    is at [(Math.random() * 256, Math.random() * 256)].

    [Math.random()] is the parameter [rand]: [rand n] is the value of
    its [n]-th call. One square makes five calls, in the order of
    evaluation of the code: [g], [b], [a], then [x] and [y].

    JavaScript prints an integer in decimal ([JsString.js_int_string]).
    The browser parses a [fillStyle] as a CSS color;
    [parse_rgba] reads the [rgba(...)] form with integer components,
    as the code writes it. CSS clamps the alpha component to [[0, 1]],
    so a square is visible only when [a] is 1. *)

From stdpp Require Import base list decidable.
From Stdlib Require Import ZArith QArith Qround String Ascii Lia Lqa.
From S2P Require Import Spec2Rocq Utils JsString.

Module Texture.
Import Utils JsString.

Local Open Scope string_scope.

(** ** The texture (lines 359-384) *)

(** The four components of line 371-376. *)
Definition fur_color (r1 r2 r3 : Q) : list Z :=
  [255%Z; Qfloor (getRandomArbitrary r1 0 255); Qfloor (getRandomArbitrary r2 0 255);
   Qfloor (getRandomArbitrary r3 (-12) 2)].

(** [context.fillStyle = 'rgba(' + fillStyle.join(',') + ')'] *)
Definition fur_fillStyle (c : list Z) : string :=
  "rgba(" ++ js_join "," (map js_int_string c) ++ ")".

(** [context.fillRect(x, y, 2, 2)] with the style of the moment. *)
Record FurRect := mk_fur_rect {
  fr_fillStyle : string;
  fr_x : Q;
  fr_y : Q;
  fr_w : Z;
  fr_h : Z
}.

(** [canvas.width = 256; canvas.height = 256] *)
Definition canvas_size : Q := 256.

(** The [i]-th turn of the loop: Math.random() calls [5i] to [5i+4]. *)
Definition fur_rect (rand : nat -> Q) (i : nat) : FurRect :=
  mk_fur_rect
    (fur_fillStyle (fur_color (rand (5 * i)%nat) (rand (5 * i + 1)%nat) (rand (5 * i + 2)%nat)))
    (rand (5 * i + 3)%nat * canvas_size) (rand (5 * i + 4)%nat * canvas_size) 2 2.

(** The squares drawn, in order. *)
Definition generateTexture (rand : nat -> Q) : list FurRect :=
  map (fur_rect rand) (seq 0 20000).

(** ** The browser's reading of a [fillStyle] *)

(** [rgba(c0,c1,c2,c3)] with integer components and nothing after. *)
Definition parse_rgba (s : string) : option (list Z) :=
  match strip_prefix "rgba(" s with
  | None => None
  | Some r =>
      match read_ints "," 4 r with
      | Some (cs, r') => if String.eqb r' ")" then Some cs else None
      | None => None
      end
  end.

(** CSS clamps alpha to [[0, 1]]: the square shows when it is at least 1. *)
Definition visible_alpha (a : Z) : bool := (1 <=? a)%Z.

(** ** Reading back what the code writes *)

(** The [fillStyle] of the code reads back as its four components. *)
Lemma parse_rgba_fillStyle (c : list Z) : List.length c = 4%nat -> parse_rgba (fur_fillStyle c) = Some c.
Proof.
  intros Hc. unfold parse_rgba, fur_fillStyle. rewrite strip_prefix_app.
  rewrite <- Hc, (read_ints_join "," ""); [reflexivity|reflexivity|apply Forall2_reads_as_string| |].
  - intros ->. discriminate.
  - intros c' r' [= <- _]. reflexivity.
Qed.

(** The floor of a number of [[lo, hi)]. *)
Lemma Qfloor_range (x : Q) (lo hi : Z) :
  inject_Z lo <= x < inject_Z hi -> (lo <= Qfloor x <= hi - 1)%Z.
Proof.
  intros [Hlo Hhi]. pose proof (Qfloor_le x). pose proof (Qlt_floor x).
  assert (lo < Qfloor x + 1)%Z by (rewrite Zlt_Qlt; lra).
  assert (Qfloor x < hi)%Z by (rewrite Zlt_Qlt; lra).
  lia.
Qed.

Lemma fur_channel (r : Q) : 0 <= r < 1 -> (0 <= Qfloor (getRandomArbitrary r 0 255) <= 254)%Z.
Proof.
  intros [H0 H1]. apply (Qfloor_range _ 0 255). unfold getRandomArbitrary.
  change (inject_Z 0) with 0. change (inject_Z 255) with 255. lra.
Qed.

Lemma fur_alpha (r : Q) :
  0 <= r < 1 ->
  (-12 <= Qfloor (getRandomArbitrary r (-12) 2) <= 1)%Z /\
  (visible_alpha (Qfloor (getRandomArbitrary r (-12) 2)) = true <-> 13 # 14 <= r).
Proof.
  intros [H0 H1]. unfold getRandomArbitrary. set (x := r * (2 - -12) + -12).
  assert (Hx : inject_Z (-12) <= x < inject_Z 2) by (unfold x; change (inject_Z (-12)) with (-12);
    change (inject_Z 2) with 2; lra).
  split; [exact (Qfloor_range x _ _ Hx)|]. unfold visible_alpha. rewrite Z.leb_le. split.
  - intros Ha. pose proof (Qfloor_le x). rewrite Zle_Qle in Ha. change (inject_Z 1) with 1 in Ha.
    unfold x in *. lra.
  - intros Hr. apply (Z.le_trans _ (Qfloor 1)); [reflexivity|]. apply Qfloor_resp_le. unfold x. lra.
Qed.

Lemma nth_generateTexture (rand : nat -> Q) (i : nat) :
  (i < 20000)%nat -> nth i (generateTexture rand) (fur_rect rand 0) = fur_rect rand i.
Proof.
  intros Hi. unfold generateTexture. rewrite map_nth, seq_nth by exact Hi. reflexivity.
Qed.

(** ** Properties *)

(** (C16) The fur texture: whatever [Math.random()] returns in
    [[0, 1)], the [i]-th square's [fillStyle] is a CSS color the
    browser reads back as exactly the four components the code
    computed, [rgba(255, g, b, a)] with [g] and [b] in [[0, 254]]
    ([255] is never reached) and [a] in [[-12, 1]]; the square shows
    only when [a] is 1, that is when the third random number of its
    turn is at least 13/14, and it lies in the 256 x 256 canvas. *)
Theorem texture_squares (rand : nat -> Q) (i : nat) :
  (forall n, 0 <= rand n < 1) -> (i < 20000)%nat ->
  let sq := nth i (generateTexture rand) (fur_rect rand 0) in
  exists g b a,
    parse_rgba (fr_fillStyle sq) = Some [255%Z; g; b; a] /\
    (0 <= g <= 254)%Z /\ (0 <= b <= 254)%Z /\ (-12 <= a <= 1)%Z /\
    (visible_alpha a = true <-> 13 # 14 <= rand (5 * i + 2)%nat) /\
    0 <= fr_x sq < 256 /\ 0 <= fr_y sq < 256.
Proof.
  intros Hr Hi sq. unfold sq. rewrite nth_generateTexture by exact Hi.
  destruct (fur_alpha (rand (5 * i + 2)%nat) (Hr _)) as [Ha Hv].
  eexists _, _, _. split; [apply parse_rgba_fillStyle; reflexivity|].
  split; [apply fur_channel, Hr|split; [apply fur_channel, Hr|split; [exact Ha|split; [exact Hv|]]]].
  cbn [fr_x fr_y fur_rect]. unfold canvas_size.
  destruct (Hr (5 * i + 3)%nat), (Hr (5 * i + 4)%nat). split; split; lra.
Qed.

Lemma texture_squares_witness :
  let rand := fun n : nat => if Nat.eqb (n mod 5) 2 then 13 # 14 else 1 # 2 in
  (forall n, 0 <= rand n < 1) /\ (7 < 20000)%nat /\
  parse_rgba (fr_fillStyle (nth 7 (generateTexture rand) (fur_rect rand 0))) = Some [255; 127; 127; 1]%Z.
Proof.
  intros rand.
  assert (Hr : forall n, 0 <= rand n < 1)
    by (intros n; unfold rand; destruct (Nat.eqb _ _); split; unfold Qle, Qlt; simpl; lia).
  assert (Hi : (7 < 20000)%nat) by (apply Nat.ltb_lt; reflexivity).
  split; [exact Hr|split; [exact Hi|]].
  destruct (texture_squares rand 7 Hr Hi) as (g & b & a & E & _).
  rewrite E. f_equal. rewrite nth_generateTexture in E by exact Hi. vm_compute in E. congruence.
Defined.

End Texture.
