(* ===== verification/States.v ===== *)
(** * States: LoadingState, PlayState, LoadSceneState and [initialize]

    The three state modules as [js World] programs:
    - [src/src/js/LoadingState.js]: [execute] (lines 85-100), the
      [ajaxGet] callback (92-99), [_loadAudio] (119-133), [_soundLoaded]
      (142-149) and [_soundLoadError] (158-160);
    - [src/src/js/PlayState.js]: [enter] (57-61), [execute] (69-73),
      [exit] (81-83), [_launchExperience] (91-118) and its click
      listener (102-117);
    - [src/src/js/LoadSceneState.js]: [initialize] (64-85), [execute]
      (103-108), [_initScene] (128-223), [_resourceLoadedCallback]
      (231-239), [_onWindowResize] (248-261), the pointer handlers
      (270-291), [_meshLoaded] (300-351), [_animate] (392-397) and
      [_render] (405-463, through [Frame.Render.render]).

    The instance of [StateMachine.AppState] for [StateId] dispatches
    enter, execute and exit to the three states. None of these calls
    [changeState] synchronously: only the callbacks [soundLoaded] and
    [launchClick] do, through [app_changeState]. In the JavaScript
    they reach it through the Application object handed to each
    state's [initialize]. [initialize] is [Application.initialize]
    (Application.js lines 116-145).

    The theorems of the file: the states never reassign [_state] (the
    hypotheses of StateMachine's theorems, by the frame rule [keeps]),
    the console order of [changeState] on these states, and the order
    of the [ajaxGet] callback, which requests the audio before
    [setTrackInfo] can throw. *)

From stdpp Require Import base list decidable strings.
From Stdlib Require Import ZArith QArith Reals String.
From S2P Require Import Spec2Rocq Utils Frame StateMachine World Application Links Debug.

Module States.
Import Utils Render StateMachine World Application Links Debug.

Local Open Scope string_scope.

(** ** LoadingState *)

(** [_clientParameter] and [_soundcloudTrackURL] (lines 41, 51). *)
Definition clientParameter : string := "client_id=3b2585ef4a5eff04935abe84aad5f3f3".
Definition soundcloudTrackURL : string := "https://soundcloud.com/boundarysound/boundary-abidjan".

(** [soundcloudURL] of [execute] (line 91). *)
Definition soundcloudURL : string :=
  "http://api.soundcloud.com/resolve.json?url=" ++ soundcloudTrackURL ++ "&" ++ clientParameter.

(** String concatenation with a field that may be [undefined]. *)
Definition js_string (o : option string) : string :=
  match o with Some s => s | None => "undefined" end.

(** [trackInfo.stream_url + '?' + _clientParameter] (line 95). *)
Definition streamURL (ti : TrackInfo) : string :=
  js_string (ti_stream_url ti) ++ "?" ++ clientParameter.

Definition loading_enter : js World unit := console_log (LogEnter LoadingState).
Definition loading_exit : js World unit := console_log (LogExit LoadingState).

(** [execute]: log, then [Utils.ajaxGet(soundcloudURL, callback)]. *)
Definition loading_execute : js World unit :=
  console_log (LogExecute LoadingState) ;;
  ajaxGet soundcloudURL.

(** [_loadAudio(audioURL)]: log, then an XHR for the bytes. *)
Definition loadAudio (url : string) : js World unit :=
  console_log LogLoadAudio ;;
  schedule (TAudioXhr url).

(** The [ajaxGet] callback: [JSON.parse] (a SyntaxError on a body that
    is not JSON), [_loadAudio(streamURL)], then [setTrackInfo]. *)
Definition loading_metadata (body : option TrackInfo) : js World unit :=
  match body with
  | None => throw SyntaxError
  | Some ti => loadAudio (streamURL ti) ;; setTrackInfo ti
  end.

(** [request.onload] of [_loadAudio]: [decodeAudioData] is started
    whatever the HTTP status. *)
Definition loading_audio_loaded : js World unit := schedule TDecode.

(** [_soundLoadError]: [console.log(error)]. *)
Definition soundLoadError : js World unit := console_log LogDecodeError.

(** ** PlayState *)

Definition play_enter : js World unit := console_log (LogEnter PlayState).
Definition play_exit : js World unit := console_log (LogExit PlayState).

(** [_launchExperience] up to the listener registration. *)
Definition launchExperience : js World unit :=
  zoom w_loader with_loader (removeCSSClass "loading") ;;
  zoom w_playButton with_playButton (removeCSSClass "hidden") ;;
  modify (fun w => with_launch w (w_launch_disabled w) (S (w_launch_listeners w))).

Definition play_execute : js World unit :=
  console_log (LogExecute PlayState) ;;
  launchExperience.

(** ** LoadSceneState *)

Definition scene_enter : js World unit := console_log (LogEnter LoadSceneState).
Definition scene_exit : js World unit := console_log (LogExit LoadSceneState).

(** [_render()] with the current [Date.now()]. *)
Definition render_frame : js World unit :=
  w <- get ;;
  fft <- getFFT ;;
  update_frame (render (w_has_gl w) (env_now (w_env w)) fft).

(** [_animate]: [requestAnimationFrame(_animate); _render();]. *)
Definition animate : js World unit :=
  schedule TAnimationFrame ;;
  render_frame.

(** [_resourceLoadedCallback]: [if (++_nbLoadedResources === 2) {
    _Application.playAudio(); _animate(); }]. *)
Definition resourceLoadedCallback : js World unit :=
  modify (fun w => with_nbLoaded w (S (w_nbLoaded w))) ;;
  w <- get ;;
  if decide (w_nbLoaded w = 2%nat) then playAudio ;; animate else ret tt.

(** [_meshLoaded]: the shells, then [_resourceLoadedCallback()]. *)
Definition meshLoaded_cb : js World unit :=
  w <- get ;;
  update_frame (meshLoaded (env_touch (w_env w))) ;;
  resourceLoadedCallback.

(** [_scaleRatio]: 2 on a touch device (line 83), 1 otherwise. *)
Definition scaleRatio (e : Env) : Q := if env_touch e then 2%Q else 1%Q.

Definition viewport_size (e : Env) : Q * Q :=
  (inject_Z (env_width e) / scaleRatio e, inject_Z (env_height e) / scaleRatio e).

(** The [try] block of [_initScene] (lines 181-214): the renderer, its
    size, the three listeners and [_has_gl = true]. When
    [new THREE.WebGLRenderer] throws, none of this happens and the
    [catch] block shows the notice (lines 215-222). *)
Definition createRenderer : js World unit :=
  try_catch
    (w <- get ;;
     if env_webgl (w_env w)
     then modify (fun w => with_gl w (viewport_size (w_env w)))
     else throw WebGLUnavailable)
    (fun _ => modify with_info_notice).

(** [_initScene] (lines 128-223). *)
Definition initScene : js World unit :=
  update_frame (set_camera (mk_vec3 0%R 0%R 150%R)) ;;
  schedule TColorTexture ;;
  meshLoaded_cb ;;
  createRenderer.

Definition scene_execute : js World unit :=
  console_log (LogExecute LoadSceneState) ;;
  initScene.

(** [LoadSceneState.initialize] (lines 64-85). *)
Definition scene_initialize : js World unit :=
  console_log (LogInitialize LoadSceneState) ;;
  update_frame initialize_frame.

(** [_onMouseMove] / [_onTouchMove]: [preventDefaultEvent], then the
    pointer in [-1, 1] coordinates. *)
Definition onPointerMove (cx cy : Z) : js World unit :=
  modify (fun w => with_frame w (set_mouse (pointer_to_mouse cx cy (env_width (w_env w))
                                                             (env_height (w_env w))) (w_frame w))).

(** [_onWindowResize]: [_renderer.setSize(width/_scaleRatio, height/_scaleRatio)]
    (the camera's aspect is not modelled). *)
Definition onWindowResize : js World unit :=
  modify (fun w => with_canvas_size w (viewport_size (w_env w))).

(** ** The protocol instance and [changeState] *)

#[export] Instance World_StateSlot : StateSlot World StateId := {|
  cur_state := w_state;
  set_state := fun s w => with_state w s;
  cur_set := fun s w => eq_refl
|}.

#[export] Instance World_AppState : AppState World StateId := {|
  st_enter := fun s => match s with
                       | LoadingState => loading_enter
                       | PlayState => play_enter
                       | LoadSceneState => scene_enter
                       end;
  st_execute := fun s => match s with
                         | LoadingState => loading_execute
                         | PlayState => play_execute
                         | LoadSceneState => scene_execute
                         end;
  st_exit := fun s => match s with
                      | LoadingState => loading_exit
                      | PlayState => play_exit
                      | LoadSceneState => scene_exit
                      end
|}.

(** [Application.changeState] on the page. *)
Definition app_changeState (s : option StateId) : js World unit := changeState s.

(** ** Callbacks that change the state *)

(** [_soundLoaded(buffer)]: log, install the buffer, log the states,
    then [changeState(PlayState)]. *)
Definition soundLoaded (b : AudioBuffer) : js World unit :=
  console_log LogPlaySound ;;
  setSourceNodeBuffer b ;;
  console_log LogStates ;;
  app_changeState (Some PlayState).

(** The click listener of [_launchExperience] (PlayState.js lines
    102-116). Its first call, [Utils.preventDefaultEvent(event)], acts
    on the click event only: it keeps the browser from following the
    anchor's [href] (Utils.v's [preventDefaultEvent] models it on the
    event), and the page has no navigation to model, so the listener
    starts with the [disabled] attribute. That attribute does not stop
    the listener: nothing reads it. *)
Definition launchClick : js World unit :=
  modify (fun w => with_launch w true (w_launch_listeners w)) ;;
  zoom w_playButton with_playButton (addCSSClass "hidden") ;;
  ga_send "Launch Experience" ;;
  app_changeState (Some LoadSceneState).

(** ** [Application.initialize] (Application.js lines 116-145): the
    debug mode when [#debug] is on, the audio context, the states'
    [initialize], the Google Analytics link listeners and
    [changeState(LoadingState)]. The graphic-context polyfill
    ([_initializeGraphicContext]) is modelled in Application.v and not
    threaded through the page; the [options.X || require(...)]
    defaults of lines 120-123 are Modules.v's. *)
Definition initializeStates : js World unit :=
  console_log (LogInitialize LoadingState) ;;
  console_log (LogInitialize PlayState) ;;
  scene_initialize.

Definition initialize : js World unit :=
  w <- get ;;
  when (de_on (env_debug (w_env w))) initializeDebugMode ;;
  initializeAudioContext ;;
  initializeStates ;;
  setupGoogleAnalyticsTracking ;;
  app_changeState (Some LoadingState).

(** ** Symbolic runs of the programs above

    [js_run] unfolds the programs of the page, the monad and the field
    updates, and decides the identity tests of [changeState] and the
    counter test of [_resourceLoadedCallback]. The arithmetic of a
    frame stays folded in [render] and [meshLoaded]. *)
Ltac js_decide :=
  repeat first [ rewrite decide_True by reflexivity
               | rewrite decide_False by discriminate
               | progress cbv beta iota zeta ].

Ltac js_run_once :=
  cbv beta iota zeta delta [
    launchClick soundLoaded app_changeState changeState call_on_current console_log schedule
    ga_send update_frame setSourceNodeBuffer node_set_buffer node_stop node_start playAudio
    animate render_frame getFFT resourceLoadedCallback meshLoaded_cb createRenderer initScene
    scene_execute scene_enter scene_exit play_enter play_exit play_execute launchExperience
    loading_enter loading_exit loading_execute loading_metadata loadAudio loading_audio_loaded
    soundLoadError onaudioprocess onPointerMove onWindowResize initialize initializeStates
    initializeAudioContext scene_initialize setupGoogleAnalyticsTracking update_links with_links w_links
    st_enter st_execute st_exit World_AppState cur_state set_state World_StateSlot
    bind ret get gets modify throw try_catch when
    with_state with_source with_fft with_audio_graph with_frame with_nbLoaded with_gl
    with_canvas_size with_loader with_playButton with_trackInfo with_launch with_display
    with_info_notice with_tasks with_log with_ga with_env
    w_state w_source w_fft w_audio_graph w_frame w_nbLoaded w_has_gl w_scene_listeners
    w_canvas_size w_loader w_playButton w_trackInfo w_launch_disabled w_launch_listeners
    w_display w_info_notice w_tasks w_log w_ga w_env
    sn_buffer sn_started sn_stopped env_touch env_webgl env_webaudio env_width env_height env_now
    zoom removeCSSClass addCSSClass classList_remove classList_add el_has_classList el_className
    with_className ajaxGet xhr_send World_XhrHost ajaxGet_onreadystatechange
    fst snd];
  js_decide.

(** The class helpers check their literal class names by computation. *)
Ltac js_run := classList_cases; js_run_once; repeat (rewrite validate_token_ok by reflexivity; js_run_once).

(** ** Concrete inputs for the examples below *)

(** The page right after [main.js]: LoadingState is the current state. *)
Definition demo_loading_world : World :=
  with_state (page_loaded (mk_env false true true true no_debug 1280 800 0)) (Some LoadingState).

(** A SoundCloud answer without its [user] object. *)
Definition demo_userless_info : TrackInfo :=
  mk_track_info (Some "Abidjan") None (Some abidjan_permalink) (Some "https://api.soundcloud.com/s") None.

(** Unfold the programs of the states down to the monad's operations. *)
Ltac page_unfold :=
  cbv beta delta [
    scene_execute initScene meshLoaded_cb resourceLoadedCallback createRenderer animate render_frame
    getFFT playAudio node_start update_frame schedule console_log play_execute launchExperience
    loading_execute when soundLoaded launchClick ga_send loading_enter loading_exit play_enter
    play_exit scene_enter scene_exit loading_metadata loadAudio setTrackInfo setSourceNodeBuffer
    node_set_buffer node_stop loading_audio_loaded soundLoadError onaudioprocess onPointerMove
    onWindowResize].

(** The same, through [changeState] and the state instances too. *)
Ltac page_unfold_all :=
  page_unfold;
  cbv beta delta [app_changeState changeState call_on_current st_enter st_execute st_exit
                  World_AppState cur_state set_state World_StateSlot].

(** ** Theorems *)

Lemma initScene_keeps_state : keeps w_state initScene.
Proof. page_unfold. keeps_solve. Qed.

Lemma initScene_keeps_log : keeps w_log initScene.
Proof. page_unfold. keeps_solve. Qed.

Lemma launchExperience_keeps_state : keeps w_state launchExperience.
Proof. page_unfold. keeps_solve. Qed.

Lemma launchExperience_keeps_log : keeps w_log launchExperience.
Proof. page_unfold. keeps_solve. Qed.

(** The states of the program do not reassign [_state] themselves:
    the hypotheses of [changeState_refines] and [changeState_sets]. *)
Lemma World_enter_keeps : keeps_state (W:=World) (St:=StateId) st_enter.
Proof. intros [] w; reflexivity. Qed.

Lemma World_execute_keeps : keeps_state (W:=World) (St:=StateId) st_execute.
Proof.
  intros [] w; [reflexivity| |].
  - exact (launchExperience_keeps_state (with_log w (w_log w ++ [LogExecute PlayState])%list)).
  - exact (initScene_keeps_state (with_log w (w_log w ++ [LogExecute LoadSceneState])%list)).
Qed.

(** The frame rule for [changeState] on the page: a field that the
    assignment of [_state], every exit, and the new state's enter and
    execute leave alone is left alone. *)
Lemma keeps_app_changeState {B} (f : World -> B) (ns : option StateId) :
  (forall s w, f (with_state w s) = f w) ->
  (forall s, keeps f (st_exit s)) ->
  (forall s, ns = Some s -> keeps f (st_enter s) /\ keeps f (st_execute s)) ->
  keeps f (app_changeState ns).
Proof.
  intros Hset Hex Hen w. unfold app_changeState.
  rewrite (changeState_eq_spec World_enter_keeps). revert w.
  change (keeps f (changeState_spec ns)). unfold changeState_spec.
  apply keeps_bind; [apply keeps_gets|intros old].
  case_decide; [apply keeps_ret|].
  apply keeps_bind; [destruct old; [apply Hex|apply keeps_ret]|intros _].
  apply keeps_bind; [apply keeps_modify; intros; apply Hset|intros _].
  destruct ns as [s|]; [|apply keeps_ret].
  destruct (Hen s eq_refl). apply keeps_bind; auto.
Qed.

(** [keeps f m] for a callback of the page: the frame rule, with
    [keeps_app_changeState] for its state change. *)
Ltac page_keeps :=
  page_unfold;
  keeps_solve_with ltac:(idtac;
    lazymatch goal with
    | |- keeps _ (app_changeState _) =>
        apply keeps_app_changeState;
        [intros; reflexivity
        |intros []; page_unfold; keeps_solve
        |intros ? [= <-]; split; page_unfold; keeps_solve]
    end).

Lemma exit_effect (s : StateId) (w : World) :
  st_exit s w = (Ok tt, with_log w (w_log w ++ [LogExit s])%list).
Proof. destruct s; reflexivity. Qed.

Lemma enter_effect (s : StateId) (w : World) :
  st_enter s w = (Ok tt, with_log w (w_log w ++ [LogEnter s])%list).
Proof. destruct s; reflexivity. Qed.

Lemma execute_log (s : StateId) (w : World) :
  w_log (snd (st_execute s w)) = (w_log w ++ [LogExecute s])%list.
Proof.
  destruct s; [reflexivity| |].
  - exact (launchExperience_keeps_log (with_log w (w_log w ++ [LogExecute PlayState])%list)).
  - exact (initScene_keeps_log (with_log w (w_log w ++ [LogExecute LoadSceneState])%list)).
Qed.

(** [changeState] on the program's own states, as the console
    shows it: leaving [s] for another state [ns] prints exactly
    "exit s", "enter ns", "execute ns", in this order, and [_state] is
    [ns] afterwards, even when [execute] throws. *)
Theorem app_changeState_log (s ns : StateId) (w : World) :
  w_state w = Some s -> s <> ns ->
  w_log (snd (app_changeState (Some ns) w)) = (w_log w ++ [LogExit s; LogEnter ns; LogExecute ns])%list /\
  w_state (snd (app_changeState (Some ns) w)) = Some ns.
Proof.
  intros Hs Hne. unfold app_changeState.
  rewrite (changeState_eq_spec World_enter_keeps).
  unfold changeState_spec, gets, bind, modify. cbn [cur_state set_state World_StateSlot].
  rewrite Hs, decide_False by congruence. rewrite exit_effect, enter_effect. cbn [fst snd].
  split.
  - rewrite execute_log. cbn. rewrite <- !app_assoc. reflexivity.
  - apply (World_execute_keeps ns).
Qed.

Lemma app_changeState_log_witness :
  w_state demo_loading_world = Some LoadingState /\ LoadingState <> PlayState /\
  w_log (snd (app_changeState (Some PlayState) demo_loading_world))
  = [LogExit LoadingState; LogEnter PlayState; LogExecute PlayState].
Proof.
  assert (Hs : w_state demo_loading_world = Some LoadingState) by reflexivity.
  assert (Hne : LoadingState <> PlayState) by discriminate.
  split; [exact Hs|split; [exact Hne|]].
  exact (proj1 (app_changeState_log LoadingState PlayState demo_loading_world Hs Hne)).
Defined.

(** The generic theorems of [StateMachine] on the program's instance. *)
Lemma changeState_same_witness :
  cur_state demo_loading_world = Some LoadingState /\
  changeState (Some LoadingState) demo_loading_world = (Ok tt, demo_loading_world).
Proof.
  assert (Hs : cur_state demo_loading_world = Some LoadingState) by reflexivity.
  split; [exact Hs|]. exact (changeState_same (Some LoadingState) demo_loading_world Hs).
Defined.

Lemma changeState_refines_witness :
  keeps_state (W:=World) (St:=StateId) st_enter /\
  changeState (Some PlayState) demo_loading_world = changeState_spec (Some PlayState) demo_loading_world.
Proof.
  split; [exact World_enter_keeps|].
  exact (changeState_refines World_enter_keeps (Some PlayState) demo_loading_world).
Defined.

Lemma changeState_sets_witness :
  keeps_state (W:=World) (St:=StateId) st_enter /\ keeps_state (W:=World) (St:=StateId) st_execute /\
  outcome (changeState (Some PlayState)) demo_loading_world = Ok tt /\
  cur_state (exec (changeState (Some PlayState)) demo_loading_world) = Some PlayState.
Proof.
  assert (Hok : outcome (changeState (Some PlayState)) demo_loading_world = Ok tt) by reflexivity.
  split; [exact World_enter_keeps|split; [exact World_execute_keeps|split; [exact Hok|]]].
  exact (changeState_sets (Some PlayState) demo_loading_world World_enter_keeps World_execute_keeps Hok).
Defined.

(** (C36) The order of the [ajaxGet] callback: [_loadAudio] runs before
    [setTrackInfo]. When the metadata has no [user] object,
    [setTrackInfo] throws a TypeError out of the callback, but the audio
    request is already on its way and the track panel keeps its old
    text. *)
Theorem loading_metadata_no_user (ti : TrackInfo) (w : World) :
  ti_user ti = None ->
  fst (loading_metadata (Some ti) w) = Throw TypeError /\
  w_tasks (snd (loading_metadata (Some ti) w)) = (w_tasks w ++ [TAudioXhr (streamURL ti)])%list /\
  w_display (snd (loading_metadata (Some ti) w)) = w_display w.
Proof.
  intros Hu. unfold loading_metadata, loadAudio, setTrackInfo, console_log, schedule, bind, modify.
  cbn. rewrite Hu. auto.
Qed.

Lemma loading_metadata_no_user_witness :
  ti_user demo_userless_info = None /\
  fst (loading_metadata (Some demo_userless_info) demo_loading_world) = Throw TypeError.
Proof.
  assert (Hu : ti_user demo_userless_info = None) by reflexivity.
  split; [exact Hu|]. exact (proj1 (loading_metadata_no_user _ demo_loading_world Hu)).
Defined.

End States.
