(* ===== verification/App.v ===== *)
(** * App: the page's event loop

    The browser runs one callback at a time. Each one is an [Event] of
    this file; [handle now ev w] is the page after the callback ran,
    with [Date.now() = now]. A completion event of a pending request
    (XHR, decode, texture load, animation frame) is possible only while
    that request is pending; it is [None] otherwise. A click on a
    tracked link ([EvLinkClick]) is dispatched by [Links.click]. An exception that
    escapes a callback is reported by the browser ([LogUncaught]) and
    leaves the mutations made before it. [main.js] is [boot]: it runs
    [Application.initialize()] on the page index.html builds.

    [reachable] is the set of pages some sequence of events produces
    from [boot] on a page without [#debug]. On such a page the debug
    objects stay as index.html has them ([quiet]), so the events of the
    debug mode ([debug_event]) never happen. The invariant [inv] of reachable pages and the
    refinement of the spec's three-state machine are proved by
    induction on it. *)

From stdpp Require Import base list decidable strings.
From Stdlib Require Import ZArith QArith Lia.
From S2P Require Import Spec2Rocq Utils Frame StateMachine World Application Links Debug States.

Module App.
Import Utils Render StateMachine World Application Links Debug States.
Local Open Scope nat_scope.

(** ** Events *)

Inductive Event :=
| EvMetaXhr (readyState status : Z) (body : option TrackInfo)
    (** [onreadystatechange] of the metadata request; [body] is the
        parsed JSON, [None] when [JSON.parse] fails *)
| EvAudioXhrLoad          (** [onload] of the audio request *)
| EvDecodeOk (b : AudioBuffer)
| EvDecodeErr
| EvClickLaunch           (** a click event on #launchExperience: the browser runs its
                              listeners whether or not #playButton is shown and whatever
                              its [disabled] attribute says; a user can point at it only
                              while it is shown *)
| EvTextureLoaded         (** the color texture's [onLoad] *)
| EvAnimationFrame        (** the browser calls the requested frame *)
| EvAudioProcess (values : list Z)
    (** [onaudioprocess], with the analyser's byte values *)
| EvMouseMove (cx cy : Z)
| EvTouchMove (cx cy : Z)
| EvResize (width height : Z)
| EvLinkClick (l : Link) (has_preventDefault : bool)
    (** a click on a link; whether the event object has [preventDefault] *)
| EvScript (i : nat) (sev : ScriptEvent)
    (** [readystatechange] or [load] on the [i]-th script of the debug mode *)
| EvStatsFrame            (** the frame requested by the stats.js loop *)
| EvGuiPlaySound          (** a click on the dat.GUI button "Play Sound" *)
| EvGuiTrim (start : bool) (value : Z).
    (** the trimStart (or trimEnd) slider moved to [value] *)

(** The events of the debug mode's objects. *)
Definition debug_event (ev : Event) : bool :=
  match ev with EvScript _ _ | EvStatsFrame | EvGuiPlaySound | EvGuiTrim _ _ => true | _ => false end.

(** ** Running a callback *)

Definition run_callback (m : js World unit) (w : World) : World :=
  match m w with
  | (Ok _, w') => w'
  | (Throw e, w') => with_log w' (w_log w' ++ [LogUncaught e])
  end.

(** The first pending task satisfying [p], removed from the queue. *)
Fixpoint take_task (p : Task -> bool) (ts : list Task) : option (list Task) :=
  match ts with
  | [] => None
  | t :: ts' => if p t then Some ts' else (fun r => t :: r) <$> take_task p ts'
  end.

Definition is_meta (t : Task) : bool := match t with TMetaXhr _ => true | _ => false end.
Definition is_audio (t : Task) : bool := match t with TAudioXhr _ => true | _ => false end.
Definition is_decode (t : Task) : bool := match t with TDecode => true | _ => false end.
Definition is_texture (t : Task) : bool := match t with TColorTexture => true | _ => false end.
Definition is_frame (t : Task) : bool := match t with TAnimationFrame => true | _ => false end.

Definition set_clock (now : Z) (w : World) : World :=
  let e := w_env w in
  with_env w (mk_env (env_touch e) (env_webgl e) (env_webaudio e) (env_classList e) (env_debug e) (env_width e) (env_height e) now).

Definition set_viewport (width height : Z) (w : World) : World :=
  let e := w_env w in
  with_env w (mk_env (env_touch e) (env_webgl e) (env_webaudio e) (env_classList e) (env_debug e) width height (env_now e)).

(** Complete a pending request and run its callback. *)
Definition complete (p : Task -> bool) (cb : js World unit) (w : World) : option World :=
  rest ← take_task p (w_tasks w);
  Some (run_callback cb (with_tasks w rest)).

(** ** One callback of the page *)
Definition handle (now : Z) (ev : Event) (w0 : World) : option World :=
  let w := set_clock now w0 in
  match ev with
  | EvMetaXhr rs st body =>
      rest ← take_task is_meta (w_tasks w);
      if (rs =? 4)%Z then
        let w1 := with_tasks w rest in
        Some (run_callback (ajaxGet_onreadystatechange (Some loading_metadata) rs st body) w1)
      else Some w
  | EvAudioXhrLoad => complete is_audio loading_audio_loaded w
  | EvDecodeOk b => complete is_decode (soundLoaded b) w
  | EvDecodeErr => complete is_decode soundLoadError w
  | EvClickLaunch => Some (Nat.iter (w_launch_listeners w) (run_callback launchClick) w)
  | EvTextureLoaded => complete is_texture resourceLoadedCallback w
  | EvAnimationFrame => complete is_frame animate w
  | EvAudioProcess vals =>
      Some (if processor_installed w then run_callback (onaudioprocess vals) w else w)
  | EvMouseMove cx cy | EvTouchMove cx cy =>
      Some (if w_scene_listeners w then run_callback (onPointerMove cx cy) w else w)
  | EvResize width height =>
      let w1 := set_viewport width height w in
      Some (if w_scene_listeners w1 then run_callback onWindowResize w1 else w1)
  | EvLinkClick l pd => Some (click l pd w)
  | EvScript i sev =>
      if script_event_possible i sev (w_debug w) then Some (run_callback (fire_script i sev) w) else None
  | EvStatsFrame =>
      if (0 <? dbg_stats_frames (w_debug w))%nat
      then Some (run_callback stats_loop (with_debug w (take_stats_frame (w_debug w))))
      else None
  | EvGuiPlaySound =>
      if bool_decide (is_Some (dbg_gui (w_debug w))) then Some (run_callback gui_playSound w) else None
  | EvGuiTrim start v =>
      if bool_decide (is_Some (dbg_gui (w_debug w))) && (0 <=? v)%Z && (v <=? 512)%Z
      then Some (run_callback (gui_trim start v) w) else None
  end.

(** ** [main.js] and the reachable pages *)

Definition boot (env : Env) : World := run_callback initialize (page_loaded env).

Inductive reachable : World -> Prop :=
| reach_boot env : de_on (env_debug env) = false -> reachable (boot env)
| reach_step w now ev w' : reachable w -> handle now ev w = Some w' -> reachable w'.

(** A sequence of timed events. *)
Fixpoint run_events (evs : list (Z * Event)) (w : World) : option World :=
  match evs with
  | [] => Some w
  | (now, ev) :: evs' => w' ← handle now ev w; run_events evs' w'
  end.

(** ** The discrete summary of a page

    The invariants speak about these fields only; every callback's
    effect on them is one equation below. *)
Record Summary := mk_summary {
  su_state : option StateId;
  su_nb : nat;
  su_source : SourceNode;
  su_listeners : nat;
  su_tasks : list Task;
  su_meshes : nat;
  su_graph : bool;
  su_touch : bool
}.

Definition summary (w : World) : Summary :=
  mk_summary (w_state w) (w_nbLoaded w) (w_source w) (w_launch_listeners w) (w_tasks w)
             (length (fs_meshes (w_frame w))) (w_audio_graph w) (env_touch (w_env w)).

Definition su_with_tasks (s : Summary) (ts : list Task) : Summary :=
  mk_summary (su_state s) (su_nb s) (su_source s) (su_listeners s) ts (su_meshes s)
             (su_graph s) (su_touch s).

(** ** The graphics part of a page

    [_has_gl], the three scene listeners, the WebGL notice and the
    number of draws, with the browser's WebGL support. *)
Record Gfx := mk_gfx {
  gx_webgl : bool;
  gx_gl : bool;
  gx_listen : bool;
  gx_notice : bool;
  gx_draws : nat
}.

Definition gfx (w : World) : Gfx :=
  mk_gfx (env_webgl (w_env w)) (w_has_gl w) (w_scene_listeners w) (w_info_notice w)
         (fs_draws (w_frame w)).

(** The effect of [_initScene]'s [try]/[catch] on it. *)
Definition gfx_renderer (g : Gfx) : Gfx :=
  if gx_webgl g then mk_gfx true true true (gx_notice g) (gx_draws g)
  else mk_gfx false (gx_gl g) (gx_listen g) true (gx_draws g).

(** The effect of one [_render()]: a draw when [_has_gl]. *)
Definition gfx_frame (g : Gfx) : Gfx :=
  mk_gfx (gx_webgl g) (gx_gl g) (gx_listen g) (gx_notice g)
         (if gx_gl g then S (gx_draws g) else gx_draws g).

(** Before the scene, nothing of the renderer exists; in the scene, the
    renderer and its listeners exist exactly when WebGL works, the
    notice shows otherwise, and nothing is drawn without WebGL. *)
Definition gfx_inv (st : option StateId) (g : Gfx) : Prop :=
  match st with
  | Some LoadSceneState =>
      gx_gl g = gx_webgl g /\ gx_listen g = gx_webgl g /\ gx_notice g = negb (gx_webgl g) /\
      (gx_webgl g = false -> gx_draws g = 0)
  | _ => gx_gl g = false /\ gx_listen g = false /\ gx_notice g = false /\ gx_draws g = 0
  end.

(** ** The console

    The exceptions a page may report as uncaught: the TypeError of
    [new AudioContext()] when Web Audio is missing (a fatal startup
    fault, spec section 7), and the SyntaxError or TypeError of the
    metadata callback. *)
Definition allowed_exn (e : exn) : bool :=
  match e with TypeError | SyntaxError => true | _ => false end.

Definition ok_line (x : LogLine) : Prop :=
  match x with LogUncaught e => allowed_exn e = true | _ => True end.

Definition ok_outcome (r : res unit) : Prop :=
  match r with Ok _ => True | Throw e => allowed_exn e = true end.

Definition log_ok (w : World) : Prop := Forall ok_line (w_log w).

(** ** The invariant of reachable pages *)

Definition loading_task (t : Task) : bool := is_meta t || is_audio t || is_decode t.

(** Per state: the pending callbacks, the resource counter of the
    barrier, the source node, the launch listeners and the shells. *)
Definition inv_su (s : Summary) : Prop :=
  match su_state s with
  | None =>
      su_graph s = false /\ su_nb s = 0 /\ su_tasks s = [] /\ su_listeners s = 0 /\
      su_meshes s = 0 /\ sn_started (su_source s) = false
  | Some LoadingState =>
      su_graph s = true /\ su_nb s = 0 /\ sn_buffer (su_source s) = None /\
      sn_started (su_source s) = false /\ su_listeners s = 0 /\ su_meshes s = 0 /\
      Forall (fun t => loading_task t = true) (su_tasks s) /\ length (su_tasks s) <= 1
  | Some PlayState =>
      su_graph s = true /\ su_nb s = 0 /\ is_Some (sn_buffer (su_source s)) /\
      sn_started (su_source s) = false /\ su_listeners s = 1 /\ su_meshes s = 0 /\
      su_tasks s = []
  | Some LoadSceneState =>
      su_graph s = true /\ is_Some (sn_buffer (su_source s)) /\ su_listeners s = 1 /\
      su_meshes s = nbShells (su_touch s) /\
      ((su_nb s = 1 /\ sn_started (su_source s) = false /\ su_tasks s = [TColorTexture]) \/
       (su_nb s = 2 /\ sn_started (su_source s) = true /\ su_tasks s = [TAnimationFrame]))
  end.

Definition inv (w : World) : Prop := inv_su (summary w).

(** How a callback may move [_state]: not at all, from LoadingState to
    PlayState on a decoded buffer, or from PlayState to LoadSceneState
    on a click. *)
Definition state_move (ev : Event) (s s' : option StateId) : Prop :=
  s' = s \/
  (s = Some LoadingState /\ s' = Some PlayState /\ exists b, ev = EvDecodeOk b) \/
  (s = Some PlayState /\ s' = Some LoadSceneState /\ ev = EvClickLaunch).

Definition inv_step (ev : Event) (w w' : World) : Prop :=
  inv_su (summary w') /\ state_move ev (w_state w) (su_state (summary w')).

(** ** The spec's machine

    Spec sections 1 and 4: Loading -> Play when the audio is decoded,
    Play -> LoadScene on the user's gesture; every other callback
    leaves the state where it is. *)
Inductive spec_step : option StateId -> Event -> option StateId -> Prop :=
| spec_stutter s ev : spec_step s ev s
| spec_decoded b : spec_step (Some LoadingState) (EvDecodeOk b) (Some PlayState)
| spec_gesture : spec_step (Some PlayState) EvClickLaunch (Some LoadSceneState).

Inductive spec_run : option StateId -> list Event -> option StateId -> Prop :=
| spec_run_nil s : spec_run s [] s
| spec_run_cons s ev s' evs s'' :
    spec_step s ev s' -> spec_run s' evs s'' -> spec_run s (ev :: evs) s''.

(** The state [initialize] enters: LoadingState, unless [new AudioContext]
    threw first. *)
Definition boot_state (env : Env) : option StateId :=
  if env_webaudio env then Some LoadingState else None.

(** ** A concrete session

    A desktop browser with WebGL and Web Audio, a 1280x800 window, and
    the SoundCloud answer for the Abidjan track (its permalink still in
    [http]). The events are those of a successful visit: metadata,
    audio bytes, decoding, the click, the color texture, one frame. *)
Definition demo_env : Env := mk_env false true true true no_debug 1280 800 0.

Definition demo_track : TrackInfo :=
  mk_track_info (Some "Abidjan (original)"%string) (Some "https://i1.sndcdn.com/abidjan.jpg"%string)
    (Some "http://soundcloud.com/boundarysound/boundary-abidjan"%string)
    (Some "https://api.soundcloud.com/tracks/1/stream"%string)
    (Some (mk_user (Some "http://soundcloud.com/boundarysound"%string))).

Definition demo_loading_events : list (Z * Event) :=
  [(10, EvMetaXhr 4 200 (Some demo_track)); (20, EvAudioXhrLoad)]%Z.

(** The page a run of the demo ends on. *)
Definition demo_result (o : option World) : World :=
  match o with Some w => w | None => page_loaded demo_env end.

(** The page once the audio bytes arrived: the decoding is pending. *)
Definition demo_loading_page : World := demo_result (run_events demo_loading_events (boot demo_env)).

Definition demo_events : list (Z * Event) :=
  demo_loading_events ++
  [(30, EvDecodeOk 7%nat); (40, EvClickLaunch); (50, EvTextureLoaded); (66, EvAnimationFrame)]%Z.

(** The page after the successful visit: the scene is animated. *)
Definition demo_page : World := demo_result (run_events demo_events (boot demo_env)).

(** The same visit in a browser without WebGL. *)
Definition demo_env_nogl : Env := mk_env false false true true no_debug 1280 800 0.
Definition demo_nogl_page : World := demo_result (run_events demo_events (boot demo_env_nogl)).

(** The same visit when decoding fails, or when SoundCloud answers 404,
    followed by events that do not need a pending request. *)
Definition demo_decode_failed : World := demo_result (handle 30 EvDecodeErr demo_loading_page).
Definition demo_meta_failed : World := demo_result (handle 10 (EvMetaXhr 4 404 None) (boot demo_env)).
Definition demo_env_noaudio : Env := mk_env false true false true no_debug 1280 800 0.
Definition demo_idle_events : list (Z * Event) :=
  [(40, EvClickLaunch); (50, EvMouseMove 3 4); (60, EvResize 800 600)]%Z.

(** ** Effects of the callbacks on the summary *)

(** Run a callback symbolically and read its summary. *)
Ltac summary_run :=
  classList_cases; unfold summary; js_run; cbn [fs_meshes meshLoaded set_camera];
  rewrite ?length_app, ?length_map, ?length_seq, ?render_meshes_length.

Lemma summary_run_callback (m : js World unit) (w : World) :
  summary (run_callback m w) = summary (snd (m w)).
Proof. unfold run_callback. destruct (m w) as [[] w']; reflexivity. Qed.

Lemma summary_set_clock (now : Z) (w : World) : summary (set_clock now w) = summary w.
Proof. reflexivity. Qed.

Lemma summary_set_viewport (x y : Z) (w : World) : summary (set_viewport x y w) = summary w.
Proof. reflexivity. Qed.

Lemma summary_with_tasks (w : World) (ts : list Task) :
  summary (with_tasks w ts) = su_with_tasks (summary w) ts.
Proof. reflexivity. Qed.

Lemma summary_loading_metadata (body : option TrackInfo) (w : World) :
  summary (snd (loading_metadata body w))
  = su_with_tasks (summary w)
      (w_tasks w ++ match body with Some ti => [TAudioXhr (streamURL ti)] | None => [] end).
Proof.
  destruct body as [ti|]; [|simpl; rewrite app_nil_r; reflexivity].
  unfold loading_metadata, setTrackInfo.
  destruct (ti_user ti) as [u|], (ti_permalink_url ti); reflexivity.
Qed.

Lemma summary_audio_loaded (w : World) :
  summary (snd (loading_audio_loaded w)) = su_with_tasks (summary w) (w_tasks w ++ [TDecode]).
Proof. reflexivity. Qed.

Lemma summary_soundLoadError (w : World) : summary (snd (soundLoadError w)) = summary w.
Proof. reflexivity. Qed.

Lemma summary_onaudioprocess (vals : list Z) (w : World) :
  summary (snd (onaudioprocess vals w)) = summary w.
Proof. exact (keeps_onaudioprocess summary vals (fun _ _ => eq_refl) (fun _ _ => eq_refl) w). Qed.

Lemma summary_onPointerMove (cx cy : Z) (w : World) :
  summary (snd (onPointerMove cx cy w)) = summary w.
Proof. reflexivity. Qed.

Lemma summary_onWindowResize (w : World) : summary (snd (onWindowResize w)) = summary w.
Proof. reflexivity. Qed.

Lemma soundLoaded_effect (b : AudioBuffer) (w : World) :
  w_state w = Some LoadingState -> w_audio_graph w = true -> sn_buffer (w_source w) = None ->
  fst (soundLoaded b w) = Ok tt /\
  summary (snd (soundLoaded b w))
  = mk_summary (Some PlayState) (w_nbLoaded w)
      (mk_source (Some b) (sn_started (w_source w)) (sn_stopped (w_source w)))
      (S (w_launch_listeners w)) (w_tasks w) (length (fs_meshes (w_frame w))) true
      (env_touch (w_env w)).
Proof.
  destruct w as [st [buf started stopped] ????????????????? ]; simpl.
  intros -> -> ->. classList_cases; split; reflexivity.
Qed.

Lemma launchClick_play_effect (w : World) :
  w_state w = Some PlayState -> w_nbLoaded w = 0 ->
  fst (launchClick w) = Ok tt /\
  summary (snd (launchClick w))
  = mk_summary (Some LoadSceneState) 1 (w_source w) (w_launch_listeners w)
      (w_tasks w ++ [TColorTexture])
      (length (fs_meshes (w_frame w)) + nbShells (env_touch (w_env w))) (w_audio_graph w)
      (env_touch (w_env w)).
Proof.
  destruct w as [st src ??? nb ????????????? [? webgl ?????]]; simpl.
  intros -> ->. destruct webgl; classList_cases; summary_run; split; reflexivity.
Qed.

Lemma launchClick_scene_effect (w : World) :
  w_state w = Some LoadSceneState ->
  fst (launchClick w) = Ok tt /\ summary (snd (launchClick w)) = summary w.
Proof. destruct w as [st ???????????????????]; simpl. intros ->. classList_cases; split; reflexivity. Qed.

Lemma resourceLoaded_second_effect (w : World) :
  w_nbLoaded w = 1 -> w_audio_graph w = true -> sn_started (w_source w) = false ->
  fst (resourceLoadedCallback w) = Ok tt /\
  summary (snd (resourceLoadedCallback w))
  = mk_summary (w_state w) 2
      (mk_source (sn_buffer (w_source w)) true (sn_stopped (w_source w)))
      (w_launch_listeners w) (w_tasks w ++ [TAnimationFrame])
      (length (fs_meshes (w_frame w))) true (env_touch (w_env w)).
Proof.
  destruct w as [st [buf started stopped] ?? fr nb ??????????????]; simpl.
  intros -> -> ->. summary_run; split; reflexivity.
Qed.

Lemma animate_effect (w : World) :
  fst (animate w) = Ok tt /\
  summary (snd (animate w)) = su_with_tasks (summary w) (w_tasks w ++ [TAnimationFrame]).
Proof.
  destruct w. summary_run; split; reflexivity.
Qed.

Lemma boot_effect (env : Env) :
  de_on (env_debug env) = false ->
  summary (boot env)
  = if env_webaudio env
    then mk_summary (Some LoadingState) 0 (mk_source None false false) 0
           [TMetaXhr soundcloudURL] 0 true (env_touch env)
    else mk_summary None 0 (mk_source None false false) 0 [] 0 false (env_touch env).
Proof. destruct env as [? ? [] ? [[] ? ? ?] ? ? ?]; cbn; intros; [discriminate|reflexivity|discriminate|reflexivity]. Qed.

Lemma take_task_nil (p : Task -> bool) : take_task p [] = None.
Proof. reflexivity. Qed.

Lemma take_task_one (p : Task -> bool) (t : Task) :
  take_task p [t] = if p t then Some [] else None.
Proof. simpl. destruct (p t); reflexivity. Qed.

(** A world whose summary is [s] with a shorter task list. *)
Lemma summary_complete (w : World) (now : Z) (rest : list Task) :
  summary (with_tasks (set_clock now w) rest) = su_with_tasks (summary w) rest.
Proof. reflexivity. Qed.

Lemma boot_inv (env : Env) : de_on (env_debug env) = false -> inv (boot env).
Proof.
  intros Hd. unfold inv. rewrite (boot_effect env Hd).
  destruct (env_webaudio env); cbn; repeat split; auto.
Qed.

Lemma inv_tasks_le1 (w : World) : inv w -> length (w_tasks w) <= 1.
Proof.
  unfold inv, inv_su, summary; cbn.
  destruct (w_state w) as [[]|]; intros H; destruct_and? H;
    repeat match goal with
           | H : w_tasks w = _ |- _ => rewrite H
           | H : _ \/ _ |- _ => destruct H as [H|H]; destruct_and? H
           end; cbn; lia.
Qed.

Lemma take_task_single (p : Task -> bool) (ts rest : list Task) :
  length ts <= 1 -> take_task p ts = Some rest -> exists t, ts = [t] /\ p t = true /\ rest = [].
Proof.
  destruct ts as [|t [|t' ts]]; cbn; intros Hl Ht; try discriminate; [|lia].
  destruct (p t) eqn:E; [|discriminate]. injection Ht as <-. eauto.
Qed.

(** Completing the one pending request of a page of the invariant. *)
Lemma complete_inv (p : Task -> bool) (cb : js World unit) (w : World) (now : Z) (w' : World) :
  inv w -> complete p cb (set_clock now w) = Some w' ->
  exists t, w_tasks w = [t] /\ p t = true /\
            summary w' = summary (snd (cb (with_tasks (set_clock now w) []))).
Proof.
  intros Hinv Hc. unfold complete in Hc.
  destruct (take_task p (w_tasks (set_clock now w))) as [rest|] eqn:Ht; [|discriminate].
  injection Hc as <-.
  destruct (take_task_single p _ _ (inv_tasks_le1 w Hinv) Ht) as (t & Hts & Hp & ->).
  exists t. split; [exact Hts|split; [exact Hp|apply summary_run_callback]].
Qed.

(** Which state a pending task belongs to. *)
Lemma inv_loading_task (w : World) (t : Task) :
  inv w -> w_tasks w = [t] -> loading_task t = true ->
  w_state w = Some LoadingState /\ w_audio_graph w = true /\ sn_buffer (w_source w) = None /\
  sn_started (w_source w) = false /\ w_launch_listeners w = 0 /\ w_nbLoaded w = 0 /\
  length (fs_meshes (w_frame w)) = 0.
Proof.
  unfold inv, inv_su, summary; cbn. intros H Hts Ht. rewrite Hts in H.
  destruct (w_state w) as [[]|]; destruct_and? H;
    repeat match goal with
           | H : _ \/ _ |- _ => destruct H as [H|H]; destruct_and? H
           | H : [_] = [_] |- _ => injection H as ->
           end; try discriminate; try congruence;
    repeat split; auto.
Qed.

Lemma inv_scene_task (w : World) (t : Task) :
  inv w -> w_tasks w = [t] -> loading_task t = false ->
  w_state w = Some LoadSceneState /\ w_audio_graph w = true /\ is_Some (sn_buffer (w_source w)) /\
  w_launch_listeners w = 1 /\ length (fs_meshes (w_frame w)) = nbShells (env_touch (w_env w)) /\
  ((w_nbLoaded w = 1 /\ sn_started (w_source w) = false /\ t = TColorTexture) \/
   (w_nbLoaded w = 2 /\ sn_started (w_source w) = true /\ t = TAnimationFrame)).
Proof.
  unfold inv, inv_su, summary; cbn. intros H Hts Ht. rewrite Hts in H.
  destruct (w_state w) as [[]|]; destruct_and? H; try discriminate;
    repeat match goal with
           | H : Forall _ [_] |- _ => inversion H; subst; clear H
           end; try congruence.
  destruct H4 as [(? & ? & Heq)|(? & ? & Heq)]; injection Heq as ->;
    repeat split; auto.
Qed.

(** Close an [inv_su] goal on an explicit summary. *)
Ltac inv_close :=
  unfold inv, inv_su; cbn;
  repeat match goal with H : w_state _ = _ |- _ => rewrite H end; cbn;
  repeat match goal with
         | |- _ /\ _ => split
         | |- Forall _ [] => constructor
         | |- Forall _ [_] => repeat constructor
         end;
  eauto; try lia.

(** Close an [inv_step] goal: the invariant, then the move of [_state]. *)
Ltac step_close :=
  split; [inv_close|];
  unfold state_move; cbn;
  repeat match goal with H : w_state _ = _ |- _ => rewrite H end;
  first [left; reflexivity | right; left; naive_solver | right; right; naive_solver].

(** ** Fields that only [onaudioprocess] writes

    A field of the page that [main.js]'s clock, the task queue and the
    console leave alone, and that every callback but [onaudioprocess]
    keeps, is the same after every other event. *)
Section HandleKeeps.
Context {B : Type} (f : World -> B).
Hypothesis Hclock : forall now w, f (set_clock now w) = f w.
Hypothesis Hview : forall wd ht w, f (set_viewport wd ht w) = f w.
Hypothesis Htasks : forall w ts, f (with_tasks w ts) = f w.
Hypothesis Hlog : forall w l, f (with_log w l) = f w.
Hypothesis Hga : forall w g, f (with_ga w g) = f w.
Hypothesis Hlinks : forall w l, f (with_links w l) = f w.
Hypothesis Hmeta : forall body, keeps f (loading_metadata body).
Hypothesis Haudio : keeps f loading_audio_loaded.
Hypothesis Hdecode : forall b, keeps f (soundLoaded b).
Hypothesis Herror : keeps f soundLoadError.
Hypothesis Hclick : keeps f launchClick.
Hypothesis Hresource : keeps f resourceLoadedCallback.
Hypothesis Hanimate : keeps f animate.
Hypothesis Hpointer : forall x y, keeps f (onPointerMove x y).
Hypothesis Hresize : keeps f onWindowResize.

Lemma run_callback_keeps (m : js World unit) (w : World) : keeps f m -> f (run_callback m w) = f w.
Proof.
  intros Hm. unfold run_callback. specialize (Hm w).
  destruct (m w) as [[] w']; simpl in *; rewrite ?Hlog; exact Hm.
Qed.

Lemma complete_keeps (p : Task -> bool) (cb : js World unit) (w w' : World) :
  keeps f cb -> complete p cb w = Some w' -> f w' = f w.
Proof.
  intros Hk Hc. unfold complete in Hc. destruct (take_task p (w_tasks w)); [|discriminate].
  injection Hc as <-. rewrite run_callback_keeps, Htasks by exact Hk. reflexivity.
Qed.

Lemma handle_keeps_core (now : Z) (ev : Event) (w w' : World) :
  handle now ev w = Some w' -> (forall vals, ev <> EvAudioProcess vals) -> debug_event ev = false ->
  f w' = f w.
Proof.
  intros Hh Hev Hdbg. rewrite <- (Hclock now w).
  destruct ev; cbn in Hdbg; try discriminate Hdbg; unfold handle in Hh; cbv beta iota zeta in Hh;
    try (eapply complete_keeps; [|exact Hh]; auto; fail).
  - destruct (take_task is_meta _); [|discriminate]. cbn in Hh.
    destruct (readyState =? 4)%Z; injection Hh as <-; [|reflexivity].
    rewrite run_callback_keeps, Htasks; [reflexivity|].
    unfold ajaxGet_onreadystatechange. destruct (status =? 200)%Z; cbn [andb]; auto using keeps_ret.
  - injection Hh as <-. generalize (set_clock now w). intros w0.
    induction (w_launch_listeners w) as [|n IH]; [reflexivity|].
    rewrite Nat.iter_succ, run_callback_keeps by exact Hclick. exact IH.
  - exfalso. exact (Hev values eq_refl).
  - injection Hh as <-. destruct (w_scene_listeners _); [|reflexivity]. apply run_callback_keeps, Hpointer.
  - injection Hh as <-. destruct (w_scene_listeners _); [|reflexivity]. apply run_callback_keeps, Hpointer.
  - injection Hh as <-. destruct (w_scene_listeners _); rewrite ?run_callback_keeps; auto.
  - injection Hh as <-. apply click_keeps; assumption.
Qed.

(** The debug mode's callbacks write the debug objects, the console
    and, through "Play Sound", what [playAudio] writes. *)
Hypothesis Hdebug : forall w d, f (with_debug w d) = f w.
Hypothesis Hplay : keeps f playAudio.

Lemma debug_callbacks_keeps :
  (forall i sev, keeps f (fire_script i sev)) /\ keeps f stats_loop /\
  (forall start v, keeps f (gui_trim start v)).
Proof.
  unfold fire_script, script_callback, drawStats, initializeDebugControls, stats_loop, gui_trim,
    update_debug, console_log.
  repeat split; intros; keeps_solve_with ltac:(apply keeps_modify; intros; first [apply Hdebug|apply Hlog]).
Qed.

Lemma handle_keeps_debug (now : Z) (ev : Event) (w w' : World) :
  handle now ev w = Some w' -> debug_event ev = true -> f w' = f w.
Proof.
  intros Hh Hdbg. rewrite <- (Hclock now w). destruct debug_callbacks_keeps as (Hs & Hst & Ht).
  destruct ev; cbn in Hdbg; try discriminate Hdbg; unfold handle in Hh; cbv beta iota zeta in Hh.
  - destruct (script_event_possible _ _ _); [|discriminate]. injection Hh as <-.
    apply run_callback_keeps, Hs.
  - destruct (0 <? _)%nat; [|discriminate]. injection Hh as <-.
    rewrite run_callback_keeps by exact Hst. apply Hdebug.
  - destruct (bool_decide _); [|discriminate]. injection Hh as <-. apply run_callback_keeps, Hplay.
  - destruct (_ && _); [|discriminate]. injection Hh as <-. apply run_callback_keeps, Ht.
Qed.

Lemma handle_keeps (now : Z) (ev : Event) (w w' : World) :
  handle now ev w = Some w' -> (forall vals, ev <> EvAudioProcess vals) -> f w' = f w.
Proof.
  intros Hh Hev. destruct (debug_event ev) eqn:E.
  - exact (handle_keeps_debug now ev w w' Hh E).
  - exact (handle_keeps_core now ev w w' Hh Hev E).
Qed.
End HandleKeeps.

(** ** The page without [#debug]

    With the debug mode off, nothing ever writes the debug objects, so
    the events of the debug mode never happen. *)
Definition quiet (w : World) : Prop :=
  de_on (env_debug (w_env w)) = false /\ w_debug w = debug_init.

Lemma handle_debug_quiet (now : Z) (ev : Event) (w : World) :
  w_debug w = debug_init -> debug_event ev = true -> handle now ev w = None.
Proof.
  intros Hq Hev. destruct ev; cbn in Hev; try discriminate Hev;
    unfold handle, set_clock, with_env; cbn [w_debug]; rewrite Hq; reflexivity.
Qed.

Lemma boot_quiet (env : Env) : de_on (env_debug env) = false -> quiet (boot env).
Proof.
  destruct env as [t g [] c [[] r fc gc] wd ht nw]; cbn; intros Hd; try discriminate;
    split; vm_compute; reflexivity.
Qed.

Lemma handle_quiet (now : Z) (ev : Event) (w w' : World) :
  quiet w -> handle now ev w = Some w' -> quiet w'.
Proof.
  intros [Hd Hq] Hh. destruct (debug_event ev) eqn:E.
  { rewrite handle_debug_quiet in Hh by assumption. discriminate. }
  destruct ev as [| | | | | | |vals| | | | | | | |]; cbn in E; try discriminate E.
  8: { unfold handle in Hh. injection Hh as <-.
       assert (Hr : debug_ready (set_clock now w) = true) by (unfold debug_ready; cbn; rewrite Hd; reflexivity).
       destruct (processor_installed _); [|split; assumption].
       unfold run_callback. rewrite (onaudioprocess_fft_eq vals _ Hr). cbn. rewrite Hd. split; assumption. }
  all: assert (K : (de_on (env_debug (w_env w')), w_debug w') = (de_on (env_debug (w_env w)), w_debug w))
         by (eapply (handle_keeps_core (fun w => (de_on (env_debug (w_env w)), w_debug w)));
             try exact Hh; first [exact E | intros ? [=] | intros; reflexivity | intros; page_keeps]).
  all: injection K as K1 K2; split; congruence.
Qed.

(** On a quiet page, an event of the debug mode does not happen: split
    [ev] into the other events. Needs [Hq : quiet w] and
    [Hh : handle now ev w = Some w']. *)
Ltac quiet_cases :=
  match goal with
  | Hq : quiet ?w, Hh : handle ?now ?ev ?w = Some _ |- _ =>
      let E := fresh "E" in
      destruct (debug_event ev) eqn:E;
      [rewrite handle_debug_quiet in Hh by (apply Hq || assumption); discriminate|];
      destruct ev; cbn in E; try discriminate E; clear E
  end.

Lemma reachable_quiet (w : World) : reachable w -> quiet w.
Proof. induction 1; [apply boot_quiet; assumption|eapply handle_quiet; eassumption]. Qed.


Lemma inv_passive_step (ev : Event) (w w' : World) :
  inv w -> summary w' = summary w -> inv_step ev w w'.
Proof. unfold inv_step. intros H ->. split; [exact H|left; reflexivity]. Qed.

(** The metadata request's [onreadystatechange]. *)
Lemma handle_meta_step (now rs st : Z) (body : option TrackInfo) (w w' : World) :
  inv w -> handle now (EvMetaXhr rs st body) w = Some w' -> inv_step (EvMetaXhr rs st body) w w'.
Proof.
  intros Hinv Hh. unfold handle in Hh.
  destruct (take_task is_meta (w_tasks (set_clock now w))) as [rest|] eqn:Ht; [|discriminate].
  destruct (take_task_single _ _ _ (inv_tasks_le1 w Hinv) Ht) as (t & Hts & Hp & ->).
  assert (Hl : loading_task t = true) by (unfold loading_task; rewrite Hp; reflexivity).
  destruct (inv_loading_task w t Hinv Hts Hl) as (Hs & Hg & Hb & Hst & Hli & Hnb & Hm).
  cbn in Hh. destruct (rs =? 4)%Z; injection Hh as <-;
    [|apply inv_passive_step; [exact Hinv|reflexivity]].
  unfold inv_step, ajaxGet_onreadystatechange. destruct (st =? 200)%Z; cbn [andb].
  - rewrite summary_run_callback, summary_loading_metadata.
    destruct body; unfold summary; step_close.
  - rewrite summary_run_callback. unfold summary; step_close.
Qed.

(** The completion callbacks. *)
Lemma handle_complete_step (now : Z) (ev : Event) (w w' : World) :
  inv w -> handle now ev w = Some w' ->
  ev = EvAudioXhrLoad \/ (exists b, ev = EvDecodeOk b) \/ ev = EvDecodeErr \/
  ev = EvTextureLoaded \/ ev = EvAnimationFrame ->
  inv_step ev w w'.
Proof.
  intros Hinv Hh Hev.
  destruct Hev as [ -> | [[b ->] | [ -> | [ -> | -> ]]]]; unfold handle in Hh;
    destruct (complete_inv _ _ w now w' Hinv Hh) as (t & Hts & Hp & Hsum);
    unfold inv_step; rewrite Hsum.
  - assert (Hl : loading_task t = true) by (unfold loading_task; rewrite Hp, orb_true_r; reflexivity).
    destruct (inv_loading_task w t Hinv Hts Hl) as (Hs & ? & ? & ? & ? & ? & ?).
    rewrite summary_audio_loaded. unfold summary. step_close.
  - assert (Hl : loading_task t = true) by (unfold loading_task; rewrite Hp, !orb_true_r; reflexivity).
    destruct (inv_loading_task w t Hinv Hts Hl) as (Hs & Hg & Hb & ? & ? & ? & ?).
    destruct (soundLoaded_effect b (with_tasks (set_clock now w) [])) as [_ ->]; [exact Hs|exact Hg|exact Hb|].
    step_close.
  - assert (Hl : loading_task t = true) by (unfold loading_task; rewrite Hp, !orb_true_r; reflexivity).
    destruct (inv_loading_task w t Hinv Hts Hl) as (Hs & ? & ? & ? & ? & ? & ?).
    rewrite summary_soundLoadError. unfold summary. step_close.
  - destruct t; try discriminate.
    destruct (inv_scene_task w TColorTexture Hinv Hts eq_refl)
      as (Hs & Hg & Hb & Hli & Hm & [(Hnb & Hst & _)|(_ & _ & ?)]); [|discriminate].
    destruct (resourceLoaded_second_effect (with_tasks (set_clock now w) []))
      as [_ ->]; [exact Hnb|exact Hg|exact Hst|].
    step_close.
  - destruct t; try discriminate.
    destruct (inv_scene_task w TAnimationFrame Hinv Hts eq_refl)
      as (Hs & Hg & Hb & Hli & Hm & [(_ & _ & ?)|(Hnb & Hst & _)]); [discriminate|].
    destruct (animate_effect (with_tasks (set_clock now w) [])) as [_ ->].
    unfold summary. step_close.
Qed.

(** A click on #launchExperience runs each registered listener. *)
Lemma handle_click_step (now : Z) (w w' : World) :
  inv w -> handle now EvClickLaunch w = Some w' -> inv_step EvClickLaunch w w'.
Proof.
  intros Hinv Hh. unfold handle in Hh. injection Hh as <-.
  pose proof Hinv as H. unfold inv, inv_su, summary in H; cbn in H.
  destruct (w_state w) as [[]|] eqn:Hs.
  - destruct H as (_ & _ & _ & _ & Hli & _).
    apply inv_passive_step; [exact Hinv|]. cbn. rewrite Hli. reflexivity.
  - destruct H as (Hg & Hnb & Hb & Hst & Hli & Hm & Ht).
    cbn. rewrite Hli. cbn. unfold inv_step. rewrite summary_run_callback.
    destruct (launchClick_play_effect (set_clock now w)) as [_ ->]; [exact Hs|exact Hnb|].
    cbn. rewrite Hm, Ht. step_close.
  - destruct H as (Hg & Hb & Hli & _).
    apply inv_passive_step; [exact Hinv|]. cbn. rewrite Hli. cbn.
    rewrite summary_run_callback.
    destruct (launchClick_scene_effect (set_clock now w)) as [_ ->]; [exact Hs|reflexivity].
  - destruct H as (_ & _ & _ & Hli & _).
    apply inv_passive_step; [exact Hinv|]. cbn. rewrite Hli. reflexivity.
Qed.

(** Preservation: every callback keeps the invariant and moves [_state]
    only along the spec's two transitions. *)
Lemma handle_step (now : Z) (ev : Event) (w w' : World) :
  inv w -> quiet w -> handle now ev w = Some w' -> inv_step ev w w'.
Proof.
  intros Hinv Hq Hh. quiet_cases.
  - eapply handle_meta_step; eassumption.
  - eapply handle_complete_step; eauto.
  - eapply handle_complete_step; eauto 6.
  - eapply handle_complete_step; eauto 6.
  - eapply handle_click_step; eassumption.
  - eapply handle_complete_step; eauto 6.
  - eapply handle_complete_step; eauto 7.
  - unfold handle in Hh. injection Hh as <-. apply (inv_passive_step _ w _ Hinv).
    destruct (processor_installed _); [rewrite summary_run_callback, summary_onaudioprocess|]; reflexivity.
  - unfold handle in Hh. injection Hh as <-. apply (inv_passive_step _ w _ Hinv).
    destruct (w_scene_listeners _); [rewrite summary_run_callback, summary_onPointerMove|]; reflexivity.
  - unfold handle in Hh. injection Hh as <-. apply (inv_passive_step _ w _ Hinv).
    destruct (w_scene_listeners _); [rewrite summary_run_callback, summary_onPointerMove|]; reflexivity.
  - unfold handle in Hh. injection Hh as <-. apply (inv_passive_step _ w _ Hinv).
    destruct (w_scene_listeners _); [rewrite summary_run_callback, summary_onWindowResize|]; reflexivity.
  - unfold handle in Hh. injection Hh as <-. apply (inv_passive_step _ w _ Hinv).
    rewrite click_keeps by reflexivity. apply summary_set_clock.
Qed.

Lemma reachable_inv (w : World) : reachable w -> inv w.
Proof.
  induction 1 as [env Hd|w now ev w' Hr IH Hh]; [apply boot_inv, Hd|].
  exact (proj1 (handle_step now ev w w' IH (reachable_quiet w Hr) Hh)).
Qed.

Lemma state_move_spec (ev : Event) (s s' : option StateId) :
  state_move ev s s' -> spec_step s ev s'.
Proof.
  intros [->|[(-> & -> & [b ->])|(-> & -> & ->)]]; constructor.
Qed.

Lemma handle_spec_step (now : Z) (ev : Event) (w w' : World) :
  reachable w -> handle now ev w = Some w' -> spec_step (w_state w) ev (w_state w').
Proof.
  intros Hr Hh. apply state_move_spec.
  exact (proj2 (handle_step now ev w w' (reachable_inv w Hr) (reachable_quiet w Hr) Hh)).
Qed.

Lemma run_events_spec (evs : list (Z * Event)) (w w' : World) :
  reachable w -> run_events evs w = Some w' ->
  reachable w' /\ spec_run (w_state w) (map snd evs) (w_state w').
Proof.
  revert w. induction evs as [|[now ev] evs IH]; cbn; intros w Hr Hrun.
  - injection Hrun as <-. split; [exact Hr|constructor].
  - destruct (handle now ev w) as [w1|] eqn:Hh; [|discriminate]. cbn in Hrun.
    destruct (IH w1 (reach_step w now ev w1 Hr Hh) Hrun) as [Hr' Hs].
    split; [exact Hr'|econstructor; [eapply handle_spec_step|]; eassumption].
Qed.

Lemma boot_state_eq (env : Env) : de_on (env_debug env) = false -> w_state (boot env) = boot_state env.
Proof.
  intros Hd. change (w_state (boot env)) with (su_state (summary (boot env))).
  rewrite (boot_effect env Hd). unfold boot_state. destruct (env_webaudio env); reflexivity.
Qed.

(** Read the invariant of a reachable page, state by state. *)
Ltac inv_cases H :=
  unfold inv, inv_su, summary in H; cbn in H;
  destruct (w_state _) as [[]|]; destruct_and? H;
  repeat match goal with
         | H : _ \/ _ |- _ => destruct H as [H|H]; destruct_and? H
         | H : w_tasks _ = _ |- _ => rewrite H
         end.

(** Read a field of the page a concrete run produces. *)
Lemma run_events_field {A} (f : World -> A) (evs : list (Z * Event)) (w0 w : World) (a : A) :
  run_events evs w0 = Some w -> option_map f (run_events evs w0) = Some a -> f w = a.
Proof. intros -> H. injection H as H. exact H. Qed.

Lemma run_callback_ok (m : js World unit) (w : World) :
  fst (m w) = Ok tt -> run_callback m w = snd (m w).
Proof. unfold run_callback. destruct (m w) as [[] w']; cbn; congruence. Qed.

Lemma filter_frame_loading (ts : list Task) :
  Forall (fun t => loading_task t = true) ts -> List.filter is_frame ts = [].
Proof. induction 1 as [|t ts Ht _ IH]; [reflexivity|destruct t; try discriminate; exact IH]. Qed.

(** ** The graphics invariant *)

Lemma gfx_run_callback (m : js World unit) (w : World) :
  gfx (run_callback m w) = gfx (snd (m w)).
Proof. unfold run_callback. destruct (m w) as [[] w']; reflexivity. Qed.

Lemma soundLoaded_keeps_gfx (b : AudioBuffer) : keeps gfx (soundLoaded b).
Proof. page_keeps. Qed.

Lemma loading_metadata_keeps_gfx (body : option TrackInfo) : keeps gfx (loading_metadata body).
Proof. page_keeps. Qed.

Lemma audio_loaded_keeps_gfx : keeps gfx loading_audio_loaded.
Proof. page_keeps. Qed.

Lemma soundLoadError_keeps_gfx : keeps gfx soundLoadError.
Proof. page_keeps. Qed.

Lemma passive_keeps_gfx (vals : list Z) (x y : Z) :
  keeps gfx (onaudioprocess vals) /\ keeps gfx (onPointerMove x y) /\ keeps gfx onWindowResize.
Proof. split; [apply keeps_onaudioprocess; reflexivity|split; page_keeps]. Qed.

Lemma launchClick_play_gfx (w : World) :
  w_state w = Some PlayState -> w_nbLoaded w = 0 ->
  gfx (snd (launchClick w)) = gfx_renderer (gfx w).
Proof.
  destruct w as [st src ??? nb ????????????? [? webgl ?????]]; simpl.
  intros -> ->. destruct webgl; unfold gfx, gfx_renderer; js_run; reflexivity.
Qed.

Lemma launchClick_scene_gfx (w : World) :
  w_state w = Some LoadSceneState -> gfx (snd (launchClick w)) = gfx w.
Proof. destruct w as [st ???????????????????]; simpl. intros ->. classList_cases; reflexivity. Qed.

Lemma resourceLoaded_second_gfx (w : World) :
  w_nbLoaded w = 1 -> w_audio_graph w = true -> sn_started (w_source w) = false ->
  gfx (snd (resourceLoadedCallback w)) = gfx_frame (gfx w).
Proof.
  destruct w as [st [buf started stopped] ?? fr nb ??????????????]; simpl.
  intros -> -> ->. unfold gfx, gfx_frame. js_run; reflexivity.
Qed.

Lemma animate_gfx (w : World) : gfx (snd (animate w)) = gfx_frame (gfx w).
Proof. destruct w. unfold gfx, gfx_frame. js_run; reflexivity. Qed.

(** Completing a request whose callback keeps the graphics part. *)
Lemma complete_keeps_gfx (p : Task -> bool) (cb : js World unit) (w w' : World) :
  keeps gfx cb -> complete p cb w = Some w' -> gfx w' = gfx w.
Proof.
  intros Hk Hc. unfold complete in Hc.
  destruct (take_task p (w_tasks w)); [|discriminate]. injection Hc as <-.
  rewrite gfx_run_callback. exact (Hk _).
Qed.

Lemma gfx_inv_renderer (g : Gfx) :
  gfx_inv None g -> gfx_inv (Some LoadSceneState) (gfx_renderer g).
Proof. destruct g as [[] gl li no dr]; cbn; intros (-> & -> & -> & ->); auto. Qed.

Lemma gfx_inv_frame (g : Gfx) :
  gfx_inv (Some LoadSceneState) g -> gfx_inv (Some LoadSceneState) (gfx_frame g).
Proof. destruct g as [[] gl li no dr]; cbn; intros (-> & -> & -> & H); repeat split; auto; discriminate. Qed.

(** Outside the scene, [gfx_inv] does not depend on the state. *)
Lemma gfx_inv_outside (s s' : option StateId) (g : Gfx) :
  s <> Some LoadSceneState -> s' <> Some LoadSceneState -> gfx_inv s g -> gfx_inv s' g.
Proof. destruct s as [[]|], s' as [[]|]; cbn; congruence || auto. Qed.

Lemma gfx_inv_move (ev : Event) (s s' : option StateId) (g : Gfx) :
  state_move ev s s' -> ev <> EvClickLaunch -> gfx_inv s g -> gfx_inv s' g.
Proof.
  intros [->|[(-> & -> & _)|(_ & _ & ->)]] Hev; [auto| |congruence].
  apply gfx_inv_outside; discriminate.
Qed.

(** The one pending request of a page of the invariant, completed. *)
Lemma complete_single (p : Task -> bool) (cb : js World unit) (w : World) (now : Z) (w' : World) :
  inv w -> complete p cb (set_clock now w) = Some w' ->
  exists t, w_tasks w = [t] /\ p t = true /\ w' = run_callback cb (with_tasks (set_clock now w) []).
Proof.
  intros Hinv Hc. unfold complete in Hc.
  destruct (take_task p (w_tasks (set_clock now w))) as [rest|] eqn:Ht; [|discriminate].
  injection Hc as <-.
  destruct (take_task_single p _ _ (inv_tasks_le1 w Hinv) Ht) as (t & Hts & Hp & ->). eauto.
Qed.

(** Graphics preservation: every callback keeps [gfx_inv]. *)
Lemma handle_gfx (now : Z) (ev : Event) (w w' : World) :
  inv w -> quiet w -> gfx_inv (w_state w) (gfx w) -> handle now ev w = Some w' ->
  gfx_inv (w_state w') (gfx w').
Proof.
  intros Hinv Hq Hg Hh.
  pose proof (proj2 (handle_step now ev w w' Hinv Hq Hh)) as Hmove.
  change (su_state (summary w')) with (w_state w') in Hmove.
  assert (Hkeep : gfx w' = gfx w -> ev <> EvClickLaunch -> gfx_inv (w_state w') (gfx w')).
  { intros E Hne. rewrite E. exact (gfx_inv_move ev _ _ _ Hmove Hne Hg). }
  quiet_cases; unfold handle in Hh.
  - apply Hkeep; [|discriminate].
    destruct (take_task is_meta _); [|discriminate]. cbn in Hh.
    destruct (readyState =? 4)%Z; injection Hh as <-; [|reflexivity].
    unfold ajaxGet_onreadystatechange; destruct (status =? 200)%Z; cbn [andb]; [|reflexivity].
    rewrite gfx_run_callback. exact (loading_metadata_keeps_gfx body _).
  - apply Hkeep; [exact (complete_keeps_gfx _ _ _ _ audio_loaded_keeps_gfx Hh)|discriminate].
  - apply Hkeep; [exact (complete_keeps_gfx _ _ _ _ (soundLoaded_keeps_gfx b) Hh)|discriminate].
  - apply Hkeep; [exact (complete_keeps_gfx _ _ _ _ soundLoadError_keeps_gfx Hh)|discriminate].
  - injection Hh as <-. pose proof Hinv as H. unfold inv, inv_su, summary in H; cbn in H.
    destruct (w_state w) as [[]|] eqn:Hs.
    + destruct H as (_ & _ & _ & _ & Hli & _). rewrite Hli.
      change (gfx_inv (w_state w) (gfx w)). rewrite Hs. exact Hg.
    + destruct H as (_ & Hnb & _ & _ & Hli & _). cbn. rewrite Hli. cbn.
      change (w_state ?x) with (su_state (summary x)).
      rewrite summary_run_callback, gfx_run_callback, launchClick_play_gfx by assumption.
      destruct (launchClick_play_effect (set_clock now w)) as [_ ->]; [exact Hs|exact Hnb|].
      apply gfx_inv_renderer. exact Hg.
    + destruct H as (_ & _ & Hli & _). cbn. rewrite Hli. cbn.
      change (w_state ?x) with (su_state (summary x)).
      rewrite summary_run_callback, gfx_run_callback, launchClick_scene_gfx by assumption.
      destruct (launchClick_scene_effect (set_clock now w)) as [_ ->]; [exact Hs|].
      cbn. rewrite Hs. exact Hg.
    + destruct H as (_ & _ & _ & Hli & _). rewrite Hli.
      change (gfx_inv (w_state w) (gfx w)). rewrite Hs. exact Hg.
  - destruct (complete_single _ _ w now w' Hinv Hh) as (t & Hts & Hp & ->).
    destruct t; try discriminate.
    destruct (inv_scene_task w TColorTexture Hinv Hts eq_refl)
      as (Hs & Hgr & _ & _ & _ & [(Hnb & Hst & _)|(_ & _ & ?)]); [|discriminate].
    change (w_state ?x) with (su_state (summary x)).
    rewrite summary_run_callback, gfx_run_callback, resourceLoaded_second_gfx by assumption.
    destruct (resourceLoaded_second_effect (with_tasks (set_clock now w) [])) as [_ ->];
      [exact Hnb|exact Hgr|exact Hst|].
    cbn. rewrite Hs in Hg |- *. apply gfx_inv_frame, Hg.
  - destruct (complete_single _ _ w now w' Hinv Hh) as (t & Hts & Hp & ->).
    destruct t; try discriminate.
    destruct (inv_scene_task w TAnimationFrame Hinv Hts eq_refl) as (Hs & _).
    change (w_state ?x) with (su_state (summary x)).
    rewrite summary_run_callback, gfx_run_callback, animate_gfx.
    destruct (animate_effect (with_tasks (set_clock now w) [])) as [_ ->].
    cbn. rewrite Hs in Hg |- *. apply gfx_inv_frame, Hg.
  - apply Hkeep; [|discriminate]. injection Hh as <-.
    destruct (processor_installed _); [|reflexivity].
    rewrite gfx_run_callback. exact (proj1 (passive_keeps_gfx values 0 0) _).
  - apply Hkeep; [|discriminate]. injection Hh as <-.
    destruct (w_scene_listeners _); [|reflexivity].
    rewrite gfx_run_callback. exact (proj1 (proj2 (passive_keeps_gfx [] cx cy)) _).
  - apply Hkeep; [|discriminate]. injection Hh as <-.
    destruct (w_scene_listeners _); [|reflexivity].
    rewrite gfx_run_callback. exact (proj1 (proj2 (passive_keeps_gfx [] cx cy)) _).
  - apply Hkeep; [|discriminate]. injection Hh as <-.
    destruct (w_scene_listeners _); [|reflexivity].
    rewrite gfx_run_callback. exact (proj2 (proj2 (passive_keeps_gfx [] 0 0)) _).
  - apply Hkeep; [|discriminate]. injection Hh as <-.
    rewrite click_keeps by reflexivity. reflexivity.
Qed.

Lemma reachable_gfx (w : World) : reachable w -> gfx_inv (w_state w) (gfx w).
Proof.
  induction 1 as [env Hd|w now ev w' Hr IH Hh].
  - rewrite (boot_state_eq env Hd). unfold boot_state, gfx.
    destruct (env_webaudio env) eqn:E; cbn; (repeat split);
      unfold boot, initialize; destruct env as [? ? [] ? [[] ? ? ?] ? ? ?]; cbn in Hd;
      try discriminate; reflexivity.
  - exact (handle_gfx now ev w w' (reachable_inv w Hr) (reachable_quiet w Hr) IH Hh).
Qed.

Lemma inv_nb2 (w : World) :
  inv w -> w_nbLoaded w = 2 ->
  w_state w = Some LoadSceneState /\ w_tasks w = [TAnimationFrame].
Proof.
  intros H Hnb. unfold inv, inv_su, summary in H; cbn in H.
  destruct (w_state w) as [[]|]; destruct_and? H; try lia.
  destruct H4 as [(? & _ & _)|(_ & _ & ?)]; [lia|auto].
Qed.

Lemma animate_frame (w : World) :
  w_frame (snd (animate w)) = render (w_has_gl w) (env_now (w_env w)) (w_fft w) (w_frame w) /\
  w_tasks (snd (animate w)) = w_tasks w ++ [TAnimationFrame].
Proof. destruct w; split; reflexivity. Qed.

(** ** The console invariant *)

Lemma soundLoaded_appends (b : AudioBuffer) : appends w_log ok_line (soundLoaded b).
Proof. page_unfold_all; appends_solve. Qed.

Lemma launchClick_appends : appends w_log ok_line launchClick.
Proof. page_unfold_all; appends_solve. Qed.

Lemma loading_metadata_appends (body : option TrackInfo) : appends w_log ok_line (loading_metadata body).
Proof. page_unfold_all; appends_solve. Qed.

Lemma resourceLoaded_appends : appends w_log ok_line resourceLoadedCallback.
Proof. page_unfold_all; appends_solve. Qed.

Lemma animate_appends : appends w_log ok_line animate.
Proof. page_unfold_all; appends_solve. Qed.

Lemma audio_loaded_appends : appends w_log ok_line loading_audio_loaded.
Proof. page_unfold_all; appends_solve. Qed.

Lemma soundLoadError_appends : appends w_log ok_line soundLoadError.
Proof. page_unfold_all; appends_solve. Qed.

Lemma passive_appends (vals : list Z) (x y : Z) :
  appends w_log ok_line (onaudioprocess vals) /\ appends w_log ok_line (onPointerMove x y) /\
  appends w_log ok_line onWindowResize.
Proof.
  split; [apply appends_keeps, keeps_onaudioprocess; reflexivity|].
  split; page_unfold_all; appends_solve.
Qed.

Lemma onaudioprocess_ok_outcome (vals : list Z) (w : World) : ok_outcome (fst (onaudioprocess vals w)).
Proof. destruct (onaudioprocess_outcome vals w) as [E|E]; unfold outcome in E; rewrite E; reflexivity. Qed.

(** An escaping exception is logged once, after what the callback logged. *)
Lemma run_callback_log (m : js World unit) (w : World) :
  appends w_log ok_line m -> ok_outcome (fst (m w)) -> log_ok w -> log_ok (run_callback m w).
Proof.
  intros Ha Ho Hw. unfold log_ok, run_callback in *.
  destruct (Ha w) as (l & E & F). destruct (m w) as [[u|e] w'] eqn:Em; cbn in *.
  - rewrite E. apply Forall_app. auto.
  - rewrite E. apply Forall_app. split; [apply Forall_app; auto|repeat constructor; exact Ho].
Qed.

Lemma ok_outcome_ok (r : res unit) : r = Ok tt -> ok_outcome r.
Proof. intros ->. exact I. Qed.

(** The metadata callback throws at most a SyntaxError or a TypeError. *)
Lemma loading_metadata_outcome (body : option TrackInfo) (w : World) :
  ok_outcome (fst (loading_metadata body w)).
Proof.
  destruct body as [ti|]; [|reflexivity].
  unfold loading_metadata, loadAudio, setTrackInfo, console_log, schedule, bind, modify, throw.
  cbn. destruct (ti_user ti), (ti_permalink_url ti); reflexivity.
Qed.

Lemma boot_log_ok (env : Env) : de_on (env_debug env) = false -> log_ok (boot env).
Proof.
  destruct env as [t g [] c [[] r fc gc] wd ht nw]; cbn; intros Hd; try discriminate;
    unfold log_ok; vm_compute; repeat constructor.
Qed.

(** Console preservation: every callback of a reachable page logs only
    console lines and the allowed uncaught exceptions. *)
Lemma handle_log (now : Z) (ev : Event) (w w' : World) :
  inv w -> quiet w -> log_ok w -> handle now ev w = Some w' -> log_ok w'.
Proof.
  intros Hinv Hq Hl Hh. quiet_cases.
  - unfold handle in Hh. destruct (take_task is_meta _); [|discriminate]. cbn in Hh.
    destruct (readyState =? 4)%Z; injection Hh as <-; [|exact Hl].
    unfold ajaxGet_onreadystatechange; destruct (status =? 200)%Z; cbn [andb]; [|exact Hl].
    apply (run_callback_log _ _ (loading_metadata_appends body) (loading_metadata_outcome body _)); exact Hl.
  - destruct (complete_single _ _ w now w' Hinv Hh) as (t & _ & _ & ->).
    apply (run_callback_log _ _ audio_loaded_appends I); exact Hl.
  - destruct (complete_single _ _ w now w' Hinv Hh) as (t & Hts & Hp & ->).
    assert (Hlt : loading_task t = true) by (unfold loading_task; rewrite Hp, !orb_true_r; reflexivity).
    destruct (inv_loading_task w t Hinv Hts Hlt) as (Hs & Hg & Hb & _).
    apply (run_callback_log _ _ (soundLoaded_appends b)); [apply ok_outcome_ok|exact Hl].
    exact (proj1 (soundLoaded_effect b (with_tasks (set_clock now w) []) Hs Hg Hb)).
  - destruct (complete_single _ _ w now w' Hinv Hh) as (t & _ & _ & ->).
    apply (run_callback_log _ _ soundLoadError_appends I); exact Hl.
  - unfold handle in Hh. injection Hh as <-. pose proof Hinv as H.
    unfold inv, inv_su, summary in H; cbn in H.
    destruct (w_state w) as [[]|] eqn:Hs.
    + destruct H as (_ & _ & _ & _ & Hli & _). cbn. rewrite Hli. exact Hl.
    + destruct H as (_ & Hnb & _ & _ & Hli & _). cbn. rewrite Hli.
      apply (run_callback_log _ _ launchClick_appends); [apply ok_outcome_ok|exact Hl].
      exact (proj1 (launchClick_play_effect (set_clock now w) Hs Hnb)).
    + destruct H as (_ & _ & Hli & _). cbn. rewrite Hli.
      apply (run_callback_log _ _ launchClick_appends); [apply ok_outcome_ok|exact Hl].
      exact (proj1 (launchClick_scene_effect (set_clock now w) Hs)).
    + destruct H as (_ & _ & _ & Hli & _). cbn. rewrite Hli. exact Hl.
  - destruct (complete_single _ _ w now w' Hinv Hh) as (t & Hts & Hp & ->).
    destruct t; try discriminate.
    destruct (inv_scene_task w TColorTexture Hinv Hts eq_refl)
      as (Hs & Hgr & _ & _ & _ & [(Hnb & Hst & _)|(_ & _ & ?)]); [|discriminate].
    apply (run_callback_log _ _ resourceLoaded_appends); [apply ok_outcome_ok|exact Hl].
    exact (proj1 (resourceLoaded_second_effect (with_tasks (set_clock now w) []) Hnb Hgr Hst)).
  - destruct (complete_single _ _ w now w' Hinv Hh) as (t & _ & _ & ->).
    apply (run_callback_log _ _ animate_appends (ok_outcome_ok _ (proj1 (animate_effect _)))); exact Hl.
  - unfold handle in Hh. injection Hh as <-. destruct (processor_installed _); [|exact Hl].
    apply (run_callback_log _ _ (proj1 (passive_appends values 0 0)) (onaudioprocess_ok_outcome values _)); exact Hl.
  - unfold handle in Hh. injection Hh as <-. destruct (w_scene_listeners _); [|exact Hl].
    apply (run_callback_log _ _ (proj1 (proj2 (passive_appends [] cx cy))) I); exact Hl.
  - unfold handle in Hh. injection Hh as <-. destruct (w_scene_listeners _); [|exact Hl].
    apply (run_callback_log _ _ (proj1 (proj2 (passive_appends [] cx cy))) I); exact Hl.
  - unfold handle in Hh. injection Hh as <-. destruct (w_scene_listeners _); [|exact Hl].
    apply (run_callback_log _ _ (proj2 (proj2 (passive_appends [] 0 0))) I); exact Hl.
  - unfold handle in Hh. injection Hh as <-. unfold log_ok in *.
    rewrite click_keeps by reflexivity. exact Hl.
Qed.

Lemma reachable_log (w : World) : reachable w -> log_ok w.
Proof.
  induction 1 as [env Hd|w now ev w' Hr IH Hh]; [apply boot_log_ok, Hd|].
  exact (handle_log now ev w w' (reachable_inv w Hr) (reachable_quiet w Hr) IH Hh).
Qed.


(** ** The type of [_FFT] *)

(** Three bytes, as [getFFT]'s callers read them. *)
Definition fft_ok (l : list Z) : Prop := length l = 3 /\ Forall (fun z => 0 <= z <= 255)%Z l.

Lemma handle_keeps_fft (now : Z) (ev : Event) (w w' : World) :
  handle now ev w = Some w' -> (forall vals, ev <> EvAudioProcess vals) -> w_fft w' = w_fft w.
Proof. apply handle_keeps; intros; try reflexivity; page_keeps. Qed.

Lemma fft_ok_sample (values : list Z) :
  fft_ok (map (fun i => byte_clip (nth i values 0%Z)) [4; 194; 202]%nat).
Proof. split; [reflexivity|]. repeat constructor; apply byte_clip_range. Qed.

(** ** The page's properties *)

(** (C1) Refinement of the spec's state machine: on every run of the
    page from [main.js], whatever the events and their times, the
    successive values of [Application._state] form a run of
    [spec_step] from the state [initialize] enters. [_state] moves only
    from LoadingState to PlayState, on a successful decode, and from
    PlayState to LoadSceneState, on a click; nothing ever goes back.
    (The page without [#debug].) *)
Theorem run_events_refines (env : Env) (evs : list (Z * Event)) (w : World) :
  de_on (env_debug env) = false ->
  run_events evs (boot env) = Some w -> spec_run (boot_state env) (map snd evs) (w_state w).
Proof.
  intros Hd H. rewrite <- (boot_state_eq env Hd). exact (proj2 (run_events_spec evs _ _ (reach_boot env Hd) H)).
Qed.

Lemma run_events_refines_witness :
  exists w, run_events demo_events (boot demo_env) = Some w /\
            w_state w = Some LoadSceneState /\
            spec_run (Some LoadingState) (map snd demo_events) (Some LoadSceneState).
Proof.
  destruct (run_events demo_events (boot demo_env)) as [w|] eqn:E; [|discriminate].
  assert (Hs : w_state w = Some LoadSceneState).
  { apply (run_events_field w_state _ _ _ _ E). vm_compute. reflexivity. }
  exists w. split; [reflexivity|split; [exact Hs|]].
  rewrite <- Hs. exact (run_events_refines demo_env demo_events w eq_refl E).
Defined.

(** (C2) The two-of-two barrier of LoadSceneState: on every reachable
    page, [_nbLoadedResources] is at most 2, the source node has been
    started exactly when it is 2, and a started node holds the decoded
    buffer and belongs to LoadSceneState. [playAudio] thus runs once,
    after both the texture and the shells are loaded, and never throws. *)
Theorem reachable_barrier (w : World) :
  reachable w ->
  w_nbLoaded w <= 2 /\
  (sn_started (w_source w) = true <-> w_nbLoaded w = 2) /\
  (sn_started (w_source w) = true ->
   is_Some (sn_buffer (w_source w)) /\ w_state w = Some LoadSceneState).
Proof.
  intros Hr. pose proof (reachable_inv w Hr) as H. inv_cases H;
    repeat split; intros; try congruence; try lia; auto.
Qed.

Lemma reachable_barrier_witness :
  exists w, run_events demo_events (boot demo_env) = Some w /\ reachable w /\
            w_nbLoaded w = 2 /\ sn_started (w_source w) = true.
Proof.
  destruct (run_events demo_events (boot demo_env)) as [w|] eqn:E; [|discriminate].
  pose proof (proj1 (run_events_spec _ _ _ (reach_boot demo_env eq_refl) E)) as Hr.
  assert (Hnb : w_nbLoaded w = 2).
  { apply (run_events_field w_nbLoaded _ _ _ _ E). vm_compute. reflexivity. }
  exists w. split; [reflexivity|split; [exact Hr|split; [exact Hnb|]]].
  apply (reachable_barrier w Hr). exact Hnb.
Defined.

(** (C3) One animation loop: on every reachable page, exactly one
    [requestAnimationFrame(_animate)] is pending once both resources are
    loaded, and none before. [_animate] re-arms the one frame it runs
    in, so the loop never doubles. *)
Theorem reachable_one_frame (w : World) :
  reachable w ->
  length (List.filter is_frame (w_tasks w)) = if decide (w_nbLoaded w = 2) then 1 else 0.
Proof.
  intros Hr. pose proof (reachable_inv w Hr) as H. inv_cases H;
    repeat match goal with Hn : w_nbLoaded w = _ |- _ => rewrite Hn end;
    rewrite ?filter_frame_loading by assumption; reflexivity.
Qed.

Lemma reachable_one_frame_witness :
  exists w, run_events demo_events (boot demo_env) = Some w /\ reachable w /\
            length (List.filter is_frame (w_tasks w)) = 1.
Proof.
  destruct (run_events demo_events (boot demo_env)) as [w|] eqn:E; [|discriminate].
  pose proof (proj1 (run_events_spec _ _ _ (reach_boot demo_env eq_refl) E)) as Hr.
  assert (Hnb : w_nbLoaded w = 2).
  { apply (run_events_field w_nbLoaded _ _ _ _ E). vm_compute. reflexivity. }
  exists w. split; [reflexivity|split; [exact Hr|]].
  rewrite (reachable_one_frame w Hr), Hnb. reflexivity.
Defined.

(** A page with nothing pending and no launch listener ignores every
    event. *)
Lemma idle_handle (now : Z) (ev : Event) (w w' : World) :
  quiet w -> w_launch_listeners w = 0 -> w_tasks w = [] ->
  handle now ev w = Some w' -> summary w' = summary w.
Proof.
  intros Hq Hli Ht Hh.
  quiet_cases; unfold handle, complete in Hh; cbn [w_tasks set_clock with_env] in Hh;
    rewrite ?Ht in Hh; try discriminate; injection Hh as <-.
  - cbn. rewrite Hli. reflexivity.
  - destruct (processor_installed _); [rewrite summary_run_callback, summary_onaudioprocess|]; reflexivity.
  - destruct (w_scene_listeners _); [rewrite summary_run_callback, summary_onPointerMove|]; reflexivity.
  - destruct (w_scene_listeners _); [rewrite summary_run_callback, summary_onPointerMove|]; reflexivity.
  - destruct (w_scene_listeners _); [rewrite summary_run_callback, summary_onWindowResize|]; reflexivity.
  - rewrite click_keeps by reflexivity. reflexivity.
Qed.

Lemma idle_run (evs : list (Z * Event)) (w w' : World) :
  quiet w -> w_launch_listeners w = 0 -> w_tasks w = [] ->
  run_events evs w = Some w' -> summary w' = summary w.
Proof.
  revert w. induction evs as [|[now ev] evs IH]; cbn; intros w Hq Hli Ht Hrun.
  - injection Hrun as <-. reflexivity.
  - destruct (handle now ev w) as [w1|] eqn:Hh; [|discriminate]. cbn in Hrun.
    pose proof (idle_handle now ev w w1 Hq Hli Ht Hh) as Hsum.
    rewrite <- Hsum. apply IH; [exact (handle_quiet now ev w w1 Hq Hh)| | |exact Hrun];
      [change (w_launch_listeners w1) with (su_listeners (summary w1))
      |change (w_tasks w1) with (su_tasks (summary w1))];
      rewrite Hsum; assumption.
Qed.

(** An idle LoadingState page stays so: no listener, no playback. *)
Lemma loading_idle_forever (evs : list (Z * Event)) (w w' : World) :
  inv w -> quiet w -> w_state w = Some LoadingState -> w_tasks w = [] -> run_events evs w = Some w' ->
  w_state w' = Some LoadingState /\ w_launch_listeners w' = 0 /\ sn_started (w_source w') = false.
Proof.
  intros Hinv Hq Hs Ht Hrun. pose proof Hinv as H. unfold inv, inv_su, summary in H; cbn in H.
  rewrite Hs in H. destruct H as (_ & _ & _ & _ & Hli0 & _).
  pose proof (idle_run evs w w' Hq Hli0 Ht Hrun) as Hsum.
  pose proof Hinv as H. unfold inv, inv_su in H. rewrite <- Hsum in H. unfold summary in H; cbn in H.
  change (w_state w') with (su_state (summary w')) in H |- *. rewrite Hsum in H |- *.
  cbn in H |- *. rewrite Hs in H |- *. destruct H as (_ & _ & _ & Hst & Hli & _). auto.
Qed.

(** (C26) The decode failure path: when [decodeAudioData] fails,
    [_soundLoadError] only logs, nothing is pending any more, and the
    page stays in LoadingState whatever happens next: the launch
    button never appears and the audio never starts (spec 4.2, "remain
    in LoadingState indefinitely"). *)
Theorem decode_error_stuck (now : Z) (w w1 w2 : World) (evs : list (Z * Event)) :
  reachable w -> handle now EvDecodeErr w = Some w1 -> run_events evs w1 = Some w2 ->
  w_state w2 = Some LoadingState /\ w_launch_listeners w2 = 0 /\ sn_started (w_source w2) = false.
Proof.
  intros Hr Hh Hrun. pose proof (reachable_inv w Hr) as Hinv.
  pose proof (handle_quiet now EvDecodeErr w w1 (reachable_quiet w Hr) Hh) as Hq1. unfold handle in Hh.
  destruct (complete_inv _ _ w now w1 Hinv Hh) as (t & Hts & Hp & Hsum).
  assert (Hl : loading_task t = true) by (unfold loading_task; rewrite Hp, !orb_true_r; reflexivity).
  destruct (inv_loading_task w t Hinv Hts Hl) as (Hs & _).
  rewrite summary_soundLoadError, summary_complete in Hsum.
  apply (loading_idle_forever evs w1 w2); [exact (proj1 (handle_step now EvDecodeErr w w1 Hinv (reachable_quiet w Hr) Hh))
    | exact Hq1
    | change (w_state w1) with (su_state (summary w1)) | change (w_tasks w1) with (su_tasks (summary w1))
    | exact Hrun]; rewrite Hsum; cbn; assumption || reflexivity.
Qed.

Lemma decode_error_stuck_witness :
  reachable demo_loading_page /\ handle 30 EvDecodeErr demo_loading_page = Some demo_decode_failed /\
  run_events demo_idle_events demo_decode_failed = Some (demo_result (run_events demo_idle_events demo_decode_failed)) /\
  w_state (demo_result (run_events demo_idle_events demo_decode_failed)) = Some LoadingState.
Proof.
    assert (E : run_events demo_loading_events (boot demo_env) = Some demo_loading_page)
    by (vm_compute; reflexivity).
  pose proof (proj1 (run_events_spec _ _ _ (reach_boot demo_env eq_refl) E)) as Hr.
  assert (H1 : handle 30 EvDecodeErr demo_loading_page = Some demo_decode_failed) by (vm_compute; reflexivity).
  assert (H2 : run_events demo_idle_events demo_decode_failed = Some (demo_result (run_events demo_idle_events demo_decode_failed))) by (vm_compute; reflexivity).
  split; [exact Hr|split; [exact H1|split; [exact H2|]]].
  exact (proj1 (decode_error_stuck 30 _ _ _ _ Hr H1 H2)).
Defined.

(** (C27) The metadata failure path: when the SoundCloud request ends
    with a status other than 200, or with a body [JSON.parse] rejects,
    [ajaxGet] never loads the audio and the page stays in LoadingState
    forever: the spec's [NetworkFailure] "silently hangs". *)
Theorem meta_failure_stuck (now st : Z) (body : option TrackInfo) (w w1 w2 : World)
    (evs : list (Z * Event)) :
  reachable w -> handle now (EvMetaXhr 4 st body) w = Some w1 -> (st <> 200 \/ body = None)%Z ->
  run_events evs w1 = Some w2 ->
  w_state w2 = Some LoadingState /\ w_launch_listeners w2 = 0 /\ sn_started (w_source w2) = false.
Proof.
  intros Hr Hh Hfail Hrun. pose proof (reachable_inv w Hr) as Hinv.
  pose proof (proj1 (handle_step _ _ w w1 Hinv (reachable_quiet w Hr) Hh)) as Hinv1.
  pose proof (handle_quiet _ _ w w1 (reachable_quiet w Hr) Hh) as Hq1. unfold handle in Hh.
  destruct (take_task is_meta (w_tasks (set_clock now w))) as [rest|] eqn:Ht; [|discriminate].
  destruct (take_task_single _ _ _ (inv_tasks_le1 w Hinv) Ht) as (t & Hts & Hp & ->).
  assert (Hl : loading_task t = true) by (unfold loading_task; rewrite Hp; reflexivity).
  destruct (inv_loading_task w t Hinv Hts Hl) as (Hs & _).
  cbn in Hh. injection Hh as <-.
  assert (Hsum : summary (run_callback (if (st =? 200)%Z then loading_metadata body else ret tt)
                            (with_tasks (set_clock now w) [])) = su_with_tasks (summary w) []).
  { rewrite summary_run_callback. destruct Hfail as [Hst| ->].
    - rewrite (proj2 (Z.eqb_neq st 200) Hst). reflexivity.
    - destruct (st =? 200)%Z; [rewrite summary_loading_metadata|]; reflexivity. }
  apply (loading_idle_forever evs _ w2 Hinv1 Hq1); [change (w_state ?x) with (su_state (summary x))
    | change (w_tasks ?x) with (su_tasks (summary x)) | exact Hrun]; rewrite Hsum; cbn; assumption || reflexivity.
Qed.

Lemma meta_failure_stuck_witness :
  reachable (boot demo_env) /\ handle 10 (EvMetaXhr 4 404 None) (boot demo_env) = Some demo_meta_failed /\
  (404 <> 200 \/ @None TrackInfo = None)%Z /\
  run_events demo_idle_events demo_meta_failed = Some (demo_result (run_events demo_idle_events demo_meta_failed)) /\
  w_state (demo_result (run_events demo_idle_events demo_meta_failed)) = Some LoadingState.
Proof.
  pose proof (reach_boot demo_env eq_refl) as Hr.
  assert (H1 : handle 10 (EvMetaXhr 4 404 None) (boot demo_env) = Some demo_meta_failed) by (vm_compute; reflexivity).
  assert (Hf : (404 <> 200 \/ @None TrackInfo = None)%Z) by (left; discriminate).
  assert (H2 : run_events demo_idle_events demo_meta_failed = Some (demo_result (run_events demo_idle_events demo_meta_failed))) by (vm_compute; reflexivity).
  split; [exact Hr|split; [exact H1|split; [exact Hf|split; [exact H2|]]]].
  exact (proj1 (meta_failure_stuck 10 404 None _ _ _ _ Hr H1 Hf H2)).
Defined.

(** (C29) Spec section 7's GraphicsUnavailable: in a browser without
    WebGL the page never has a renderer ([_has_gl] stays false), never
    draws, and shows the notice once the scene is built. It never
    registers the resize, mousemove and touchmove listeners either, which
    the spec lists among the scene's entry actions (section 4.4). *)
Theorem graphics_unavailable (w : World) :
  reachable w -> env_webgl (w_env w) = false ->
  w_has_gl w = false /\ w_scene_listeners w = false /\ fs_draws (w_frame w) = 0 /\
  (w_state w = Some LoadSceneState -> w_info_notice w = true).
Proof.
  intros Hr Hw. pose proof (reachable_gfx w Hr) as H. unfold gfx in H.
  destruct (w_state w) as [[]|]; cbn in H; rewrite ?Hw in H; cbn in H; intuition congruence.
Qed.

Lemma graphics_unavailable_witness :
  reachable demo_nogl_page /\ env_webgl (w_env demo_nogl_page) = false /\
  w_state demo_nogl_page = Some LoadSceneState /\ w_info_notice demo_nogl_page = true.
Proof.
  assert (E : run_events demo_events (boot demo_env_nogl) = Some demo_nogl_page)
    by (vm_compute; reflexivity).
  pose proof (proj1 (run_events_spec _ _ _ (reach_boot demo_env_nogl eq_refl) E)) as Hr.
  assert (Hw : env_webgl (w_env demo_nogl_page) = false) by (vm_compute; reflexivity).
  assert (Hs : w_state demo_nogl_page = Some LoadSceneState) by (vm_compute; reflexivity).
  split; [exact Hr|split; [exact Hw|split; [exact Hs|]]].
  exact (proj2 (proj2 (proj2 (graphics_unavailable _ Hr Hw))) Hs).
Defined.

(** The headless animation of spec 4.4 step 7: without WebGL,
    once both resources are loaded an animation frame is always
    pending; it runs the whole frame step ([render] with [_has_gl]
    false, at the frame's [Date.now()] and the current [_FFT]), draws
    nothing, and re-arms exactly one frame. *)
Theorem headless_frame (now : Z) (w : World) :
  reachable w -> env_webgl (w_env w) = false -> w_nbLoaded w = 2 ->
  exists w', handle now EvAnimationFrame w = Some w' /\
    w_frame w' = render false now (w_fft w) (w_frame w) /\
    fs_draws (w_frame w') = 0 /\ w_tasks w' = [TAnimationFrame].
Proof.
  intros Hr Hw Hnb. pose proof (reachable_inv w Hr) as Hinv.
  pose proof (reachable_gfx w Hr) as Hg.
  destruct (inv_nb2 w Hinv Hnb) as [Hs Ht].
  rewrite Hs in Hg. unfold gfx in Hg; cbn in Hg. rewrite Hw in Hg.
  destruct Hg as (Hgl & _ & _ & Hd).
  set (w1 := with_tasks (set_clock now w) []).
  exists (run_callback animate w1).
  rewrite (run_callback_ok _ _ (proj1 (animate_effect w1))).
  destruct (animate_frame w1) as [Ef Et].
  split; [|split; [|split]].
  - unfold handle, complete. change (w_tasks (set_clock now w)) with (w_tasks w).
    rewrite Ht. reflexivity.
  - rewrite Ef. change (w_has_gl w1) with (w_has_gl w). rewrite Hgl. reflexivity.
  - rewrite Ef. change (w_has_gl w1) with (w_has_gl w). rewrite Hgl.
    exact (Hd eq_refl).
  - rewrite Et. reflexivity.
Qed.

Lemma headless_frame_witness :
  reachable demo_nogl_page /\ env_webgl (w_env demo_nogl_page) = false /\
  w_nbLoaded demo_nogl_page = 2 /\
  exists w', handle 100 EvAnimationFrame demo_nogl_page = Some w' /\ fs_draws (w_frame w') = 0.
Proof.
  assert (E : run_events demo_events (boot demo_env_nogl) = Some demo_nogl_page)
    by (vm_compute; reflexivity).
  pose proof (proj1 (run_events_spec _ _ _ (reach_boot demo_env_nogl eq_refl) E)) as Hr.
  assert (Hw : env_webgl (w_env demo_nogl_page) = false) by (vm_compute; reflexivity).
  assert (Hnb : w_nbLoaded demo_nogl_page = 2) by (vm_compute; reflexivity).
  split; [exact Hr|split; [exact Hw|split; [exact Hnb|]]].
  destruct (headless_frame 100 _ Hr Hw Hnb) as (w' & Hh & _ & Hd & _).
  exists w'. split; [exact Hh|exact Hd].
Defined.

(** (C4) The console of a reachable page: the only exceptions it ever
    reports as uncaught are the TypeError of a missing Web Audio API
    and the SyntaxError or TypeError of the metadata callback. Web
    Audio's InvalidStateError never escapes: the source node is started
    once and given one buffer. The WebGL failure never escapes either:
    [_initScene] catches it. *)
Theorem uncaught_exceptions (w : World) :
  reachable w -> forall e, In (LogUncaught e) (w_log w) -> e = TypeError \/ e = SyntaxError.
Proof.
  intros Hr e Hin. pose proof (reachable_log w Hr) as H. unfold log_ok in H.
  rewrite List.Forall_forall in H. specialize (H _ Hin).
  destruct e; cbn in H; try discriminate; auto.
Qed.

Lemma uncaught_exceptions_witness :
  reachable (boot demo_env_noaudio) /\ In (LogUncaught TypeError) (w_log (boot demo_env_noaudio)) /\
  ~ In (LogUncaught InvalidStateError) (w_log demo_page).
Proof.
  assert (E : run_events demo_events (boot demo_env) = Some demo_page) by (vm_compute; reflexivity).
  pose proof (proj1 (run_events_spec _ _ _ (reach_boot demo_env eq_refl) E)) as Hr.
  pose proof (reach_boot demo_env_noaudio eq_refl) as Hr0.
  assert (Hin : In (LogUncaught TypeError) (w_log (boot demo_env_noaudio))) by (vm_compute; left; reflexivity).
  split; [exact Hr0|split; [exact Hin|]].
  intros Hin'. destruct (uncaught_exceptions _ Hr _ Hin') as [H|H]; discriminate.
Defined.

(** (C28) Spec section 7's AudioContextUnavailable: without Web Audio,
    [new AudioContext()] throws a TypeError out of
    [Application.initialize], which the browser reports, and nothing
    after it runs. No state is ever entered, no request is made, no
    listener is registered, whatever events follow. *)
Theorem audio_context_fatal (env : Env) (evs : list (Z * Event)) (w : World) :
  de_on (env_debug env) = false -> env_webaudio env = false -> run_events evs (boot env) = Some w ->
  w_log (boot env) = [LogUncaught TypeError] /\
  w_state w = None /\ w_audio_graph w = false /\ w_launch_listeners w = 0 /\ w_tasks w = [].
Proof.
  intros Hd Ha Hrun.
  assert (Hb : summary (boot env) = mk_summary None 0 (mk_source None false false) 0 [] 0 false
                                                 (env_touch env))
    by (rewrite (boot_effect env Hd), Ha; reflexivity).
  assert (Hsum : summary w = summary (boot env)).
  { apply (idle_run evs _ w (boot_quiet env Hd)); [|change (w_tasks (boot env)) with (su_tasks (summary (boot env)))|exact Hrun];
      [change (w_launch_listeners (boot env)) with (su_listeners (summary (boot env)))|];
      rewrite Hb; reflexivity. }
  split; [destruct env as [t g a c [d r fc gc] wd ht nw]; cbn in Ha, Hd; subst a d; reflexivity|].
  change (w_state w) with (su_state (summary w)).
  change (w_audio_graph w) with (su_graph (summary w)).
  change (w_launch_listeners w) with (su_listeners (summary w)).
  change (w_tasks w) with (su_tasks (summary w)).
  rewrite Hsum, Hb. auto.
Qed.

Lemma audio_context_fatal_witness :
  env_webaudio demo_env_noaudio = false /\
  run_events demo_idle_events (boot demo_env_noaudio)
  = Some (demo_result (run_events demo_idle_events (boot demo_env_noaudio))) /\
  w_state (demo_result (run_events demo_idle_events (boot demo_env_noaudio))) = None.
Proof.
  assert (Ha : env_webaudio demo_env_noaudio = false) by reflexivity.
  assert (E : run_events demo_idle_events (boot demo_env_noaudio)
              = Some (demo_result (run_events demo_idle_events (boot demo_env_noaudio))))
    by (vm_compute; reflexivity).
  split; [exact Ha|split; [exact E|]].
  exact (proj1 (proj2 (audio_context_fatal demo_env_noaudio _ _ eq_refl Ha E))).
Defined.


(** Taking a task that is not a frame leaves the pending frames. *)
Lemma take_task_filter (p q : Task -> bool) (ts rest : list Task) :
  (forall t, p t = true -> q t = false) -> take_task p ts = Some rest ->
  List.filter q rest = List.filter q ts.
Proof.
  intros Hpq. revert rest. induction ts as [|t ts IH]; intros rest Ht; [discriminate|].
  cbn in Ht. destruct (p t) eqn:Ep.
  - injection Ht as <-. cbn. rewrite (Hpq t Ep). reflexivity.
  - destruct (take_task p ts) as [r|] eqn:Er; cbn in Ht; [|discriminate].
    injection Ht as <-. cbn. rewrite (IH r eq_refl). reflexivity.
Qed.

(** A debug session: #debug with both containers, dat.GUI loads, then
    "Play Sound" is pressed before the track is decoded; the visit goes
    on as [demo_events] until the click. *)
Definition debug_early_events : list (Z * Event) :=
  [(1, EvScript 1 ScriptLoad); (2, EvGuiPlaySound)]%Z ++ demo_loading_events ++
  [(30, EvDecodeOk 7%nat); (40, EvClickLaunch)]%Z.

Definition debug_early_page : World := demo_result (run_events debug_early_events (boot debug_env)).

(** (C5) "Play Sound" before the scene stalls it: on a page whose
    source node already started (the debug panel's "Play Sound" calls
    [playAudio] at any time), the callback of the second resource of
    LoadSceneState counts it, but [playAudio] throws InvalidStateError,
    which escapes, before [_animate()]: no animation frame is
    requested, and only [_animate] requests one. *)
Theorem texture_after_play_stalls (now : Z) (w w' : World) :
  w_audio_graph w = true -> sn_started (w_source w) = true -> w_nbLoaded w = 1 ->
  handle now EvTextureLoaded w = Some w' ->
  w_nbLoaded w' = 2 /\ List.filter is_frame (w_tasks w') = List.filter is_frame (w_tasks w) /\
  w_log w' = w_log w ++ [LogUncaught InvalidStateError].
Proof.
  intros Hg Hs Hn Hh. unfold handle, complete in Hh. cbv zeta in Hh.
  destruct (take_task is_texture (w_tasks (set_clock now w))) as [rest|] eqn:Ht; [|discriminate].
  injection Hh as <-.
  unfold run_callback, resourceLoadedCallback, bind, modify, get. cbn [fst snd w_nbLoaded with_nbLoaded].
  change (w_nbLoaded (with_tasks (set_clock now w) rest)) with (w_nbLoaded w). rewrite Hn.
  rewrite decide_True by reflexivity. cbv beta. rewrite playAudio_started by assumption.
  cbn. rewrite ?Hn. split; [reflexivity|split; [|reflexivity]].
  apply (take_task_filter is_texture is_frame _ _); [intros [] ?; easy|exact Ht].
Qed.

Lemma texture_after_play_stalls_witness :
  w_audio_graph debug_early_page = true /\ sn_started (w_source debug_early_page) = true /\
  w_nbLoaded debug_early_page = 1 /\
  handle 50 EvTextureLoaded debug_early_page = Some (demo_result (handle 50 EvTextureLoaded debug_early_page)) /\
  w_nbLoaded (demo_result (handle 50 EvTextureLoaded debug_early_page)) = 2 /\
  List.filter is_frame (w_tasks (demo_result (handle 50 EvTextureLoaded debug_early_page))) = [].
Proof.
  assert (Hg : w_audio_graph debug_early_page = true) by (vm_compute; reflexivity).
  assert (Hs : sn_started (w_source debug_early_page) = true) by (vm_compute; reflexivity).
  assert (Hn : w_nbLoaded debug_early_page = 1) by (vm_compute; reflexivity).
  assert (Hh : handle 50 EvTextureLoaded debug_early_page
               = Some (demo_result (handle 50 EvTextureLoaded debug_early_page))) by (vm_compute; reflexivity).
  destruct (texture_after_play_stalls 50 _ _ Hg Hs Hn Hh) as (H2 & Hf & _).
  split; [exact Hg|split; [exact Hs|split; [exact Hn|split; [exact Hh|split; [exact H2|]]]]].
  rewrite Hf. vm_compute. reflexivity.
Defined.

(** (C6) The type of [_FFT]: on every page reachable from [main.js],
    [_FFT] holds exactly three bytes, integers of [0, 255]: it starts as
    [[0, 0, 0]], only [onaudioprocess] writes it, and it writes three
    clipped analyser bytes. [getFFT]'s callers ([_render]'s gravity)
    read three values in this range. *)
Theorem reachable_fft (w : World) : reachable w -> fft_ok (w_fft w).
Proof.
  induction 1 as [env Hd|w now ev w' Hr IH Hh].
  - unfold boot. rewrite (run_callback_keeps w_fft (fun _ _ => eq_refl)) by page_keeps.
    split; [reflexivity|]. repeat constructor; lia.
  - destruct ev; try (rewrite (handle_keeps_fft _ _ _ _ Hh) by discriminate; exact IH).
    unfold handle in Hh. injection Hh as <-. destruct (processor_installed _) eqn:P; [|exact IH].
    apply andb_prop in P as [_ P].
    unfold run_callback. rewrite (onaudioprocess_fft_eq _ _ P). apply fft_ok_sample.
Qed.

Lemma reachable_fft_witness : fft_ok (w_fft (boot demo_env)).
Proof. exact (reachable_fft _ (reach_boot demo_env eq_refl)). Defined.

End App.
